(** * Banking simulator: a shallow embedding and its verified properties

    The development follows the Python sources of the simulator:

    - [engine.py]      : [SimulationClock], the fraud-pattern setup and the
                         transaction submission pipeline;
    - [metrics.py]     : the counters, time series and rate aggregations of
                         [MetricsCollector];
    - [reporter.py]    : the fraud figures, the performance figures and the
                         recommendations of the report;
    - [scenarios.py]   : the table of built-in scenarios and its loader;
    - [connectors/]    : the retry loop of the HTTP connectors and the
                         in-memory mocks (core banking, fraud scoring,
                         message broker) behind their public methods;
    - [generators/]    : the fraud attack, network and transaction
                         generators, the credit score of a customer and the
                         life-event overlay.

    Conventions of the embedding.

    - A [datetime] is a number of microseconds since the epoch and a
      [timedelta] a number of microseconds, both in [Z].
    - A Python [float] is idealised as an exact rational ([Q]); comparisons of
      rationals are made with the boolean tests [Qleb] and [Qltb].  The product
      [timedelta * float] is the one place where CPython itself computes with
      the exact ratio of the float, and it is modelled as such.  Where a
      float is truncated to an integer (the number of targets of a fraud
      pattern) the rounding of the float product decides the result, and
      the product is the binary64 one ([PyFloat]).
    - Calls to [datetime.now()] take the instant read as an explicit argument.
    - The module [random] is a stream of unit draws consumed one per call.
    - A raised exception is a value of the type [exn]; code that can raise
      returns a [result]. *)

From Stdlib Require Import ZArith QArith Qround Qpower Lia Lqa Bool Ascii.
From stdpp Require Import base gmap strings pretty list fin_maps.

Local Open Scope Z_scope.

(* ===================================================================== *)
(** * Part I: the model                                                   *)
(* ===================================================================== *)

(** ** Python numerics *)

Module PyNum.

(** Boolean comparisons of rationals. *)
Definition Qleb (a b : Q) : bool := Qle_bool a b.
Definition Qltb (a b : Q) : bool := negb (Qle_bool b a).

(** CPython's [_divide_and_round]: the quotient [a / b] rounded to the nearest
    integer, ties going to the even one.  [Z.div] and [Z.modulo] are the floor
    division and remainder of Python's [divmod]. *)
Definition divide_and_round (a b : Z) : Z :=
  let q := (a / b)%Z in
  let r := (2 * (a mod b))%Z in
  let greater_than_half := if (0 <? b)%Z then (b <? r)%Z else (r <? b)%Z in
  if greater_than_half || ((r =? b)%Z && (q mod 2 =? 1)%Z)
  then (q + 1)%Z else q.

(** [round(x)]: nearest integer, ties to even. *)
Definition round_half_even (x : Q) : Z :=
  divide_and_round (Qnum x) (Zpos (Qden x)).

(** [round(x, ndigits)] for a non-negative number of digits. *)
Definition round_ndigits (x : Q) (ndigits : nat) : Q :=
  let scale := Pos.pow 10 (Pos.of_nat ndigits) in
  match ndigits with
  | O => inject_Z (round_half_even x)
  | S _ => Qmake (round_half_even (x * inject_Z (Zpos scale))) scale
  end.

(** [round(x, 2)] and [round(x, 3)]. *)
Definition round2 (x : Q) : Q := round_ndigits x 2.
Definition round3 (x : Q) : Q := round_ndigits x 3.

(** [int(x)]: truncation towards zero. *)
Definition int_of (x : Q) : Z := Z.quot (Qnum x) (Zpos (Qden x)).

(** [math.ceil(x)]. *)
Definition ceil (x : Q) : Z := Qceiling x.

(** [min] and [max] on floats, as Python evaluates them: [min(a, b)] is [b]
    when [b < a] and [a] otherwise; [max(a, b)] is [b] when [b > a]. *)
Definition fmin (a b : Q) : Q := if Qltb b a then b else a.
Definition fmax (a b : Q) : Q := if Qltb a b then b else a.

End PyNum.

(** ** Binary64 arithmetic

    The value of a Python [float] is a rational; [round_binary64] gives the
    float nearest to a rational, as IEEE 754 rounds the exact result of an
    operation: to 53 significant bits, the exponent of the last bit not
    below -1074, ties going to the even significand.  Results of magnitude
    [2 ** 1024] and more, which are infinite in Python, are not reached by
    the modelled computations. *)

Module PyFloat.
Import PyNum.

(** [floor(log2(x))] for a positive rational: the difference of the bit
    lengths of numerator and denominator, or one less. *)
Definition floor_log2 (x : Q) : Z :=
  let d := Z.log2 (Qnum x) - Z.log2 (Zpos (Qden x)) in
  if Qle_bool (2 ^ d) x then d else d - 1.

(** The float nearest to a positive rational: [e] is the exponent of the
    last bit of the significand. *)
Definition round_positive (x : Q) : Q :=
  let e := Z.max (floor_log2 x - 52) (-1074) in
  (inject_Z (round_half_even (x / 2 ^ e)) * 2 ^ e)%Q.

Definition round_binary64 (x : Q) : Q :=
  if Qeq_bool x 0 then 0%Q
  else if Qle_bool 0 x then round_positive x
  else (- round_positive (- x))%Q.

(** [float(n)] for an integer. *)
Definition float_of_int (n : Z) : Q := round_binary64 (inject_Z n).

(** [a * b] on floats. *)
Definition float_mul (a b : Q) : Q := round_binary64 (a * b).

End PyFloat.

(** ** Dates and durations *)

Module PyTime.

Definition datetime := Z.
Definition timedelta := Z.

Definition microseconds_per_second : Z := 1000000.

Definition seconds (n : Z) : timedelta := (n * microseconds_per_second)%Z.
Definition minutes (n : Z) : timedelta := (n * 60 * microseconds_per_second)%Z.
Definition hours (n : Z) : timedelta := (n * 3600 * microseconds_per_second)%Z.
Definition days (n : Z) : timedelta := (n * 86400 * microseconds_per_second)%Z.

(** [timedelta * float]: CPython multiplies the microseconds by the exact
    integer ratio of the float and rounds the quotient half to even. *)
Definition timedelta_mul_float (d : timedelta) (f : Q) : timedelta :=
  PyNum.divide_and_round (d * Qnum f) (Zpos (Qden f)).

(** [timedelta.total_seconds()]. *)
Definition total_seconds (d : timedelta) : Q := Qmake d 1000000.

End PyTime.

(** ** engine.py: the simulation clock *)

Module Clock.
Import PyTime.

Record SimulationClock := mkClock {
  speed_multiplier : Q;
  real_start_time : datetime;
  sim_start_time : datetime;
  paused : bool;
  pause_duration : timedelta;
  pause_start : option datetime
}.

(** [SimulationClock.__init__]; both start times read the wall clock. *)
Definition init (speed : Q) (now1 now2 : datetime) : SimulationClock :=
  {| speed_multiplier := speed;
     real_start_time := now1;
     sim_start_time := now2;
     paused := false;
     pause_duration := 0;
     pause_start := None |}.

Definition get_current_sim_time (c : SimulationClock) (now : datetime) : datetime :=
  if paused c then sim_start_time c
  else
    let real_elapsed := (now - real_start_time c - pause_duration c)%Z in
    let sim_elapsed := timedelta_mul_float real_elapsed (speed_multiplier c) in
    (sim_start_time c + sim_elapsed)%Z.

Definition pause (c : SimulationClock) (now : datetime) : SimulationClock :=
  if negb (paused c)
  then {| speed_multiplier := speed_multiplier c;
          real_start_time := real_start_time c;
          sim_start_time := sim_start_time c;
          paused := true;
          pause_duration := pause_duration c;
          pause_start := Some now |}
  else c.

(** A [datetime] is always truthy, so [self.paused and self.pause_start]
    holds exactly when the flag is set and a pause start is recorded. *)
Definition resume (c : SimulationClock) (now : datetime) : SimulationClock :=
  match paused c, pause_start c with
  | true, Some started =>
      {| speed_multiplier := speed_multiplier c;
         real_start_time := real_start_time c;
         sim_start_time := sim_start_time c;
         paused := false;
         pause_duration := (pause_duration c + (now - started))%Z;
         pause_start := None |}
  | _, _ => c
  end.

(** [set_speed] reads the wall clock twice: once inside
    [get_current_sim_time] ([now1]) and once for the new real anchor
    ([now2]). *)
Definition set_speed (c : SimulationClock) (multiplier : Q)
    (now1 now2 : datetime) : SimulationClock :=
  let current_sim := get_current_sim_time c now1 in
  {| speed_multiplier := multiplier;
     real_start_time := (now2 - pause_duration c)%Z;
     sim_start_time := current_sim;
     paused := paused c;
     pause_duration := pause_duration c;
     pause_start := pause_start c |}.

(** [sleep_for_sim_time]; the float division raises [ZeroDivisionError] on a
    zero multiplier. *)
Definition sleep_for_sim_time (c : SimulationClock) (sim_duration : timedelta)
    : option Q :=
  if Qeq_bool (speed_multiplier c) 0 then None
  else Some (total_seconds sim_duration / speed_multiplier c)%Q.

(** A run of speed changes: each call carries its multiplier and the two
    instants it reads. *)
Definition speed_call : Type := Q * datetime * datetime.

Definition apply_speed_call (c : SimulationClock) (k : speed_call) : SimulationClock :=
  let '(m, now1, now2) := k in set_speed c m now1 now2.

Definition apply_speed_calls (c : SimulationClock) (ks : list speed_call)
    : SimulationClock :=
  fold_left apply_speed_call ks c.

End Clock.

(** ** Python values, exceptions and the error monad *)

Module Py.

(** The exceptions the modelled code can raise.  The two connectors declare
    their own classes; [system] tells them apart.  [JSONDecodeError] is the
    [ValueError] of the module [json], with the text that failed to
    decode. *)
Inductive system := Nexum | Bastion.

Inductive exn :=
| KeyError (key : string)
| IndexError
| ValueError (message : string)
| TypeError (message : string)
| ZeroDivisionError
| JSONDecodeError (document : string)
| APIError (who : system) (status_code : Z) (message : string)
| ConnectionError (who : system) (message : string).

Inductive result (A : Type) :=
| Ok (a : A)
| Raise (e : exn).
Arguments Ok {A} a.
Arguments Raise {A} e.

(** Values stored in the free-form [metadata] dictionaries. *)
#[warnings="-register-all"] Inductive pyvalue :=
| VNone
| VBool (b : bool)
| VInt (n : Z)
| VFloat (x : Q)
| VStr (s : string)
| VDict (items : list (string * pyvalue)).

(** Truth value of an object, as [if] and [and] test it. *)
Definition truthy (v : pyvalue) : bool :=
  match v with
  | VNone => false
  | VBool b => b
  | VInt n => negb (n =? 0)
  | VFloat x => negb (Qeq_bool x 0)
  | VStr s => negb (String.eqb s "")
  | VDict items => match items with [] => false | _ => true end
  end.

(** [str.upper()] on ASCII letters. *)
Definition upper_ascii (ch : ascii) : ascii :=
  let n := nat_of_ascii ch in
  if (Nat.leb 97 n && Nat.leb n 122)%bool then ascii_of_nat (n - 32) else ch.

Fixpoint upper (s : string) : string :=
  match s with
  | EmptyString => EmptyString
  | String ch rest => String (upper_ascii ch) (upper rest)
  end.

(** [str.lower()] on ASCII letters. *)
Definition lower_ascii (ch : ascii) : ascii :=
  let n := nat_of_ascii ch in
  if (Nat.leb 65 n && Nat.leb n 90)%bool then ascii_of_nat (n + 32) else ch.

Fixpoint lower (s : string) : string :=
  match s with
  | EmptyString => EmptyString
  | String ch rest => String (lower_ascii ch) (lower rest)
  end.

(** [x in [...]] on strings. *)
Definition str_in (s : string) (l : list string) : bool :=
  existsb (String.eqb s) l.

End Py.

(** ** The module [random]

    The generator is a cursor into a sequence of rationals; the unit draw of
    a call is the fractional part of the element under the cursor, so that
    every sequence is a legal source of draws in [0, 1).  Each library call
    made by the simulator consumes exactly one draw. *)

Module Random.
Import Py.

Record rng := mkRng { draws : nat -> Q; cursor : nat }.

Definition advance (g : rng) : rng :=
  {| draws := draws g; cursor := S (cursor g) |}.

(** The unit draw under the cursor. *)
Definition peek (g : rng) : Q :=
  let x := draws g (cursor g) in (x - inject_Z (Qfloor x))%Q.

(** Computations that draw random numbers and may raise. *)
Definition gen (A : Type) : Type := rng -> result A * rng.

Definition ret {A} (a : A) : gen A := fun g => (Ok a, g).
Definition raise {A} (e : exn) : gen A := fun g => (Raise e, g).
Definition bind {A B} (m : gen A) (k : A -> gen B) : gen B :=
  fun g => match m g with
           | (Ok a, g') => k a g'
           | (Raise e, g') => (Raise e, g')
           end.

(** [random.random()]. *)
Definition random : gen Q := fun g => (Ok (peek g), advance g).

(** [random.uniform(a, b)] is [a + (b - a) * random()]. *)
Definition uniform (a b : Q) : gen Q :=
  bind random (fun u => ret (a + (b - a) * u)%Q).

(** [_randbelow(n)], an integer in [0, n). *)
Definition randbelow (n : Z) : gen Z :=
  bind random (fun u => ret (Qfloor (u * inject_Z n))).

(** [random.randint(a, b)], both ends included; an empty range raises. *)
Definition randint (a b : Z) : gen Z :=
  if b <? a then raise (ValueError "empty range for randrange()")
  else bind (randbelow (b - a + 1)) (fun j => ret (a + j)).

(** [random.choice(seq)]; an empty sequence raises [IndexError]. *)
Definition choice {A} (l : list A) : gen A :=
  match l with
  | [] => raise IndexError
  | x :: _ =>
      bind (randbelow (Z.of_nat (length l)))
           (fun j => ret (nth (Z.to_nat j) l x))
  end.

(** [random.sample(population, k)], selection from a pool: the element drawn
    at step [i] is replaced in the pool by the last live element.  CPython
    switches to a set of already chosen indices when the population is large
    compared with [k]; both branches return elements at pairwise distinct
    positions, and the pool branch is the one modelled for every size. *)
Fixpoint sample_pool {A} (pool : list A) (live k : nat) : gen (list A) :=
  match k with
  | O => ret []
  | S k' =>
      bind (randbelow (Z.of_nat live)) (fun j =>
        let j := Z.to_nat j in
        match pool !! j, pool !! (live - 1)%nat with
        | Some x, Some y =>
            bind (sample_pool (<[j := y]> pool) (live - 1) k')
                 (fun rest => ret (x :: rest))
        | _, _ => raise IndexError
        end)
  end.

Definition sample {A} (population : list A) (k : Z) : gen (list A) :=
  if (0 <=? k) && (k <=? Z.of_nat (length population))
  then sample_pool population (length population) (Z.to_nat k)
  else raise (ValueError "Sample larger than population or is negative").

End Random.

Declare Scope gen_scope.
Delimit Scope gen_scope with gen.
Notation "'let*' x ':=' m 'in' k" := (Random.bind m (fun x => k))
  (at level 10, x name, m at level 100, k at level 200) : gen_scope.
Notation "'do*' m 'in' k" := (Random.bind m (fun _ => k))
  (at level 10, m at level 100, k at level 200) : gen_scope.

(** ** metrics.py: counters of the collector *)

Module Metrics.
Import PyTime.

(** A point of a time series: its timestamp and value. *)
Definition point : Type := datetime * Z.

(** [MetricsCollector]: the enable flag, the counters (a [defaultdict(int)])
    and, per counter, the series of recorded increments (a [deque] holding at
    most 1000 points). *)
Record MetricsCollector := mkCollector {
  enabled : bool;
  counters : gmap string Z;
  time_series : gmap string (list point)
}.

Definition counter (c : MetricsCollector) (name : string) : Z :=
  default 0 (counters c !! name).

(** [deque(maxlen=1000).append]: a full deque drops its oldest point. *)
Definition add_point (series : list point) (p : point) : list point :=
  if (1000 <=? length series)%nat then tail series ++ [p] else series ++ [p].

Definition record_counter (c : MetricsCollector) (name : string) (value : Z)
    (now : datetime) : MetricsCollector :=
  if negb (enabled c) then c
  else
    let rate := (name +:+ "_rate")%string in
    {| enabled := enabled c;
       counters := <[name := counter c name + value]> (counters c);
       time_series :=
         <[rate := add_point (default [] (time_series c !! rate)) (now, value)]>
           (time_series c) |}.

Definition record_fraud_decision (c : MetricsCollector)
    (predicted_fraud actual_fraud : bool) (now : datetime) : MetricsCollector :=
  if predicted_fraud && actual_fraud then
    record_counter c "true_positives" 1 now
  else if predicted_fraud && negb actual_fraud then
    record_counter c "false_positives" 1 now
  else if negb predicted_fraud && actual_fraud then
    record_counter c "false_negatives" 1 now
  else
    record_counter c "true_negatives" 1 now.

End Metrics.

(** ** engine.py: the accuracy step of the submission pipeline *)

Module Pipeline.
Import Py PyTime Metrics.

(** [fraud_score_result.get("action", "APPROVE").upper()]. *)
Definition decision_of (action : option string) : string :=
  upper (default "APPROVE"%string action).

(** [decision in ["REVIEW", "DECLINE"]]. *)
Definition predicted_fraud_of (decision : string) : bool :=
  str_in decision ["REVIEW"; "DECLINE"]%string.

(** [transaction.metadata.get("is_fraud", False)], as a truth value. *)
Definition actual_fraud_of (metadata : gmap string pyvalue) : bool :=
  truthy (default (VBool false) (metadata !! "is_fraud"%string)).

(** The accuracy step of [_process_single_transaction]. *)
Definition record_accuracy (c : MetricsCollector) (action : option string)
    (metadata : gmap string pyvalue) (now : datetime) : MetricsCollector :=
  let decision := decision_of action in
  let predicted_fraud := predicted_fraud_of decision in
  let actual_fraud := actual_fraud_of metadata in
  record_fraud_decision c predicted_fraud actual_fraud now.

End Pipeline.

(** What it means for a step to increment one counter by one and leave every
    other counter as it was. *)
Module MetricsSpec.
Import Metrics.


End MetricsSpec.

(** ** connectors: the request loop shared by the two HTTP connectors

    [NexumConnector._make_request] and [BastionConnector._make_request] are
    the same code up to the exception classes they raise; [who] selects the
    classes.  The transport is scripted: the answer to the [n]-th request the
    connector hands to its HTTP client.  Latency accounting and the
    timestamps of the error log read the wall clock only and are left out. *)

Module Http.
Import Py.

(** The body of a response: a JSON object with or without a ["detail"]
    entry, or text that is not JSON. *)
Inductive body :=
| JsonObject (detail : option string)
| NotJson (text : string).

Inductive outcome :=
| Response (status_code : Z) (content : body)
| TimeoutException
| ConnectError.

Definition transport : Type := nat -> outcome.

(** An entry of [stats["errors"]]. *)
Inductive error_entry :=
| StatusError (endpoint : string) (status_code : Z) (content : body)
| TimeoutError (endpoint : string)
| ConnectionFailure (endpoint : string).

Record connector := mkConnector {
  who : system;
  base_url : string;
  max_retries : Z;
  requests_sent : Z;
  requests_successful : Z;
  requests_failed : Z;
  errors : list error_entry;
  (** requests handed to the HTTP client so far *)
  calls : nat;
  (** arguments of [asyncio.sleep], in seconds, oldest first *)
  slept : list Z
}.

Definition system_name (s : system) : string :=
  match s with Nexum => "Nexum" | Bastion => "Bastion" end.

(** [error_detail.get("detail", fallback)], where [error_detail] is the
    decoded body or [{"detail": response.text}] when decoding fails. *)
Definition detail_or (content : body) (fallback : string) : string :=
  match content with
  | JsonObject detail => default fallback detail
  | NotJson text => text
  end.

(** [response.json()]: the decoded body; text that is not JSON raises.  On
    a 200 or 201 the call is made after the request has been counted as
    successful, and neither [except] clause of the loop catches the
    error. *)
Definition response_json (content : body) : result body :=
  match content with
  | JsonObject _ => Ok content
  | NotJson text => Raise (JSONDecodeError text)
  end.

Definition sent (c : connector) : connector :=
  {| who := who c; base_url := base_url c; max_retries := max_retries c;
     requests_sent := requests_sent c + 1;
     requests_successful := requests_successful c;
     requests_failed := requests_failed c;
     errors := errors c; calls := calls c; slept := slept c |}.

Definition called (c : connector) : connector :=
  {| who := who c; base_url := base_url c; max_retries := max_retries c;
     requests_sent := requests_sent c;
     requests_successful := requests_successful c;
     requests_failed := requests_failed c;
     errors := errors c; calls := S (calls c); slept := slept c |}.

Definition succeeded (c : connector) : connector :=
  {| who := who c; base_url := base_url c; max_retries := max_retries c;
     requests_sent := requests_sent c;
     requests_successful := requests_successful c + 1;
     requests_failed := requests_failed c;
     errors := errors c; calls := calls c; slept := slept c |}.

Definition failed (c : connector) (logged : list error_entry) : connector :=
  {| who := who c; base_url := base_url c; max_retries := max_retries c;
     requests_sent := requests_sent c;
     requests_successful := requests_successful c;
     requests_failed := requests_failed c + 1;
     errors := errors c ++ logged; calls := calls c; slept := slept c |}.

Definition sleep (c : connector) (secs : Z) : connector :=
  {| who := who c; base_url := base_url c; max_retries := max_retries c;
     requests_sent := requests_sent c;
     requests_successful := requests_successful c;
     requests_failed := requests_failed c;
     errors := errors c; calls := calls c; slept := slept c ++ [secs] |}.

(** The body of [for attempt in range(self.max_retries + 1)], run over the
    attempts still to make. *)
Fixpoint attempt_loop (t : transport) (endpoint : string)
    (attempts : list nat) (c : connector) : result body * connector :=
  match attempts with
  | [] => (Raise (ConnectionError (who c) "Max retries exceeded"), c)
  | attempt :: rest =>
      let url := (base_url c +:+ endpoint)%string in
      let last := Z.of_nat attempt =? max_retries c in
      let c1 := called c in
      match t (calls c) with
      | Response status_code content =>
          if (status_code =? 200) || (status_code =? 201) then
            (response_json content, succeeded c1)
          else if 400 <=? status_code then
            if last then
              (Raise (APIError (who c) status_code
                        (detail_or content "Unknown error")),
               failed c1 [StatusError endpoint status_code content])
            else if 500 <=? status_code then
              attempt_loop t endpoint rest (sleep c1 (2 ^ Z.of_nat attempt))
            else
              (Raise (APIError (who c) status_code
                        (detail_or content "Client error")),
               failed c1 [])
          else attempt_loop t endpoint rest c1
      | TimeoutException =>
          if last then
            (Raise (ConnectionError (who c)
                      ("Timeout connecting to " +:+ system_name (who c)
                       +:+ " at " +:+ url)),
             failed c1 [TimeoutError endpoint])
          else attempt_loop t endpoint rest (sleep c1 (2 ^ Z.of_nat attempt))
      | ConnectError =>
          if last then
            (Raise (ConnectionError (who c)
                      ("Cannot connect to " +:+ system_name (who c)
                       +:+ " at " +:+ url)),
             failed c1 [ConnectionFailure endpoint])
          else attempt_loop t endpoint rest (sleep c1 (2 ^ Z.of_nat attempt))
      end
  end.

(** [_make_request]. *)
Definition make_request (t : transport) (endpoint : string) (c : connector)
    : result body * connector :=
  attempt_loop t endpoint (seq 0 (Z.to_nat (max_retries c + 1))) (sent c).

End Http.

(** ** connectors/bastion.py: the mock fraud scorer *)

Module BastionMock.
Import Py PyNum PyTime Random.
Local Open Scope gen_scope.

(** The request of [/score].  [transaction_id] and [amount] are read with
    [data[...]]; the other entries with [data.get(..., default)]. *)
Record score_request := mkScoreRequest {
  transaction_id : string;
  amount : Q;
  merchant_category : option string;
  channel : option string;
  country : option string;
  metadata : option (gmap string pyvalue)
}.

(** The scoring part of [self.stats]. *)
Record scorer_stats := mkScorerStats {
  transactions_scored : Z;
  decisions : gmap string Z;
  avg_risk_score : Q
}.

Record score_response := mkScoreResponse {
  r_transaction_id : string;
  r_risk_score : Q;
  r_action : string;
  r_rule_hits : list string;
  r_model_scores : Q * Q * Q;
  r_features : Q * string * string * string * Z;
  r_processing_time_ms : Q;
  r_model_version : string;
  r_timestamp : datetime
}.

Definition high_risk_countries : list string := ["RU"; "NG"; "RO"; "CN"]%string.

Definition is_str (v : pyvalue) (s : string) : bool :=
  match v with VStr s' => String.eqb s' s | _ => false end.

(** [metadata.get("is_fraud", False)] as a truth value. *)
Definition marked_fraud (md : gmap string pyvalue) : bool :=
  truthy (default (VBool false) (md !! "is_fraud"%string)).

(** The risk score and the triggered rules before the noise is added. *)
Definition rule_risk (data : score_request) (current_hour : Z) : Q * list string :=
  let chan := default "card"%string (channel data) in
  let ctry := default "US"%string (country data) in
  let md := default ∅ (metadata data) in
  let risk_score := (1 # 10)%Q in
  let triggered_rules : list string := [] in
  (* amount-based risk *)
  let '(risk_score, triggered_rules) :=
    if Qltb 10000 (amount data) then
      ((risk_score + (4 # 10))%Q, triggered_rules ++ ["large_amount"%string])
    else if Qltb (amount data) 1 then
      ((risk_score + (3 # 10))%Q, triggered_rules ++ ["micro_transaction"%string])
    else (risk_score, triggered_rules) in
  (* location-based risk *)
  let '(risk_score, triggered_rules) :=
    if str_in ctry high_risk_countries then
      ((risk_score + (5 # 10))%Q, triggered_rules ++ ["high_risk_country"%string])
    else (risk_score, triggered_rules) in
  (* time-based risk *)
  let '(risk_score, triggered_rules) :=
    if (current_hour <? 6) || (23 <? current_hour) then
      ((risk_score + (2 # 10))%Q, triggered_rules ++ ["unusual_hours"%string])
    else (risk_score, triggered_rules) in
  (* channel risk *)
  let '(risk_score, triggered_rules) :=
    if String.eqb chan "wire" then ((risk_score + (1 # 10))%Q, triggered_rules)
    else if String.eqb chan "atm" && (current_hour <? 6) then
      ((risk_score + (3 # 10))%Q, triggered_rules ++ ["night_atm"%string])
    else (risk_score, triggered_rules) in
  (* fraud metadata *)
  if marked_fraud md then
    let risk_score := fmax risk_score (8 # 10) in
    let fraud_type := default (VStr "unknown") (md !! "fraud_type"%string) in
    if is_str fraud_type "card_testing" then
      (fmin (risk_score + (2 # 10))%Q 1, triggered_rules)
    else if is_str fraud_type "velocity_attack" then
      (fmin (risk_score + (3 # 10))%Q 1, triggered_rules ++ ["velocity_fraud"%string])
    else if is_str fraud_type "layering" then
      (fmin (risk_score + (1 # 10))%Q 1, triggered_rules)
    else (risk_score, triggered_rules)
  else (risk_score, triggered_rules).

(** [max(0.0, min(1.0, risk_score))]. *)
Definition clamp_unit (risk_score : Q) : Q := fmax 0 (fmin 1 risk_score).

Definition decide_action (risk_score : Q) : string :=
  if Qleb (8 # 10) risk_score then "DECLINE"%string
  else if Qleb (5 # 10) risk_score then "REVIEW"%string
  else "APPROVE"%string.

(** The bounds of the noise added to the score. *)
Definition noise_range (md : gmap string pyvalue) : Q * Q :=
  if marked_fraud md then ((- (1 # 10))%Q, (2 # 10)%Q)
  else ((- (2 # 10))%Q, (2 # 10)%Q).

(** The clamped risk score of a request, given the generator it draws the
    noise from. *)
Definition clamped_risk (data : score_request) (current_hour : Z) (g : rng) : Q :=
  let md := default ∅ (metadata data) in
  let '(lo, hi) := noise_range md in
  let noise := (lo + (hi - lo) * peek g)%Q in
  clamp_unit ((rule_risk data current_hour).1 + noise)%Q.

Definition track (st : scorer_stats) (action : string) (risk_score : Q)
    : scorer_stats :=
  let count := transactions_scored st + 1 in
  let key := lower action in
  {| transactions_scored := count;
     decisions := <[key := default 0 (decisions st !! key) + 1]> (decisions st);
     avg_risk_score :=
       ((avg_risk_score st * inject_Z (count - 1) + risk_score)
        / inject_Z count)%Q |}.

Definition _mock_score_transaction (data : score_request)
    (current_hour : Z) (now : datetime) (st : scorer_stats)
    : gen (score_response * scorer_stats) :=
  let md := default ∅ (metadata data) in
  let '(risk_score, triggered_rules) := rule_risk data current_hour in
  let '(lo, hi) := noise_range md in
  let* noise := uniform lo hi in
  let risk_score := clamp_unit (risk_score + noise)%Q in
  let action := decide_action risk_score in
  let st' := track st action risk_score in
  let* amount_model := uniform (1 # 10) (8 # 10) in
  let* velocity_model := uniform 0 (6 # 10) in
  let* location_model := uniform (1 # 10) (5 # 10) in
  let* processing_time := uniform 10 100 in
  ret ({| r_transaction_id := transaction_id data;
          r_risk_score := round3 risk_score;
          r_action := action;
          r_rule_hits := triggered_rules;
          r_model_scores :=
            (round3 amount_model, round3 velocity_model, round3 location_model);
          r_features :=
            (amount data, default ""%string (merchant_category data),
             default "card"%string (channel data),
             default "US"%string (country data), current_hour);
          r_processing_time_ms := round2 processing_time;
          r_model_version := "mock_v1.0";
          r_timestamp := now |}, st').

End BastionMock.

(** ** String formatting *)

Module PyFormat.

Fixpoint zeros (k : nat) : string :=
  match k with
  | O => EmptyString
  | S k' => String "0"%char (zeros k')
  end.

(** Left padding with zeros up to [width] characters. *)
Definition zero_pad (width : nat) (s : string) : string :=
  (zeros (width - String.length s) +:+ s)%string.

(** [f"{n:06d}"]: at least six characters, the sign included. *)
Definition format_06d (n : Z) : string :=
  if n <? 0 then ("-" +:+ zero_pad 5 (pretty (- n)))%string
  else zero_pad 6 (pretty n).

(** Reading a string of decimal digits back (used to show that formatting
    loses nothing); any other character counts as the digit zero. *)
Definition digit_value (ch : ascii) : N :=
  match ch with
  | "1" => 1 | "2" => 2 | "3" => 3 | "4" => 4 | "5" => 5
  | "6" => 6 | "7" => 7 | "8" => 8 | "9" => 9 | _ => 0
  end%char%N.

Fixpoint parse_decimal_from (acc : N) (s : string) : N :=
  match s with
  | EmptyString => acc
  | String ch rest => parse_decimal_from (acc * 10 + digit_value ch)%N rest
  end.

Definition parse_decimal (s : string) : N := parse_decimal_from 0 s.

End PyFormat.

(** ** connectors/nexum.py: the mock core-banking connector *)

Module NexumMock.
Import Py PyNum PyTime PyFormat Random.
Local Open Scope gen_scope.

(** An entry of [self.accounts].  The two balances are kept by the mock as
    strings with two decimals; they are modelled by the number the string
    denotes. *)
Record account := mkAccount {
  id : string;
  account_number : string;
  customer_id : string;
  product_type : string;
  currency : string;
  name : string;
  state : string;
  book_balance : Q;
  available_balance : Q;
  created_at : datetime
}.

Record mock := mkMock {
  accounts : gmap string account;
  next_customer_id : Z;
  next_account_id : Z;
  next_transaction_id : Z
}.

(** [MockNexumConnector.__init__]. *)
Definition init : mock :=
  {| accounts := ∅; next_customer_id := 1;
     next_account_id := 1; next_transaction_id := 1 |}.

Record account_request := mkAccountRequest {
  a_customer_id : string;
  a_product_type : string;
  a_currency : string;
  a_name : string
}.

(** The body of a deposit or withdrawal request. *)
Record movement := mkMovement {
  m_account_id : string;
  m_amount : Q;
  m_description : string;
  m_channel : string;
  m_reference : option string
}.

Record movement_response := mkMovementResponse {
  transaction_id : string;
  r_state : string;
  message : string
}.

Definition with_balance (a : account) (new_balance : Q) : account :=
  {| id := id a; account_number := account_number a;
     customer_id := customer_id a; product_type := product_type a;
     currency := currency a; name := name a; state := state a;
     book_balance := round2 new_balance;
     available_balance := round2 new_balance;
     created_at := created_at a |}.

Definition _mock_create_account (data : account_request) (now : datetime)
    (m : mock) : gen (string * string * mock) :=
  let account_id := ("ACC_" +:+ format_06d (next_account_id m))%string in
  let* number := randint 100000000 999999999 in
  let account_number : string := pretty number in
  let acc := {| id := account_id; account_number := account_number;
                customer_id := a_customer_id data;
                product_type := a_product_type data;
                currency := a_currency data; name := a_name data;
                state := "active"; book_balance := 0; available_balance := 0;
                created_at := now |} in
  ret (account_id, account_number,
       {| accounts := <[account_id := acc]> (accounts m);
          next_customer_id := next_customer_id m;
          next_account_id := next_account_id m + 1;
          next_transaction_id := next_transaction_id m |}).

Definition _mock_get_account (account_id : string) (m : mock) : result account :=
  match accounts m !! account_id with
  | None => Raise (APIError Nexum 404 "Account not found")
  | Some a => Ok a
  end.

Definition _mock_deposit (data : movement) (m : mock) : movement_response * mock :=
  let transaction_id := ("TXN_" +:+ format_06d (next_transaction_id m))%string in
  let next := next_transaction_id m + 1 in
  let account_id := m_account_id data in
  let accounts' :=
    match accounts m !! account_id with
    | Some a =>
        let current_balance := book_balance a in
        let new_balance := (current_balance + m_amount data)%Q in
        <[account_id := with_balance a new_balance]> (accounts m)
    | None => accounts m
    end in
  ({| transaction_id := transaction_id;
      r_state := "processed";
      message := "Deposit processed successfully" |},
   {| accounts := accounts';
      next_customer_id := next_customer_id m;
      next_account_id := next_account_id m;
      next_transaction_id := next |}).

Definition _mock_withdraw (data : movement) (m : mock) : movement_response * mock :=
  let transaction_id := ("TXN_" +:+ format_06d (next_transaction_id m))%string in
  let next := next_transaction_id m + 1 in
  let account_id := m_account_id data in
  let '(accounts', state) :=
    match accounts m !! account_id with
    | Some a =>
        let current_balance := book_balance a in
        if Qleb (m_amount data) current_balance then
          let new_balance := (current_balance - m_amount data)%Q in
          (<[account_id := with_balance a new_balance]> (accounts m),
           "processed"%string)
        else (accounts m, "declined"%string)
    | None => (accounts m, "declined"%string)
    end in
  ({| transaction_id := transaction_id;
      r_state := state;
      message := ("Withdrawal " +:+ state)%string |},
   {| accounts := accounts';
      next_customer_id := next_customer_id m;
      next_account_id := next_account_id m;
      next_transaction_id := next |}).

End NexumMock.

(** ** generators/customers.py: the customer profile *)

Module Customers.
Import PyTime.

Inductive IncomeLevel := LOW | MEDIUM | HIGH | ULTRA_HIGH.
Inductive RiskProfile := LOW_RISK | MEDIUM_RISK | HIGH_RISK.
Inductive BehaviorPattern := SAVER | SPENDER | IRREGULAR | BUSINESS.
Inductive CustomerLifeStage :=
  STUDENT | YOUNG_PROFESSIONAL | FAMILY | ESTABLISHED | RETIREE.

(** The fields of the dataclass [CustomerProfile]; a [date] is a day number. *)
Record CustomerProfile := mkCustomer {
  customer_id : string;
  first_name : string;
  last_name : string;
  email : string;
  phone : string;
  date_of_birth : Z;
  address_line1 : string;
  city : string;
  state : string;
  postal_code : string;
  country : string;
  income_level : IncomeLevel;
  risk_profile : RiskProfile;
  behavior_pattern : BehaviorPattern;
  life_stage : CustomerLifeStage;
  credit_score : Z;
  monthly_income : Q;
  monthly_expenses : Q;
  preferred_balance : Q;
  primary_channel : string;
  transaction_frequency : Q;
  international_activity : bool;
  high_risk_tolerance : bool;
  tech_savvy : bool;
  fraud_awareness : Q;
  social_media_presence : bool
}.

(** [income_level.value]. *)
Definition income_level_value (l : IncomeLevel) : string :=
  match l with
  | LOW => "low" | MEDIUM => "medium" | HIGH => "high"
  | ULTRA_HIGH => "ultra_high"
  end.

Definition with_transaction_frequency (c : CustomerProfile) (f : Q)
    : CustomerProfile :=
  {| customer_id := customer_id c; first_name := first_name c;
     last_name := last_name c; email := email c; phone := phone c;
     date_of_birth := date_of_birth c; address_line1 := address_line1 c;
     city := city c; state := state c; postal_code := postal_code c;
     country := country c; income_level := income_level c;
     risk_profile := risk_profile c; behavior_pattern := behavior_pattern c;
     life_stage := life_stage c; credit_score := credit_score c;
     monthly_income := monthly_income c;
     monthly_expenses := monthly_expenses c;
     preferred_balance := preferred_balance c;
     primary_channel := primary_channel c;
     transaction_frequency := f;
     international_activity := international_activity c;
     high_risk_tolerance := high_risk_tolerance c;
     tech_savvy := tech_savvy c; fraud_awareness := fraud_awareness c;
     social_media_presence := social_media_presence c |}.

End Customers.

(** ** generators/events.py: life events and their overlay *)

Module Events.
Import Py PyTime Customers.

Inductive EventType :=
  ADDRESS_CHANGE | NEW_DEVICE_LOGIN | TRAVEL_DOMESTIC | TRAVEL_INTERNATIONAL
| JOB_CHANGE | INCOME_CHANGE | MARRIAGE | DIVORCE | NEW_BABY | HOME_PURCHASE
| RETIREMENT | MEDICAL_EMERGENCY | ACCOUNT_COMPROMISE | DEVICE_THEFT
| IDENTITY_MONITORING_ALERT.

Inductive EventImpact := IMPACT_LOW | IMPACT_MEDIUM | IMPACT_HIGH | IMPACT_CRITICAL.

Record LifeEvent := mkLifeEvent {
  event_id : string;
  event_type : EventType;
  event_customer_id : string;
  event_date : datetime;
  impact_level : EventImpact;
  duration_days : Z;
  details : list (string * pyvalue);
  transaction_frequency_multiplier : Q;
  spending_pattern_change : option string;
  risk_score_adjustment : Q;
  new_locations : option (list string);
  channel_preferences : option (list string)
}.

Definition end_date (e : LifeEvent) : datetime :=
  event_date e + days (duration_days e).

Definition is_active (e : LifeEvent) (current_time : datetime) : bool :=
  (event_date e <=? current_time) && (current_time <=? end_date e).

Definition get_active_events (cid : string) (current_time : datetime)
    (events : list LifeEvent) : list LifeEvent :=
  filter (fun e => String.eqb (event_customer_id e) cid && is_active e current_time = true)
         events.

(** The attributes [apply_event_effects] adds to the copy it returns; they
    are not fields of the dataclass. *)
Record overlay := mkOverlay {
  active_events : list LifeEvent;
  event_risk_adjustment : Q;
  event_locations : list string;
  event_channels : option (list string)
}.

(** A customer object on the heap: its dataclass fields and, once overlaid,
    the added attributes.  Both live in the object's [__dict__]. *)
Record customer_object := mkObject {
  fields : CustomerProfile;
  extra : option overlay
}.

Definition loc := positive.

(** Truth value of an optional list: [None] and the empty list are false. *)
Definition nonempty {A} (l : option (list A)) : bool :=
  match l with Some (_ :: _) => true | _ => false end.

(** The accumulators of the loop over the active events. *)
Record totals := mkTotals {
  total_transaction_multiplier : Q;
  total_risk_adjustment : Q;
  acc_locations : list string;
  acc_channels : option (list string)
}.

Definition accumulate (t : totals) (e : LifeEvent) : totals :=
  {| total_transaction_multiplier :=
       (total_transaction_multiplier t * transaction_frequency_multiplier e)%Q;
     total_risk_adjustment :=
       (total_risk_adjustment t + risk_score_adjustment e)%Q;
     acc_locations :=
       if nonempty (new_locations e)
       then acc_locations t ++ default [] (new_locations e)
       else acc_locations t;
     acc_channels :=
       if nonempty (channel_preferences e) then channel_preferences e
       else acc_channels t |}.

Definition initial_totals : totals :=
  {| total_transaction_multiplier := 1; total_risk_adjustment := 0;
     acc_locations := []; acc_channels := None |}.

(** [apply_event_effects]: the customer is a reference into the heap of
    objects; the result is the reference returned and the heap after the
    call.  The copy is made by calling the dataclass constructor on the
    entries of [customer.__dict__], which rejects a [__dict__] that holds
    more than the dataclass fields. *)
Definition apply_event_effects (h : gmap loc customer_object) (customer : loc)
    (events : list LifeEvent) : result loc * gmap loc customer_object :=
  match events with
  | [] => (Ok customer, h)
  | _ :: _ =>
      match h !! customer with
      | None => (Raise (TypeError "no such object"), h)
      | Some obj =>
          match extra obj with
          | Some _ =>
              (Raise (TypeError
                 "__init__() got an unexpected keyword argument 'active_events'"),
               h)
          | None =>
              let modified_customer := fresh (dom h) in
              let t := fold_left accumulate events initial_totals in
              let copy :=
                with_transaction_frequency (fields obj)
                  (transaction_frequency (fields obj)
                   * total_transaction_multiplier t)%Q in
              let added :=
                {| active_events := events;
                   event_risk_adjustment := total_risk_adjustment t;
                   event_locations := acc_locations t;
                   event_channels := acc_channels t |} in
              (Ok modified_customer,
               <[modified_customer := {| fields := copy; extra := Some added |}]> h)
          end
      end
  end.

End Events.

(** The product and the sum the overlay is specified by. *)
Module EventsSpec.
Import Events.

Definition product_of_multipliers (events : list LifeEvent) : Q :=
  fold_right (fun e acc => (transaction_frequency_multiplier e * acc)%Q) 1%Q events.

Definition sum_of_adjustments (events : list LifeEvent) : Q :=
  fold_right (fun e acc => (risk_score_adjustment e + acc)%Q) 0%Q events.

(** Two profiles that agree on every field but the transaction frequency:
    each of the other twenty-five fields of the dataclass, one by one. *)
Definition same_but_frequency (a b : Customers.CustomerProfile) : Prop :=
  Customers.customer_id b = Customers.customer_id a /\
  Customers.first_name b = Customers.first_name a /\
  Customers.last_name b = Customers.last_name a /\
  Customers.email b = Customers.email a /\
  Customers.phone b = Customers.phone a /\
  Customers.date_of_birth b = Customers.date_of_birth a /\
  Customers.address_line1 b = Customers.address_line1 a /\
  Customers.city b = Customers.city a /\
  Customers.state b = Customers.state a /\
  Customers.postal_code b = Customers.postal_code a /\
  Customers.country b = Customers.country a /\
  Customers.income_level b = Customers.income_level a /\
  Customers.risk_profile b = Customers.risk_profile a /\
  Customers.behavior_pattern b = Customers.behavior_pattern a /\
  Customers.life_stage b = Customers.life_stage a /\
  Customers.credit_score b = Customers.credit_score a /\
  Customers.monthly_income b = Customers.monthly_income a /\
  Customers.monthly_expenses b = Customers.monthly_expenses a /\
  Customers.preferred_balance b = Customers.preferred_balance a /\
  Customers.primary_channel b = Customers.primary_channel a /\
  Customers.international_activity b = Customers.international_activity a /\
  Customers.high_risk_tolerance b = Customers.high_risk_tolerance a /\
  Customers.tech_savvy b = Customers.tech_savvy a /\
  Customers.fraud_awareness b = Customers.fraud_awareness a /\
  Customers.social_media_presence b = Customers.social_media_presence a.

End EventsSpec.

(** Concrete customers and events used in the examples. *)
Module Samples.
Import Customers Events.

Definition sample_customer : CustomerProfile :=
  {| customer_id := "CUST_000001"; first_name := "Ada"; last_name := "Moreau";
     email := "ada.moreau@example.com"; phone := "555-0100";
     date_of_birth := 7000; address_line1 := "1 Main Street";
     city := "Denver"; state := "CO"; postal_code := "80201";
     country := "US"; income_level := MEDIUM; risk_profile := LOW_RISK;
     behavior_pattern := SAVER; life_stage := FAMILY; credit_score := 700;
     monthly_income := 5000; monthly_expenses := 3000;
     preferred_balance := 20000; primary_channel := "mobile";
     transaction_frequency := 4; international_activity := false;
     high_risk_tolerance := false; tech_savvy := true;
     fraud_awareness := 7 # 10; social_media_presence := true |}.

Definition sample_event (multiplier adjustment : Q) : LifeEvent :=
  {| event_id := "EVT_1"; event_type := HOME_PURCHASE;
     event_customer_id := "CUST_000001"; event_date := 0;
     impact_level := IMPACT_HIGH; duration_days := 60; details := [];
     transaction_frequency_multiplier := multiplier;
     spending_pattern_change := None;
     risk_score_adjustment := adjustment;
     new_locations := None; channel_preferences := None |}.

End Samples.

(** ** generators/transactions.py: the pending transaction *)

Module Transactions.
Import Py PyTime.

Inductive TransactionType :=
  DEPOSIT | WITHDRAWAL | TRANSFER | SALARY | RENT_MORTGAGE | UTILITY_BILL
| GROCERY | RESTAURANT | SHOPPING | ATM_WITHDRAWAL | ONLINE_PURCHASE
| GAS_STATION | SUBSCRIPTION | P2P_TRANSFER | INVESTMENT | LOAN_PAYMENT
| CREDIT_PAYMENT | CASH_ADVANCE | INTERNATIONAL.

Inductive TransactionChannel := ONLINE | MOBILE | ATM | BRANCH | CARD | WIRE | ACH.

Record PendingTransaction := mkTransaction {
  transaction_type : TransactionType;
  amount : Q;
  currency : string;
  description : string;
  channel : TransactionChannel;
  from_account_id : option string;
  to_account_id : option string;
  merchant_id : option string;
  merchant_category : option string;
  reference : option string;
  timestamp : datetime;
  metadata : gmap string pyvalue
}.

Definition with_metadata (t : PendingTransaction) (md : gmap string pyvalue)
    : PendingTransaction :=
  {| transaction_type := transaction_type t; amount := amount t;
     currency := currency t; description := description t;
     channel := channel t; from_account_id := from_account_id t;
     to_account_id := to_account_id t; merchant_id := merchant_id t;
     merchant_category := merchant_category t; reference := reference t;
     timestamp := timestamp t; metadata := md |}.

End Transactions.

(** ** generators/fraud.py: fraud profiles *)

Module Fraud.
Import Py PyNum PyTime Random Customers Transactions.
Local Open Scope gen_scope.

Inductive FraudType :=
  CARD_TESTING | VELOCITY_ATTACK | LARGE_AMOUNT
| ACCOUNT_TAKEOVER | SYNTHETIC_IDENTITY | IDENTITY_THEFT
| LAYERING | STRUCTURING | SMURFING
| MULE_NETWORK | BUST_OUT
| ONLINE_FRAUD | UNUSUAL_LOCATION
| MERCHANT_FRAUD | REFUND_FRAUD.

(** [fraud_type.value]. *)
Definition fraud_type_value (t : FraudType) : string :=
  match t with
  | CARD_TESTING => "card_testing" | VELOCITY_ATTACK => "velocity_attack"
  | LARGE_AMOUNT => "large_amount" | ACCOUNT_TAKEOVER => "account_takeover"
  | SYNTHETIC_IDENTITY => "synthetic_identity"
  | IDENTITY_THEFT => "identity_theft" | LAYERING => "layering"
  | STRUCTURING => "structuring" | SMURFING => "smurfing"
  | MULE_NETWORK => "mule_network" | BUST_OUT => "bust_out"
  | ONLINE_FRAUD => "online_fraud" | UNUSUAL_LOCATION => "unusual_location"
  | MERCHANT_FRAUD => "merchant_fraud" | REFUND_FRAUD => "refund_fraud"
  end.

Definition all_fraud_types : list FraudType :=
  [CARD_TESTING; VELOCITY_ATTACK; LARGE_AMOUNT; ACCOUNT_TAKEOVER;
   SYNTHETIC_IDENTITY; IDENTITY_THEFT; LAYERING; STRUCTURING; SMURFING;
   MULE_NETWORK; BUST_OUT; ONLINE_FRAUD; UNUSUAL_LOCATION; MERCHANT_FRAUD;
   REFUND_FRAUD].

(** [FraudType(name)]: an unknown name raises [ValueError]. *)
Definition fraud_type_of_value (name : string) : result FraudType :=
  match List.find (fun t => String.eqb (fraud_type_value t) name) all_fraud_types with
  | Some t => Ok t
  | None => Raise (ValueError (name +:+ " is not a valid FraudType"))
  end.

(** An entry of [suspicious_locations] (city names are written in ASCII). *)
Record location := mkLocation {
  loc_country : string;
  loc_city : string;
  loc_risk_score : Q
}.

Definition suspicious_locations : list location :=
  [ {| loc_country := "RU"; loc_city := "Moscow"; loc_risk_score := 9 # 10 |};
    {| loc_country := "NG"; loc_city := "Lagos"; loc_risk_score := 8 # 10 |};
    {| loc_country := "RO"; loc_city := "Bucharest"; loc_risk_score := 7 # 10 |};
    {| loc_country := "CN"; loc_city := "Shanghai"; loc_risk_score := 6 # 10 |};
    {| loc_country := "BR"; loc_city := "Sao Paulo"; loc_risk_score := 5 # 10 |};
    {| loc_country := "PH"; loc_city := "Manila"; loc_risk_score := 7 # 10 |};
    {| loc_country := "VN"; loc_city := "Ho Chi Minh City";
       loc_risk_score := 6 # 10 |} ].

(** A value that is either an integer or a pair of bounds. *)
Inductive int_or_range :=
| IntValue (n : Z)
| RangeValue (lo hi : Z).

(** A phase of the account-takeover template. *)
Record phase := mkPhase {
  phase_type : string;
  phase_duration_minutes : option int_or_range;
  phase_transaction_count : option int_or_range;
  phase_amount_range : option (Q * Q)
}.

Definition account_takeover_phases : list phase :=
  [ {| phase_type := "reconnaissance";
       phase_duration_minutes := Some (RangeValue 30 180);
       phase_transaction_count := None; phase_amount_range := None |};
    {| phase_type := "small_test"; phase_duration_minutes := None;
       phase_transaction_count := Some (RangeValue 2 5);
       phase_amount_range := Some (10, 100)%Q |};
    {| phase_type := "drain_account"; phase_duration_minutes := None;
       phase_transaction_count := Some (RangeValue 3 10);
       phase_amount_range := Some (1000, 10000)%Q |} ].

(** The entries of a profile's [metadata] dictionary that the transaction
    generators read; an entry is [None] when the key is absent.  Keys that are
    written but never read back ([burst_pattern], [is_smurfing], ...) are
    left out. *)
Record profile_metadata := mkMetadata {
  md_transaction_count : option Z;
  md_amount_range : option (Q * Q);
  md_preferred_channels : option (list TransactionChannel);
  md_merchant_categories : option (list string);
  md_timing : option string;
  md_phases : option (list phase);
  md_location_change : option bool;
  md_device_change : option bool;
  md_suspicious_location : option location;
  md_hops : option Z;
  md_amounts : option (list Q);
  md_target_amount : option Q;
  md_individual_max : option Q
}.

Definition no_metadata : profile_metadata :=
  {| md_transaction_count := None; md_amount_range := None;
     md_preferred_channels := None; md_merchant_categories := None;
     md_timing := None; md_phases := None; md_location_change := None;
     md_device_change := None; md_suspicious_location := None;
     md_hops := None; md_amounts := None; md_target_amount := None;
     md_individual_max := None |}.

Record FraudProfile := mkProfile {
  fraud_id : string;
  fraud_type : FraudType;
  customer_ids : list string;
  account_ids : list string;
  start_time : datetime;
  duration_minutes : Z;
  intensity : Q;
  success_rate : Q;
  sophistication : Q;
  metadata : profile_metadata
}.

Definition end_time (p : FraudProfile) : datetime :=
  start_time p + minutes (duration_minutes p).

(** [metadata[key]]: a missing key raises [KeyError]. *)
Definition key {A} (name : string) (entry : option A) : gen A :=
  match entry with
  | Some a => ret a
  | None => raise (KeyError name)
  end.

(** [range(n)]. *)
Definition range (n : Z) : list Z := map Z.of_nat (seq 0 (Z.to_nat n)).

(** A [for] loop whose body appends zero or more transactions. *)
Fixpoint for_each {A B} (body : A -> gen (list B)) (items : list A) : gen (list B) :=
  match items with
  | [] => ret []
  | x :: rest =>
      let* produced := body x in
      let* others := for_each body rest in
      ret (produced ++ others)
  end.

(** The head of the loops of the card-testing, velocity and large-amount
    generators: [if random.random() > fraud_profile.success_rate: continue],
    followed by the construction of the transaction. *)
Definition gated (rate : Q) (build : gen PendingTransaction)
    : gen (list PendingTransaction) :=
  let* roll := random in
  if Qltb rate roll then ret []
  else let* t := build in ret [t].

(** A loop body that always builds its transaction. *)
Definition always (build : gen PendingTransaction) : gen (list PendingTransaction) :=
  let* t := build in ret [t].

Definition ordinal (i : Z) : string := pretty (i + 1).

End Fraud.

(** ** generators/fraud.py: the transaction generators of [FraudGenerator] *)

Module FraudGenerator.
Import Py PyNum PyTime Random Customers Transactions Fraud.
Local Open Scope gen_scope.

Definition channel_value (c : TransactionChannel) : string :=
  match c with
  | ONLINE => "online" | MOBILE => "mobile" | ATM => "atm"
  | BRANCH => "branch" | CARD => "card" | WIRE => "wire" | ACH => "ach"
  end.

(** *** Card testing *)

Definition card_testing_transaction (p : FraudProfile) (i : Z)
    : gen PendingTransaction :=
  let md := metadata p in
  let* amount_range := key "amount_range" (md_amount_range md) in
  let* amount := uniform amount_range.1 amount_range.2 in
  let* channels := key "preferred_channels" (md_preferred_channels md) in
  let* channel := choice channels in
  let* time_offset := randint 0 (duration_minutes p) in
  let txn_time := start_time p + minutes time_offset in
  let* from_account := choice (account_ids p) in
  let* merchant_number := randint 1000 9999 in
  let* categories := key "merchant_categories" (md_merchant_categories md) in
  let* category := choice categories in
  ret {| transaction_type := ONLINE_PURCHASE;
         amount := round2 amount;
         currency := "USD";
         description := "Card Test Transaction #" +:+ ordinal i;
         channel := channel;
         from_account_id := Some from_account;
         to_account_id := None;
         merchant_id := Some ("TEST_MERCHANT_" +:+ pretty merchant_number);
         merchant_category := Some category;
         reference := Some ("CARDTEST_" +:+ fraud_id p +:+ "_" +:+ ordinal i);
         timestamp := txn_time;
         Transactions.metadata :=
           {[ "fraud_pattern" := VStr "card_testing";
              "test_sequence" := VInt (i + 1);
              "rapid_succession" := VBool true ]}%string |}.

Definition _generate_card_testing_transactions (p : FraudProfile)
    (current_time : datetime) : gen (list PendingTransaction) :=
  let* count := key "transaction_count" (md_transaction_count (metadata p)) in
  for_each (fun i => gated (success_rate p) (card_testing_transaction p i))
           (range count).

(** *** Velocity attack *)

Definition velocity_transaction (p : FraudProfile) (i : Z)
    : gen PendingTransaction :=
  let md := metadata p in
  let* amount_range := key "amount_range" (md_amount_range md) in
  let* amount := uniform amount_range.1 amount_range.2 in
  let* time_offset_seconds := randint 0 (duration_minutes p * 60) in
  let txn_time := start_time p + seconds time_offset_seconds in
  let* channels := key "preferred_channels" (md_preferred_channels md) in
  let* channel := choice channels in
  let* from_account := choice (account_ids p) in
  ret {| transaction_type := WITHDRAWAL;
         amount := round2 amount;
         currency := "USD";
         description := "Rapid Transaction #" +:+ ordinal i;
         channel := channel;
         from_account_id := Some from_account;
         to_account_id := None;
         merchant_id := None;
         merchant_category := None;
         reference := Some ("VELOCITY_" +:+ fraud_id p +:+ "_" +:+ ordinal i);
         timestamp := txn_time;
         Transactions.metadata :=
           {[ "fraud_pattern" := VStr "velocity_attack";
              "burst_sequence" := VInt (i + 1);
              "time_window_minutes" := VInt (duration_minutes p) ]}%string |}.

Definition _generate_velocity_transactions (p : FraudProfile)
    (current_time : datetime) : gen (list PendingTransaction) :=
  let* count := key "transaction_count" (md_transaction_count (metadata p)) in
  for_each (fun i => gated (success_rate p) (velocity_transaction p i))
           (range count).

(** *** Large amount *)

Definition large_amount_transaction (p : FraudProfile) (i : Z)
    : gen PendingTransaction :=
  let md := metadata p in
  let* amount_range := key "amount_range" (md_amount_range md) in
  let* amount := uniform amount_range.1 amount_range.2 in
  let* time_offset_minutes := randint 0 (duration_minutes p) in
  let txn_time := start_time p + minutes time_offset_minutes in
  let* channel := choice [WIRE; ONLINE] in
  let* from_account := choice (account_ids p) in
  ret {| transaction_type := TRANSFER;
         amount := round2 amount;
         currency := "USD";
         description := "Large Amount Transfer #" +:+ ordinal i;
         channel := channel;
         from_account_id := Some from_account;
         to_account_id := None;
         merchant_id := None;
         merchant_category := None;
         reference := Some ("LARGE_" +:+ fraud_id p +:+ "_" +:+ ordinal i);
         timestamp := txn_time;
         Transactions.metadata :=
           {[ "fraud_pattern" := VStr "large_amount";
              "amount_threshold_breach" := VBool (Qltb 10000 amount);
              "unusual_timing" :=
                VBool (match md_timing md with
                       | Some t => String.eqb t "outside_normal_hours"
                       | None => false
                       end) ]}%string |}.

Definition _generate_large_amount_transactions (p : FraudProfile)
    (current_time : datetime) : gen (list PendingTransaction) :=
  let* count := key "transaction_count" (md_transaction_count (metadata p)) in
  for_each (fun i => gated (success_rate p) (large_amount_transaction p i))
           (range count).

(** *** Unusual location *)

Definition unusual_location_transaction (p : FraudProfile)
    (suspicious_location : location) (i : Z) : gen PendingTransaction :=
  let md := metadata p in
  let* amount_range := key "amount_range" (md_amount_range md) in
  let* amount := uniform amount_range.1 amount_range.2 in
  let* time_offset := randint 0 (duration_minutes p) in
  let txn_time := start_time p + minutes time_offset in
  let* from_account := choice (account_ids p) in
  let* merchant_number := randint 1000 9999 in
  ret {| transaction_type := SHOPPING;
         amount := round2 amount;
         currency := "USD";
         description := "International Purchase " +:+ ordinal i;
         channel := CARD;
         from_account_id := Some from_account;
         to_account_id := None;
         merchant_id := Some ("INTL_MERCHANT_" +:+ pretty merchant_number);
         merchant_category := Some "international"%string;
         reference := Some ("UNUSUAL_LOC_" +:+ fraud_id p +:+ "_" +:+ ordinal i);
         timestamp := txn_time;
         Transactions.metadata :=
           {[ "fraud_pattern" := VStr "unusual_location";
              "transaction_country" := VStr (loc_country suspicious_location);
              "transaction_city" := VStr (loc_city suspicious_location);
              "location_risk_score" := VFloat (loc_risk_score suspicious_location);
              "geographic_anomaly" := VBool true ]}%string |}.

Definition _generate_unusual_location_transactions (p : FraudProfile)
    (current_time : datetime) : gen (list PendingTransaction) :=
  let md := metadata p in
  let* suspicious_location := key "suspicious_location" (md_suspicious_location md) in
  let* count := key "transaction_count" (md_transaction_count md) in
  for_each (fun i => always (unusual_location_transaction p suspicious_location i))
           (range count).

(** *** Generic fallback *)

Definition generic_transaction (p : FraudProfile) (current_time : datetime)
    (i : Z) : gen PendingTransaction :=
  let* amount := uniform 100 5000 in
  let* channel := choice [ONLINE; CARD] in
  let* from_account := choice (account_ids p) in
  let* anomaly_score := uniform (6 # 10) 1 in
  ret {| transaction_type := WITHDRAWAL;
         amount := round2 amount;
         currency := "USD";
         description := "Suspicious Transaction " +:+ ordinal i;
         channel := channel;
         from_account_id := Some from_account;
         to_account_id := None;
         merchant_id := None;
         merchant_category := None;
         reference := Some ("GENERIC_" +:+ fraud_id p +:+ "_" +:+ ordinal i);
         timestamp := current_time;
         Transactions.metadata :=
           {[ "fraud_pattern" := VStr "generic_suspicious";
              "anomaly_score" := VFloat anomaly_score ]}%string |}.

Definition _generate_generic_fraud_transactions (p : FraudProfile)
    (current_time : datetime) : gen (list PendingTransaction) :=
  let* count := randint 2 5 in
  for_each (fun i => always (generic_transaction p current_time i)) (range count).

(** *** Account takeover *)

(** The phase the attack is in: the first one whose cumulative duration
    reaches the elapsed minutes.  A duration given as a pair is drawn anew on
    every call. *)
Fixpoint select_phase (phases : list phase) (elapsed_minutes : Q)
    (cumulative_duration : Z) : gen (option phase) :=
  match phases with
  | [] => ret None
  | ph :: rest =>
      let* duration :=
        match default (RangeValue 30 180) (phase_duration_minutes ph) with
        | RangeValue lo hi => randint lo hi
        | IntValue d => ret d
        end in
      if Qleb elapsed_minutes (inject_Z (cumulative_duration + duration))
      then ret (Some ph)
      else select_phase rest elapsed_minutes (cumulative_duration + duration)
  end.

(** [range(phase.get("transaction_count", random.randint(lo, hi)))]: the
    default is drawn whether or not the key is present, and a pair is not an
    integer. *)
Definition phase_count (ph : phase) (lo hi : Z) : gen Z :=
  let* fallback := randint lo hi in
  match default (IntValue fallback) (phase_transaction_count ph) with
  | IntValue n => ret n
  | RangeValue _ _ =>
      raise (TypeError "'tuple' object cannot be interpreted as an integer")
  end.

Definition takeover_test_transaction (p : FraudProfile) (ph : phase)
    (current_time : datetime) (i : Z) : gen PendingTransaction :=
  let md := metadata p in
  let amount_range := default (10, 100)%Q (phase_amount_range ph) in
  let* amount := uniform amount_range.1 amount_range.2 in
  let* from_account := choice (account_ids p) in
  ret {| transaction_type := WITHDRAWAL;
         amount := round2 amount;
         currency := "USD";
         description := "Test Transaction #" +:+ ordinal i;
         channel := ONLINE;
         from_account_id := Some from_account;
         to_account_id := None;
         merchant_id := None;
         merchant_category := None;
         reference := Some ("ATO_TEST_" +:+ fraud_id p +:+ "_" +:+ ordinal i);
         timestamp := current_time;
         Transactions.metadata :=
           {[ "fraud_pattern" := VStr "account_takeover";
              "phase" := VStr "testing";
              "location_change" := VBool (default false (md_location_change md));
              "device_change" := VBool (default false (md_device_change md)) ]}%string |}.

Definition location_value (l : option location) : pyvalue :=
  match l with
  | None => VNone
  | Some l => VDict [("country", VStr (loc_country l));
                     ("city", VStr (loc_city l));
                     ("risk_score", VFloat (loc_risk_score l))]%string
  end.

Definition takeover_drain_transaction (p : FraudProfile) (ph : phase)
    (current_time : datetime) (i : Z) : gen PendingTransaction :=
  let md := metadata p in
  let amount_range := default (1000, 10000)%Q (phase_amount_range ph) in
  let* amount := uniform amount_range.1 amount_range.2 in
  let* from_account := choice (account_ids p) in
  ret {| transaction_type := TRANSFER;
         amount := round2 amount;
         currency := "USD";
         description := "Account Drain #" +:+ ordinal i;
         channel := ONLINE;
         from_account_id := Some from_account;
         to_account_id := None;
         merchant_id := None;
         merchant_category := None;
         reference := Some ("ATO_DRAIN_" +:+ fraud_id p +:+ "_" +:+ ordinal i);
         timestamp := current_time;
         Transactions.metadata :=
           {[ "fraud_pattern" := VStr "account_takeover";
              "phase" := VStr "draining";
              "location_change" := VBool true;
              "device_change" := VBool true;
              "suspicious_location" :=
                location_value (md_suspicious_location md) ]}%string |}.

Definition _generate_account_takeover_transactions (p : FraudProfile)
    (current_time : datetime) : gen (list PendingTransaction) :=
  let md := metadata p in
  let* phases := key "phases" (md_phases md) in
  let elapsed_minutes :=
    (total_seconds (current_time - start_time p)%Z / 60)%Q in
  let* current_phase := select_phase phases elapsed_minutes 0 in
  match current_phase with
  | None => ret []
  | Some ph =>
      if String.eqb (phase_type ph) "small_test" then
        let* count := phase_count ph 2 5 in
        for_each (fun i => always (takeover_test_transaction p ph current_time i))
                 (range count)
      else if String.eqb (phase_type ph) "drain_account" then
        let* count := phase_count ph 3 10 in
        for_each (fun i => always (takeover_drain_transaction p ph current_time i))
                 (range count)
      else ret []
  end.

(** *** Layering *)

(** [random.shuffle]: for [i] from the last index down to 1, exchange the
    elements at [i] and at a drawn index below [i + 1]. *)
Fixpoint shuffle_down {A} (i : nat) (x : list A) : gen (list A) :=
  match i with
  | O => ret x
  | S i' =>
      let* j := randbelow (Z.of_nat (i + 1)) in
      let j := Z.to_nat j in
      match x !! i, x !! j with
      | Some xi, Some xj => shuffle_down i' (<[j := xi]> (<[i := xj]> x))
      | _, _ => raise IndexError
      end
  end.

Definition shuffle {A} (x : list A) : gen (list A) :=
  shuffle_down (length x - 1) x.

Definition layering_transaction (p : FraudProfile) (accounts : list string)
    (from_account to_account : string) (hop : Z) : gen PendingTransaction :=
  let md := metadata p in
  let* amounts := key "amounts" (md_amounts md) in
  let* amount :=
    match amounts !! Z.to_nat hop with
    | Some a => ret a
    | None => uniform 1000 25000
    end in
  let* amount_variation := uniform (- (1 # 10)) (1 # 10) in
  let amount := (amount * (1 + amount_variation))%Q in
  let* gap := randint 10 60 in
  let time_offset_minutes := hop * gap in
  let txn_time := start_time p + minutes time_offset_minutes in
  let* channel := choice [ONLINE; WIRE] in
  let* total_hops := key "hops" (md_hops md) in
  ret {| transaction_type := TRANSFER;
         amount := round2 amount;
         currency := "USD";
         description := "Layer Transfer " +:+ ordinal hop;
         channel := channel;
         from_account_id := Some from_account;
         to_account_id := Some to_account;
         merchant_id := None;
         merchant_category := None;
         reference := Some ("LAYER_" +:+ fraud_id p +:+ "_" +:+ ordinal hop);
         timestamp := txn_time;
         Transactions.metadata :=
           {[ "fraud_pattern" := VStr "layering";
              "hop_sequence" := VInt (hop + 1);
              "total_hops" := VInt total_hops;
              "obfuscation" := VStr "amount_timing_variation" ]}%string |}.

(** The loop over the hops; it is left at the first hop that has no next
    account. *)
Fixpoint layering_hops (p : FraudProfile) (accounts : list string)
    (hops : list Z) : gen (list PendingTransaction) :=
  match hops with
  | [] => ret []
  | hop :: rest =>
      if Z.of_nat (length accounts) - 1 <=? hop then ret []
      else
        match accounts !! Z.to_nat hop, accounts !! Z.to_nat (hop + 1) with
        | Some from_account, Some to_account =>
            let* t := layering_transaction p accounts from_account to_account hop in
            let* others := layering_hops p accounts rest in
            ret (t :: others)
        | _, _ => raise IndexError
        end
  end.

Definition _generate_layering_transactions (p : FraudProfile)
    (current_time : datetime) : gen (list PendingTransaction) :=
  let* accounts := shuffle (account_ids p) in
  let* hops := key "hops" (md_hops (metadata p)) in
  layering_hops p accounts (range hops).

(** *** Structuring *)

Definition structuring_transaction (p : FraudProfile)
    (target_amount individual_max amount : Q) (sequence : Z)
    : gen PendingTransaction :=
  let* time_offset_hours := randint 0 (duration_minutes p / 60) in
  let txn_time := start_time p + hours time_offset_hours in
  let* from_account := choice (account_ids p) in
  let* channel := choice [BRANCH; ATM] in
  ret {| transaction_type := DEPOSIT;
         amount := round2 amount;
         currency := "USD";
         description := "Structured Deposit " +:+ pretty sequence;
         channel := channel;
         from_account_id := None;
         to_account_id := Some from_account;
         merchant_id := None;
         merchant_category := None;
         reference := Some ("STRUCT_" +:+ fraud_id p +:+ "_" +:+ pretty sequence);
         timestamp := txn_time;
         Transactions.metadata :=
           {[ "fraud_pattern" := VStr "structuring";
              "sequence" := VInt sequence;
              "target_total" := VFloat target_amount;
              "under_threshold" := VBool (Qltb amount individual_max) ]}%string |}.

(** The state of the [while] loop when it is left. *)
Record structuring_run := mkRun {
  produced : list PendingTransaction;
  remaining_amount : Q;
  final_sequence : Z
}.

(** [while remaining_amount > 0 and sequence < metadata["transaction_count"]].
    The recursion is on [fuel], an upper bound on the number of tests of the
    loop condition still to come; the loop counts [sequence] up to the
    transaction count, so the count plus one is always enough
    (see [structuring_loop_fuel]). *)
Fixpoint structuring_loop (fuel : nat) (p : FraudProfile)
    (target_amount individual_max remaining : Q) (sequence : Z)
    : gen structuring_run :=
  let stop := ret {| produced := []; remaining_amount := remaining;
                     final_sequence := sequence |} in
  match fuel with
  | O => stop
  | S fuel' =>
      if Qltb 0 remaining then
        let* count := key "transaction_count" (md_transaction_count (metadata p)) in
        if sequence <? count then
          let* draw := uniform (individual_max * (8 # 10)) individual_max in
          let amount := fmin remaining draw in
          let remaining := (remaining - amount)%Q in
          let sequence := sequence + 1 in
          let* t := structuring_transaction p target_amount individual_max
                      amount sequence in
          let* run := structuring_loop fuel' p target_amount individual_max
                        remaining sequence in
          ret {| produced := t :: produced run;
                 remaining_amount := remaining_amount run;
                 final_sequence := final_sequence run |}
        else stop
      else stop
  end.

Definition structuring_fuel (p : FraudProfile) : nat :=
  S (Z.to_nat (default 0 (md_transaction_count (metadata p)))).

Definition structuring_run_of (p : FraudProfile) : gen structuring_run :=
  let md := metadata p in
  let* target_amount := key "target_amount" (md_target_amount md) in
  let* individual_max := key "individual_max" (md_individual_max md) in
  structuring_loop (structuring_fuel p) p target_amount individual_max
    target_amount 0.

Definition _generate_structuring_transactions (p : FraudProfile)
    (current_time : datetime) : gen (list PendingTransaction) :=
  let* run := structuring_run_of p in
  ret (produced run).

(** *** The dispatcher *)

(** The four entries stamped on every transaction of a profile. *)
Definition mark_fraudulent (p : FraudProfile) (t : PendingTransaction)
    : PendingTransaction :=
  with_metadata t
    (<["sophistication"%string := VFloat (sophistication p)]>
       (<["fraud_id"%string := VStr (fraud_id p)]>
          (<["fraud_type"%string := VStr (fraud_type_value (fraud_type p))]>
             (<["is_fraud"%string := VBool true]> (Transactions.metadata t))))).

Definition generator_of (t : FraudType)
    : FraudProfile -> datetime -> gen (list PendingTransaction) :=
  match t with
  | CARD_TESTING => _generate_card_testing_transactions
  | VELOCITY_ATTACK => _generate_velocity_transactions
  | LARGE_AMOUNT => _generate_large_amount_transactions
  | ACCOUNT_TAKEOVER => _generate_account_takeover_transactions
  | LAYERING => _generate_layering_transactions
  | STRUCTURING => _generate_structuring_transactions
  | UNUSUAL_LOCATION => _generate_unusual_location_transactions
  | _ => _generate_generic_fraud_transactions
  end.

Definition generate_fraud_transactions (p : FraudProfile)
    (current_time : datetime) : gen (list PendingTransaction) :=
  if (current_time <? start_time p) || (end_time p <? current_time) then ret []
  else
    let* transactions := generator_of (fraud_type p) p current_time in
    ret (map (mark_fraudulent p) transactions).

(** The sum of the amounts of a list of transactions. *)
Definition total_amount (ts : list PendingTransaction) : Q :=
  fold_right (fun t acc => (amount t + acc)%Q) 0%Q ts.

(** A profile with another success rate. *)
Definition with_success_rate (p : FraudProfile) (rate : Q) : FraudProfile :=
  {| fraud_id := fraud_id p; fraud_type := fraud_type p;
     customer_ids := customer_ids p; account_ids := account_ids p;
     start_time := start_time p; duration_minutes := duration_minutes p;
     intensity := intensity p; success_rate := rate;
     sophistication := sophistication p; metadata := metadata p |}.

End FraudGenerator.

(** ** generators/fraud.py: the profile constructors of [FraudGenerator] *)

Module FraudAttack.
Import Py PyNum PyTime Random Customers Transactions Fraud.
Local Open Scope gen_scope.

(** The keyword arguments the constructors look at. *)
Record kwargs := mkKwargs {
  kw_hops : option Z;
  kw_amounts : option (list Q);
  kw_threshold : option Q;
  kw_split_into : option (list Q)
}.

Definition no_kwargs : kwargs :=
  {| kw_hops := None; kw_amounts := None; kw_threshold := None;
     kw_split_into := None |}.

(** [account_mapping[customer_id]]. *)
Definition accounts_of (account_mapping : gmap string (list string))
    (cid : string) : gen (list string) :=
  match account_mapping !! cid with
  | Some l => ret l
  | None => raise (KeyError cid)
  end.

Fixpoint all_accounts_of (account_mapping : gmap string (list string))
    (customers : list CustomerProfile) : gen (list string) :=
  match customers with
  | [] => ret []
  | c :: rest =>
      let* mine := accounts_of account_mapping (customer_id c) in
      let* others := all_accounts_of account_mapping rest in
      ret (mine ++ others)
  end.

Definition _generate_card_testing (fraud_id : string)
    (customers : list CustomerProfile)
    (account_mapping : gmap string (list string)) (start_time : datetime)
    (intensity : Q) : gen FraudProfile :=
  let* target_customer := choice customers in
  let* target_accounts := accounts_of account_mapping (customer_id target_customer) in
  let* transaction_count := randint 10 50 in
  let transaction_count := int_of (inject_Z transaction_count * intensity) in
  let* duration_minutes := randint 5 30 in
  ret {| fraud_id := fraud_id; fraud_type := CARD_TESTING;
         customer_ids := [customer_id target_customer];
         account_ids := target_accounts;
         start_time := start_time; duration_minutes := duration_minutes;
         intensity := intensity; success_rate := 6 # 10;
         sophistication := 2 # 10;
         metadata :=
           {| md_transaction_count := Some transaction_count;
              md_amount_range := Some (1 # 100, 5)%Q;
              md_preferred_channels := Some [CARD; ONLINE];
              md_merchant_categories :=
                Some ["small_retail"; "online"; "gas_station"]%string;
              md_timing := None; md_phases := None;
              md_location_change := None; md_device_change := None;
              md_suspicious_location := None; md_hops := None;
              md_amounts := None; md_target_amount := None;
              md_individual_max := None |} |}.

Definition _generate_velocity_attack (fraud_id : string)
    (customers : list CustomerProfile)
    (account_mapping : gmap string (list string)) (start_time : datetime)
    (intensity : Q) : gen FraudProfile :=
  let* target_customer := choice customers in
  let* target_accounts := accounts_of account_mapping (customer_id target_customer) in
  let* transaction_count := randint 20 100 in
  let transaction_count := int_of (inject_Z transaction_count * intensity) in
  let* duration_minutes := randint 1 10 in
  ret {| fraud_id := fraud_id; fraud_type := VELOCITY_ATTACK;
         customer_ids := [customer_id target_customer];
         account_ids := target_accounts;
         start_time := start_time; duration_minutes := duration_minutes;
         intensity := intensity; success_rate := 4 # 10;
         sophistication := 3 # 10;
         metadata :=
           {| md_transaction_count := Some transaction_count;
              md_amount_range := Some (50, 500)%Q;
              md_preferred_channels := Some [CARD; ATM];
              md_merchant_categories := None;
              md_timing := None; md_phases := None;
              md_location_change := None; md_device_change := None;
              md_suspicious_location := None; md_hops := None;
              md_amounts := None; md_target_amount := None;
              md_individual_max := None |} |}.

Definition _generate_large_amount_fraud (fraud_id : string)
    (customers : list CustomerProfile)
    (account_mapping : gmap string (list string)) (start_time : datetime)
    (intensity : Q) : gen FraudProfile :=
  let high_value_customers :=
    List.filter (fun c => str_in (income_level_value (income_level c))
                            ["high"; "ultra_high"]%string) customers in
  let* target_customer :=
    choice (match high_value_customers with
            | [] => customers
            | _ :: _ => high_value_customers
            end) in
  let* target_accounts := accounts_of account_mapping (customer_id target_customer) in
  let* duration_minutes := randint 10 120 in
  let* transaction_count := randint 1 5 in
  ret {| fraud_id := fraud_id; fraud_type := LARGE_AMOUNT;
         customer_ids := [customer_id target_customer];
         account_ids := target_accounts;
         start_time := start_time; duration_minutes := duration_minutes;
         intensity := intensity; success_rate := 3 # 10;
         sophistication := 6 # 10;
         metadata :=
           {| md_transaction_count := Some transaction_count;
              md_amount_range := Some (5000, 50000)%Q;
              md_preferred_channels := Some [WIRE; ONLINE];
              md_merchant_categories := None;
              md_timing := Some "outside_normal_hours"%string;
              md_phases := None;
              md_location_change := None; md_device_change := None;
              md_suspicious_location := None; md_hops := None;
              md_amounts := None; md_target_amount := None;
              md_individual_max := None |} |}.

Definition _generate_account_takeover (fraud_id : string)
    (customers : list CustomerProfile)
    (account_mapping : gmap string (list string)) (start_time : datetime)
    (intensity : Q) : gen FraudProfile :=
  let* target_customer := choice customers in
  let* total_duration := randint 120 480 in
  let* target_accounts := accounts_of account_mapping (customer_id target_customer) in
  let* suspicious_location := choice suspicious_locations in
  ret {| fraud_id := fraud_id; fraud_type := ACCOUNT_TAKEOVER;
         customer_ids := [customer_id target_customer];
         account_ids := target_accounts;
         start_time := start_time; duration_minutes := total_duration;
         intensity := intensity; success_rate := 5 # 10;
         sophistication := 7 # 10;
         metadata :=
           {| md_transaction_count := None; md_amount_range := None;
              md_preferred_channels := None; md_merchant_categories := None;
              md_timing := None;
              md_phases := Some account_takeover_phases;
              md_location_change := Some true; md_device_change := Some true;
              md_suspicious_location := Some suspicious_location;
              md_hops := None; md_amounts := None; md_target_amount := None;
              md_individual_max := None |} |}.

(** [[random.uniform(1000, 25000) for _ in range(hops)]]. *)
Fixpoint uniform_list (n : nat) (lo hi : Q) : gen (list Q) :=
  match n with
  | O => ret []
  | S n' =>
      let* x := uniform lo hi in
      let* xs := uniform_list n' lo hi in
      ret (x :: xs)
  end.

(** The defaults of [kwargs.get] are evaluated before the lookup, so the
    draws for [hops] and [amounts] are made in every case. *)
Definition _generate_layering_attack (fraud_id : string)
    (customers : list CustomerProfile)
    (account_mapping : gmap string (list string)) (start_time : datetime)
    (intensity : Q) (kw : kwargs) : gen FraudProfile :=
  let num_customers :=
    Z.min (default 5 (kw_hops kw)) (Z.of_nat (length customers)) in
  let* involved_customers := sample customers num_customers in
  let* all_accounts := all_accounts_of account_mapping involved_customers in
  let* drawn_hops := randint 3 num_customers in
  let hops := default drawn_hops (kw_hops kw) in
  let* drawn_amounts := uniform_list (Z.to_nat hops) 1000 25000 in
  let amounts := default drawn_amounts (kw_amounts kw) in
  let* duration_minutes := randint 60 480 in
  ret {| fraud_id := fraud_id; fraud_type := LAYERING;
         customer_ids := map customer_id involved_customers;
         account_ids := all_accounts;
         start_time := start_time; duration_minutes := duration_minutes;
         intensity := intensity; success_rate := 8 # 10;
         sophistication := 9 # 10;
         metadata :=
           {| md_transaction_count := None; md_amount_range := None;
              md_preferred_channels := None; md_merchant_categories := None;
              md_timing := None; md_phases := None;
              md_location_change := None; md_device_change := None;
              md_suspicious_location := None;
              md_hops := Some hops; md_amounts := Some amounts;
              md_target_amount := None; md_individual_max := None |} |}.

Definition _generate_structuring_attack (fraud_id : string)
    (customers : list CustomerProfile)
    (account_mapping : gmap string (list string)) (start_time : datetime)
    (intensity : Q) (kw : kwargs) : gen FraudProfile :=
  let* drawn_target := uniform 10000 50000 in
  let target_amount := default drawn_target (kw_threshold kw) in
  let* individual_max :=
    match kw_split_into kw with
    | Some (first :: _) => ret first
    | Some [] => raise IndexError
    | None => ret 9999%Q
    end in
  let* transaction_count :=
    if Qeq_bool individual_max 0 then raise ZeroDivisionError
    else ret (ceil (target_amount / individual_max)) in
  let* single := random in
  let* involved_customers :=
    if Qltb single (7 # 10) then
      let* c := choice customers in ret [c]
    else
      let* drawn := randint 2 5 in
      let num_customers := Z.min drawn (Z.of_nat (length customers)) in
      sample customers num_customers in
  let* all_accounts := all_accounts_of account_mapping involved_customers in
  let* duration_minutes := randint 60 10080 in
  ret {| fraud_id := fraud_id; fraud_type := STRUCTURING;
         customer_ids := map customer_id involved_customers;
         account_ids := all_accounts;
         start_time := start_time; duration_minutes := duration_minutes;
         intensity := intensity; success_rate := 9 # 10;
         sophistication := 8 # 10;
         metadata :=
           {| md_transaction_count := Some transaction_count;
              md_amount_range := None;
              md_preferred_channels := None; md_merchant_categories := None;
              md_timing := None; md_phases := None;
              md_location_change := None; md_device_change := None;
              md_suspicious_location := None;
              md_hops := None; md_amounts := None;
              md_target_amount := Some target_amount;
              md_individual_max := Some individual_max |} |}.

Definition _generate_unusual_location_fraud (fraud_id : string)
    (customers : list CustomerProfile)
    (account_mapping : gmap string (list string)) (start_time : datetime)
    (intensity : Q) : gen FraudProfile :=
  let* target_customer := choice customers in
  let* suspicious_location := choice suspicious_locations in
  let* target_accounts := accounts_of account_mapping (customer_id target_customer) in
  let* duration_minutes := randint 30 240 in
  let* transaction_count := randint 2 10 in
  ret {| fraud_id := fraud_id; fraud_type := UNUSUAL_LOCATION;
         customer_ids := [customer_id target_customer];
         account_ids := target_accounts;
         start_time := start_time; duration_minutes := duration_minutes;
         intensity := intensity; success_rate := 6 # 10;
         sophistication := 4 # 10;
         metadata :=
           {| md_transaction_count := Some transaction_count;
              md_amount_range := Some (100, 2000)%Q;
              md_preferred_channels := None; md_merchant_categories := None;
              md_timing := None; md_phases := None;
              md_location_change := None; md_device_change := None;
              md_suspicious_location := Some suspicious_location;
              md_hops := None; md_amounts := None; md_target_amount := None;
              md_individual_max := None |} |}.

Definition _generate_generic_fraud (fraud_id : string) (fraud_type : FraudType)
    (customers : list CustomerProfile)
    (account_mapping : gmap string (list string)) (start_time : datetime)
    (intensity : Q) : gen FraudProfile :=
  let* target_customer := choice customers in
  let* target_accounts := accounts_of account_mapping (customer_id target_customer) in
  let* duration_minutes := randint 30 180 in
  ret {| fraud_id := fraud_id; fraud_type := fraud_type;
         customer_ids := [customer_id target_customer];
         account_ids := target_accounts;
         start_time := start_time; duration_minutes := duration_minutes;
         intensity := intensity; success_rate := 5 # 10;
         sophistication := 5 # 10;
         metadata := no_metadata |}.

(** [int(start_time.timestamp())], the whole seconds of the instant. *)
Definition epoch_seconds (t : datetime) : Z := Z.quot t microseconds_per_second.

Definition generate_fraud_attack (fraud_type : FraudType)
    (target_customers : list CustomerProfile)
    (account_mapping : gmap string (list string)) (start_time : datetime)
    (intensity : Q) (kw : kwargs) : gen FraudProfile :=
  let* suffix := randint 1000 9999 in
  let fraud_id :=
    ("FRAUD_" +:+ pretty (epoch_seconds start_time) +:+ "_" +:+ pretty suffix)%string in
  match fraud_type with
  | CARD_TESTING =>
      _generate_card_testing fraud_id target_customers account_mapping start_time intensity
  | VELOCITY_ATTACK =>
      _generate_velocity_attack fraud_id target_customers account_mapping start_time intensity
  | LARGE_AMOUNT =>
      _generate_large_amount_fraud fraud_id target_customers account_mapping start_time intensity
  | ACCOUNT_TAKEOVER =>
      _generate_account_takeover fraud_id target_customers account_mapping start_time intensity
  | LAYERING =>
      _generate_layering_attack fraud_id target_customers account_mapping start_time intensity kw
  | STRUCTURING =>
      _generate_structuring_attack fraud_id target_customers account_mapping start_time intensity kw
  | UNUSUAL_LOCATION =>
      _generate_unusual_location_fraud fraud_id target_customers account_mapping start_time intensity
  | _ =>
      _generate_generic_fraud fraud_id fraud_type target_customers account_mapping start_time intensity
  end.

End FraudAttack.

(** ** engine.py: the fraud-pattern setup *)

Module Setup.
Import Py PyNum PyFloat PyTime Random Customers Transactions Fraud FraudAttack.
Local Open Scope gen_scope.

(** The fields of [FraudPatternConfig] that the setup reads.  The weight is
    the number the configuration gives; the float that holds it is the
    binary64 value nearest to it. *)
Record FraudPatternConfig := mkPattern {
  pattern_type : string;
  weight : Q;
  pattern_intensity : Q
}.

Record FraudConfig := mkFraudConfig {
  patterns : list FraudPatternConfig;
  attack_window : option (list Z)
}.

(** [timedelta(hours=x)] for a float [x]: the nearest microsecond. *)
Definition timedelta_hours (x : Q) : timedelta :=
  round_half_even (x * 3600000000).

(** [max(1, int(len(self.state.customers) * pattern_config.weight))]: the
    length is converted to a float, the product is the float product, and
    [int] truncates it.  So 10 customers at weight 0.7 give 7 targets (the
    product rounds to 7.0), and 100 customers at weight 0.29 give 28 (the
    product is 28.999999999999996). *)
Definition num_targets (population_size : nat) (w : Q) : Z :=
  Z.max 1 (int_of (float_mul (float_of_int (Z.of_nat population_size))
                             (round_binary64 w))).

(** The start of one attack. *)
Definition draw_attack_time (cfg : FraudConfig) (duration_hours : Z)
    (sim_start_time : datetime) : gen datetime :=
  match attack_window cfg with
  | Some ((_ :: _) as window) =>
      match window with
      | [start_hour; end_hour] =>
          let* h := uniform (inject_Z start_hour) (inject_Z end_hour) in
          ret (sim_start_time + timedelta_hours h)
      | _ => raise (ValueError "not enough or too many values to unpack")
      end
  | _ =>
      let* h := uniform 1 (inject_Z (duration_hours - 1)) in
      ret (sim_start_time + timedelta_hours h)
  end.

(** The inner loop: one attack per target customer, appended to the
    generator's list of profiles. *)
Fixpoint schedule_targets (cfg : FraudConfig) (duration_hours : Z)
    (sim_start_time : datetime) (account_mapping : gmap string (list string))
    (fraud_type : FraudType) (intensity : Q)
    (targets : list CustomerProfile) (profiles : list FraudProfile)
    : gen (list FraudProfile) :=
  match targets with
  | [] => ret profiles
  | customer :: rest =>
      let* attack_time := draw_attack_time cfg duration_hours sim_start_time in
      let* fraud_profile :=
        generate_fraud_attack fraud_type [customer] account_mapping
          attack_time intensity no_kwargs in
      schedule_targets cfg duration_hours sim_start_time account_mapping
        fraud_type intensity rest (profiles ++ [fraud_profile])
  end.

(** The body of the loop over the configured patterns. *)
Definition setup_pattern (cfg : FraudConfig) (duration_hours : Z)
    (sim_start_time : datetime) (customers : list CustomerProfile)
    (account_mapping : gmap string (list string))
    (pattern_config : FraudPatternConfig) (profiles : list FraudProfile)
    : gen (list CustomerProfile * list FraudProfile) :=
  let* fraud_type :=
    match fraud_type_of_value (pattern_type pattern_config) with
    | Ok t => ret t
    | Raise e => raise e
    end in
  let targets := num_targets (length customers) (weight pattern_config) in
  let* target_customers := sample customers targets in
  let* profiles' :=
    schedule_targets cfg duration_hours sim_start_time account_mapping
      fraud_type (pattern_intensity pattern_config) target_customers profiles in
  ret (target_customers, profiles').

Fixpoint setup_patterns (cfg : FraudConfig) (duration_hours : Z)
    (sim_start_time : datetime) (customers : list CustomerProfile)
    (account_mapping : gmap string (list string))
    (todo : list FraudPatternConfig) (profiles : list FraudProfile)
    : gen (list FraudProfile) :=
  match todo with
  | [] => ret profiles
  | pattern_config :: rest =>
      let* step := setup_pattern cfg duration_hours sim_start_time customers
                     account_mapping pattern_config profiles in
      setup_patterns cfg duration_hours sim_start_time customers
        account_mapping rest step.2
  end.

Definition _setup_fraud_patterns (cfg : FraudConfig) (duration_hours : Z)
    (sim_start_time : datetime) (customers : list CustomerProfile)
    (account_mapping : gmap string (list string))
    (profiles : list FraudProfile) : gen (list FraudProfile) :=
  setup_patterns cfg duration_hours sim_start_time customers account_mapping
    (patterns cfg) profiles.

End Setup.

(** What "sampled without replacement" means: the result lists the
    population's elements at pairwise distinct positions. *)
Module SampleSpec.

Definition at_distinct_positions {A} (population res : list A) : Prop :=
  exists positions : list nat,
    NoDup positions /\
    Forall2 (fun i x => population !! i = Some x) positions res.

End SampleSpec.

(** ** Total-correctness assertions on generator computations

    [yields m P]: from every generator state the computation [m] returns
    (it does not raise) and its result satisfies [P]. *)

Module GenLogic.
Import Py Random.

Definition yields {A} (m : gen A) (P : A -> Prop) : Prop :=
  forall g : rng, exists (a : A) (g' : rng), m g = (Ok a, g') /\ P a.

End GenLogic.

(** The number of targets as the specification words it, with [round]. *)
Module SetupSpec.
Import PyNum PyFloat.

Definition num_targets_rounded (population_size : nat) (w : Q) : Z :=
  Z.max 1 (round_half_even
             (float_mul (float_of_int (Z.of_nat population_size))
                        (round_binary64 w))).

(** The attack window is absent, empty, or a pair of hours. *)
Definition window_well_formed (window : option (list Z)) : Prop :=
  match window with
  | None | Some [] | Some [_; _] => True
  | _ => False
  end.

End SetupSpec.

(** Concrete populations, profiles and generators used in the examples. *)
Module FraudSamples.
Import Py PyNum PyTime Random Customers Transactions Fraud FraudAttack Setup Samples.

Definition second_customer : CustomerProfile :=
  {| customer_id := "CUST_000002"; first_name := "Noor"; last_name := "Haddad";
     email := "noor.haddad@example.com"; phone := "555-0101";
     date_of_birth := 9000; address_line1 := "2 Oak Avenue";
     city := "Austin"; state := "TX"; postal_code := "73301";
     country := "US"; income_level := HIGH; risk_profile := MEDIUM_RISK;
     behavior_pattern := SPENDER; life_stage := YOUNG_PROFESSIONAL;
     credit_score := 690; monthly_income := 9000; monthly_expenses := 8000;
     preferred_balance := 9000; primary_channel := "online";
     transaction_frequency := 10; international_activity := true;
     high_risk_tolerance := true; tech_savvy := true;
     fraud_awareness := 5 # 10; social_media_presence := true |}.

Definition two_customers : list CustomerProfile :=
  [sample_customer; second_customer].

Definition two_customer_accounts : gmap string (list string) :=
  {[ "CUST_000001"%string := ["ACC_000001"; "ACC_000002"]%string;
     "CUST_000002"%string := ["ACC_000003"; "ACC_000004"]%string ]}.

(** A generator whose every unit draw is [u]. *)
Definition constant_rng (u : Q) : rng := {| draws := fun _ => u; cursor := 0 |}.

Definition no_window : FraudConfig := {| patterns := []; attack_window := None |}.

Definition card_testing_three_quarters : FraudPatternConfig :=
  {| pattern_type := "card_testing"; weight := 3 # 4; pattern_intensity := 1 |}.

End FraudSamples.

(** ** The suppression of candidates, as the specification words it *)

Module FraudSpec.
Import Py PyNum PyTime Random Transactions Fraud FraudGenerator.

(** A run over the candidates of a profile: for each candidate a unit draw
    is made; when the draw exceeds [rate] the candidate is suppressed and
    nothing else is drawn for it; otherwise its transaction is built, with
    the draws that follow, and emitted. *)
Inductive gated_run (rate : Q) (build : Z -> gen PendingTransaction)
  : list Z -> rng -> list PendingTransaction -> rng -> Prop :=
| gated_done (g : rng) :
    gated_run rate build [] g [] g
| gated_suppressed (i : Z) (rest : list Z) (g g' : rng)
    (out : list PendingTransaction) :
    (rate < peek g)%Q ->
    gated_run rate build rest (advance g) out g' ->
    gated_run rate build (i :: rest) g out g'
| gated_emitted (i : Z) (rest : list Z) (g g1 g' : rng)
    (t : PendingTransaction) (out : list PendingTransaction) :
    (peek g <= rate)%Q ->
    build i (advance g) = (Ok t, g1) ->
    gated_run rate build rest g1 out g' ->
    gated_run rate build (i :: rest) g (t :: out) g'.

(** The three pattern types whose generators consult the success rate. *)
Definition gated_type (t : FraudType) : bool :=
  match t with
  | CARD_TESTING | VELOCITY_ATTACK | LARGE_AMOUNT => true
  | _ => false
  end.

(** The construction of the transaction of candidate [i]. *)
Definition candidate_builder (p : FraudProfile) : Z -> gen PendingTransaction :=
  match fraud_type p with
  | CARD_TESTING => card_testing_transaction p
  | VELOCITY_ATTACK => velocity_transaction p
  | _ => large_amount_transaction p
  end.

(** A profile from which the three generators can build transactions: it
    has target accounts, a non-negative duration, and the metadata entries
    its constructor writes. *)
Definition buildable (p : FraudProfile) : Prop :=
  account_ids p <> [] /\
  0 <= duration_minutes p /\
  is_Some (md_transaction_count (metadata p)) /\
  is_Some (md_amount_range (metadata p)) /\
  match fraud_type p with
  | CARD_TESTING =>
      (exists cs, md_preferred_channels (metadata p) = Some cs /\ cs <> []) /\
      (exists ms, md_merchant_categories (metadata p) = Some ms /\ ms <> [])
  | VELOCITY_ATTACK =>
      exists cs, md_preferred_channels (metadata p) = Some cs /\ cs <> []
  | _ => True
  end.

Definition active (p : FraudProfile) (current_time : datetime) : Prop :=
  start_time p <= current_time <= end_time p.

End FraudSpec.

Module MoreFraudSamples.
Import Py PyNum PyTime Random Customers Transactions Fraud FraudGenerator
       FraudSamples.

(** An unusual-location profile whose success rate is zero. *)
Definition unusual_location_profile : FraudProfile :=
  {| fraud_id := "FRAUD_0_1234"; fraud_type := UNUSUAL_LOCATION;
     customer_ids := ["CUST_000001"%string];
     account_ids := ["ACC_000001"; "ACC_000002"]%string;
     start_time := 0; duration_minutes := 60;
     intensity := 1; success_rate := 0; sophistication := 4 # 10;
     metadata :=
       {| md_transaction_count := Some 2;
          md_amount_range := Some (100, 2000)%Q;
          md_preferred_channels := None; md_merchant_categories := None;
          md_timing := None; md_phases := None;
          md_location_change := None; md_device_change := None;
          md_suspicious_location :=
            Some {| loc_country := "RU"; loc_city := "Moscow";
                    loc_risk_score := 9 # 10 |};
          md_hops := None; md_amounts := None; md_target_amount := None;
          md_individual_max := None |} |}.

(** A card-testing profile with three candidates. *)
Definition card_testing_profile : FraudProfile :=
  {| fraud_id := "FRAUD_0_4321"; fraud_type := CARD_TESTING;
     customer_ids := ["CUST_000001"%string];
     account_ids := ["ACC_000001"; "ACC_000002"]%string;
     start_time := 0; duration_minutes := 10;
     intensity := 1; success_rate := 6 # 10; sophistication := 2 # 10;
     metadata :=
       {| md_transaction_count := Some 3;
          md_amount_range := Some (1 # 100, 5)%Q;
          md_preferred_channels := Some [CARD; ONLINE];
          md_merchant_categories :=
            Some ["small_retail"; "online"; "gas_station"]%string;
          md_timing := None; md_phases := None;
          md_location_change := None; md_device_change := None;
          md_suspicious_location := None; md_hops := None;
          md_amounts := None; md_target_amount := None;
          md_individual_max := None |} |}.

(** A structuring profile for a target of 100,000 under the default cap. *)
Definition large_structuring_profile : FraudProfile :=
  {| fraud_id := "FRAUD_0_5678"; fraud_type := STRUCTURING;
     customer_ids := ["CUST_000001"%string];
     account_ids := ["ACC_000001"%string];
     start_time := 0; duration_minutes := 120;
     intensity := 1; success_rate := 9 # 10; sophistication := 8 # 10;
     metadata :=
       {| md_transaction_count := Some (ceil (100000 / 9999));
          md_amount_range := None;
          md_preferred_channels := None; md_merchant_categories := None;
          md_timing := None; md_phases := None;
          md_location_change := None; md_device_change := None;
          md_suspicious_location := None; md_hops := None;
          md_amounts := None; md_target_amount := Some 100000%Q;
          md_individual_max := Some 9999%Q |} |}.

(** A structuring profile for a target of 25,000. *)
Definition small_structuring_profile : FraudProfile :=
  {| fraud_id := "FRAUD_0_8765"; fraud_type := STRUCTURING;
     customer_ids := ["CUST_000001"%string];
     account_ids := ["ACC_000001"%string];
     start_time := 0; duration_minutes := 120;
     intensity := 1; success_rate := 9 # 10; sophistication := 8 # 10;
     metadata :=
       {| md_transaction_count := Some (ceil (25000 / 9999));
          md_amount_range := None;
          md_preferred_channels := None; md_merchant_categories := None;
          md_timing := None; md_phases := None;
          md_location_change := None; md_device_change := None;
          md_suspicious_location := None; md_hops := None;
          md_amounts := None; md_target_amount := Some 25000%Q;
          md_individual_max := Some 9999%Q |} |}.

End MoreFraudSamples.

(** ** Structuring profiles, as their constructor builds them *)

Module StructuringSpec.
Import Py PyNum PyTime Random Transactions Fraud FraudGenerator.

(** A structuring profile for the target amount [target] under the default
    cap of 9999: the metadata written by [_generate_structuring_attack],
    some target account and a non-negative duration. *)
Definition structuring_profile (p : FraudProfile) (target : Q) : Prop :=
  md_target_amount (metadata p) = Some target /\
  md_individual_max (metadata p) = Some 9999%Q /\
  md_transaction_count (metadata p) = Some (ceil (target / 9999)) /\
  account_ids p <> [] /\
  0 <= duration_minutes p.

(** The number of transactions of a run, as a rational. *)
Definition how_many (ts : list PendingTransaction) : Q :=
  inject_Z (Z.of_nat (length ts)).

(** An amount in whole cents. *)
Definition in_cents (q : Q) : Prop := exists n : Z, (q == inject_Z n / 100)%Q.

(** The amounts account for what was taken off the amount to place: they
    add up to [placed], to within half a cent per transaction (each amount
    is rounded to cents). *)
Definition adds_up_to (ts : list PendingTransaction) (placed : Q) : Prop :=
  (placed - how_many ts * (1 # 200) <= total_amount ts)%Q /\
  (total_amount ts <= placed + how_many ts * (1 # 200))%Q.

(** What holds when the loop, entered with [remaining] and [sequence], is
    left. *)
Definition loop_outcome (count : Z) (remaining : Q) (sequence : Z)
    (run : structuring_run) : Prop :=
  Forall (fun t => (amount t <= 9999)%Q) (produced run) /\
  final_sequence run = sequence + Z.of_nat (length (produced run)) /\
  final_sequence run <= count /\
  (remaining_amount run <= remaining)%Q /\
  (((remaining_amount run <= 0)%Q /\
    (remaining - how_many (produced run) * (1 # 200)
     <= total_amount (produced run))%Q) \/
   ((0 < remaining_amount run)%Q /\
    final_sequence run = count /\
    ((79992 # 10) * how_many (produced run) <= total_amount (produced run))%Q)) /\
  ((0 <= remaining)%Q -> (0 <= remaining_amount run)%Q) /\
  adds_up_to (produced run) (remaining - remaining_amount run) /\
  Forall (fun t => in_cents (amount t)) (produced run).

End StructuringSpec.

(** ** generators/fraud.py: coordinated fraud networks *)

Module FraudNetworks.
Import Py PyNum PyTime Random Customers Transactions Fraud FraudAttack.
Local Open Scope gen_scope.

Record FraudNetwork := mkNetwork {
  network_id : string;
  fraud_profiles : list FraudProfile;
  connection_strength : Q;
  coordination_level : Q
}.

(** [profile.start_time <= current_time <= profile.end_time]. *)
Definition is_active_at (current_time : datetime) (p : FraudProfile) : bool :=
  (start_time p <=? current_time) && (current_time <=? end_time p).

(** [FraudNetwork.get_active_profiles]. *)
Definition get_active_profiles (n : FraudNetwork) (current_time : datetime)
    : list FraudProfile :=
  List.filter (is_active_at current_time) (fraud_profiles n).

(** The two lists [FraudGenerator] keeps. *)
Record tracker := mkTracker {
  _active_fraud_profiles : list FraudProfile;
  _fraud_networks : list FraudNetwork
}.

Definition no_tracking : tracker :=
  {| _active_fraud_profiles := []; _fraud_networks := [] |}.

Definition add_fraud_profile (s : tracker) (p : FraudProfile) : tracker :=
  {| _active_fraud_profiles := _active_fraud_profiles s ++ [p];
     _fraud_networks := _fraud_networks s |}.

Definition add_fraud_network (s : tracker) (n : FraudNetwork) : tracker :=
  {| _active_fraud_profiles := _active_fraud_profiles s;
     _fraud_networks := _fraud_networks s ++ [n] |}.

Definition get_active_fraud_profiles (s : tracker) (current_time : datetime)
    : list FraudProfile :=
  List.filter (is_active_at current_time) (_active_fraud_profiles s)
  ++ concat (map (fun n => get_active_profiles n current_time) (_fraud_networks s)).

(** [estimate_fraud_volume]. *)
Definition estimate_fraud_volume (fraud_rate : Q) (total_transactions : Z)
    (intensity_multiplier : Q) : Z :=
  let base_fraud_count := int_of (inject_Z total_transactions * fraud_rate) in
  int_of (inject_Z base_fraud_count * intensity_multiplier).

(** The slice [l[i:i+3]]. *)
Definition slice3 {A} (l : list A) (i : Z) : list A :=
  take 3 (drop (Z.to_nat i) l).

(** The loop of [_create_mule_network] over [range(mule_count - 1)].  The
    arguments of the call are evaluated before it is made, so the draw of
    [hops] comes first. *)
Fixpoint mule_layers (network_id : string) (mule_customers : list CustomerProfile)
    (account_mapping : gmap string (list string)) (start_time : datetime)
    (indices : list Z) : gen (list FraudProfile) :=
  match indices with
  | [] => ret []
  | i :: rest =>
      let* hops := randint 3 5 in
      let* fraud_profile :=
        _generate_layering_attack
          (network_id +:+ "_LAYER_" +:+ pretty i)
          (slice3 mule_customers i) account_mapping
          (start_time + hours i) (3 # 2)
          {| kw_hops := Some hops; kw_amounts := None;
             kw_threshold := None; kw_split_into := None |} in
      let* others :=
        mule_layers network_id mule_customers account_mapping start_time rest in
      ret (fraud_profile :: others)
  end.

Definition _create_mule_network (network_id : string)
    (customers : list CustomerProfile)
    (account_mapping : gmap string (list string)) (start_time : datetime)
    : gen FraudNetwork :=
  let* mule_count := randint 5 (Z.min 15 (Z.of_nat (length customers))) in
  let* mule_customers := sample customers mule_count in
  let* fraud_profiles :=
    mule_layers network_id mule_customers account_mapping start_time
      (range (mule_count - 1)) in
  ret {| network_id := network_id; fraud_profiles := fraud_profiles;
         connection_strength := 8 # 10; coordination_level := 9 # 10 |}.

(** The loop of [_create_synthetic_identity_ring] over
    [enumerate(synthetic_customers)].  The metadata written here
    ([buildup_complete], [bust_out_amount], [coordination_group]) is never
    read back; the draw of the bust-out amount is still made. *)
Fixpoint synthetic_profiles (network_id : string)
    (account_mapping : gmap string (list string)) (start_time : datetime)
    (i : Z) (customers : list CustomerProfile) : gen (list FraudProfile) :=
  match customers with
  | [] => ret []
  | customer :: rest =>
      let* target_accounts := accounts_of account_mapping (customer_id customer) in
      let* duration_minutes := randint 480 1440 in
      let* bust_out_amount := uniform 10000 100000 in
      let fraud_profile :=
        {| fraud_id := network_id +:+ "_SYNTH_" +:+ pretty i;
           fraud_type := SYNTHETIC_IDENTITY;
           customer_ids := [customer_id customer];
           account_ids := target_accounts;
           start_time := start_time + days i;
           duration_minutes := duration_minutes;
           intensity := 1; success_rate := 8 # 10;
           sophistication := 95 # 100;
           metadata := no_metadata |} in
      let* others :=
        synthetic_profiles network_id account_mapping start_time (i + 1) rest in
      ret (fraud_profile :: others)
  end.

Definition _create_synthetic_identity_ring (network_id : string)
    (customers : list CustomerProfile)
    (account_mapping : gmap string (list string)) (start_time : datetime)
    : gen FraudNetwork :=
  let* synthetic_customers :=
    sample customers (Z.min 8 (Z.of_nat (length customers))) in
  let* fraud_profiles :=
    synthetic_profiles network_id account_mapping start_time 0
      synthetic_customers in
  ret {| network_id := network_id; fraud_profiles := fraud_profiles;
         connection_strength := 6 # 10; coordination_level := 8 # 10 |}.

(** [fraud_profile.fraud_id = ...]. *)
Definition with_fraud_id (p : FraudProfile) (fid : string) : FraudProfile :=
  {| fraud_id := fid; fraud_type := fraud_type p;
     customer_ids := customer_ids p; account_ids := account_ids p;
     start_time := Fraud.start_time p; duration_minutes := duration_minutes p;
     intensity := intensity p; success_rate := success_rate p;
     sophistication := sophistication p; metadata := metadata p |}.

(** The loop of [_create_generic_network]. *)
Fixpoint coordinated_profiles (network_id : string)
    (account_mapping : gmap string (list string)) (start_time : datetime)
    (i : Z) (customers : list CustomerProfile) : gen (list FraudProfile) :=
  match customers with
  | [] => ret []
  | customer :: rest =>
      let* fraud_type := choice [VELOCITY_ATTACK; LARGE_AMOUNT; ACCOUNT_TAKEOVER] in
      let* fraud_profile :=
        generate_fraud_attack fraud_type [customer] account_mapping
          (start_time + minutes (i * 30)) (12 # 10) no_kwargs in
      let fraud_profile :=
        with_fraud_id fraud_profile (network_id +:+ "_COORD_" +:+ pretty i) in
      let* others :=
        coordinated_profiles network_id account_mapping start_time (i + 1) rest in
      ret (fraud_profile :: others)
  end.

Definition _create_generic_network (network_id : string)
    (customers : list CustomerProfile)
    (account_mapping : gmap string (list string)) (start_time : datetime)
    : gen FraudNetwork :=
  let* network_customers :=
    sample customers (Z.min 6 (Z.of_nat (length customers))) in
  let* fraud_profiles :=
    coordinated_profiles network_id account_mapping start_time 0
      network_customers in
  ret {| network_id := network_id; fraud_profiles := fraud_profiles;
         connection_strength := 5 # 10; coordination_level := 7 # 10 |}.

Definition create_fraud_network (network_type : string)
    (customers : list CustomerProfile)
    (account_mapping : gmap string (list string)) (start_time : datetime)
    : gen FraudNetwork :=
  let* suffix := randint 100 999 in
  let network_id :=
    ("NET_" +:+ pretty (epoch_seconds start_time) +:+ "_" +:+ pretty suffix)%string in
  if String.eqb network_type "mule_network" then
    _create_mule_network network_id customers account_mapping start_time
  else if String.eqb network_type "synthetic_identity_ring" then
    _create_synthetic_identity_ring network_id customers account_mapping start_time
  else
    _create_generic_network network_id customers account_mapping start_time.

End FraudNetworks.

(** ** scenarios.py: the built-in scenarios

    [BUILTIN_SCENARIOS] is a module-level dictionary of dictionaries, and
    [get_builtin_scenario] parses a shallow copy of one of its entries.  The
    copy shares the inner dictionary of the fraud settings with the table,
    and [_parse_scenario_data] stores the list of parsed pattern objects
    back under its key ["patterns"].  The table is therefore part of the
    state: for every scenario it tells whether the patterns are still the
    dictionaries of the source text or the objects left by an earlier call.

    An entry is given by the configuration that [_parse_scenario_data] turns
    it into: the fields the engine's setup reads, with the defaults of the
    configuration classes where an entry is silent (two accounts per
    customer, intensity 1.0 for a fraud pattern). *)

Module Scenarios.
Import Py Setup.

Record scenario := mkScenario {
  scenario_title : string;
  duration_hours : Z;
  speed_multiplier : Q;
  customers : Z;
  accounts_per_customer : Z;
  initial_balance : Q;
  fraud_rate : Q;
  fraud : FraudConfig
}.

Definition pattern (type : string) (w : Q) : FraudPatternConfig :=
  {| pattern_type := type; weight := w; pattern_intensity := 1 |}.

(** The entries of the table as the source text writes them. *)
Definition written_scenarios : list (string * scenario) :=
  [ ("normal_day",
     {| scenario_title := "Normal Business Day";
        duration_hours := 24; speed_multiplier := 100; customers := 500;
        accounts_per_customer := 2; initial_balance := 5000;
        fraud_rate := 1 # 1000;
        fraud := {| patterns := [ pattern "card_testing" (3 # 10);
                                  pattern "velocity_attack" (2 # 10);
                                  pattern "large_amount" (3 # 10);
                                  pattern "unusual_location" (2 # 10) ];
                    attack_window := None |} |});
    ("fraud_attack",
     {| scenario_title := "Coordinated Fraud Attack";
        duration_hours := 4; speed_multiplier := 50; customers := 200;
        accounts_per_customer := 2; initial_balance := 10000;
        fraud_rate := 15 # 100;
        fraud := {| patterns := [ pattern "card_testing" (6 # 10);
                                  pattern "account_takeover" (4 # 10) ];
                    attack_window := Some [2; 3] |} |});
    ("peak_load",
     {| scenario_title := "Black Friday Peak Load";
        duration_hours := 8; speed_multiplier := 200; customers := 1000;
        accounts_per_customer := 3; initial_balance := 15000;
        fraud_rate := 5 # 1000;
        fraud := {| patterns := [ pattern "card_testing" (4 # 10);
                                  pattern "online_fraud" (6 # 10) ];
                    attack_window := None |} |});
    ("mule_network",
     {| scenario_title := "Money Mule Network";
        duration_hours := 72; speed_multiplier := 500; customers := 50;
        accounts_per_customer := 2; initial_balance := 25000;
        fraud_rate := 3 # 10;
        fraud := {| patterns := [ pattern "layering" (6 # 10);
                                  pattern "structuring" (4 # 10) ];
                    attack_window := None |} |});
    ("onboarding",
     {| scenario_title := "Customer Onboarding Wave";
        duration_hours := 48; speed_multiplier := 200; customers := 100;
        accounts_per_customer := 1; initial_balance := 1000;
        fraud_rate := 5 # 100;
        fraud := {| patterns := [ pattern "synthetic_identity" (6 # 10);
                                  pattern "identity_theft" (4 # 10) ];
                    attack_window := None |} |});
    ("regression_test",
     {| scenario_title := "Regression Test Suite";
        duration_hours := 12; speed_multiplier := 300; customers := 100;
        accounts_per_customer := 4; initial_balance := 20000;
        fraud_rate := 2 # 100;
        fraud := {| patterns := [ pattern "card_testing" (15 # 100);
                                  pattern "velocity_attack" (15 # 100);
                                  pattern "large_amount" (15 # 100);
                                  pattern "unusual_location" (15 # 100);
                                  pattern "account_takeover" (10 # 100);
                                  pattern "layering" (10 # 100);
                                  pattern "structuring" (10 # 100);
                                  pattern "synthetic_identity" (10 # 100) ];
                    attack_window := None |} |}) ]%string.

(** What the key ["patterns"] of a scenario's fraud settings holds. *)
Inductive patterns_held := Dictionaries | PatternObjects.

(** The table: every entry with the state of its pattern list. *)
Definition scenario_table : Type := list (string * (scenario * patterns_held)).

(** The table when the module has just been imported. *)
Definition BUILTIN_SCENARIOS : scenario_table :=
  map (fun entry => (entry.1, (entry.2, Dictionaries))) written_scenarios.

Fixpoint lookup_scenario (name : string) (table : scenario_table)
    : option (scenario * patterns_held) :=
  match table with
  | [] => None
  | (key, s) :: rest =>
      if String.eqb key name then Some s else lookup_scenario name rest
  end.

(** [fraud_data['patterns'] = patterns] on the inner dictionary shared with
    the table. *)
Fixpoint store_pattern_objects (name : string) (table : scenario_table)
    : scenario_table :=
  match table with
  | [] => []
  | (key, (s, held)) :: rest =>
      if String.eqb key name then (key, (s, PatternObjects)) :: rest
      else (key, (s, held)) :: store_pattern_objects name rest
  end.

(** [", ".join(BUILTIN_SCENARIOS.keys())]. *)
Fixpoint join_names (names : list string) : string :=
  match names with
  | [] => ""
  | [name] => name
  | name :: rest => name +:+ ", " +:+ join_names rest
  end.

(** [ScenarioLoader._parse_scenario_data] on the copy of an entry.
    Every pattern [p] is unpacked into the keyword arguments of
    [FraudPatternConfig], which needs a mapping: the call raises [TypeError]
    when [p] is a pattern object (the message is given without the name of
    the callee).  The list is stored back only after every pattern has been
    parsed. *)
Definition _parse_scenario_data (name : string) (s : scenario)
    (held : patterns_held) (table : scenario_table)
    : result scenario * scenario_table :=
  match held, patterns (fraud s) with
  | PatternObjects, _ :: _ =>
      (Raise (TypeError "argument after ** must be a mapping, not FraudPatternConfig"),
       table)
  | _, _ => (Ok s, store_pattern_objects name table)
  end.

Definition get_builtin_scenario (name : string) (table : scenario_table)
    : result scenario * scenario_table :=
  match lookup_scenario name table with
  | Some (s, held) => _parse_scenario_data name s held table
  | None =>
      (Raise (ValueError ("Unknown built-in scenario: " +:+ name
                          +:+ ". Available: "
                          +:+ join_names (map fst table))),
       table)
  end.

(** Loading scenarios one after the other, whatever each call returns or
    raises. *)
Definition load_scenarios (names : list string) (table : scenario_table)
    : scenario_table :=
  fold_left (fun t name => (get_builtin_scenario name t).2) names table.

End Scenarios.
(** What the loops over [enumerate(customers)] produce: the [i]-th profile
    is related to the index [i] and to the [i]-th customer. *)
Module FraudNetworkSpec.
Import Py PyTime Customers Fraud FraudNetworks.

Fixpoint numbered {A B} (P : Z -> A -> B -> Prop) (i : Z)
    (xs : list A) (ys : list B) : Prop :=
  match xs, ys with
  | [], [] => True
  | x :: xs', y :: ys' => P i x y /\ numbered P (i + 1) xs' ys'
  | _, _ => False
  end.

(** The [i]-th member of a synthetic-identity ring. *)
Definition ring_member (network_id : string)
    (account_mapping : gmap string (list string)) (start : datetime)
    (i : Z) (c : CustomerProfile) (p : FraudProfile) : Prop :=
  fraud_id p = (network_id +:+ "_SYNTH_" +:+ pretty i)%string /\
  fraud_type p = SYNTHETIC_IDENTITY /\
  customer_ids p = [customer_id c] /\
  account_mapping !! customer_id c = Some (account_ids p) /\
  start_time p = start + days i /\
  480 <= duration_minutes p <= 1440.

(** The [i]-th member of a generic coordinated network. *)
Definition coordinated_member (network_id : string) (i : Z)
    (c : CustomerProfile) (p : FraudProfile) : Prop :=
  fraud_id p = (network_id +:+ "_COORD_" +:+ pretty i)%string /\
  (fraud_type p = VELOCITY_ATTACK \/ fraud_type p = LARGE_AMOUNT \/
   fraud_type p = ACCOUNT_TAKEOVER) /\
  customer_ids p = [customer_id c].

End FraudNetworkSpec.

Module TakeoverSamples.
Import Py PyNum PyTime Random Customers Transactions Fraud.

(** An account-takeover profile as [_generate_account_takeover] builds it,
    lasting four hours. *)
Definition account_takeover_profile : FraudProfile :=
  {| fraud_id := "FRAUD_0_2468"; fraud_type := ACCOUNT_TAKEOVER;
     customer_ids := ["CUST_000001"%string];
     account_ids := ["ACC_000001"; "ACC_000002"]%string;
     start_time := 0; duration_minutes := 240;
     intensity := 1; success_rate := 5 # 10; sophistication := 7 # 10;
     metadata :=
       {| md_transaction_count := None; md_amount_range := None;
          md_preferred_channels := None; md_merchant_categories := None;
          md_timing := None;
          md_phases := Some account_takeover_phases;
          md_location_change := Some true; md_device_change := Some true;
          md_suspicious_location :=
            Some {| loc_country := "NG"; loc_city := "Lagos";
                    loc_risk_score := 8 # 10 |};
          md_hops := None; md_amounts := None; md_target_amount := None;
          md_individual_max := None |} |}.

End TakeoverSamples.
(** ** connectors/bastion.py: the mock connector behind the public methods

    [MockBastionConnector] inherits the public methods of [BastionConnector]
    and replaces [_make_request].  The state is the part of [self.stats] the
    methods update; the latency totals, which only accumulate wall-clock
    readings, are left out. *)

Module BastionConnector.
Import Py PyNum PyTime Random BastionMock.
Local Open Scope gen_scope.

Record mock_state := mkMockState {
  scoring : scorer_stats;
  requests_sent : Z;
  requests_successful : Z;
  requests_failed : Z
}.

(** The statistics of a new connector, also restored by [reset_stats]. *)
Definition reset_stats : mock_state :=
  {| scoring :=
       {| transactions_scored := 0;
          decisions := {[ "approve"%string := 0; "review"%string := 0;
                          "decline"%string := 0 ]};
          avg_risk_score := 0 |};
     requests_sent := 0; requests_successful := 0; requests_failed := 0 |}.

(** The head of the mock's [_make_request]: the simulated latency, drawn for
    [asyncio.sleep], and the two counters, advanced before the request is
    routed. *)
Definition accept_request (endpoint : string) (st : mock_state) : gen mock_state :=
  let* latency :=
    if String.eqb endpoint "/score" then uniform (1 # 100) (1 # 10)
    else uniform (5 # 1000) (2 # 100) in
  ret {| scoring := scoring st;
         requests_sent := requests_sent st + 1;
         requests_successful := requests_successful st + 1;
         requests_failed := requests_failed st |}.

Definition with_scoring (st : mock_state) (s : scorer_stats) : mock_state :=
  {| scoring := s; requests_sent := requests_sent st;
     requests_successful := requests_successful st;
     requests_failed := requests_failed st |}.

(** The mock's [_make_request("POST", "/score", data)]. *)
Definition post_score (data : score_request) (current_hour : Z) (now : datetime)
    (st : mock_state) : gen (score_response * mock_state) :=
  let* st := accept_request "/score" st in
  let* scored := _mock_score_transaction data current_hour now (scoring st) in
  ret (scored.1, with_scoring st scored.2).

(** The bookkeeping the public methods do for one result: the decision
    counter is advanced only when the action is one of its keys. *)
Definition count_decision (s : scorer_stats) (action : string) : scorer_stats :=
  let key := lower action in
  {| transactions_scored := transactions_scored s;
     decisions :=
       match decisions s !! key with
       | Some n => <[key := n + 1]> (decisions s)
       | None => decisions s
       end;
     avg_risk_score := avg_risk_score s |}.

Definition fold_risk_score (s : scorer_stats) (risk_score : Q) : scorer_stats :=
  let current_avg := avg_risk_score s in
  let count := transactions_scored s in
  {| transactions_scored := transactions_scored s;
     decisions := decisions s;
     avg_risk_score :=
       ((current_avg * inject_Z (count - 1) + risk_score) / inject_Z count)%Q |}.

Definition scored_more (s : scorer_stats) (n : Z) : scorer_stats :=
  {| transactions_scored := transactions_scored s + n;
     decisions := decisions s; avg_risk_score := avg_risk_score s |}.

(** [score_transaction], run against the mock.  The request always carries
    the six entries the scorer reads; [metadata or {}] replaces a missing
    dictionary by an empty one. *)
Definition score_transaction (transaction_id cif_id : string) (amount : Q)
    (currency merchant_id merchant_category channel country : string)
    (metadata : option (gmap string pyvalue))
    (current_hour : Z) (now : datetime) (st : mock_state)
    : gen (score_response * mock_state) :=
  let data :=
    {| BastionMock.transaction_id := transaction_id;
       BastionMock.amount := amount;
       BastionMock.merchant_category := Some merchant_category;
       BastionMock.channel := Some channel;
       BastionMock.country := Some country;
       BastionMock.metadata := Some (default ∅ metadata) |} in
  let* answered := post_score data current_hour now st in
  let '(result, st) := answered in
  let s := scored_more (scoring st) 1 in
  let s := count_decision s (r_action result) in
  let s := fold_risk_score s (r_risk_score result) in
  ret (result, with_scoring st s).

(** [_mock_score_batch]: the transactions are scored one after the other;
    each comes with the two wall-clock readings made while it is scored. *)
Fixpoint _mock_score_batch (transactions : list (score_request * Z * datetime))
    (s : scorer_stats) : gen (list score_response * scorer_stats) :=
  match transactions with
  | [] => ret ([], s)
  | (txn, current_hour, now) :: rest =>
      let* scored := _mock_score_transaction txn current_hour now s in
      let* others := _mock_score_batch rest scored.2 in
      ret (scored.1 :: others.1, others.2)
  end.

(** The loop of [score_batch] over the results. *)
Definition note_result (s : scorer_stats) (result : score_response) : scorer_stats :=
  fold_risk_score (count_decision s (r_action result)) (r_risk_score result).

(** [score_batch], run against the mock. *)
Definition score_batch (transactions : list (score_request * Z * datetime))
    (st : mock_state) : gen (list score_response * mock_state) :=
  let* st := accept_request "/score/batch" st in
  let* answered := _mock_score_batch transactions (scoring st) in
  let '(results, s) := answered in
  let s := scored_more s (Z.of_nat (length transactions)) in
  let s := fold_left note_result results s in
  ret (results, with_scoring st s).

(** [get_connector_stats]: the entries computed from the counters. *)
Record connector_stats := mkConnectorStats {
  total_requests : Z;
  successful_requests : Z;
  failed_requests : Z;
  stat_success_rate : Q;
  stat_transactions_scored : Z;
  average_risk_score : Q;
  stat_decisions : gmap string Z
}.

Definition get_connector_stats (st : mock_state) : connector_stats :=
  let total_requests := requests_sent st in
  {| total_requests := total_requests;
     successful_requests := requests_successful st;
     failed_requests := requests_failed st;
     stat_success_rate :=
       if 0 <? total_requests
       then (inject_Z (requests_successful st) / inject_Z total_requests)%Q
       else 0;
     stat_transactions_scored := transactions_scored (scoring st);
     average_risk_score := avg_risk_score (scoring st);
     stat_decisions := decisions (scoring st) |}.

End BastionConnector.

(** ** connectors: what a request does to the connector's accounts *)

Module HttpSpec.
Import Py Http.

(** The seconds spent in back-off sleeps. *)
Definition total_seconds_slept (sleeps : list Z) : Z := foldr Z.add 0 sleeps.

(** How the end of a request is counted: a returned body, which is a
    decoded object, as one successful request; the decoding error of a 200
    or 201 whose body is not JSON as one successful request too, although
    the call raises; an API or connection error as at most one failed
    request and never as a successful one.  Nothing else is raised. *)
Definition counted_as (r : result body) (c c' : connector) : Prop :=
  match r with
  | Ok content =>
      (exists detail : option string, content = JsonObject detail) /\
      requests_successful c' = requests_successful c + 1 /\
      requests_failed c' = requests_failed c
  | Raise (JSONDecodeError _) =>
      requests_successful c' = requests_successful c + 1 /\
      requests_failed c' = requests_failed c
  | Raise (APIError _ _ _) | Raise (ConnectionError _ _) =>
      requests_successful c' = requests_successful c /\
      requests_failed c <= requests_failed c' <= requests_failed c + 1
  | Raise _ => False
  end.

(** What one run of the retry loop does to the connector, whatever the
    transport answers.  The attempts still to make are [k, k+1, ...], the
    last of them being attempt number [max_retries]. *)
Record loop_effect (k : nat) (n : nat) (c : connector) (out : result body * connector)
    : Prop := mkEffect {
  eff_sent : requests_sent out.2 = requests_sent c;
  eff_calls : (calls c <= calls out.2 <= calls c + n)%nat;
  eff_called : (0 < n)%nat -> (calls c < calls out.2)%nat;
  eff_slept :
    exists extra : list Z,
      slept out.2 = slept c ++ extra /\
      Forall (fun s => 1 <= s) extra /\
      total_seconds_slept extra <= Z.max 0 (2 ^ max_retries c - 2 ^ Z.of_nat k);
  eff_counts : counted_as out.1 c out.2
}.

End HttpSpec.

(** ** String methods used by the mock dispatchers *)

Module PyStr.

(** [s.startswith(prefix)]. *)
Fixpoint startswith (s prefix : string) {struct prefix} : bool :=
  match prefix with
  | EmptyString => true
  | String a prefix' =>
      match s with
      | String b s' => Ascii.eqb a b && startswith s' prefix'
      | EmptyString => false
      end
  end.

(** [s.endswith(suffix)]. *)
Definition endswith (s suffix : string) : bool :=
  startswith (String.rev s) (String.rev suffix).

(** [s.split(sep)] for a separator of one character. *)
Fixpoint split_on (sep : ascii) (s : string) : list string :=
  match s with
  | EmptyString => [EmptyString]
  | String ch rest =>
      if Ascii.eqb ch sep then EmptyString :: split_on sep rest
      else
        match split_on sep rest with
        | segment :: segments => String ch segment :: segments
        | [] => [String ch EmptyString]
        end
  end.

(** [l[-k]] for [k >= 1]. *)
Definition from_end {A} (l : list A) (k : nat) : option A :=
  rev l !! (k - 1)%nat.

End PyStr.

Module PyStrSpec.

(** The segments of a split end in [t], after at least one other segment. *)
Definition ends_in (segments : list string) (t : string) : Prop :=
  exists (first : string) (middle : list string),
    segments = first :: middle ++ [t].

End PyStrSpec.

(** ** connectors/nexum.py: the mock core-banking connector behind the
       public methods *)

Module NexumConnector.
Import Py PyNum PyTime PyFormat PyStr Random NexumMock.

(** An entry of [self.customers]. *)
Record customer_record := mkCustomerRecord {
  k_id : string;
  k_first_name : string;
  k_last_name : string;
  k_email : string;
  k_phone : option string;
  k_kyc_status : string;
  k_kyc_tier : string;
  k_is_active : bool;
  k_created_at : datetime
}.

(** The mock connector: the stores of [MockNexumConnector] and the request
    counters of [self.stats]. *)
Record mock_connector := mkMockConnector {
  bank : mock;
  customers : gmap string customer_record;
  requests_sent : Z;
  requests_successful : Z;
  requests_failed : Z
}.

(** [MockNexumConnector.__init__]. *)
Definition new_connector : mock_connector :=
  {| bank := init; customers := ∅;
     requests_sent := 0; requests_successful := 0; requests_failed := 0 |}.

Definition with_bank (c : mock_connector) (m : mock) : mock_connector :=
  {| bank := m; customers := customers c;
     requests_sent := requests_sent c;
     requests_successful := requests_successful c;
     requests_failed := requests_failed c |}.

Record customer_request := mkCustomerRequest {
  q_first_name : string;
  q_last_name : string;
  q_email : string;
  q_phone : option string;
  q_date_of_birth : option string;
  q_address : option (list (string * string))
}.

(** The body of a transfer request; the engine passes the optional account
    ids of the transaction on as they are. *)
Record transfer_request := mkTransferRequest {
  t_from_account_id : option string;
  t_to_account_id : option string;
  t_amount : Q;
  t_description : string;
  t_channel : string;
  t_reference : option string
}.

(** The [data] argument of [_make_request], as the public methods build it. *)
Inductive payload :=
| NoData
| CustomerData (data : customer_request)
| AccountData (data : account_request)
| MovementData (data : movement)
| TransferData (data : transfer_request).

Inductive response :=
| Health (timestamp : datetime)
| Unhealthy (error : exn)
| CustomerCreated (customer_id : string)
| CustomerInfo (info : customer_record)
| AccountCreated (account_id account_number : string)
| AccountInfo (info : account)
| CustomerAccounts (found : list account)
| Balance (book available : option Q)
| Moved (outcome : movement_response)
| MockResponse (method endpoint : string) (data : payload).

(** Reading a key that the request body does not have: subscripting [None]
    is a [TypeError], a missing key of a dictionary a [KeyError]. *)
Definition missing (data : payload) (key : string) : exn :=
  match data with
  | NoData => TypeError "'NoneType' object is not subscriptable"
  | _ => KeyError key
  end.

(** A request: it reads the clock and the random module, changes the
    connector and returns or raises; what it did to the connector before
    raising stays done. *)
Definition request (A : Type) : Type :=
  mock_connector -> rng -> result A * mock_connector * rng.

Definition with_customer_counter (m : mock) (n : Z) : mock :=
  {| accounts := accounts m; next_customer_id := n;
     next_account_id := next_account_id m;
     next_transaction_id := next_transaction_id m |}.

Definition with_account_counter (m : mock) (n : Z) : mock :=
  {| accounts := accounts m; next_customer_id := next_customer_id m;
     next_account_id := n;
     next_transaction_id := next_transaction_id m |}.

Definition with_transaction_counter (m : mock) (n : Z) : mock :=
  {| accounts := accounts m; next_customer_id := next_customer_id m;
     next_account_id := next_account_id m;
     next_transaction_id := n |}.

(** [_mock_create_customer]: the counter is advanced before the body of the
    request is read. *)
Definition _mock_create_customer (data : payload) (now : datetime)
    (c : mock_connector) : result response * mock_connector :=
  let customer_id := ("CUST_" +:+ format_06d (next_customer_id (bank c)))%string in
  let c1 :=
    with_bank c (with_customer_counter (bank c) (next_customer_id (bank c) + 1)) in
  match data with
  | CustomerData d =>
      let record := {| k_id := customer_id;
                       k_first_name := q_first_name d;
                       k_last_name := q_last_name d;
                       k_email := q_email d;
                       k_phone := q_phone d;
                       k_kyc_status := "pending";
                       k_kyc_tier := "tier_0";
                       k_is_active := true;
                       k_created_at := now |} in
      (Ok (CustomerCreated customer_id),
       {| bank := bank c1;
          customers := <[customer_id := record]> (customers c1);
          requests_sent := requests_sent c1;
          requests_successful := requests_successful c1;
          requests_failed := requests_failed c1 |})
  | _ => (Raise (missing data "first_name"), c1)
  end.

Definition _mock_get_customer (customer_id : string) (c : mock_connector)
    : result response :=
  match customers c !! customer_id with
  | None => Raise (APIError Nexum 404 "Customer not found")
  | Some info => Ok (CustomerInfo info)
  end.

(** [_mock_get_customer_accounts]: the accounts of the customer.  They are
    listed in the order of [map_to_list], which need not be the insertion
    order of the Python dictionary. *)
Definition _mock_get_customer_accounts (customer_id : string)
    (c : mock_connector) : response :=
  CustomerAccounts
    (filter (fun a => NexumMock.customer_id a = customer_id)
            (map snd (map_to_list (accounts (bank c))))).

(** [_mock_transfer].  The balance of the destination is read after the
    source has been debited. *)
Definition _mock_transfer (data : transfer_request) (m : mock)
    : movement_response * mock :=
  let transaction_id := ("TXN_" +:+ format_06d (next_transaction_id m))%string in
  let next := next_transaction_id m + 1 in
  let from_account_id := t_from_account_id data in
  let to_account_id := t_to_account_id data in
  let amount := t_amount data in
  let known (account_id : option string) : bool :=
    match account_id with
    | Some i => bool_decide (is_Some (accounts m !! i))
    | None => false
    end in
  let is_none (account_id : option string) : bool :=
    match account_id with Some _ => false | None => true end in
  let '(accounts', state) :=
    if known from_account_id && (known to_account_id || is_none to_account_id) then
      match from_account_id ≫= (fun i => pair i <$> accounts m !! i) with
      | Some (from_id, from_account) =>
          let from_balance := book_balance from_account in
          if Qleb amount from_balance then
            let new_from_balance := (from_balance - amount)%Q in
            let debited :=
              <[from_id := with_balance from_account new_from_balance]>
                (accounts m) in
            let credited :=
              match to_account_id with
              | Some to_id =>
                  if negb (String.eqb to_id "") then
                    match debited !! to_id with
                    | Some to_account =>
                        let to_balance := book_balance to_account in
                        let new_to_balance := (to_balance + amount)%Q in
                        <[to_id := with_balance to_account new_to_balance]>
                          debited
                    | None => debited
                    end
                  else debited
              | None => debited
              end in
            (credited, "processed"%string)
          else (accounts m, "declined"%string)
      | None => (accounts m, "declined"%string)
      end
    else (accounts m, "declined"%string) in
  ({| transaction_id := transaction_id;
      r_state := state;
      message := ("Transfer " +:+ state)%string |},
   {| accounts := accounts';
      next_customer_id := next_customer_id m;
      next_account_id := next_account_id m;
      next_transaction_id := next |}).

(** The handlers of requests whose body is not the one they read: they
    raise at the first key they look up, after the statements before it. *)
Definition create_account_request (data : payload) (now : datetime)
    (c : mock_connector) : rng -> result response * mock_connector * rng :=
  fun g =>
    match data with
    | AccountData d =>
        match _mock_create_account d now (bank c) g with
        | (Ok (account_id, account_number, m'), g') =>
            (Ok (AccountCreated account_id account_number), with_bank c m', g')
        | (Raise e, g') => (Raise e, c, g')
        end
    | _ =>
        match randint 100000000 999999999 g with
        | (_, g') =>
            (Raise (missing data "customer_id"),
             with_bank c (with_account_counter (bank c)
                            (next_account_id (bank c) + 1)), g')
        end
    end.

Definition movement_request
    (handler : movement -> mock -> movement_response * mock)
    (data : payload) (c : mock_connector) : result response * mock_connector :=
  match data with
  | MovementData d =>
      let '(outcome, m') := handler d (bank c) in
      (Ok (Moved outcome), with_bank c m')
  | _ =>
      (Raise (missing data "account_id"),
       with_bank c (with_transaction_counter (bank c)
                      (next_transaction_id (bank c) + 1)))
  end.

Definition transfer_request_of (data : payload) (c : mock_connector)
    : result response * mock_connector :=
  match data with
  | TransferData d =>
      let '(outcome, m') := _mock_transfer d (bank c) in
      (Ok (Moved outcome), with_bank c m')
  | _ =>
      (Raise (missing data "from_account_id"),
       with_bank c (with_transaction_counter (bank c)
                      (next_transaction_id (bank c) + 1)))
  end.

(** [endpoint.split("/")[-k]]. *)
Definition segment_from_end (endpoint : string) (k : nat) : result string :=
  match from_end (split_on "/" endpoint) k with
  | Some segment => Ok segment
  | None => Raise IndexError
  end.

Definition counted (c : mock_connector) : mock_connector :=
  {| bank := bank c; customers := customers c;
     requests_sent := requests_sent c + 1;
     requests_successful := requests_successful c + 1;
     requests_failed := requests_failed c |}.

(** [MockNexumConnector._make_request]: one draw for the simulated latency,
    the two counters, and the routes in the order of the source. *)
Definition _make_request (method endpoint : string) (data : payload)
    (now : datetime) : request response :=
  fun c g =>
    let '(_, g) := uniform 0 (5 # 100) g in
    let c := counted c in
    if String.eqb endpoint "/health" then (Ok (Health now), c, g)
    else if String.eqb endpoint "/customers" && String.eqb method "POST" then
      let '(r, c') := _mock_create_customer data now c in (r, c', g)
    else if startswith endpoint "/customers/" && String.eqb method "GET" then
      match segment_from_end endpoint 1 with
      | Ok customer_id => (_mock_get_customer customer_id c, c, g)
      | Raise e => (Raise e, c, g)
      end
    else if String.eqb endpoint "/accounts" && String.eqb method "POST" then
      create_account_request data now c g
    else if startswith endpoint "/accounts/"
            && negb (endswith endpoint "/transactions") then
      match segment_from_end endpoint 1 with
      | Ok account_id =>
          match _mock_get_account account_id (bank c) with
          | Ok info => (Ok (AccountInfo info), c, g)
          | Raise e => (Raise e, c, g)
          end
      | Raise e => (Raise e, c, g)
      end
    else if startswith endpoint "/customers/" && endswith endpoint "/accounts" then
      match segment_from_end endpoint 2 with
      | Ok customer_id => (Ok (_mock_get_customer_accounts customer_id c), c, g)
      | Raise e => (Raise e, c, g)
      end
    else if String.eqb endpoint "/transactions/deposit" then
      let '(r, c') := movement_request _mock_deposit data c in (r, c', g)
    else if String.eqb endpoint "/transactions/withdraw" then
      let '(r, c') := movement_request _mock_withdraw data c in (r, c', g)
    else if String.eqb endpoint "/transactions/transfer" then
      let '(r, c') := transfer_request_of data c in (r, c', g)
    else (Ok (MockResponse method endpoint data), c, g).

(** [if phone:] and the like: an empty string is not sent. *)
Definition if_given (s : option string) : option string :=
  match s with
  | Some text => if String.eqb text "" then None else Some text
  | None => None
  end.

(** The public methods. *)
Definition health_check (now : datetime) : request response :=
  fun c g =>
    match _make_request "GET" "/health" NoData now c g with
    | (Raise e, c', g') => (Ok (Unhealthy e), c', g')
    | out => out
    end.

Definition create_customer (first_name last_name email : string)
    (phone date_of_birth : option string)
    (address : option (list (string * string)))
    (now : datetime) : request response :=
  _make_request "POST" "/customers"
    (CustomerData {| q_first_name := first_name; q_last_name := last_name;
                     q_email := email; q_phone := if_given phone;
                     q_date_of_birth := if_given date_of_birth;
                     q_address := match address with
                                  | Some [] | None => None
                                  | Some entries => Some entries
                                  end |}) now.

Definition get_customer (customer_id : string) (now : datetime) : request response :=
  _make_request "GET" ("/customers/" +:+ customer_id) NoData now.

Definition create_account (customer_id product_type currency name : string)
    (now : datetime) : request response :=
  _make_request "POST" "/accounts"
    (AccountData {| a_customer_id := customer_id; a_product_type := product_type;
                    a_currency := currency; a_name := name |}) now.

Definition get_account (account_id : string) (now : datetime) : request response :=
  _make_request "GET" ("/accounts/" +:+ account_id) NoData now.

Definition get_customer_accounts (customer_id : string) (now : datetime)
    : request response :=
  _make_request "GET" ("/customers/" +:+ customer_id +:+ "/accounts") NoData now.

(** [get_account_balance]: [account_info.get(...)] on whatever
    [get_account] returned. *)
Definition get_account_balance (account_id : string) (now : datetime)
    : request response :=
  fun c g =>
    match get_account account_id now c g with
    | (Ok (AccountInfo info), c', g') =>
        (Ok (Balance (Some (book_balance info)) (Some (available_balance info))),
         c', g')
    | (Ok _, c', g') => (Ok (Balance None None), c', g')
    | (Raise e, c', g') => (Raise e, c', g')
    end.

Definition deposit (account_id : string) (amount : Q)
    (description channel : string) (reference : option string)
    (now : datetime) : request response :=
  _make_request "POST" "/transactions/deposit"
    (MovementData {| m_account_id := account_id; m_amount := amount;
                     m_description := description; m_channel := channel;
                     m_reference := if_given reference |}) now.

Definition withdraw (account_id : string) (amount : Q)
    (description channel : string) (reference : option string)
    (now : datetime) : request response :=
  _make_request "POST" "/transactions/withdraw"
    (MovementData {| m_account_id := account_id; m_amount := amount;
                     m_description := description; m_channel := channel;
                     m_reference := if_given reference |}) now.

Definition transfer (from_account_id to_account_id : option string) (amount : Q)
    (description channel : string) (reference : option string)
    (now : datetime) : request response :=
  _make_request "POST" "/transactions/transfer"
    (TransferData {| t_from_account_id := from_account_id;
                     t_to_account_id := to_account_id; t_amount := amount;
                     t_description := description; t_channel := channel;
                     t_reference := if_given reference |}) now.

(** The request counters as [get_stats] reports them.  The mock never adds
    to the latency total or to the error log, so the average latency it
    reports is 0 and the recent errors are none. *)
Record connector_stats := mkStats {
  total_requests : Z;
  successful_requests : Z;
  failed_requests : Z;
  success_rate : Q
}.

Definition get_stats (c : mock_connector) : connector_stats :=
  let total_requests := requests_sent c in
  let success_rate :=
    if 0 <? total_requests
    then (inject_Z (requests_successful c) / inject_Z total_requests)%Q
    else 0%Q in
  {| total_requests := total_requests;
     successful_requests := requests_successful c;
     failed_requests := requests_failed c;
     success_rate := success_rate |}.

End NexumConnector.

(** Sessions with the mock connector: calls of its public methods made one
    after the other. *)
Module NexumSessions.
Import Py PyNum PyTime PyFormat Random NexumMock NexumConnector.

(** A call of a public method, with the instant it reads. *)
Inductive call :=
| HealthCheck
| CreateCustomer (first_name last_name email : string)
    (phone date_of_birth : option string)
    (address : option (list (string * string)))
| GetCustomer (customer_id : string)
| CreateAccount (customer_id product_type currency name : string)
| GetAccount (account_id : string)
| GetCustomerAccounts (customer_id : string)
| GetAccountBalance (account_id : string)
| Deposit (account_id : string) (amount : Q) (description channel : string)
    (reference : option string)
| Withdraw (account_id : string) (amount : Q) (description channel : string)
    (reference : option string)
| Transfer (from_account_id to_account_id : option string) (amount : Q)
    (description channel : string) (reference : option string).

Definition run_call (k : call) (now : datetime) : request response :=
  match k with
  | HealthCheck => health_check now
  | CreateCustomer first_name last_name email phone date_of_birth address =>
      create_customer first_name last_name email phone date_of_birth
        address now
  | GetCustomer customer_id => get_customer customer_id now
  | CreateAccount customer_id product_type currency name =>
      create_account customer_id product_type currency name now
  | GetAccount account_id => get_account account_id now
  | GetCustomerAccounts customer_id => get_customer_accounts customer_id now
  | GetAccountBalance account_id => get_account_balance account_id now
  | Deposit account_id amount description channel reference =>
      deposit account_id amount description channel reference now
  | Withdraw account_id amount description channel reference =>
      withdraw account_id amount description channel reference now
  | Transfer from_account_id to_account_id amount description channel reference =>
      transfer from_account_id to_account_id amount description channel
        reference now
  end.

(** A session: calls made one after the other, whatever each of them
    returns or raises (the engine logs an exception and goes on). *)
Fixpoint run_calls (ks : list (call * datetime)) (c : mock_connector) (g : rng)
    : mock_connector * rng :=
  match ks with
  | [] => (c, g)
  | (k, now) :: rest =>
      let '(_, c', g') := run_call k now c g in run_calls rest c' g'
  end.

(** The amounts a request body carries are not negative. *)
Definition no_negative_amount (data : payload) : Prop :=
  match data with
  | MovementData d => (0 <= m_amount d)%Q
  | TransferData d => (0 <= t_amount d)%Q
  | _ => True
  end.

(** An account in good standing: its balance is not negative and all of it
    is available. *)
Definition in_good_standing (a : account) : Prop :=
  (0 <= book_balance a)%Q /\ available_balance a = book_balance a.

Definition all_in_good_standing (c : mock_connector) : Prop :=
  map_Forall (fun _ a => in_good_standing a) (accounts (bank c)).

(** What a request does to the connector, whichever route it takes and
    whether it returns or raises. *)
Record request_effect (data : payload) (c c' : mock_connector) : Prop :=
  mkRequestEffect {
  sent_once : requests_sent c' = requests_sent c + 1;
  successful_once : requests_successful c' = requests_successful c + 1;
  never_failed : requests_failed c' = requests_failed c;
  customer_ids :
    customers c' = customers c \/
    exists record : customer_record,
      customers c'
      = <[("CUST_" +:+ format_06d (next_customer_id (bank c)))%string := record]>
          (customers c);
  standing_kept :
    no_negative_amount data -> all_in_good_standing c -> all_in_good_standing c'
}.

(** Amounts in whole cents. *)
Definition whole_cents (q : Q) : Prop := exists n : Z, (q == inject_Z n / 100)%Q.

(** A call that moves money moves an amount that is not negative. *)
Definition moves_no_negative_amount (k : call) : Prop :=
  match k with
  | Deposit _ amount _ _ _ => (0 <= amount)%Q
  | Withdraw _ amount _ _ _ => (0 <= amount)%Q
  | Transfer _ _ amount _ _ _ => (0 <= amount)%Q
  | _ => True
  end.

End NexumSessions.

(** Sessions in which the statistics are reset between requests. *)
Module NexumStats.
Import Py PyNum PyTime Random NexumMock NexumConnector NexumSessions.

(** [reset_stats]: the counters start again from zero; the stores of the
    mock are not touched. *)
Definition reset_stats (c : mock_connector) : mock_connector :=
  {| bank := bank c; customers := customers c;
     requests_sent := 0; requests_successful := 0; requests_failed := 0 |}.

Inductive action :=
| Request (k : call) (now : datetime)
| ResetStats.

Fixpoint run_actions (todo : list action) (c : mock_connector) (g : rng)
    : mock_connector * rng :=
  match todo with
  | [] => (c, g)
  | Request k now :: rest =>
      let '(_, c', g') := run_call k now c g in run_actions rest c' g'
  | ResetStats :: rest => run_actions rest (reset_stats c) g
  end.

(** The number of requests made since the last reset, [before] of them
    having been made before the actions. *)
Fixpoint requests_since_reset (todo : list action) (before : nat) : nat :=
  match todo with
  | [] => before
  | Request _ _ :: rest => requests_since_reset rest (S before)
  | ResetStats :: rest => requests_since_reset rest 0
  end.

End NexumStats.

(** Sample states and sessions of the mock connector. *)
Module NexumSamples.
Import Py PyNum PyTime Random NexumMock NexumConnector NexumSessions.

Definition sample_account (account_id : string) (balance : Q) : account :=
  {| id := account_id; account_number := "123456789";
     customer_id := "CUST_000001"; product_type := "checking";
     currency := "USD"; name := "Checking Account"; state := "active";
     book_balance := balance; available_balance := balance;
     created_at := 0 |}.

(** A connector holding two accounts, with 100.00 and 5.50. *)
Definition two_accounts : mock_connector :=
  {| bank := {| accounts := {[ "ACC_000001"%string := sample_account "ACC_000001" 100;
                               "ACC_000002"%string := sample_account "ACC_000002" (550 # 100) ]};
                next_customer_id := 2; next_account_id := 3;
                next_transaction_id := 1 |};
     customers := ∅;
     requests_sent := 0; requests_successful := 0; requests_failed := 0 |}.

(** A session: two accounts are opened, the first is funded, an overdrawing
    withdrawal is declined, and money is moved to the second account and out
    of the bank. *)
Definition sample_session : list (call * datetime) :=
  [ (CreateAccount "CUST_000001" "checking" "USD" "Checking Account", 0);
    (CreateAccount "CUST_000001" "savings" "USD" "Savings Account", 1);
    (Deposit "ACC_000001" 100 "Initial balance seed" "system" None, 2);
    (Withdraw "ACC_000001" 250 "ATM withdrawal" "atm" None, 3);
    (Transfer (Some "ACC_000001") (Some "ACC_000002") (4025 # 100)
       "Transfer" "online" None, 4);
    (Transfer (Some "ACC_000001") None 10 "Wire" "wire" None, 5) ]%string.

End NexumSamples.

(** Transfers that follow a route of accounts: the transfer of hop [k] goes
    from the [k]-th account of the route to the next one. *)
Module LayeringSpec.
Import Py PyTime Transactions Fraud.

Fixpoint follows_route (p : FraudProfile) (route : list string) (hop : nat)
    (transfers : list PendingTransaction) : Prop :=
  match transfers with
  | [] => True
  | t :: rest =>
      (exists from_account to_account : string,
         route !! hop = Some from_account /\
         route !! S hop = Some to_account /\
         from_account_id t = Some from_account /\
         to_account_id t = Some to_account) /\
      transaction_type t = TRANSFER /\
      start_time p + minutes (Z.of_nat hop * 10) <= timestamp t
      <= start_time p + minutes (Z.of_nat hop * 60) /\
      follows_route p route (S hop) rest
  end.

End LayeringSpec.

Module LayeringSamples.
Import Py PyNum PyTime Random Customers Transactions Fraud.

(** A layering profile over four accounts with five hops configured. *)
Definition layering_profile : FraudProfile :=
  {| fraud_id := "FRAUD_0_2468"; fraud_type := LAYERING;
     customer_ids := ["CUST_000001"; "CUST_000002"; "CUST_000003"]%string;
     account_ids := ["ACC_000001"; "ACC_000002"; "ACC_000003"; "ACC_000004"]%string;
     start_time := 0; duration_minutes := 240;
     intensity := 1; success_rate := 8 # 10; sophistication := 9 # 10;
     metadata :=
       {| md_transaction_count := None; md_amount_range := None;
          md_preferred_channels := None; md_merchant_categories := None;
          md_timing := None; md_phases := None;
          md_location_change := None; md_device_change := None;
          md_suspicious_location := None;
          md_hops := Some 5; md_amounts := Some [1000; 5000; 10000]%Q;
          md_target_amount := None; md_individual_max := None |} |}.

End LayeringSamples.

(** ** reporter.py: the figures and recommendations of the report *)

Module Reporter.
Import Py PyNum PyTime Metrics.

(** [config.RuntimeStats]. *)
Record RuntimeStats := mkRuntimeStats {
  rs_start_time : datetime;
  rs_end_time : option datetime;
  customers_created : Z;
  accounts_created : Z;
  transactions_generated : Z;
  transactions_processed : Z;
  fraud_transactions : Z;
  nexum_api_calls : Z;
  bastion_api_calls : Z;
  errors : Z;
  average_latency_ms : Q
}.

(** The property [duration_seconds]: a run without an end time is measured
    up to the instant read from the clock. *)
Definition duration_seconds (s : RuntimeStats) (now : datetime) : Q :=
  let finish := default now (rs_end_time s) in
  total_seconds (finish - rs_start_time s).

(** The property [actual_tps]; it evaluates [duration_seconds] once for the
    test and once more for the division. *)
Definition actual_tps (s : RuntimeStats) (now1 now2 : datetime) : result Q :=
  if Qltb 0 (duration_seconds s now1) then
    let duration := duration_seconds s now2 in
    if Qeq_bool duration 0 then Raise ZeroDivisionError
    else Ok (inject_Z (transactions_processed s) / duration)%Q
  else Ok 0%Q.

(** The entry of the snapshot of [get_current_metrics] that the fraud
    figures are computed from. *)
Record metrics_snapshot := mkSnapshot {
  snap_counters : option (gmap string Z)
}.

(** [MetricsCollector.get_current_metrics], as far as the counters go. *)
Definition get_current_metrics (c : MetricsCollector) : metrics_snapshot :=
  {| snap_counters := Some (counters c) |}.

Record fraud_metrics := mkFraudMetrics {
  accuracy : Q;
  precision : Q;
  recall : Q;
  false_positive_rate : Q;
  false_negative_rate : Q
}.

(** [a / b if b > 0 else 0.0] on integers. *)
Definition rate_or_zero (a b : Z) : Q :=
  if 0 <? b then (inject_Z a / inject_Z b)%Q else 0%Q.

Definition _calculate_fraud_metrics (metrics : metrics_snapshot) : fraud_metrics :=
  let counters := default ∅ (snap_counters metrics) in
  let true_positives := default 0 (counters !! "true_positives"%string) in
  let false_positives := default 0 (counters !! "false_positives"%string) in
  let true_negatives := default 0 (counters !! "true_negatives"%string) in
  let false_negatives := default 0 (counters !! "false_negatives"%string) in
  let total := true_positives + false_positives + true_negatives + false_negatives in
  if total =? 0 then
    {| accuracy := 0; precision := 0; recall := 0;
       false_positive_rate := 0; false_negative_rate := 0 |}
  else
    let accuracy := (inject_Z (true_positives + true_negatives) / inject_Z total)%Q in
    let precision := rate_or_zero true_positives (true_positives + false_positives) in
    let recall := rate_or_zero true_positives (true_positives + false_negatives) in
    let false_positive_rate :=
      rate_or_zero false_positives (false_positives + true_negatives) in
    let false_negative_rate :=
      rate_or_zero false_negatives (false_negatives + true_positives) in
    {| accuracy := accuracy; precision := precision; recall := recall;
       false_positive_rate := false_positive_rate;
       false_negative_rate := false_negative_rate |}.

(** The entries of the two connectors' statistics that the recommendations
    read; an entry is [None] when the key is absent. *)
Record nexum_statistics := mkNexumStatistics {
  stat_average_latency_ms : option Q
}.

Record bastion_statistics := mkBastionStatistics {
  stat_average_scoring_latency_ms : option Q
}.

Definition low_throughput : string :=
  "Consider increasing speed multiplier for higher transaction throughput".
Definition high_error_rate : string :=
  "High error rate detected - check API connectivity and configuration".
Definition slow_nexum : string :=
  "Nexum API latency is high - consider optimizing database queries or scaling".
Definition slow_bastion : string :=
  "Bastion scoring latency is high - consider model optimization or caching".
Definition many_false_positives : string :=
  "High false positive rate - consider tuning fraud detection thresholds".
Definition many_false_negatives : string :=
  "High false negative rate - consider enhancing fraud detection rules".
Definition low_precision : string :=
  "Low precision in fraud detection - review and optimize detection models".
Definition scales_well : string :=
  "Large simulation completed successfully - system handles high customer volumes well".
Definition test_larger : string :=
  "Consider testing with larger customer counts to validate scalability".
Definition all_good : string :=
  "Simulation completed successfully with good performance metrics".

(** [recommendations.append(message)] when the test holds. *)
Definition append_if (test : bool) (message : string) (l : list string)
    : list string :=
  if test then l ++ [message] else l.

Definition _generate_recommendations (runtime_stats : RuntimeStats)
    (nexum_stats : nexum_statistics) (bastion_stats : bastion_statistics)
    (fraud_metrics : fraud_metrics) (now1 now2 : datetime)
    : result (list string) :=
  match actual_tps runtime_stats now1 now2 with
  | Raise e => Raise e
  | Ok tps =>
      let recommendations := append_if (Qltb tps 10) low_throughput [] in
      let recommendations :=
        append_if (Qltb (inject_Z (transactions_processed runtime_stats) * (1 # 100))
                        (inject_Z (errors runtime_stats)))
                  high_error_rate recommendations in
      let avg_nexum_latency := default 0%Q (stat_average_latency_ms nexum_stats) in
      let recommendations :=
        append_if (Qltb 100 avg_nexum_latency) slow_nexum recommendations in
      let avg_bastion_latency :=
        default 0%Q (stat_average_scoring_latency_ms bastion_stats) in
      let recommendations :=
        append_if (Qltb 50 avg_bastion_latency) slow_bastion recommendations in
      let recommendations :=
        append_if (Qltb (5 # 100) (false_positive_rate fraud_metrics))
                  many_false_positives recommendations in
      let recommendations :=
        append_if (Qltb (1 # 10) (false_negative_rate fraud_metrics))
                  many_false_negatives recommendations in
      let recommendations :=
        append_if (Qltb (precision fraud_metrics) (8 # 10))
                  low_precision recommendations in
      let recommendations :=
        if 1000 <? customers_created runtime_stats
        then recommendations ++ [scales_well]
        else recommendations ++ [test_larger] in
      let recommendations :=
        match recommendations with
        | [] => recommendations ++ [all_good]
        | _ => recommendations
        end in
      Ok recommendations
  end.

End Reporter.

(** Runs of the accuracy bookkeeping: the decisions recorded one after the
    other, each with the prediction, the truth and the instant it is
    recorded at. *)
Module ReportSpec.
Import Py PyNum PyTime Metrics Reporter.

(** [MetricsCollector.__init__], as far as the counters go. *)
Definition new_collector (enabled : bool) : MetricsCollector :=
  {| enabled := enabled; counters := ∅; time_series := ∅ |}.

Definition decision : Type := bool * bool * datetime.

Definition record_decisions (c : MetricsCollector) (ds : list decision)
    : MetricsCollector :=
  fold_left (fun c d => record_fraud_decision c d.1.1 d.1.2 d.2) ds c.

(** The number of decisions of a kind. *)
Definition how_many (kind : bool -> bool -> bool) (ds : list decision) : Z :=
  Z.of_nat (length (List.filter (fun d : decision => kind d.1.1 d.1.2) ds)).

Definition in_unit_interval (q : Q) : Prop := (0 <= q)%Q /\ (q <= 1)%Q.

(** The counter that a decision is recorded under. *)
Definition bucket (predicted actual : bool) : string :=
  if predicted && actual then "true_positives"
  else if predicted && negb actual then "false_positives"
  else if negb predicted && actual then "false_negatives"
  else "true_negatives".

(** The recommendations that depend on the figures of the run. *)
Definition known_advice : list string :=
  [low_throughput; high_error_rate; slow_nexum; slow_bastion;
   many_false_positives; many_false_negatives; low_precision].

End ReportSpec.

(** ** connectors/kafka.py: the mock message broker *)

Module KafkaMock.
Import Py PyTime Transactions.

(** Python values as [json.dumps] meets them: the values JSON has a text
    for, and objects of a class it has none for (a member of a plain [Enum],
    a [datetime]), named by their class. *)
#[warnings="-register-all"] Inductive jvalue :=
| JNone
| JBool (b : bool)
| JInt (n : Z)
| JFloat (x : Q)
| JStr (s : string)
| JList (items : list jvalue)
| JDict (items : list (string * jvalue))
| JObject (class_name : string).

(** The class of the first object, in the order of encoding, that
    [json.dumps] cannot encode. *)
Fixpoint first_unserializable (v : jvalue) : option string :=
  match v with
  | JObject class_name => Some class_name
  | JList items =>
      (fix among (l : list jvalue) : option string :=
         match l with
         | [] => None
         | x :: rest =>
             match first_unserializable x with
             | Some class_name => Some class_name
             | None => among rest
             end
         end) items
  | JDict items =>
      (fix among (l : list (string * jvalue)) : option string :=
         match l with
         | [] => None
         | (_, x) :: rest =>
             match first_unserializable x with
             | Some class_name => Some class_name
             | None => among rest
             end
         end) items
  | _ => None
  end.

Fixpoint of_pyvalue (v : pyvalue) : jvalue :=
  match v with
  | VNone => JNone
  | VBool b => JBool b
  | VInt n => JInt n
  | VFloat x => JFloat x
  | VStr s => JStr s
  | VDict items =>
      JDict ((fix each (l : list (string * pyvalue)) : list (string * jvalue) :=
                match l with
                | [] => []
                | (k, x) :: rest => (k, of_pyvalue x) :: each rest
                end) items)
  end.

Definition of_optional (s : option string) : jvalue :=
  match s with Some text => JStr text | None => JNone end.

(** [transaction.__dict__]: the fields of the dataclass in the order of
    their declaration.  The type and the channel are members of plain
    enumerations and the timestamp is a [datetime]. *)
Definition transaction_dict (t : PendingTransaction) : jvalue :=
  JDict [ ("transaction_type", JObject "TransactionType");
          ("amount", JFloat (amount t));
          ("currency", JStr (currency t));
          ("description", JStr (description t));
          ("channel", JObject "TransactionChannel");
          ("from_account_id", of_optional (from_account_id t));
          ("to_account_id", of_optional (to_account_id t));
          ("merchant_id", of_optional (merchant_id t));
          ("merchant_category", of_optional (merchant_category t));
          ("reference", of_optional (reference t));
          ("timestamp", JObject "datetime");
          ("metadata",
           JDict (map (fun entry => (entry.1, of_pyvalue entry.2))
                      (map_to_list (Transactions.metadata t)))) ]%string.

(** A stored message; its timestamp is kept as the instant whose ISO text
    the message carries. *)
Record message := mkMessage {
  event_type : string;
  message_timestamp : datetime;
  data : jvalue
}.

(** The mock connector.  [bytes_sent] is kept as the list of the messages
    whose JSON text has been measured and added to it.  A consumer handler
    is given by whether it returns ([true]) or raises on a message; it is
    taken not to touch the connector. *)
Record connector := mkConnector {
  message_store : gmap string (list message);
  messages_produced : Z;
  messages_consumed : Z;
  consumer_errors : Z;
  bytes_sent_for : list message;
  last_activity : option datetime;
  consumer_handlers : gmap string (message -> bool)
}.

(** [MockKafkaConnector.__init__]. *)
Definition new_connector : connector :=
  {| message_store :=
       {[ "transactions" := []; "fraud_decisions" := [];
          "customer_events" := []; "account_events" := [];
          "simulation_metrics" := [] ]}%string;
     messages_produced := 0; messages_consumed := 0; consumer_errors := 0;
     bytes_sent_for := []; last_activity := None; consumer_handlers := ∅ |}.

(** The body shared by [publish_transaction] and [publish_fraud_decision]:
    the message is stored and counted, then measured with [json.dumps],
    then handed to the consumer of the topic if there is one.  The clock is
    read for the message and again for the last activity. *)
Definition publish (topic kind : string) (payload : jvalue)
    (now1 now2 : datetime) (c : connector) : result bool * connector :=
  let sent :=
    {| event_type := kind; message_timestamp := now1; data := payload |} in
  match message_store c !! topic with
  | None => (Raise (KeyError topic), c)
  | Some stored =>
      let c1 :=
        {| message_store := <[topic := stored ++ [sent]]> (message_store c);
           messages_produced := messages_produced c + 1;
           messages_consumed := messages_consumed c;
           consumer_errors := consumer_errors c;
           bytes_sent_for := bytes_sent_for c;
           last_activity := last_activity c;
           consumer_handlers := consumer_handlers c |} in
      match first_unserializable payload with
      | Some class_name =>
          (Raise (TypeError ("Object of type " +:+ class_name
                             +:+ " is not JSON serializable")), c1)
      | None =>
          let delivered (consumed errors : Z) :=
            {| message_store := message_store c1;
               messages_produced := messages_produced c1;
               messages_consumed := messages_consumed c1 + consumed;
               consumer_errors := consumer_errors c1 + errors;
               bytes_sent_for := bytes_sent_for c1 ++ [sent];
               last_activity := Some now2;
               consumer_handlers := consumer_handlers c1 |} in
          match (consumer_handlers c !! topic : option (message -> bool)) with
          | Some handler =>
              if handler sent then (Ok true, delivered 1 0)
              else (Ok true, delivered 0 1)
          | None => (Ok true, delivered 0 0)
          end
      end
  end.

Definition publish_transaction (transaction_data : jvalue)
    (now1 now2 : datetime) (c : connector) : result bool * connector :=
  publish "transactions" "transaction_created" transaction_data now1 now2 c.

Definition publish_fraud_decision (decision_data : jvalue)
    (now1 now2 : datetime) (c : connector) : result bool * connector :=
  publish "fraud_decisions" "fraud_decision" decision_data now1 now2 c.

(** The call the engine makes for a processed transaction. *)
Definition publish_engine_transaction (t : PendingTransaction)
    (now1 now2 : datetime) (c : connector) : result bool * connector :=
  publish_transaction (transaction_dict t) now1 now2 c.

End KafkaMock.

(** ** generators/customers.py: the credit score of a generated customer *)

Module CustomerGenerator.
Import Py PyNum Random Customers.
Local Open Scope gen_scope.

Definition _generate_credit_score (life_stage : CustomerLifeStage)
    (income_level : IncomeLevel) (risk_profile : RiskProfile) : gen Z :=
  let base_score := 650 in
  (* life stage adjustments *)
  let base_score :=
    match life_stage with
    | STUDENT => 600
    | ESTABLISHED => 720
    | RETIREE => 750
    | _ => base_score
    end in
  (* income adjustments *)
  let base_score :=
    match income_level with
    | ULTRA_HIGH => base_score + 50
    | LOW => base_score - 30
    | _ => base_score
    end in
  (* risk adjustments *)
  let base_score :=
    match risk_profile with
    | LOW_RISK => base_score + 40
    | HIGH_RISK => base_score - 40
    | _ => base_score
    end in
  let* noise := randint (-50) 50 in
  let score := base_score + noise in
  ret (Z.max 300 (Z.min 850 score)).

End CustomerGenerator.

(** ** metrics.py: the time series, gauges and rate aggregations

    The collector with all its stores.  Every recording also appends a point
    to a time series: a counter to the series [<name>_rate], a gauge or a
    histogram value to the series of its own name.  The labels of a series
    are left out; no modelled function reads them. *)

Module MetricsSeries.
Import Py PyNum PyTime.

(** A [MetricPoint]: its timestamp and value. *)
Definition point : Type := datetime * Q.

(** [deque(maxlen=1000).append]: a full deque drops its oldest element. *)
Definition append_capped {A : Type} (l : list A) (x : A) : list A :=
  if (1000 <=? length l)%nat then tail l ++ [x] else l ++ [x].

(** *** [TimeSeries] *)

Definition add_point (series : list point) (value : Q) (now : datetime)
    : list point :=
  append_capped series (now, value).

Definition get_recent_values (series : list point) (minutes_back : Z)
    (now : datetime) : list Q :=
  let cutoff := now - minutes minutes_back in
  map snd (List.filter (fun p : point => cutoff <=? fst p) series).

Definition get_latest (series : list point) : option point := last series.

(** [statistics.mean] of a non-empty list. *)
Definition mean (values : list Q) : Q :=
  (fold_left Qplus values 0 / inject_Z (Z.of_nat (length values)))%Q.

Definition get_average (series : list point) (minutes_back : Z)
    (now : datetime) : Q :=
  match get_recent_values series minutes_back now with
  | [] => 0%Q
  | values => mean values
  end.

(** [max(values)]: the first of the greatest elements; an empty list is an
    error. *)
Definition max_of (values : list Q) : result Q :=
  match values with
  | [] => Raise (ValueError "max() arg is an empty sequence")
  | x :: rest => Ok (fold_left fmax rest x)
  end.

(** *** [MetricsCollector] *)

Record collector := mkCollector {
  enabled : bool;
  retention_minutes : Z;
  time_series : gmap string (list point);
  counters : gmap string Z;
  gauges : gmap string Q;
  histograms : gmap string (list Q);
  aggregations : gmap string (gmap string Q)
}.

(** [__init__]: every store starts empty. *)
Definition new_collector (enabled : bool) (retention_minutes : Z) : collector :=
  {| enabled := enabled; retention_minutes := retention_minutes;
     time_series := ∅; counters := ∅; gauges := ∅; histograms := ∅;
     aggregations := ∅ |}.

Definition with_time_series (c : collector) (series : gmap string (list point))
    : collector :=
  {| enabled := enabled c; retention_minutes := retention_minutes c;
     time_series := series; counters := counters c; gauges := gauges c;
     histograms := histograms c; aggregations := aggregations c |}.

Definition with_counters (c : collector) (m : gmap string Z) : collector :=
  {| enabled := enabled c; retention_minutes := retention_minutes c;
     time_series := time_series c; counters := m; gauges := gauges c;
     histograms := histograms c; aggregations := aggregations c |}.

Definition with_gauges (c : collector) (m : gmap string Q) : collector :=
  {| enabled := enabled c; retention_minutes := retention_minutes c;
     time_series := time_series c; counters := counters c; gauges := m;
     histograms := histograms c; aggregations := aggregations c |}.

Definition with_histograms (c : collector) (m : gmap string (list Q))
    : collector :=
  {| enabled := enabled c; retention_minutes := retention_minutes c;
     time_series := time_series c; counters := counters c; gauges := gauges c;
     histograms := m; aggregations := aggregations c |}.

Definition with_aggregations (c : collector) (m : gmap string (gmap string Q))
    : collector :=
  {| enabled := enabled c; retention_minutes := retention_minutes c;
     time_series := time_series c; counters := counters c; gauges := gauges c;
     histograms := histograms c; aggregations := m |}.

Definition transactions_per_second : string := "transactions_per_second".
Definition fraud_transactions_per_second : string :=
  "fraud_transactions_per_second".

(** [_initialize_metrics]: ten fresh series, six counters and three gauges. *)
Definition _initialize_metrics (c : collector) : collector :=
  let series :=
    <["memory_usage_mb"%string := []]>
    (<["false_positive_rate"%string := []]>
    (<["fraud_detection_rate"%string := []]>
    (<["average_risk_score"%string := []]>
    (<["bastion_success_rate"%string := []]>
    (<["nexum_success_rate"%string := []]>
    (<["bastion_api_latency_ms"%string := []]>
    (<["nexum_api_latency_ms"%string := []]>
    (<[fraud_transactions_per_second := []]>
    (<[transactions_per_second := []]> (time_series c)))))))))) in
  let counters :=
    <["bastion_errors_total"%string := 0]>
    (<["nexum_errors_total"%string := 0]>
    (<["bastion_requests_total"%string := 0]>
    (<["nexum_requests_total"%string := 0]>
    (<["fraud_transactions_total"%string := 0]>
    (<["transactions_total"%string := 0]> (counters c)))))) in
  let gauges :=
    <["simulation_time_multiplier"%string := 1%Q]>
    (<["accounts_created"%string := 0%Q]>
    (<["customers_created"%string := 0%Q]> (gauges c))) in
  with_gauges (with_counters (with_time_series c series) counters) gauges.

(** [start]: a disabled collector is left as it is; the collection task that
    an enabled one launches is the sequence of rounds of a session below. *)
Definition start (c : collector) : collector :=
  if negb (enabled c) then c else _initialize_metrics c.

(** The tail shared by the three recording methods: the series is created
    when it is missing, then given the point. *)
Definition track (c : collector) (series_name : string) (value : Q)
    (now : datetime) : collector :=
  with_time_series c
    (<[series_name :=
         add_point (default [] (time_series c !! series_name)) value now]>
       (time_series c)).

Definition record_counter (c : collector) (name : string) (value : Z)
    (now : datetime) : collector :=
  if negb (enabled c) then c
  else
    let c := with_counters c
      (<[name := default 0 (counters c !! name) + value]> (counters c)) in
    track c (name +:+ "_rate") (inject_Z value) now.

Definition record_gauge (c : collector) (name : string) (value : Q)
    (now : datetime) : collector :=
  if negb (enabled c) then c
  else
    let c := with_gauges c (<[name := value]> (gauges c)) in
    track c name value now.

Definition record_histogram (c : collector) (name : string) (value : Q)
    (now : datetime) : collector :=
  if negb (enabled c) then c
  else
    let c := with_histograms c
      (<[name := append_capped (default [] (histograms c !! name)) value]>
         (histograms c)) in
    track c name value now.

Definition record_timing (c : collector) (name : string) (duration_ms : Q)
    (now : datetime) : collector :=
  record_histogram c name duration_ms now.

(** The convenience methods.  Each recording reads the clock for its point;
    the instants are given in the order of the reads. *)
Definition record_transaction (c : collector) (is_fraud : bool)
    (now1 now2 : datetime) : collector :=
  let c := record_counter c "transactions_total" 1 now1 in
  if is_fraud then record_counter c "fraud_transactions_total" 1 now2 else c.

Definition record_nexum_request (c : collector) (latency_ms : Q)
    (success : bool) (now1 now2 now3 : datetime) : collector :=
  let c := record_counter c "nexum_requests_total" 1 now1 in
  let c := record_timing c "nexum_api_latency_ms" latency_ms now2 in
  if negb success then record_counter c "nexum_errors_total" 1 now3 else c.

Definition record_bastion_request (c : collector) (latency_ms : Q)
    (risk_score : option Q) (success : bool) (now1 now2 now3 now4 : datetime)
    : collector :=
  let c := record_counter c "bastion_requests_total" 1 now1 in
  let c := record_timing c "bastion_api_latency_ms" latency_ms now2 in
  let c :=
    match risk_score with
    | Some score => record_gauge c "latest_risk_score" score now3
    | None => c
    end in
  if negb success then record_counter c "bastion_errors_total" 1 now4 else c.

Definition record_fraud_decision (c : collector)
    (predicted_fraud actual_fraud : bool) (now : datetime) : collector :=
  if predicted_fraud && actual_fraud then
    record_counter c "true_positives" 1 now
  else if predicted_fraud && negb actual_fraud then
    record_counter c "false_positives" 1 now
  else if negb predicted_fraud && actual_fraud then
    record_counter c "false_negatives" 1 now
  else
    record_counter c "true_negatives" 1 now.

(** The four clock reads of one rate aggregation: by [get_average(1)], by
    [get_average(5)], and by the two calls of [get_recent_values(1)] of the
    peak, the one that is tested and the one that is handed to [max]. *)
Record clock_reads := mkClockReads {
  at_avg_1min : datetime;
  at_avg_5min : datetime;
  at_peak_test : datetime;
  at_peak : datetime
}.

(** The dictionary that [_calculate_aggregations] builds for one rate
    series.  A [MetricPoint] is an object without [__bool__] or [__len__],
    so [ts.get_latest()] passes the test whenever there is a point. *)
Definition rate_aggregation (series : list point) (r : clock_reads)
    : result (gmap string Q) :=
  let current :=
    match get_latest series with Some p => snd p | None => 0%Q end in
  let avg_1min := get_average series 1 (at_avg_1min r) in
  let avg_5min := get_average series 5 (at_avg_5min r) in
  let peak_1min :=
    match get_recent_values series 1 (at_peak_test r) with
    | [] => Ok 0%Q
    | _ => max_of (get_recent_values series 1 (at_peak r))
    end in
  match peak_1min with
  | Raise e => Raise e
  | Ok peak_1min =>
      Ok (<["peak_1min"%string := peak_1min]>
          (<["avg_5min"%string := avg_5min]>
          (<["avg_1min"%string := avg_1min]>
          (<["current"%string := current]> ∅))))
  end.

Definition aggregate_rate (metric_name : string) (c : collector)
    (r : clock_reads) : result unit * collector :=
  match time_series c !! metric_name with
  | None => (Ok tt, c)
  | Some ts =>
      match rate_aggregation ts r with
      | Raise e => (Raise e, c)
      | Ok entry =>
          (Ok tt,
           with_aggregations c (<[metric_name := entry]> (aggregations c)))
      end
  end.

(** [_calculate_aggregations], its loop over the transaction rates.  The
    statements that follow the loop write the entries of [aggregations]
    named nexum_api_latency_ms, bastion_api_latency_ms, nexum_error_rate,
    bastion_error_rate, fraud_rate and simulation_progress, which this map
    does not hold.  What the loop has written stays when it raises. *)
Definition _calculate_aggregations (c : collector) (r1 r2 : clock_reads)
    : result unit * collector :=
  match aggregate_rate transactions_per_second c r1 with
  | (Raise e, c) => (Raise e, c)
  | (Ok _, c) => aggregate_rate fraud_transactions_per_second c r2
  end.

(** [_cleanup_old_data]: every series loses its leading points that are
    older than the retention period. *)
Fixpoint drop_older (cutoff : datetime) (points : list point) : list point :=
  match points with
  | p :: rest => if fst p <? cutoff then drop_older cutoff rest else points
  | [] => []
  end.

Definition _cleanup_old_data (c : collector) (now : datetime) : collector :=
  let cutoff := now - minutes (retention_minutes c) in
  with_time_series c (drop_older cutoff <$> time_series c).

(** [get_time_series_data]: the points of the last minutes (each one is
    returned as a dictionary of its fields). *)
Definition get_time_series_data (c : collector) (metric_name : string)
    (minutes_back : Z) (now : datetime) : list point :=
  match time_series c !! metric_name with
  | None => []
  | Some ts =>
      let cutoff := now - minutes minutes_back in
      List.filter (fun p : point => cutoff <=? fst p) ts
  end.

(** The entries of the snapshot of [get_current_metrics] that the report
    reads; they are copies of the collector's dictionaries. *)
Record metrics_dict := mkMetricsDict {
  m_counters : option (gmap string Z);
  m_gauges : option (gmap string Q);
  m_aggregations : option (gmap string (gmap string Q))
}.

Definition get_current_metrics (c : collector) : metrics_dict :=
  {| m_counters := Some (counters c);
     m_gauges := Some (gauges c);
     m_aggregations := Some (aggregations c) |}.

(** The two entries of [get_dashboard_data] on the transaction rate: the
    figure under "performance" and the chart under "charts". *)
Record dashboard_rate := mkDashboardRate {
  performance_transactions_per_second : Q;
  charts_transaction_rate : list point
}.

Definition get_dashboard_data (c : collector) (now : datetime)
    : dashboard_rate :=
  {| performance_transactions_per_second :=
       default 0%Q
         (default ∅ (aggregations c !! transactions_per_second)
            !! "current"%string);
     charts_transaction_rate :=
       get_time_series_data c transactions_per_second 10 now |}.

End MetricsSeries.

(** ** reporter.py: the performance figures of the report *)

Module PerformanceReport.
Import Py PyNum PyTime MetricsSeries.

Record performance_metrics := mkPerformanceMetrics {
  peak_tps : Q;
  memory_usage_mb : Q;
  cpu_usage_percent : Q
}.

Definition _calculate_performance_metrics (metrics : metrics_dict)
    : performance_metrics :=
  let aggregations := default ∅ (m_aggregations metrics) in
  let transaction_aggregations :=
    default ∅ (aggregations !! "transactions_per_second"%string) in
  let peak_tps := default 0%Q (transaction_aggregations !! "peak_1min"%string) in
  let gauges := default ∅ (m_gauges metrics) in
  let memory_usage := default 0%Q (gauges !! "memory_usage_mb"%string) in
  let cpu_usage := default 0%Q (gauges !! "cpu_usage_percent"%string) in
  {| peak_tps := peak_tps;
     memory_usage_mb := memory_usage;
     cpu_usage_percent := cpu_usage |}.

End PerformanceReport.

(** Sessions of a collector: what the simulator does with it after [start],
    in any order.  A round of the collection loop is given as its two
    steps that touch the stores. *)
Module MetricsSessions.
Import Py PyNum PyTime MetricsSeries.

Inductive recording :=
| Counter (name : string) (value : Z) (now : datetime)
| Gauge (name : string) (value : Q) (now : datetime)
| Histogram (name : string) (value : Q) (now : datetime)
| Timing (name : string) (duration_ms : Q) (now : datetime)
| Transaction (is_fraud : bool) (now1 now2 : datetime)
| NexumRequest (latency_ms : Q) (success : bool) (now1 now2 now3 : datetime)
| BastionRequest (latency_ms : Q) (risk_score : option Q) (success : bool)
    (now1 now2 now3 now4 : datetime)
| FraudDecision (predicted_fraud actual_fraud : bool) (now : datetime)
| Aggregation (r1 r2 : clock_reads)
| Cleanup (now : datetime).

(** An aggregation that raises ends the collection loop; the collector
    stays as the aggregation left it. *)
Definition record (c : collector) (k : recording) : collector :=
  match k with
  | Counter name value now => record_counter c name value now
  | Gauge name value now => record_gauge c name value now
  | Histogram name value now => record_histogram c name value now
  | Timing name duration_ms now => record_timing c name duration_ms now
  | Transaction is_fraud now1 now2 => record_transaction c is_fraud now1 now2
  | NexumRequest latency_ms success now1 now2 now3 =>
      record_nexum_request c latency_ms success now1 now2 now3
  | BastionRequest latency_ms risk_score success now1 now2 now3 now4 =>
      record_bastion_request c latency_ms risk_score success now1 now2 now3 now4
  | FraudDecision predicted_fraud actual_fraud now =>
      record_fraud_decision c predicted_fraud actual_fraud now
  | Aggregation r1 r2 => snd (_calculate_aggregations c r1 r2)
  | Cleanup now => _cleanup_old_data c now
  end.

Definition record_all (c : collector) (ks : list recording) : collector :=
  fold_left record ks c.

(** The series that only a gauge, a histogram or a timing of the same name
    could write. *)
Definition rate_series : list string :=
  [transactions_per_second; fraud_transactions_per_second].

(** A recording that is not a gauge, histogram or timing named as one of the
    two rate series. *)
Definition spares_rate_series (k : recording) : bool :=
  match k with
  | Gauge name _ _ | Histogram name _ _ | Timing name _ _ =>
      negb (str_in name rate_series)
  | _ => true
  end.

(** The aggregation of a series without a point. *)
Definition nothing_measured : gmap string Q :=
  <["peak_1min"%string := 0%Q]>
  (<["avg_5min"%string := 0%Q]>
  (<["avg_1min"%string := 0%Q]>
  (<["current"%string := 0%Q]> ∅))).

(** A collector whose rate series, created by [start] when it is enabled,
    hold no point, and whose rate aggregations, where computed, say so. *)
Definition quiet (c : collector) : Prop :=
  forall s : string, s ∈ rate_series ->
    time_series c !! s = (if enabled c then Some [] else None) /\
    (aggregations c !! s = None \/
     enabled c = true /\ aggregations c !! s = Some nothing_measured).

(** The last character of a string. *)
Fixpoint last_char (s : string) : option ascii :=
  match s with
  | EmptyString => None
  | String ch EmptyString => Some ch
  | String _ rest => last_char rest
  end.

(** One recording of every call that the simulator makes on its collector:
    the gauges of the set-up and of the reporting loop ([engine.py]), the
    four recordings of the submission pipeline, the gauges of
    [_collect_system_metrics], and a round of aggregation and clean-up. *)
Definition every_call_once : list recording :=
  [ Gauge "customers_created" 100 1000000;
    Gauge "accounts_created" 150 1000001;
    Transaction true 2000000 2000001;
    NexumRequest 12 false 2000002 2000003 2000004;
    BastionRequest 8 (Some (7 # 10)) true 2000005 2000006 2000007 2000008;
    FraudDecision true true 2000009;
    Gauge "simulation_time_multiplier" 10 5000000;
    Gauge "current_tps" (1 # 3) 5000001;
    Gauge "nexum_success_rate" 0 5000002;
    Gauge "nexum_avg_latency" 12 5000003;
    Gauge "bastion_success_rate" 1 5000004;
    Gauge "bastion_avg_latency" 8 5000005;
    Gauge "avg_risk_score" (7 # 10) 5000006;
    Gauge "memory_usage_mb" 256 6000000;
    Gauge "cpu_usage_percent" 3 6000001;
    Aggregation (mkClockReads 6000002 6000003 6000004 6000005)
                (mkClockReads 6000006 6000007 6000008 6000009);
    Cleanup 6000010 ].

End MetricsSessions.

(* ===================================================================== *)
(** * Part II: verification                                               *)
(* ===================================================================== *)

Module ClockProofs.
Import PyNum PyTime Clock.

Lemma divide_and_round_zero (b : Z) : (0 < b)%Z -> divide_and_round 0 b = 0%Z.
Proof.
  intros Hb. unfold divide_and_round.
  rewrite Z.div_0_l, Z.mod_0_l by lia.
  replace (0 <? b)%Z with true by (symmetry; apply Z.ltb_lt; lia).
  replace (b <? 2 * 0)%Z with false by (symmetry; apply Z.ltb_ge; lia).
  replace (2 * 0 =? b)%Z with false by (symmetry; apply Z.eqb_neq; lia).
  reflexivity.
Qed.

Lemma timedelta_mul_float_zero (f : Q) : timedelta_mul_float 0 f = 0%Z.
Proof.
  unfold timedelta_mul_float. rewrite Z.mul_0_l.
  apply divide_and_round_zero. reflexivity.
Qed.

Lemma apply_speed_calls_paused (ks : list speed_call) (c : SimulationClock) :
  paused (apply_speed_calls c ks) = paused c.
Proof.
  unfold apply_speed_calls. revert c.
  induction ks as [|[[m n1] n2] ks IH]; intros c; simpl.
  - reflexivity.
  - rewrite IH. reflexivity.
Qed.

(** One speed change: a reading at the instant of the new anchor returns the
    simulated time computed just before the change, and later readings move
    away from it at the new multiplier. *)
Lemma set_speed_reanchors (c : SimulationClock) (m : Q) (now1 now2 d : Z) :
  paused c = false ->
  get_current_sim_time (set_speed c m now1 now2) (now2 + d)
  = get_current_sim_time c now1 + timedelta_mul_float d m.
Proof.
  intros Hp. unfold set_speed. unfold get_current_sim_time at 1. simpl.
  rewrite Hp. f_equal. f_equal. lia.
Qed.

(** While the clock is paused every reading is the same value: the field
    [sim_start_time]. *)
Lemma paused_reading_is_sim_start (c : SimulationClock) (at_pause now : Z) :
  get_current_sim_time (pause c at_pause) now = sim_start_time c
  \/ paused c = true.
Proof.
  destruct (paused c) eqn:Hp; [right; reflexivity | left].
  unfold pause, get_current_sim_time. rewrite Hp. reflexivity.
Qed.

Lemma paused_readings_agree (c : SimulationClock) (at_pause t1 t2 : Z) :
  get_current_sim_time (pause c at_pause) t1
  = get_current_sim_time (pause c at_pause) t2.
Proof.
  unfold pause. destruct (paused c) eqn:Hp; simpl.
  - unfold get_current_sim_time. rewrite Hp. reflexivity.
  - reflexivity.
Qed.

(** After [resume] the pause interval is taken out of the elapsed real time:
    a reading [d] after the resumption is the reading the clock, had it not
    been paused, gives [d] after the instant of the pause. *)
Lemma resume_discounts_pause (c : SimulationClock) (at_pause at_resume d : Z) :
  paused c = false ->
  get_current_sim_time (resume (pause c at_pause) at_resume) (at_resume + d)
  = get_current_sim_time c (at_pause + d).
Proof.
  intros Hp. unfold pause, resume. rewrite Hp. simpl.
  unfold get_current_sim_time. simpl. rewrite Hp. f_equal. f_equal. lia.
Qed.

(** C1 (the code departs from the claim).  A clock started at instant 0 with
    multiplier 1 is paused after 10 simulated seconds; two seconds later a
    reading of the paused clock returns [sim_start_time], the instant 0, and
    not the simulated time at the moment of the pause (10 s), which is also
    what the clock reports right after [resume]. *)
Theorem paused_clock_reads_start_anchor :
  let c := init 1 0 0 in
  let frozen := pause c (seconds 10) in
  get_current_sim_time c (seconds 10) = seconds 10 /\
  get_current_sim_time frozen (seconds 12) = 0 /\
  get_current_sim_time (resume frozen (seconds 15)) (seconds 15) = seconds 10.
Proof. vm_compute. repeat split. Qed.

(** C9.  On a clock that is not paused, whatever speed changes came before,
    the simulated time read at the instant a [set_speed] call re-anchors the
    clock equals the simulated time the call read just before changing the
    multiplier; readings [d] later advance from that value by [d] times the
    new multiplier.  The multiplier need not even be positive. *)
Theorem set_speed_keeps_sim_time
    (c : SimulationClock) (earlier : list speed_call)
    (m : Q) (now1 now2 : Z) :
  paused c = false ->
  let before := apply_speed_calls c earlier in
  let after := set_speed before m now1 now2 in
  get_current_sim_time after now2 = get_current_sim_time before now1 /\
  forall d : Z,
    get_current_sim_time after (now2 + d)
    = get_current_sim_time before now1 + timedelta_mul_float d m.
Proof.
  intros Hp before after.
  assert (Hb : paused before = false).
  { unfold before. rewrite apply_speed_calls_paused. exact Hp. }
  split.
  - pose proof (set_speed_reanchors before m now1 now2 0 Hb) as H0.
    rewrite Z.add_0_r, timedelta_mul_float_zero, Z.add_0_r in H0.
    exact H0.
  - intros d. unfold after. apply set_speed_reanchors. exact Hb.
Qed.

Lemma set_speed_keeps_sim_time_witness :
  let c := init 100 0 0 in
  let before := apply_speed_calls c [((3 # 2)%Q, seconds 4, seconds 4)] in
  let after := set_speed before (250 # 1)%Q (seconds 9) (seconds 9) in
  get_current_sim_time after (seconds 9) = get_current_sim_time before (seconds 9) /\
  forall d : Z,
    get_current_sim_time after (seconds 9 + d)
    = get_current_sim_time before (seconds 9) + timedelta_mul_float d (250 # 1)%Q.
Proof.
  exact (set_speed_keeps_sim_time (init 100 0 0)
           [((3 # 2)%Q, seconds 4, seconds 4)] (250 # 1)%Q
           (seconds 9) (seconds 9) eq_refl).
Defined.

End ClockProofs.

Module MetricsProofs.
Import Py PyTime Metrics MetricsSpec Pipeline.


Lemma record_counter_disabled (c : MetricsCollector) (name : string) (v now : Z) :
  enabled c = false -> record_counter c name v now = c.
Proof. intros He. unfold record_counter. rewrite He. reflexivity. Qed.


(** The scorer's three actions, in either case, are read as the spec says. *)
Example decision_of_actions :
  decision_of (Some "decline"%string) = "DECLINE"%string /\
  decision_of (Some "Review"%string) = "REVIEW"%string /\
  decision_of (Some "APPROVE"%string) = "APPROVE"%string /\
  decision_of None = "APPROVE"%string.
Proof. repeat split. Qed.



(** The worked case of the specification: a fraud-stamped transaction that is
    declined and a clean one that is approved leave one true positive, one
    true negative and no false positive or negative. *)
Example confusion_matrix_two_transactions :
  let c0 := {| enabled := true; counters := ∅; time_series := ∅ |} in
  let fraud_md : gmap string pyvalue := {[ "is_fraud"%string := VBool true ]} in
  let clean_md : gmap string pyvalue := {[ "is_fraud"%string := VBool false ]} in
  let c1 := record_accuracy c0 (Some "DECLINE"%string) fraud_md 1 in
  let c2 := record_accuracy c1 (Some "APPROVE"%string) clean_md 2 in
  counter c2 "true_positives" = 1 /\ counter c2 "true_negatives" = 1 /\
  counter c2 "false_positives" = 0 /\ counter c2 "false_negatives" = 0.
Proof. vm_compute. repeat split. Qed.

(** With the collector disabled the step records nothing. *)
Lemma accuracy_step_disabled
    (c : MetricsCollector) (action : option string)
    (metadata : gmap string pyvalue) (now : Z) :
  enabled c = false -> record_accuracy c action metadata now = c.
Proof.
  intros He. unfold record_accuracy, record_fraud_decision.
  repeat match goal with |- context [if ?b then _ else _] => destruct b end;
    apply record_counter_disabled; exact He.
Qed.

End MetricsProofs.

Module HttpProofs.
Import Py Http.

(** A transport that answers every request with the same status. *)
Lemma always_5xx_step (t : transport) (endpoint : string) (attempt : nat)
    (rest : list nat) (c : connector) (status_code : Z) (content : body) :
  t (calls c) = Response status_code content ->
  500 <= status_code ->
  Z.of_nat attempt <> max_retries c ->
  attempt_loop t endpoint (attempt :: rest) c
  = attempt_loop t endpoint rest (sleep (called c) (2 ^ Z.of_nat attempt)).
Proof.
  intros Ht Hs Hlast. simpl. rewrite Ht.
  replace ((status_code =? 200) || (status_code =? 201)) with false
    by (symmetry; apply orb_false_iff; split; apply Z.eqb_neq; lia).
  replace (400 <=? status_code) with true by (symmetry; apply Z.leb_le; lia).
  replace (Z.of_nat attempt =? max_retries c) with false
    by (symmetry; apply Z.eqb_neq; exact Hlast).
  replace (500 <=? status_code) with true by (symmetry; apply Z.leb_le; lia).
  reflexivity.
Qed.

Lemma last_attempt_step (t : transport) (endpoint : string) (attempt : nat)
    (rest : list nat) (c : connector) (status_code : Z) (content : body) :
  t (calls c) = Response status_code content ->
  400 <= status_code -> status_code <> 200 -> status_code <> 201 ->
  Z.of_nat attempt = max_retries c ->
  attempt_loop t endpoint (attempt :: rest) c
  = (Raise (APIError (who c) status_code (detail_or content "Unknown error")),
     failed (called c) [StatusError endpoint status_code content]).
Proof.
  intros Ht Hs H200 H201 Hlast. cbn [attempt_loop]. rewrite Ht.
  replace ((status_code =? 200) || (status_code =? 201)) with false
    by (symmetry; apply orb_false_iff; split; apply Z.eqb_neq; assumption).
  replace (400 <=? status_code) with true by (symmetry; apply Z.leb_le; lia).
  replace (Z.of_nat attempt =? max_retries c) with true
    by (symmetry; apply Z.eqb_eq; exact Hlast).
  reflexivity.
Qed.

Lemma client_error_step (t : transport) (endpoint : string) (attempt : nat)
    (rest : list nat) (c : connector) (status_code : Z) (content : body) :
  t (calls c) = Response status_code content ->
  400 <= status_code < 500 ->
  Z.of_nat attempt <> max_retries c ->
  attempt_loop t endpoint (attempt :: rest) c
  = (Raise (APIError (who c) status_code (detail_or content "Client error")),
     failed (called c) []).
Proof.
  intros Ht Hs Hlast. cbn [attempt_loop]. rewrite Ht.
  replace ((status_code =? 200) || (status_code =? 201)) with false
    by (symmetry; apply orb_false_iff; split; apply Z.eqb_neq; lia).
  replace (400 <=? status_code) with true by (symmetry; apply Z.leb_le; lia).
  replace (Z.of_nat attempt =? max_retries c) with false
    by (symmetry; apply Z.eqb_neq; exact Hlast).
  replace (500 <=? status_code) with false by (symmetry; apply Z.leb_gt; lia).
  reflexivity.
Qed.

(** C4.  A connector (of either system) configured with [max_retries = 3]:
    against a transport that always answers 503 it hands exactly four
    requests to the transport, sleeping 1, 2 and 4 seconds ([2 ** attempt])
    between them, and then raises the API error of the last answer; against
    a transport that always answers 404 it makes exactly one request, does
    not sleep, and raises an API error at once. *)
Theorem retry_exhaustion
    (c : connector) (endpoint : string) (content : body) :
  max_retries c = 3 ->
  let always (status_code : Z) : transport :=
    fun _ => Response status_code content in
  let busy := make_request (always 503) endpoint c in
  let missing := make_request (always 404) endpoint c in
  (busy.1 = Raise (APIError (who c) 503 (detail_or content "Unknown error")) /\
   calls busy.2 = (calls c + 4)%nat /\
   slept busy.2 = slept c ++ [2 ^ 0; 2 ^ 1; 2 ^ 2] /\
   requests_failed busy.2 = requests_failed c + 1) /\
  (missing.1 = Raise (APIError (who c) 404 (detail_or content "Client error")) /\
   calls missing.2 = (calls c + 1)%nat /\
   slept missing.2 = slept c /\
   requests_failed missing.2 = requests_failed c + 1).
Proof.
  intros Hmax always busy missing.
  assert (Hseq : seq 0 (Z.to_nat (max_retries c + 1)) = [0; 1; 2; 3]%nat)
    by (rewrite Hmax; reflexivity).
  split.
  - unfold busy, make_request. rewrite Hseq.
    rewrite 3!(always_5xx_step (always 503) endpoint _ _ _ 503 content)
      by (cbn [max_retries sent called sleep]; first [reflexivity | lia]).
    rewrite (last_attempt_step (always 503) endpoint _ _ _ 503 content)
      by (cbn [max_retries sent called sleep]; first [reflexivity | lia]).
    cbn [fst snd who calls slept requests_failed sent called sleep failed].
    split; [reflexivity|]. split; [lia|]. split; [|reflexivity].
    rewrite <- !app_assoc. reflexivity.
  - unfold missing, make_request. rewrite Hseq.
    rewrite (client_error_step (always 404) endpoint _ _ _ 404 content)
      by (cbn [max_retries sent called sleep]; first [reflexivity | lia]).
    cbn [fst snd who calls slept requests_failed sent called sleep failed].
    split; [reflexivity|]. split; [lia|]. split; reflexivity.
Qed.

Lemma retry_exhaustion_witness :
  let c := {| who := Bastion; base_url := "http://localhost:8080";
              max_retries := 3; requests_sent := 0;
              requests_successful := 0; requests_failed := 0;
              errors := []; calls := 0; slept := [] |} in
  let content := JsonObject (Some "Service unavailable"%string) in
  let busy := make_request (fun _ => Response 503 content) "/score" c in
  busy.1 = Raise (APIError Bastion 503 "Service unavailable") /\
  calls busy.2 = 4%nat /\ slept busy.2 = [1; 2; 4].
Proof.
  intros c content busy.
  destruct (retry_exhaustion c "/score" content eq_refl)
    as [(Hres & Hcalls & Hslept & _) _].
  exact (conj Hres (conj Hcalls Hslept)).
Defined.

(** The loop always returns: the number of requests never exceeds
    [max_retries + 1]. *)
Lemma attempt_loop_calls_bound (t : transport) (endpoint : string)
    (attempts : list nat) (c : connector) :
  (calls (attempt_loop t endpoint attempts c).2 <= calls c + length attempts)%nat.
Proof.
  revert c. induction attempts as [|attempt rest IH]; intros c; simpl.
  - lia.
  - destruct (t (calls c)) as [status_code content| |].
    + destruct ((status_code =? 200) || (status_code =? 201)); [simpl; lia|].
      destruct (400 <=? status_code).
      * destruct (Z.of_nat attempt =? max_retries c); [simpl; lia|].
        destruct (500 <=? status_code); [|simpl; lia].
        etransitivity; [apply IH|]. simpl. lia.
      * etransitivity; [apply IH|]. simpl. lia.
    + destruct (Z.of_nat attempt =? max_retries c); [simpl; lia|].
      etransitivity; [apply IH|]. simpl. lia.
    + destruct (Z.of_nat attempt =? max_retries c); [simpl; lia|].
      etransitivity; [apply IH|]. simpl. lia.
Qed.

End HttpProofs.

Module NumProofs.
Import PyNum.

Lemma Qleb_true (a b : Q) : Qleb a b = true <-> (a <= b)%Q.
Proof. apply Qle_bool_iff. Qed.

Lemma Qleb_false (a b : Q) : Qleb a b = false <-> (b < a)%Q.
Proof.
  unfold Qleb. split.
  - intros H. apply Qnot_le_lt. intros Hle.
    apply Qle_bool_iff in Hle. congruence.
  - intros H. destruct (Qle_bool a b) eqn:E; [|reflexivity].
    apply Qle_bool_iff in E. exfalso. exact (Qlt_not_le _ _ H E).
Qed.

Lemma Qltb_true (a b : Q) : Qltb a b = true <-> (a < b)%Q.
Proof.
  unfold Qltb. rewrite negb_true_iff. apply (Qleb_false b a).
Qed.

Lemma Qltb_false (a b : Q) : Qltb a b = false <-> (b <= a)%Q.
Proof.
  unfold Qltb. rewrite negb_false_iff. apply (Qleb_true b a).
Qed.

Lemma fmin_le_l (a b : Q) : (fmin a b <= a)%Q.
Proof.
  unfold fmin. destruct (Qltb b a) eqn:E.
  - apply Qltb_true in E. apply Qlt_le_weak. exact E.
  - apply Qle_refl.
Qed.

Lemma fmin_le_r (a b : Q) : (fmin a b <= b)%Q.
Proof.
  unfold fmin. destruct (Qltb b a) eqn:E.
  - apply Qle_refl.
  - apply Qltb_false in E. exact E.
Qed.

Lemma fmin_glb (a b c : Q) : (c <= a)%Q -> (c <= b)%Q -> (c <= fmin a b)%Q.
Proof. intros Ha Hb. unfold fmin. destruct (Qltb b a); assumption. Qed.

Lemma fmax_ge_l (a b : Q) : (a <= fmax a b)%Q.
Proof.
  unfold fmax. destruct (Qltb a b) eqn:E.
  - apply Qltb_true in E. apply Qlt_le_weak. exact E.
  - apply Qle_refl.
Qed.

Lemma fmax_lub (a b c : Q) : (a <= c)%Q -> (b <= c)%Q -> (fmax a b <= c)%Q.
Proof. intros Ha Hb. unfold fmax. destruct (Qltb a b); assumption. Qed.

End NumProofs.

Module RoundingProofs.
Import PyNum NumProofs.

(** The rounded quotient is within one half of the exact one. *)
Lemma divide_and_round_spec (a b : Z) :
  0 < b ->
  2 * b * divide_and_round a b - b <= 2 * a <= 2 * b * divide_and_round a b + b.
Proof.
  intros Hb. unfold divide_and_round.
  pose proof (Z.div_mod a b ltac:(lia)) as Hdm.
  pose proof (Z.mod_pos_bound a b Hb) as Hmod.
  set (q := a / b) in *. set (r := a mod b) in *.
  replace (0 <? b) with true by (symmetry; apply Z.ltb_lt; lia).
  destruct (b <? 2 * r) eqn:Hgt; simpl.
  - apply Z.ltb_lt in Hgt. nia.
  - apply Z.ltb_ge in Hgt.
    destruct ((2 * r =? b) && (q mod 2 =? 1)) eqn:Htie.
    + apply andb_true_iff in Htie as [Htie _]. apply Z.eqb_eq in Htie. nia.
    + nia.
Qed.

Lemma round_half_even_le (x : Q) (m : Z) :
  (x <= inject_Z m)%Q -> round_half_even x <= m.
Proof.
  destruct x as [n d]. unfold round_half_even, Qle. simpl. intros Hx.
  pose proof (divide_and_round_spec n (Zpos d) ltac:(lia)) as [Hlo _].
  nia.
Qed.

Lemma round_half_even_ge (x : Q) (m : Z) :
  (inject_Z m <= x)%Q -> m <= round_half_even x.
Proof.
  destruct x as [n d]. unfold round_half_even, Qle. simpl. intros Hx.
  pose proof (divide_and_round_spec n (Zpos d) ltac:(lia)) as [_ Hhi].
  nia.
Qed.

Lemma round_half_even_close (x : Q) :
  (x - (1 # 2) <= inject_Z (round_half_even x))%Q.
Proof.
  destruct x as [n d]. unfold round_half_even, Qle, Qminus, Qplus, Qopp.
  simpl.
  pose proof (divide_and_round_spec n (Zpos d) ltac:(lia)) as [_ Hhi].
  nia.
Qed.

Lemma round2_value (x : Q) :
  (round2 x == inject_Z (round_half_even (x * 100)) / 100)%Q.
Proof.
  unfold round2, round_ndigits.
  change (Pos.pow 10 (Pos.of_nat 2)) with 100%positive.
  change (inject_Z (Z.pos 100)) with 100%Q.
  set (r := round_half_even (x * 100)).
  unfold Qeq, Qdiv, Qmult, Qinv, inject_Z. simpl. lia.
Qed.

(** Rounding to two decimals does not cross a number of whole cents. *)
Lemma round2_le (x : Q) (cents : Z) :
  (x <= inject_Z cents / 100)%Q -> (round2 x <= inject_Z cents / 100)%Q.
Proof.
  intros Hx. rewrite round2_value.
  unfold Qdiv in *. change (/ 100)%Q with (1 # 100)%Q in *.
  assert (H : round_half_even (x * 100) <= cents).
  { apply round_half_even_le. lra. }
  rewrite Zle_Qle in H. lra.
Qed.

Lemma round2_ge (x : Q) (cents : Z) :
  (inject_Z cents / 100 <= x)%Q -> (inject_Z cents / 100 <= round2 x)%Q.
Proof.
  intros Hx. rewrite round2_value.
  unfold Qdiv in *. change (/ 100)%Q with (1 # 100)%Q in *.
  assert (H : cents <= round_half_even (x * 100)).
  { apply round_half_even_ge. lra. }
  rewrite Zle_Qle in H. lra.
Qed.

(** Rounding to two decimals loses at most half a cent. *)
Lemma round_half_even_close_above (x : Q) :
  (inject_Z (round_half_even x) <= x + (1 # 2))%Q.
Proof.
  destruct x as [n d]. unfold round_half_even, Qle, Qplus.
  simpl.
  pose proof (divide_and_round_spec n (Zpos d) ltac:(lia)) as [Hlo _].
  nia.
Qed.

Lemma round2_close_above (x : Q) : (round2 x <= x + (1 # 200))%Q.
Proof.
  rewrite round2_value.
  unfold Qdiv. change (/ 100)%Q with (1 # 100)%Q.
  pose proof (round_half_even_close_above (x * 100)) as H. lra.
Qed.

Lemma round2_close (x : Q) : (x - (1 # 200) <= round2 x)%Q.
Proof.
  rewrite round2_value.
  unfold Qdiv. change (/ 100)%Q with (1 # 100)%Q.
  pose proof (round_half_even_close (x * 100)) as H. lra.
Qed.

End RoundingProofs.

Module FloatProofs.
Import PyNum PyFloat NumProofs RoundingProofs.

Lemma two_pow_pos (e : Z) : (0 < 2 ^ e)%Q.
Proof. apply Qpower_0_lt. reflexivity. Qed.

Lemma two_pow_Z (k : Z) : 0 <= k -> (2 ^ k == inject_Z (2 ^ k))%Q.
Proof.
  intros Hk. rewrite (Zpower_Qpower 2 k Hk). reflexivity.
Qed.

Lemma two_pow_opp (k : Z) : (2 ^ (- k) * 2 ^ k == 1)%Q.
Proof.
  rewrite <- Qpower_plus by discriminate.
  replace (- k + k) with 0 by lia. reflexivity.
Qed.

(** [floor_log2] does not overestimate. *)
Lemma floor_log2_spec (x : Q) : (0 < x)%Q -> (2 ^ floor_log2 x <= x)%Q.
Proof.
  intros Hx. unfold floor_log2.
  set (a := Z.log2 (Qnum x)). set (b := Z.log2 (Zpos (Qden x))).
  destruct (Qle_bool (2 ^ (a - b)) x) eqn:E.
  - apply Qle_bool_iff. exact E.
  - destruct x as [p q]. cbn [Qnum Qden] in *.
    assert (Hp : 0 < p) by (unfold Qlt in Hx; simpl in Hx; lia).
    pose proof (Z.log2_spec p Hp) as [Hplo _]. fold a in Hplo.
    pose proof (Z.log2_spec (Zpos q) ltac:(lia)) as [_ Hqhi]. fold b in Hqhi.
    assert (Ha : 0 <= a) by apply Z.log2_nonneg.
    assert (Hb : 0 <= b) by apply Z.log2_nonneg.
    replace (a - b - 1) with (a + - (Z.succ b)) by lia.
    rewrite Qpower_plus by discriminate.
    assert (Hinv : (2 ^ (- Z.succ b) == / inject_Z (2 ^ Z.succ b))%Q).
    { rewrite <- (two_pow_Z (Z.succ b)) by lia.
      apply Qmult_inj_r with (2 ^ Z.succ b)%Q.
      - intros H. pose proof (two_pow_pos (Z.succ b)) as Hpos.
        rewrite H in Hpos. exact (Qlt_irrefl _ Hpos).
      - rewrite two_pow_opp. rewrite Qmult_comm, Qmult_inv_r; [reflexivity|].
        intros H. pose proof (two_pow_pos (Z.succ b)) as Hpos.
        rewrite H in Hpos. exact (Qlt_irrefl _ Hpos). }
    rewrite Hinv, (two_pow_Z a Ha).
    assert (Hbpos : 0 < 2 ^ Z.succ b) by (apply Z.pow_pos_nonneg; lia).
    set (A := 2 ^ a) in *. set (B := 2 ^ Z.succ b) in *.
    assert (HB : (inject_Z A * / inject_Z B == A # Z.to_pos B)%Q).
    { rewrite (Qmake_Qdiv A (Z.to_pos B)). rewrite Z2Pos.id by exact Hbpos.
      reflexivity. }
    rewrite HB. unfold Qle. cbn [Qnum Qden].
    rewrite Z2Pos.id by exact Hbpos. nia.
Qed.

(** Rounding a positive number that is at most an integer below [2 ** 53]
    gives a number between 0 and that integer. *)
Lemma round_positive_bounds (x : Q) (N : Z) :
  (0 < x)%Q -> (x <= inject_Z N)%Q -> N < 2 ^ 53 ->
  (0 <= round_positive x)%Q /\ (round_positive x <= inject_Z N)%Q.
Proof.
  intros Hpos Hle Hsmall. unfold round_positive.
  pose proof (floor_log2_spec x Hpos) as Hlog.
  assert (Hl : floor_log2 x < 53).
  { apply (Qpower_lt_compat_l_inv 2); [|reflexivity].
    apply Qle_lt_trans with x; [exact Hlog|].
    apply Qle_lt_trans with (inject_Z N); [exact Hle|].
    rewrite (two_pow_Z 53) by lia. rewrite <- Zlt_Qlt. exact Hsmall. }
  set (e := Z.max (floor_log2 x - 52) (-1074)).
  assert (He : e <= 0) by lia.
  pose proof (two_pow_pos e) as Hpe.
  pose proof (two_pow_opp e) as Hopp.
  assert (Hk : (2 ^ (- e) == inject_Z (2 ^ (- e)))%Q) by (apply two_pow_Z; lia).
  assert (Hdiv : (x / 2 ^ e == x * inject_Z (2 ^ (- e)))%Q).
  { rewrite <- Hk. unfold Qdiv. apply Qmult_comp; [reflexivity|].
    apply Qmult_inj_r with (2 ^ e)%Q.
    - intros H. rewrite H in Hpe. exact (Qlt_irrefl _ Hpe).
    - rewrite Hopp. rewrite Qmult_comm, Qmult_inv_r; [reflexivity|].
      intros H. rewrite H in Hpe. exact (Qlt_irrefl _ Hpe). }
  assert (Hkpos : 0 < 2 ^ (- e)) by (apply Z.pow_pos_nonneg; lia).
  assert (Hkq : (0 < inject_Z (2 ^ (- e)))%Q).
  { change 0%Q with (inject_Z 0). rewrite <- Zlt_Qlt. exact Hkpos. }
  assert (Hm_lo : 0 <= round_half_even (x / 2 ^ e)).
  { apply round_half_even_ge. rewrite Hdiv. change (inject_Z 0) with 0%Q.
    apply Qmult_le_0_compat; [apply Qlt_le_weak; exact Hpos|].
    apply Qlt_le_weak. exact Hkq. }
  assert (Hm_hi : round_half_even (x / 2 ^ e) <= N * 2 ^ (- e)).
  { apply round_half_even_le. rewrite Hdiv, inject_Z_mult.
    apply Qmult_le_compat_r; [exact Hle | apply Qlt_le_weak; exact Hkq]. }
  set (m := round_half_even (x / 2 ^ e)) in *.
  split.
  - apply Qmult_le_0_compat; [|apply Qlt_le_weak; exact Hpe].
    change 0%Q with (inject_Z 0). rewrite <- Zle_Qle. exact Hm_lo.
  - apply Qle_trans with (inject_Z (N * 2 ^ (- e)) * 2 ^ e)%Q.
    + apply Qmult_le_compat_r; [|apply Qlt_le_weak; exact Hpe].
      rewrite <- Zle_Qle. exact Hm_hi.
    + rewrite inject_Z_mult, <- Hk, <- Qmult_assoc, Hopp, Qmult_1_r.
      apply Qle_refl.
Qed.

Lemma round_binary64_bounds (x : Q) (N : Z) :
  (0 <= x)%Q -> (x <= inject_Z N)%Q -> N < 2 ^ 53 ->
  (0 <= round_binary64 x)%Q /\ (round_binary64 x <= inject_Z N)%Q.
Proof.
  intros Hlo Hhi Hsmall. unfold round_binary64.
  destruct (Qeq_bool x 0) eqn:Ezero.
  - apply Qeq_bool_iff in Ezero. rewrite Ezero in Hhi.
    split; [apply Qle_refl | exact Hhi].
  - assert (Hpos : (0 < x)%Q).
    { apply Qle_lteq in Hlo as [H | H]; [exact H|].
      symmetry in H. apply Qeq_bool_iff in H. congruence. }
    replace (Qle_bool 0 x) with true
      by (symmetry; apply Qle_bool_iff; exact Hlo).
    apply round_positive_bounds; assumption.
Qed.

End FloatProofs.

Module BastionMockProofs.
Import Py PyNum PyTime Random BastionMock NumProofs.

Lemma clamp_unit_bounds (x : Q) : (0 <= clamp_unit x <= 1)%Q.
Proof.
  unfold clamp_unit. split.
  - apply fmax_ge_l.
  - apply fmax_lub; [unfold Qle; simpl; lia | apply fmin_le_l].
Qed.

Lemma decide_action_spec (r : Q) :
  (decide_action r = "DECLINE"%string <-> (8 # 10 <= r)%Q) /\
  (decide_action r = "REVIEW"%string <-> (5 # 10 <= r)%Q /\ (r < 8 # 10)%Q) /\
  (decide_action r = "APPROVE"%string <-> (r < 5 # 10)%Q).
Proof.
  unfold decide_action.
  destruct (Qleb (8 # 10) r) eqn:E8; [apply Qleb_true in E8 | apply Qleb_false in E8];
    (destruct (Qleb (5 # 10) r) eqn:E5; [apply Qleb_true in E5 | apply Qleb_false in E5]);
    unfold Qle, Qlt in *; simpl in *;
    (split; [|split]); split; intros H;
    first [discriminate H | reflexivity | lia].
Qed.

(** C3.  Whatever the request, the hour, the statistics and the generator,
    the mock scorer returns; with [r] the risk score after clamping, [r]
    lies in [0, 1] and the returned action is DECLINE exactly when
    [r >= 0.8], REVIEW exactly when [0.5 <= r < 0.8] and APPROVE exactly
    when [r < 0.5].  (The score reported back is [r] rounded to three
    decimals.) *)
Theorem mock_score_thresholds
    (data : score_request) (current_hour now : Z) (st : scorer_stats) (g : rng) :
  let r := clamped_risk data current_hour g in
  exists (resp : score_response) (st' : scorer_stats) (g' : rng),
    _mock_score_transaction data current_hour now st g = (Ok (resp, st'), g') /\
    (0 <= r <= 1)%Q /\
    r_risk_score resp = round3 r /\
    (r_action resp = "DECLINE"%string <-> (8 # 10 <= r)%Q) /\
    (r_action resp = "REVIEW"%string <-> (5 # 10 <= r)%Q /\ (r < 8 # 10)%Q) /\
    (r_action resp = "APPROVE"%string <-> (r < 5 # 10)%Q).
Proof.
  intros r. unfold r, _mock_score_transaction, clamped_risk.
  destruct (rule_risk data current_hour) as [risk rules].
  destruct (noise_range (default ∅ (metadata data))) as [lo hi].
  unfold bind, uniform, bind, random, ret. simpl.
  eexists _, _, _. split; [reflexivity|]. simpl.
  split; [apply clamp_unit_bounds|].
  split; [reflexivity|].
  apply decide_action_spec.
Qed.

End BastionMockProofs.

Module FormatProofs.
Import PyFormat.

Lemma digit_value_char (d : N) : (d < 10)%N -> digit_value (pretty_N_char d) = d.
Proof.
  intros Hd.
  assert (d = 0 \/ d = 1 \/ d = 2 \/ d = 3 \/ d = 4 \/ d = 5 \/ d = 6 \/
          d = 7 \/ d = 8 \/ d = 9)%N as Hcases by lia.
  repeat (destruct Hcases as [-> | Hcases]; [reflexivity|]).
  subst d. reflexivity.
Qed.

(** Reading back the digits that [pretty] puts in front of [s]. *)
Lemma parse_pretty_N_go (x : N) :
  exists k : N, forall (acc : N) (s : string),
    parse_decimal_from acc (pretty_N_go x s)
    = parse_decimal_from (acc * 10 ^ k + x)%N s.
Proof.
  induction (N.lt_wf_0 x) as [x _ IH].
  destruct (N.eq_dec x 0%N) as [-> | Hpos].
  - exists 0%N. intros acc s. rewrite pretty_N_go_0. f_equal. simpl. lia.
  - destruct (IH (x `div` 10)%N) as [k Hk].
    { apply N.div_lt; lia. }
    exists (k + 1)%N. intros acc s.
    rewrite pretty_N_go_step by lia. rewrite Hk. simpl.
    rewrite digit_value_char by (apply N.mod_lt; lia).
    f_equal. rewrite N.pow_add_r. simpl (10 ^ 1)%N.
    pose proof (N.div_mod x 10). lia.
Qed.

Lemma parse_pretty_N (x : N) : parse_decimal (pretty x) = x.
Proof.
  unfold pretty, pretty_N, parse_decimal.
  destruct (decide (x = 0)%N) as [-> | Hx]; [reflexivity|].
  destruct (parse_pretty_N_go x) as [k Hk]. rewrite Hk. simpl. lia.
Qed.

Lemma parse_pretty_Z (n : Z) : 0 <= n -> parse_decimal (pretty n) = Z.to_N n.
Proof.
  intros Hn. destruct n as [|p|p]; [reflexivity| |lia].
  change (pretty (Z.pos p)) with (pretty (N.pos p)).
  apply parse_pretty_N.
Qed.

Lemma parse_zeros (k : nat) (s : string) :
  parse_decimal (zeros k +:+ s) = parse_decimal s.
Proof.
  unfold parse_decimal. induction k as [|k IH]; simpl; [reflexivity|exact IH].
Qed.

Lemma parse_format_06d (n : Z) : 0 <= n -> parse_decimal (format_06d n) = Z.to_N n.
Proof.
  intros Hn. unfold format_06d.
  replace (n <? 0) with false by (symmetry; apply Z.ltb_ge; lia).
  unfold zero_pad. rewrite parse_zeros. apply parse_pretty_Z. exact Hn.
Qed.

(** Distinct non-negative counters are formatted to distinct strings. *)
Lemma format_06d_inj (a b : Z) :
  0 <= a -> 0 <= b -> format_06d a = format_06d b -> a = b.
Proof.
  intros Ha Hb Heq.
  apply (f_equal parse_decimal) in Heq.
  rewrite !parse_format_06d in Heq by assumption. lia.
Qed.

Example format_06d_samples :
  format_06d 1 = "000001"%string /\ format_06d 123456 = "123456"%string /\
  format_06d 1234567 = "1234567"%string /\ format_06d (-5) = "-00005"%string.
Proof. vm_compute. repeat split. Qed.

End FormatProofs.

Module NexumMockProofs.
Import Py PyNum PyFormat NexumMock FormatProofs.

(** C10.  A deposit naming an account that is not in the mock's store does
    not fail: the answer has state "processed" and carries the transaction
    id made from the mock's counter, which is then advanced, so the id
    differs from the id of every earlier counter value; the account store is
    left exactly as it was; and looking the same account up raises the 404
    API error, before and after the deposit. *)
Theorem deposit_to_unknown_account (data : movement) (m : mock) :
  accounts m !! m_account_id data = None ->
  let out := _mock_deposit data m in
  r_state out.1 = "processed"%string /\
  transaction_id out.1 = ("TXN_" +:+ format_06d (next_transaction_id m))%string /\
  next_transaction_id out.2 = next_transaction_id m + 1 /\
  (forall k : Z, 0 <= k < next_transaction_id m ->
     transaction_id out.1 <> ("TXN_" +:+ format_06d k)%string) /\
  accounts out.2 = accounts m /\
  _mock_get_account (m_account_id data) m
    = Raise (APIError Nexum 404 "Account not found") /\
  _mock_get_account (m_account_id data) out.2
    = Raise (APIError Nexum 404 "Account not found").
Proof.
  intros Habsent out. unfold out, _mock_deposit, _mock_get_account. simpl.
  rewrite !Habsent.
  split; [reflexivity|]. split; [reflexivity|]. split; [reflexivity|].
  split; [|repeat split].
  intros k Hk Heq. injection Heq as Heq.
  apply format_06d_inj in Heq; lia.
Qed.

Lemma deposit_to_unknown_account_witness :
  let data := {| m_account_id := "ACC_000099"; m_amount := 250;
                 m_description := "Initial balance seed";
                 m_channel := "system"; m_reference := None |} in
  let out := _mock_deposit data init in
  r_state out.1 = "processed"%string /\
  transaction_id out.1 = "TXN_000001"%string /\
  accounts out.2 = accounts init.
Proof.
  intros data out.
  destruct (deposit_to_unknown_account data init eq_refl)
    as (Hstate & Hid & _ & _ & Hacc & _).
  exact (conj Hstate (conj Hid Hacc)).
Defined.

(** For contrast: a deposit to a known account credits it. *)
Lemma deposit_to_known_account (data : movement) (m : mock) (a : account) :
  accounts m !! m_account_id data = Some a ->
  (_mock_deposit data m).2.(accounts) !! m_account_id data
  = Some (with_balance a (book_balance a + m_amount data)%Q).
Proof.
  intros Hin. unfold _mock_deposit. simpl. rewrite Hin.
  apply lookup_insert_eq.
Qed.

(** A withdrawal from an unknown account, unlike a deposit, is declined. *)
Lemma withdraw_from_unknown_account (data : movement) (m : mock) :
  accounts m !! m_account_id data = None ->
  r_state (_mock_withdraw data m).1 = "declined"%string.
Proof. intros Habsent. unfold _mock_withdraw. rewrite Habsent. reflexivity. Qed.

End NexumMockProofs.

Module EventsProofs.
Import Py Customers Events EventsSpec Samples.

Lemma fold_accumulate_multiplier (events : list LifeEvent) (t : totals) :
  (total_transaction_multiplier (fold_left accumulate events t)
   == total_transaction_multiplier t * product_of_multipliers events)%Q.
Proof.
  revert t. induction events as [|e events IH]; intros t; simpl.
  - ring.
  - rewrite IH. simpl. ring.
Qed.

Lemma fold_accumulate_risk (events : list LifeEvent) (t : totals) :
  (total_risk_adjustment (fold_left accumulate events t)
   == total_risk_adjustment t + sum_of_adjustments events)%Q.
Proof.
  revert t. induction events as [|e events IH]; intros t; simpl.
  - ring.
  - rewrite IH. simpl. ring.
Qed.

(** The product and the sum do not depend on the order in which two events
    are considered. *)
Lemma overlay_order_irrelevant (e1 e2 : LifeEvent) :
  (product_of_multipliers [e1; e2] == product_of_multipliers [e2; e1])%Q /\
  (sum_of_adjustments [e1; e2] == sum_of_adjustments [e2; e1])%Q.
Proof. simpl. split; ring. Qed.

(** C8.  For a stored customer profile (an object holding the dataclass
    fields only) and a non-empty list of active events, [apply_event_effects]
    returns a new object: its transaction frequency is the base frequency
    times the product of the events' frequency multipliers, its accumulated
    risk adjustment is the sum of the events' risk adjustments, every other
    field is the base profile's, and the stored base profile, like every
    other object of the heap, is left as it was. *)
Theorem overlay_composes
    (h : gmap loc customer_object) (customer : loc) (base : customer_object)
    (events : list LifeEvent) :
  h !! customer = Some base ->
  extra base = None ->
  events <> [] ->
  exists (derived : loc) (copy : customer_object) (added : overlay),
    apply_event_effects h customer events = (Ok derived, <[derived := copy]> h) /\
    derived <> customer /\
    h !! derived = None /\
    (<[derived := copy]> h) !! customer = Some base /\
    (forall l : loc, l <> derived -> (<[derived := copy]> h) !! l = h !! l) /\
    (transaction_frequency (fields copy)
     == transaction_frequency (fields base) * product_of_multipliers events)%Q /\
    same_but_frequency (fields base) (fields copy) /\
    extra copy = Some added /\
    (event_risk_adjustment added == sum_of_adjustments events)%Q /\
    active_events added = events.
Proof.
  intros Hbase Hplain Hne.
  destruct events as [|e events]; [congruence|].
  unfold apply_event_effects. rewrite Hbase, Hplain.
  set (derived := fresh (dom h)).
  assert (Hfresh : h !! derived = None).
  { apply not_elem_of_dom. apply is_fresh. }
  assert (Hdiff : derived <> customer).
  { intros ->. rewrite Hbase in Hfresh. discriminate. }
  eexists derived, _, _. split; [reflexivity|].
  split; [exact Hdiff|]. split; [exact Hfresh|].
  split; [rewrite lookup_insert_ne by exact Hdiff; exact Hbase|].
  split; [intros l Hl; apply lookup_insert_ne; congruence|].
  simpl. split.
  - rewrite (fold_accumulate_multiplier events). simpl. ring.
  - split; [unfold same_but_frequency; cbn; repeat split; reflexivity|].
    split; [reflexivity|]. split; [|reflexivity].
    simpl. rewrite (fold_accumulate_risk events). simpl. ring.
Qed.

(** Multipliers 1.5 and 2.0 with adjustments 0.1 and 0.2 compose to a
    frequency three times the base one and an adjustment of 0.3. *)
Lemma overlay_composes_witness :
  let base := {| fields := sample_customer; extra := None |} in
  let h : gmap loc customer_object := {[ 1%positive := base ]} in
  let events := [sample_event (3 # 2) (1 # 10); sample_event 2 (2 # 10)] in
  exists (derived : loc) (copy : customer_object) (added : overlay),
    apply_event_effects h 1%positive events = (Ok derived, <[derived := copy]> h) /\
    (<[derived := copy]> h) !! 1%positive = Some base /\
    (transaction_frequency (fields copy) == 4 * 3)%Q /\
    extra copy = Some added /\
    (event_risk_adjustment added == 3 # 10)%Q.
Proof.
  intros base h events.
  destruct (overlay_composes h 1%positive base events eq_refl eq_refl
              ltac:(discriminate))
    as (derived & copy & added & Hrun & _ & _ & Hkept & _ & Hfreq & _ & Hextra & Hrisk & _).
  exists derived, copy, added.
  split; [exact Hrun|]. split; [exact Hkept|].
  split; [rewrite Hfreq; reflexivity|].
  split; [exact Hextra|]. rewrite Hrisk. reflexivity.
Defined.

(** With no active event the very same object is returned. *)
Lemma overlay_without_events (h : gmap loc customer_object) (customer : loc) :
  apply_event_effects h customer [] = (Ok customer, h).
Proof. reflexivity. Qed.

(** An object that already carries an overlay cannot be overlaid again. *)
Lemma overlay_of_overlaid_raises (h : gmap loc customer_object) (customer : loc)
    (obj : customer_object) (added : overlay) (e : LifeEvent) (events : list LifeEvent) :
  h !! customer = Some obj -> extra obj = Some added ->
  exists msg, apply_event_effects h customer (e :: events) = (Raise (TypeError msg), h).
Proof.
  intros Hobj Hextra. unfold apply_event_effects. rewrite Hobj, Hextra.
  eexists. reflexivity.
Qed.

End EventsProofs.

Module RandomProofs.
Import Py PyNum Random NumProofs.

Lemma peek_bounds (g : rng) : (0 <= peek g)%Q /\ (peek g < 1)%Q.
Proof.
  unfold peek. set (x := draws g (cursor g)).
  pose proof (Qfloor_le x) as Hlo. pose proof (Qlt_floor x) as Hhi.
  rewrite inject_Z_plus in Hhi. change (inject_Z 1) with 1%Q in Hhi.
  split; lra.
Qed.

Lemma random_run (g : rng) : random g = (Ok (peek g), advance g).
Proof. reflexivity. Qed.

Lemma uniform_run (a b : Q) (g : rng) :
  uniform a b g = (Ok (a + (b - a) * peek g)%Q, advance g).
Proof. reflexivity. Qed.

Lemma uniform_bounds (a b : Q) (g : rng) :
  (a <= b)%Q ->
  (a <= a + (b - a) * peek g)%Q /\ (a + (b - a) * peek g <= b)%Q.
Proof.
  intros Hab. destruct (peek_bounds g) as [Hlo Hhi].
  assert (Hd : (0 <= b - a)%Q) by lra.
  assert (H0 : (0 <= (b - a) * peek g)%Q)
    by (apply Qmult_le_0_compat; assumption).
  assert (H1 : ((b - a) * peek g <= (b - a) * 1)%Q).
  { rewrite (Qmult_comm (b - a) (peek g)), (Qmult_comm (b - a) 1).
    apply Qmult_le_compat_r; lra. }
  split; lra.
Qed.

Lemma randbelow_run (n : Z) (g : rng) :
  randbelow n g = (Ok (Qfloor (peek g * inject_Z n)), advance g).
Proof. reflexivity. Qed.

Lemma randbelow_bounds (n : Z) (g : rng) :
  0 < n -> 0 <= Qfloor (peek g * inject_Z n) < n.
Proof.
  intros Hn. destruct (peek_bounds g) as [Hlo Hhi].
  assert (Hn' : (0 < inject_Z n)%Q).
  { change 0%Q with (inject_Z 0). rewrite <- Zlt_Qlt. exact Hn. }
  split.
  - change 0 with (Qfloor (inject_Z 0)). apply Qfloor_resp_le.
    apply Qmult_le_0_compat; lra.
  - rewrite Zlt_Qlt.
    apply Qle_lt_trans with (peek g * inject_Z n)%Q; [apply Qfloor_le|].
    rewrite <- (Qmult_1_l (inject_Z n)) at 2.
    apply Qmult_lt_compat_r; assumption.
Qed.

Lemma randint_run (a b : Z) (g : rng) :
  a <= b ->
  exists v : Z, randint a b g = (Ok v, advance g) /\ a <= v <= b.
Proof.
  intros Hab. unfold randint.
  replace (b <? a) with false by (symmetry; apply Z.ltb_ge; lia).
  unfold bind. rewrite randbelow_run. eexists. split; [reflexivity|].
  pose proof (randbelow_bounds (b - a + 1) g ltac:(lia)). lia.
Qed.

Lemma randint_empty (a b : Z) (g : rng) :
  b < a -> exists msg, randint a b g = (Raise (ValueError msg), g).
Proof.
  intros Hab. unfold randint.
  replace (b <? a) with true by (symmetry; apply Z.ltb_lt; lia).
  eexists. reflexivity.
Qed.

Lemma choice_run {A} (l : list A) (g : rng) :
  l <> [] ->
  exists x : A, choice l g = (Ok x, advance g) /\ x ∈ l.
Proof.
  intros Hne. destruct l as [|x0 l]; [congruence|].
  unfold choice, bind. rewrite randbelow_run. eexists. split; [reflexivity|].
  pose proof (randbelow_bounds (Z.of_nat (length (x0 :: l))) g
                ltac:(simpl; lia)) as [Hlo Hhi].
  apply list_elem_of_In. apply nth_In. lia.
Qed.

Lemma choice_singleton {A} (x : A) (g : rng) :
  choice [x] g = (Ok x, advance g).
Proof.
  destruct (choice_run [x] g ltac:(discriminate)) as (y & Hrun & Hin).
  rewrite Hrun. apply list_elem_of_singleton in Hin. subst y. reflexivity.
Qed.

End RandomProofs.

Module SampleProofs.
Import Py PyNum Random NumProofs RandomProofs.

(** One step of the pool: the element drawn leaves the live part of the pool
    and the last live element takes its place. *)
Lemma pool_step {A} (pool : list A) (live j : nat) (x y : A) :
  NoDup (take (S live) pool) ->
  (j <= live)%nat ->
  pool !! j = Some x ->
  pool !! live = Some y ->
  NoDup (take live (<[j := y]> pool)) /\
  (x ∉ take live (<[j := y]> pool)) /\
  (forall z, z ∈ take live (<[j := y]> pool) -> z ∈ take (S live) pool).
Proof.
  intros Hnd Hj Hx Hy.
  rewrite (take_S_r pool live y Hy) in *.
  apply NoDup_app in Hnd as (Hl & Hsep & _).
  assert (Hyl : y ∉ take live pool).
  { intros Hin. apply (Hsep y Hin). apply list_elem_of_singleton. reflexivity. }
  destruct (decide (j = live)) as [-> | Hne].
  - rewrite take_insert_ge by lia.
    assert (x = y) as -> by congruence.
    split; [exact Hl|]. split; [exact Hyl|].
    intros z Hz. apply elem_of_app. left. exact Hz.
  - assert (Hjl : (j < live)%nat) by lia.
    rewrite take_insert_lt by exact Hjl.
    assert (Hxl : take live pool !! j = Some x)
      by (rewrite lookup_take_lt by exact Hjl; exact Hx).
    pose proof (take_drop_middle _ _ _ Hxl) as Hsplit.
    set (l1 := take j (take live pool)) in *.
    set (l2 := drop (S j) (take live pool)) in *.
    assert (Hlen : length l1 = j).
    { unfold l1. rewrite length_take. apply lookup_lt_Some in Hxl. lia. }
    assert (Hins : <[j := y]> (take live pool) = l1 ++ y :: l2).
    { rewrite <- Hsplit. replace j with (length l1 + 0)%nat at 1 by lia.
      rewrite insert_app_r. reflexivity. }
    rewrite Hins. rewrite <- Hsplit in Hl, Hyl. rewrite <- Hsplit.
    apply NoDup_app in Hl as (Hl1 & Hsep1 & Hl2).
    apply NoDup_cons in Hl2 as (Hx2 & Hl2).
    rewrite elem_of_app, elem_of_cons in Hyl.
    split; [|split].
    + apply NoDup_app. split; [exact Hl1|]. split.
      * intros z Hz Hin. apply elem_of_cons in Hin as [-> | Hin].
        -- apply Hyl. left. exact Hz.
        -- apply (Hsep1 z Hz). right. exact Hin.
      * apply NoDup_cons. split; [|exact Hl2].
        intros Hin. apply Hyl. right. right. exact Hin.
    + rewrite elem_of_app, elem_of_cons. intros [Hin | [-> | Hin]].
      * apply (Hsep1 x Hin). left.
      * apply Hyl. right. left. reflexivity.
      * exact (Hx2 Hin).
    + intros z. rewrite !elem_of_app, !elem_of_cons.
      intros [Hin | [-> | Hin]];
        [left; left; exact Hin | right; left; reflexivity
        | left; right; right; exact Hin].
Qed.

(** Sampling from a pool whose live part has no repetition returns [k]
    elements of the live part, without repetition. *)
Lemma sample_pool_spec {A} (k : nat) :
  forall (pool : list A) (live : nat) (g : rng),
    NoDup (take live pool) ->
    (live <= length pool)%nat ->
    (k <= live)%nat ->
    exists (res : list A) (g' : rng),
      sample_pool pool live k g = (Ok res, g') /\
      length res = k /\ NoDup res /\
      (forall z, z ∈ res -> z ∈ take live pool).
Proof.
  induction k as [|k IH]; intros pool live g Hnd Hlen Hk.
  - exists [], g. simpl. repeat split; [constructor | intros z Hz; inversion Hz].
  - destruct live as [|live]; [lia|].
    cbn [sample_pool]. unfold bind at 1. rewrite randbelow_run.
    pose proof (randbelow_bounds (Z.of_nat (S live)) g ltac:(lia)) as Hj.
    set (j := Z.to_nat (Qfloor (peek g * inject_Z (Z.of_nat (S live))))) in *.
    assert (Hjl : (j <= live)%nat) by (unfold j; lia).
    destruct (lookup_lt_is_Some_2 pool j ltac:(lia)) as [x Hx].
    replace (S live - 1)%nat with live by lia.
    destruct (lookup_lt_is_Some_2 pool live ltac:(lia)) as [y Hy].
    rewrite Hx, Hy.
    destruct (pool_step pool live j x y Hnd Hjl Hx Hy) as (Hnd' & Hx' & Hsub).
    destruct (IH (<[j := y]> pool) live (advance g) Hnd'
                ltac:(rewrite length_insert; lia) ltac:(lia))
      as (res & g' & Hrun & Hres & Hnodup & Hin).
    exists (x :: res), g'. unfold bind. rewrite Hrun.
    split; [reflexivity|]. split; [simpl; lia|]. split.
    + apply NoDup_cons. split; [|exact Hnodup].
      intros Hxr. apply Hx'. apply Hin. exact Hxr.
    + intros z Hz. apply elem_of_cons in Hz as [-> | Hz].
      * rewrite (take_S_r pool live y Hy).
        destruct (decide (j = live)) as [-> | Hne].
        -- apply elem_of_app. right. assert (x = y) as -> by congruence.
           apply list_elem_of_singleton. reflexivity.
        -- apply elem_of_app. left. apply list_elem_of_lookup. exists j.
           rewrite lookup_take_lt by lia. exact Hx.
      * apply Hsub. apply Hin. exact Hz.
Qed.

(** Sampling commutes with a map over the population. *)
Lemma sample_pool_map {A B} (f : A -> B) (k : nat) :
  forall (pool : list A) (live : nat) (g : rng),
    sample_pool (map f pool) live k g
    = match sample_pool pool live k g with
      | (Ok res, g') => (Ok (map f res), g')
      | (Raise e, g') => (Raise e, g')
      end.
Proof.
  induction k as [|k IH]; intros pool live g; [reflexivity|].
  cbn [sample_pool]. unfold bind. rewrite !randbelow_run.
  set (j := Z.to_nat (Qfloor (peek g * inject_Z (Z.of_nat live)))).
  rewrite !list_lookup_fmap.
  destruct (pool !! j) as [x|]; simpl; [|reflexivity].
  destruct (pool !! (live - 1)%nat) as [y|]; simpl; [|reflexivity].
  rewrite <- list_fmap_insert. rewrite IH.
  destruct (sample_pool (<[j:=y]> pool) (live - 1) k (advance g)) as [[res|e] g'];
    reflexivity.
Qed.

End SampleProofs.

Module SampleTheorems.
Import Py PyNum Random NumProofs RandomProofs SampleProofs SampleSpec.

Lemma indexed_lookup {A} (population : list A) (i : nat) (x : A) :
  (i, x) ∈ zip (seq 0 (length population)) population ->
  population !! i = Some x.
Proof.
  intros Hin. apply list_elem_of_lookup in Hin as [n Hn].
  apply lookup_zip_with_Some in Hn as (i' & x' & Heq & Hi & Hx).
  injection Heq as -> ->. apply lookup_seq in Hi as [-> _]. exact Hx.
Qed.

(** [random.sample] without replacement: for [0 <= k <= len(population)] the
    call returns [k] elements taken at pairwise distinct positions. *)
Lemma sample_without_replacement {A} (population : list A) (k : Z) (g : rng) :
  0 <= k <= Z.of_nat (length population) ->
  exists (res : list A) (g' : rng),
    sample population k g = (Ok res, g') /\
    length res = Z.to_nat k /\
    at_distinct_positions population res.
Proof.
  intros Hk. unfold sample.
  replace ((0 <=? k) && (k <=? Z.of_nat (length population))) with true
    by (symmetry; apply andb_true_iff; split; apply Z.leb_le; lia).
  set (n := length population).
  set (pairs := zip (seq 0 n) population).
  assert (Hsnd : map snd pairs = population).
  { unfold pairs. apply snd_zip. rewrite length_seq. unfold n. lia. }
  assert (Hlen : length pairs = n).
  { rewrite <- (length_map snd pairs), Hsnd. reflexivity. }
  assert (Hfst : NoDup (map fst pairs)).
  { unfold pairs. rewrite fst_zip by (rewrite length_seq; unfold n; lia).
    apply NoDup_seq. }
  assert (Hnd : NoDup (take n pairs)).
  { rewrite take_ge by lia. eapply NoDup_fmap_1. exact Hfst. }
  destruct (sample_pool_spec (Z.to_nat k) pairs n g Hnd ltac:(lia)
              ltac:(unfold n; lia))
    as (rp & g' & Hrun & Hrlen & Hrnd & Hrin).
  rewrite take_ge in Hrin by lia.
  exists (map snd rp), g'. split.
  - rewrite <- Hsnd at 1. rewrite sample_pool_map, Hrun. reflexivity.
  - split; [rewrite length_map; exact Hrlen|].
    exists (map fst rp). split.
    + apply NoDup_fmap_2_strong; [|exact Hrnd].
      intros [i x] [i' x'] Hin Hin' Heq. simpl in Heq. subst i'.
      apply Hrin, indexed_lookup in Hin. apply Hrin, indexed_lookup in Hin'.
      congruence.
    + apply Forall2_fmap. apply Forall_Forall2_diag. apply Forall_forall.
      intros [i x] Hin. simpl. apply indexed_lookup. apply Hrin. exact Hin.
Qed.

Lemma sample_too_large {A} (population : list A) (k : Z) (g : rng) :
  Z.of_nat (length population) < k ->
  exists msg, sample population k g = (Raise (ValueError msg), g).
Proof.
  intros Hk. unfold sample.
  replace ((0 <=? k) && (k <=? Z.of_nat (length population))) with false.
  - eexists. reflexivity.
  - symmetry. apply andb_false_iff. right. apply Z.leb_gt. lia.
Qed.

End SampleTheorems.

Module GenLogicProofs.
Import Py PyNum Random GenLogic NumProofs RandomProofs SampleProofs
       SampleSpec SampleTheorems.

Lemma bind_ok {A B} (m : gen A) (k : A -> gen B) (g g' : rng) (a : A) :
  m g = (Ok a, g') -> bind m k g = k a g'.
Proof. intros H. unfold bind. rewrite H. reflexivity. Qed.

Lemma bind_raise {A B} (m : gen A) (k : A -> gen B) (g g' : rng) (e : exn) :
  m g = (Raise e, g') -> bind m k g = (Raise e, g').
Proof. intros H. unfold bind. rewrite H. reflexivity. Qed.

Lemma yields_ret {A} (a : A) (P : A -> Prop) : P a -> yields (ret a) P.
Proof. intros H g. exists a, g. split; [reflexivity | exact H]. Qed.

Lemma yields_bind {A B} (m : gen A) (k : A -> gen B)
    (P : A -> Prop) (Q : B -> Prop) :
  yields m P -> (forall a, P a -> yields (k a) Q) -> yields (bind m k) Q.
Proof.
  intros Hm Hk g. destruct (Hm g) as (a & g1 & Hrun & Ha).
  destruct (Hk a Ha g1) as (b & g2 & Hrun2 & Hb).
  exists b, g2. split; [|exact Hb].
  rewrite (bind_ok _ _ _ _ _ Hrun). exact Hrun2.
Qed.

Lemma yields_bind_ret_eq {A B} (a : A) (k : A -> gen B) (Q : B -> Prop) :
  yields (k a) Q -> yields (bind (ret a) k) Q.
Proof.
  intros H. eapply yields_bind with (P := fun x => x = a).
  - apply yields_ret. reflexivity.
  - intros x ->. exact H.
Qed.

Lemma yields_weaken {A} (m : gen A) (P Q : A -> Prop) :
  yields m P -> (forall a, P a -> Q a) -> yields m Q.
Proof.
  intros Hm HPQ g. destruct (Hm g) as (a & g' & Hrun & Ha).
  exists a, g'. split; [exact Hrun | apply HPQ; exact Ha].
Qed.

Lemma yields_random : yields random (fun u => (0 <= u)%Q /\ (u < 1)%Q).
Proof. intros g. exists (peek g), (advance g). split; [reflexivity | apply peek_bounds]. Qed.

Lemma yields_uniform (a b : Q) :
  (a <= b)%Q -> yields (uniform a b) (fun x => (a <= x)%Q /\ (x <= b)%Q).
Proof.
  intros Hab g. eexists _, _. split; [apply uniform_run|].
  apply uniform_bounds. exact Hab.
Qed.

Lemma yields_uniform_any (a b : Q) : yields (uniform a b) (fun _ => True).
Proof. intros g. eexists _, _. split; [apply uniform_run | exact I]. Qed.

Lemma yields_randint (a b : Z) :
  a <= b -> yields (randint a b) (fun v => a <= v <= b).
Proof.
  intros Hab g. destruct (randint_run a b g Hab) as (v & Hrun & Hv).
  exists v, (advance g). split; assumption.
Qed.

Lemma yields_choice {A} (l : list A) :
  l <> [] -> yields (choice l) (fun x => x ∈ l).
Proof.
  intros Hne g. destruct (choice_run l g Hne) as (x & Hrun & Hx).
  exists x, (advance g). split; assumption.
Qed.

Lemma yields_choice_singleton {A} (x : A) : yields (choice [x]) (fun y => y = x).
Proof.
  eapply yields_weaken; [apply yields_choice; discriminate|].
  intros y Hy. apply list_elem_of_singleton in Hy. exact Hy.
Qed.

Lemma yields_sample {A} (population : list A) (k : Z) :
  0 <= k <= Z.of_nat (length population) ->
  yields (sample population k)
         (fun res => length res = Z.to_nat k /\ at_distinct_positions population res).
Proof.
  intros Hk g.
  destruct (sample_without_replacement population k g Hk) as (res & g' & H).
  exists res, g'. exact H.
Qed.

(** Elements at some positions of a list are elements of the list. *)
Lemma at_distinct_positions_elem {A} (population res : list A) (x : A) :
  at_distinct_positions population res -> x ∈ res -> x ∈ population.
Proof.
  intros (positions & _ & Hall) Hx.
  apply list_elem_of_lookup in Hx as [n Hn].
  destruct (Forall2_lookup_r _ _ _ _ _ Hall Hn) as (i & _ & Hi).
  apply list_elem_of_lookup. exists i. exact Hi.
Qed.

End GenLogicProofs.

Module FraudAttackProofs.
Import Py PyNum PyTime Random GenLogic NumProofs RandomProofs SampleSpec
       SampleTheorems GenLogicProofs Customers Transactions Fraud FraudAttack.

Lemma yields_accounts_of (account_mapping : gmap string (list string))
    (cid : string) :
  is_Some (account_mapping !! cid) ->
  yields (accounts_of account_mapping cid)
         (fun l => account_mapping !! cid = Some l).
Proof.
  intros [l Hl] g. exists l, g. unfold accounts_of. rewrite Hl.
  split; reflexivity.
Qed.

Lemma yields_all_accounts_of (account_mapping : gmap string (list string))
    (customers : list CustomerProfile) :
  (forall c, c ∈ customers -> is_Some (account_mapping !! customer_id c)) ->
  yields (all_accounts_of account_mapping customers) (fun _ => True).
Proof.
  induction customers as [|c rest IH]; intros Hall; simpl.
  - apply yields_ret. exact I.
  - eapply yields_bind.
    + apply yields_accounts_of. apply Hall. left.
    + intros mine _. eapply yields_bind.
      * apply IH. intros c' Hc'. apply Hall. right. exact Hc'.
      * intros others _. apply yields_ret. exact I.
Qed.

(** One step of a [yields] goal whose computation starts with a library
    call. *)
Ltac yields_step :=
  lazymatch goal with
  | |- yields (ret _) _ => apply yields_ret
  | |- yields (bind (randint _ _) _) _ =>
      eapply yields_bind; [apply yields_randint; lia | intros ? ?; cbv beta in *]
  | |- yields (bind (choice [_]) _) _ =>
      eapply yields_bind; [apply yields_choice_singleton | intros ? ->]
  | |- yields (bind (choice _) _) _ =>
      eapply yields_bind; [apply yields_choice; discriminate | intros ? ?]
  | |- yields (bind (uniform _ _) _) _ =>
      eapply yields_bind; [apply yields_uniform_any | intros ? _]
  | |- yields (bind random _) _ =>
      eapply yields_bind; [apply yields_random | intros ? ?]
  | |- yields (bind (accounts_of _ _) _) _ =>
      eapply yields_bind; [apply yields_accounts_of; assumption | intros ? ?]
  end.

Section OneTarget.

Variable account_mapping : gmap string (list string).
Variable c : CustomerProfile.
Hypothesis has_accounts : is_Some (account_mapping !! customer_id c).

Variable start_time : Z.
Variable intensity : Q.

(** What the setup needs of a profile: it is of the requested type and
    belongs to the target customer. *)
Let made_for (t : FraudType) (p : FraudProfile) : Prop :=
  fraud_type p = t /\ customer_ids p = [customer_id c].

Lemma card_testing_made (fid : string) :
  yields (_generate_card_testing fid [c] account_mapping start_time intensity)
         (made_for CARD_TESTING).
Proof.
  unfold _generate_card_testing. repeat yields_step. split; reflexivity.
Qed.

Lemma velocity_attack_made (fid : string) :
  yields (_generate_velocity_attack fid [c] account_mapping start_time intensity)
         (made_for VELOCITY_ATTACK).
Proof.
  unfold _generate_velocity_attack. repeat yields_step. split; reflexivity.
Qed.

Lemma large_amount_made (fid : string) :
  yields (_generate_large_amount_fraud fid [c] account_mapping start_time intensity)
         (made_for LARGE_AMOUNT).
Proof.
  unfold _generate_large_amount_fraud. cbv zeta.
  assert (Hpool :
    match List.filter (fun c0 => str_in (income_level_value (income_level c0))
                                   ["high"; "ultra_high"]%string) [c] with
    | [] => [c] | _ :: _ =>
        List.filter (fun c0 => str_in (income_level_value (income_level c0))
                                 ["high"; "ultra_high"]%string) [c]
    end = [c]).
  { simpl. destruct (income_level c); reflexivity. }
  rewrite Hpool. repeat yields_step. split; reflexivity.
Qed.

Lemma account_takeover_made (fid : string) :
  yields (_generate_account_takeover fid [c] account_mapping start_time intensity)
         (made_for ACCOUNT_TAKEOVER).
Proof.
  unfold _generate_account_takeover. repeat yields_step. split; reflexivity.
Qed.

Lemma unusual_location_made (fid : string) :
  yields (_generate_unusual_location_fraud fid [c] account_mapping start_time intensity)
         (made_for UNUSUAL_LOCATION).
Proof.
  unfold _generate_unusual_location_fraud. repeat yields_step. split; reflexivity.
Qed.

Lemma generic_made (fid : string) (t : FraudType) :
  yields (_generate_generic_fraud fid t [c] account_mapping start_time intensity)
         (made_for t).
Proof.
  unfold _generate_generic_fraud. repeat yields_step. split; reflexivity.
Qed.

Lemma sample_of_one (k : Z) :
  1 <= k ->
  yields (sample [c] (Z.min k (Z.of_nat (length [c])))) (fun res => res = [c]).
Proof.
  intros Hk. replace (Z.min k (Z.of_nat (length [c]))) with 1 by (simpl; lia).
  eapply yields_weaken; [apply yields_sample; simpl; lia|].
  intros res [Hlen Hpos]. destruct res as [|x [|y res]]; try discriminate.
  f_equal. apply list_elem_of_singleton.
  apply (at_distinct_positions_elem [c] [x] x Hpos). left.
Qed.

Lemma structuring_made (fid : string) :
  yields (_generate_structuring_attack fid [c] account_mapping start_time
            intensity no_kwargs)
         (made_for STRUCTURING).
Proof.
  unfold _generate_structuring_attack. cbn [no_kwargs kw_threshold kw_split_into].
  yields_step. cbn [default].
  eapply yields_bind with (P := fun x => x = 9999%Q);
    [apply yields_ret; reflexivity | intros individual_max ->].
  eapply yields_bind with (P := fun _ => True).
  { change (Qeq_bool 9999 0) with false. apply yields_ret. exact I. }
  intros transaction_count _.
  yields_step.
  eapply yields_bind with (P := fun l => l = [c]).
  { destruct (Qltb a0 (7 # 10)).
    - yields_step. apply yields_ret. reflexivity.
    - yields_step. apply sample_of_one. lia. }
  intros involved ->.
  eapply yields_bind.
  { apply yields_all_accounts_of. intros c' Hc'.
    apply list_elem_of_singleton in Hc'. subst c'. exact has_accounts. }
  intros all_accounts _. repeat yields_step. split; reflexivity.
Qed.

Lemma attack_made (t : FraudType) :
  t <> LAYERING ->
  yields (generate_fraud_attack t [c] account_mapping start_time intensity no_kwargs)
         (made_for t).
Proof.
  intros Ht. unfold generate_fraud_attack. yields_step.
  destruct t; try congruence;
    first [ apply card_testing_made | apply velocity_attack_made
          | apply large_amount_made | apply account_takeover_made
          | apply structuring_made | apply unusual_location_made
          | apply generic_made ].
Qed.

(** The layering constructor draws the default of its [hops] argument with
    [random.randint(3, num_customers)] even when it is given one customer
    only: the range is empty and the call raises. *)
Lemma layering_attack_raises (g : rng) :
  exists (msg : string) (g' : rng),
    generate_fraud_attack LAYERING [c] account_mapping start_time intensity
      no_kwargs g = (Raise (ValueError msg), g').
Proof.
  unfold generate_fraud_attack.
  destruct (randint_run 1000 9999 g ltac:(lia)) as (suffix & Hsuffix & _).
  rewrite (bind_ok _ _ _ _ _ Hsuffix).
  unfold _generate_layering_attack. cbn [no_kwargs kw_hops kw_amounts default].
  destruct (sample_of_one 5 ltac:(lia) (advance g)) as (res & g1 & Hsample & ->).
  rewrite (bind_ok _ _ _ _ _ Hsample).
  destruct (yields_all_accounts_of account_mapping [c]
              ltac:(intros c' Hc'; apply list_elem_of_singleton in Hc';
                    subst c'; exact has_accounts) g1)
    as (accounts & g2 & Haccounts & _).
  rewrite (bind_ok _ _ _ _ _ Haccounts).
  destruct (randint_empty 3 (Z.min 5 (Z.of_nat (length [c]))) g2
              ltac:(simpl; lia)) as (msg & Hraise).
  rewrite (bind_raise _ _ _ _ _ Hraise).
  exists msg, g2. reflexivity.
Qed.

End OneTarget.

End FraudAttackProofs.

Module SetupProofs.
Import Py PyNum PyFloat PyTime Random GenLogic NumProofs FloatProofs
       RandomProofs SampleSpec SampleTheorems GenLogicProofs Customers
       Transactions Fraud FraudAttack FraudAttackProofs Setup SetupSpec.

Lemma int_of_nonneg (x : Q) : (0 <= x)%Q -> int_of x = Qfloor x.
Proof.
  intros Hx. destruct x as [n d]. unfold int_of, Qfloor. simpl.
  unfold Qle in Hx. simpl in Hx.
  apply Z.quot_div_nonneg; lia.
Qed.

(** The float product decides the count: seven targets of ten at weight
    0.7, but twenty-eight of a hundred at weight 0.29. *)
Example num_targets_of_ten : num_targets 10 (7 # 10) = 7.
Proof. vm_compute. reflexivity. Qed.

Example num_targets_of_hundred : num_targets 100 (29 # 100) = 28.
Proof. vm_compute. reflexivity. Qed.

(** For a weight in [0, 1] and a non-empty population of fewer than
    [2 ** 53] customers the number of targets lies between 1 and the
    population size. *)
Lemma num_targets_range (n : nat) (w : Q) :
  (1 <= n)%nat -> Z.of_nat n < 2 ^ 53 -> (0 <= w)%Q -> (w <= 1)%Q ->
  1 <= num_targets n w <= Z.of_nat n.
Proof.
  intros Hn Hsmall Hw0 Hw1. unfold num_targets.
  assert (Hn0 : (0 <= inject_Z (Z.of_nat n))%Q).
  { change 0%Q with (inject_Z 0). rewrite <- Zle_Qle. lia. }
  destruct (round_binary64_bounds (inject_Z (Z.of_nat n)) (Z.of_nat n) Hn0
              (Qle_refl _) Hsmall) as [Hfn0 Hfn].
  destruct (round_binary64_bounds w 1 Hw0 Hw1 ltac:(reflexivity))
    as [Hfw0 Hfw1].
  fold (float_of_int (Z.of_nat n)) in Hfn0, Hfn.
  set (fn := float_of_int (Z.of_nat n)) in *.
  set (fw := round_binary64 w) in *.
  assert (Hx0 : (0 <= fn * fw)%Q) by (apply Qmult_le_0_compat; assumption).
  assert (Hxn : (fn * fw <= inject_Z (Z.of_nat n))%Q).
  { apply Qle_trans with (fn * 1)%Q.
    - rewrite !(Qmult_comm fn). apply Qmult_le_compat_r; assumption.
    - rewrite Qmult_1_r. exact Hfn. }
  destruct (round_binary64_bounds (fn * fw) (Z.of_nat n) Hx0 Hxn Hsmall)
    as [Hp0 Hpn].
  fold (float_mul fn fw) in Hp0, Hpn.
  rewrite (int_of_nonneg _ Hp0).
  pose proof (Qfloor_resp_le _ _ Hpn) as Hfl. rewrite Qfloor_Z in Hfl. lia.
Qed.

Lemma yields_draw_attack_time (cfg : FraudConfig) (duration_hours sim_start : Z) :
  window_well_formed (attack_window cfg) ->
  yields (draw_attack_time cfg duration_hours sim_start) (fun _ => True).
Proof.
  intros Hw. unfold draw_attack_time.
  destruct (attack_window cfg) as [[|a [|b [|x rest]]]|]; simpl in Hw;
    try contradiction;
    (eapply yields_bind; [apply yields_uniform_any | intros h _];
     apply yields_ret; exact I).
Qed.

(** The inner loop appends one profile per target customer, in order. *)
Lemma schedule_targets_made (cfg : FraudConfig) (duration_hours sim_start : Z)
    (account_mapping : gmap string (list string)) (t : FraudType) (intensity : Q)
    (targets : list CustomerProfile) :
  window_well_formed (attack_window cfg) ->
  t <> LAYERING ->
  (forall c, c ∈ targets -> is_Some (account_mapping !! customer_id c)) ->
  forall profiles : list FraudProfile,
    yields (schedule_targets cfg duration_hours sim_start account_mapping t
              intensity targets profiles)
           (fun ps => exists new : list FraudProfile,
              ps = profiles ++ new /\
              Forall2 (fun c p => fraud_type p = t /\
                                  customer_ids p = [customer_id c])
                      targets new).
Proof.
  intros Hw Ht. induction targets as [|c rest IH]; intros Hall profiles; simpl.
  - apply yields_ret. exists []. split; [symmetry; apply app_nil_r | constructor].
  - eapply yields_bind; [apply yields_draw_attack_time; exact Hw|].
    intros attack_time _.
    eapply yields_bind.
    { apply attack_made; [apply Hall; left | exact Ht]. }
    intros p Hp. cbv beta in Hp.
    eapply yields_weaken.
    { apply IH. intros c' Hc'. apply Hall. right. exact Hc'. }
    intros ps (new & -> & Hnew). exists (p :: new). split.
    + rewrite <- app_assoc. reflexivity.
    + constructor; assumption.
Qed.

End SetupProofs.

Module SetupTheorems.
Import Py PyNum PyFloat PyTime Random GenLogic NumProofs RandomProofs
       SampleSpec SampleTheorems GenLogicProofs Customers Transactions Fraud
       FraudAttack FraudAttackProofs Setup SetupSpec SetupProofs Samples
       FraudSamples.

(** C7 as stated fails: with two customers and a weight of 0.75 the setup
    selects [max(1, int(1.5)) = 1] target and schedules one profile, where
    the count with [round] would be [max(1, round(1.5)) = 2]. *)
Lemma rounded_target_count_differs :
  exists (targets : list CustomerProfile) (profiles : list FraudProfile) (g' : rng),
    setup_pattern no_window 24 0 two_customers two_customer_accounts
      card_testing_three_quarters [] (constant_rng (1 # 2))
    = (Ok (targets, profiles), g') /\
    length targets = 1%nat /\ length profiles = 1%nat /\
    num_targets_rounded (length two_customers)
      (weight card_testing_three_quarters) = 2.
Proof.
  eexists _, _, _. split; [vm_compute; reflexivity|].
  repeat split.
Qed.

(** C7, amended.  For every configured pattern of a known type, with a
    weight in [0, 1] and a non-empty population (of fewer than [2 ** 53]
    customers, so that its size is a float): the setup samples its target
    customers from the population without replacement (they are the
    population's customers at pairwise distinct positions), their number is
    [max(1, int(population_size * weight))], the float product truncated,
    and the setup goes on to schedule one attack per target, in order.
    When the type is not layering (and the attack window is well formed and
    every customer has an entry in the account mapping), the setup of the
    pattern returns, and exactly one fraud profile of the pattern's type is
    appended per target, in order, each for its own target customer. *)
Theorem setup_pattern_targets
    (cfg : FraudConfig) (duration_hours sim_start : Z)
    (customers : list CustomerProfile)
    (account_mapping : gmap string (list string))
    (pattern_config : FraudPatternConfig) (profiles : list FraudProfile)
    (t : FraudType) (g : rng) :
  fraud_type_of_value (pattern_type pattern_config) = Ok t ->
  customers <> [] ->
  Z.of_nat (length customers) < 2 ^ 53 ->
  (0 <= weight pattern_config)%Q -> (weight pattern_config <= 1)%Q ->
  exists (targets : list CustomerProfile) (g1 : rng),
    sample customers
      (num_targets (length customers) (weight pattern_config)) g
    = (Ok targets, g1) /\
    Z.of_nat (length targets)
    = Z.max 1 (int_of (float_mul (float_of_int (Z.of_nat (length customers)))
                                 (round_binary64 (weight pattern_config)))) /\
    at_distinct_positions customers targets /\
    setup_pattern cfg duration_hours sim_start customers account_mapping
      pattern_config profiles g
    = bind (schedule_targets cfg duration_hours sim_start account_mapping t
              (pattern_intensity pattern_config) targets profiles)
           (fun profiles' => ret (targets, profiles')) g1 /\
    (t <> LAYERING ->
     window_well_formed (attack_window cfg) ->
     (forall c, c ∈ customers -> is_Some (account_mapping !! customer_id c)) ->
     exists (profiles' new : list FraudProfile) (g' : rng),
       setup_pattern cfg duration_hours sim_start customers account_mapping
         pattern_config profiles g = (Ok (targets, profiles'), g') /\
       profiles' = profiles ++ new /\
       Forall2 (fun c p => fraud_type p = t /\ customer_ids p = [customer_id c])
               targets new).
Proof.
  intros Htype Hne Hsmall Hw0 Hw1.
  assert (Hn : (1 <= length customers)%nat).
  { destruct customers; [congruence | simpl; lia]. }
  pose proof (num_targets_range (length customers) (weight pattern_config)
                Hn Hsmall Hw0 Hw1) as Hrange.
  destruct (sample_without_replacement customers
              (num_targets (length customers) (weight pattern_config)) g
              ltac:(lia)) as (targets & g1 & Hsample & Hlen & Hpos).
  assert (Hsetup :
    setup_pattern cfg duration_hours sim_start customers account_mapping
      pattern_config profiles g
    = bind (schedule_targets cfg duration_hours sim_start account_mapping t
              (pattern_intensity pattern_config) targets profiles)
           (fun profiles' => ret (targets, profiles')) g1).
  { unfold setup_pattern. rewrite Htype.
    rewrite (bind_ok _ _ g g _ (eq_refl : ret t g = (Ok t, g))).
    rewrite (bind_ok _ _ _ _ _ Hsample). reflexivity. }
  exists targets, g1. split; [exact Hsample|].
  split; [rewrite Hlen; unfold num_targets; lia|].
  split; [exact Hpos|]. split; [exact Hsetup|].
  intros Ht Hwin Hall.
  destruct (schedule_targets_made cfg duration_hours sim_start account_mapping
              t (pattern_intensity pattern_config) targets Hwin Ht
              ltac:(intros c Hc; apply Hall;
                    exact (at_distinct_positions_elem _ _ _ Hpos Hc))
              profiles g1)
    as (profiles' & g2 & Hrun & new & Happ & Hnew).
  exists profiles', new, g2.
  split; [|split; assumption].
  rewrite Hsetup. rewrite (bind_ok _ _ _ _ _ Hrun). reflexivity.
Qed.

Lemma setup_pattern_targets_witness :
  exists (targets : list CustomerProfile) (profiles' new : list FraudProfile)
         (g' : rng),
    setup_pattern no_window 24 0 two_customers two_customer_accounts
      card_testing_three_quarters [] (constant_rng (1 # 2))
    = (Ok (targets, profiles'), g') /\
    Z.of_nat (length targets) = 1 /\
    at_distinct_positions two_customers targets /\
    profiles' = [] ++ new /\
    Forall2 (fun c p => fraud_type p = CARD_TESTING /\
                        customer_ids p = [customer_id c]) targets new.
Proof.
  destruct (setup_pattern_targets no_window 24 0 two_customers
              two_customer_accounts card_testing_three_quarters []
              CARD_TESTING (constant_rng (1 # 2)))
    as (targets & g1 & _ & Hlen & Hpos & _ & Hprofiles).
  - reflexivity.
  - discriminate.
  - vm_compute. reflexivity.
  - unfold Qle; simpl; lia.
  - unfold Qle; simpl; lia.
  - destruct Hprofiles as (profiles' & new & g' & Hrun & Happ & Hnew).
    + discriminate.
    + exact I.
    + intros c Hc. unfold two_customers in Hc.
      apply elem_of_cons in Hc as [-> | Hc];
        [|apply list_elem_of_singleton in Hc; subst c];
        vm_compute; eexists; reflexivity.
    + exists targets, profiles', new, g'.
      split; [exact Hrun|]. split; [exact Hlen|].
      split; [exact Hpos|]. split; assumption.
Defined.

(** A layering pattern cannot be set up: the attack of its first target
    raises, so the whole setup of the pattern raises. *)
Lemma setup_pattern_layering_raises
    (cfg : FraudConfig) (duration_hours sim_start : Z)
    (customers : list CustomerProfile)
    (account_mapping : gmap string (list string))
    (pattern_config : FraudPatternConfig) (profiles : list FraudProfile)
    (g : rng) :
  fraud_type_of_value (pattern_type pattern_config) = Ok LAYERING ->
  customers <> [] ->
  Z.of_nat (length customers) < 2 ^ 53 ->
  (0 <= weight pattern_config)%Q -> (weight pattern_config <= 1)%Q ->
  window_well_formed (attack_window cfg) ->
  (forall c, c ∈ customers -> is_Some (account_mapping !! customer_id c)) ->
  exists (msg : string) (g' : rng),
    setup_pattern cfg duration_hours sim_start customers account_mapping
      pattern_config profiles g = (Raise (ValueError msg), g').
Proof.
  intros Htype Hne Hsmall Hw0 Hw1 Hwin Hall.
  assert (Hn : (1 <= length customers)%nat).
  { destruct customers; [congruence | simpl; lia]. }
  pose proof (num_targets_range (length customers) (weight pattern_config)
                Hn Hsmall Hw0 Hw1) as Hrange.
  unfold setup_pattern. rewrite Htype.
  rewrite (bind_ok _ _ g g _ (eq_refl : ret LAYERING g = (Ok LAYERING, g))).
  destruct (sample_without_replacement customers
              (num_targets (length customers) (weight pattern_config)) g
              ltac:(lia)) as (targets & g1 & Hsample & Hlen & Hpos).
  rewrite (bind_ok _ _ _ _ _ Hsample).
  destruct targets as [|c rest]; [simpl in Hlen; lia|].
  destruct (yields_draw_attack_time cfg duration_hours sim_start Hwin g1)
    as (attack_time & g2 & Htime & _).
  destruct (layering_attack_raises account_mapping c
              ltac:(apply Hall;
                    apply (at_distinct_positions_elem _ _ _ Hpos); left)
              attack_time (pattern_intensity pattern_config) g2)
    as (msg & g3 & Hraise).
  assert (Hsched :
    schedule_targets cfg duration_hours sim_start account_mapping LAYERING
      (pattern_intensity pattern_config) (c :: rest) profiles g1
    = (Raise (ValueError msg), g3)).
  { cbn [schedule_targets]. rewrite (bind_ok _ _ _ _ _ Htime).
    apply bind_raise. exact Hraise. }
  exists msg, g3. apply bind_raise. exact Hsched.
Qed.

End SetupTheorems.

Module FraudGatingProofs.
Import Py PyNum PyTime Random GenLogic NumProofs RandomProofs GenLogicProofs
       Transactions Fraud FraudGenerator FraudSpec MoreFraudSamples FraudSamples.

(** One step of a [yields] goal about a transaction builder. *)
Ltac builder_step :=
  lazymatch goal with
  | |- yields (ret _) _ => apply yields_ret; exact I
  | |- yields (bind (key _ (Some _)) _) _ => apply yields_bind_ret_eq
  | |- yields (bind (randint _ _) _) _ =>
      eapply yields_bind; [apply yields_randint; lia | intros ? _]
  | |- yields (bind (choice _) _) _ =>
      eapply yields_bind;
        [apply yields_choice; first [assumption | discriminate] | intros ? _]
  | |- yields (bind (uniform _ _) _) _ =>
      eapply yields_bind; [apply yields_uniform_any | intros ? _]
  end.

Lemma candidate_builder_returns (p : FraudProfile) (i : Z) :
  gated_type (fraud_type p) = true -> buildable p ->
  yields (candidate_builder p i) (fun _ => True).
Proof.
  intros Hgated (Haccounts & Hduration & [count Hcount] & [range Hrange] & Hrest).
  unfold candidate_builder.
  destruct (fraud_type p); try discriminate Hgated.
  - destruct Hrest as [(cs & Hcs & Hcs') (ms & Hms & Hms')].
    unfold card_testing_transaction. cbv zeta. rewrite Hrange, Hcs, Hms.
    repeat builder_step.
  - destruct Hrest as (cs & Hcs & Hcs').
    unfold velocity_transaction. cbv zeta. rewrite Hrange, Hcs.
    repeat builder_step.
  - unfold large_amount_transaction. cbv zeta. rewrite Hrange.
    repeat builder_step.
Qed.

(** The loop of a gated generator performs a gated run. *)
Lemma for_each_gated (rate : Q) (build : Z -> gen PendingTransaction)
    (items : list Z) :
  (forall i, yields (build i) (fun _ => True)) ->
  forall g : rng,
    exists (out : list PendingTransaction) (g' : rng),
      for_each (fun i => gated rate (build i)) items g = (Ok out, g') /\
      gated_run rate build items g out g'.
Proof.
  intros Hbuild. induction items as [|i rest IH]; intros g.
  - exists [], g. split; [reflexivity | constructor].
  - cbn [for_each]. unfold gated at 1.
    destruct (Qltb rate (peek g)) eqn:Hroll.
    + destruct (IH (advance g)) as (out & g' & Hrun & Hspec).
      exists out, g'. split.
      * unfold bind at 1 2. rewrite random_run, Hroll.
        cbn [ret]. rewrite (bind_ok _ _ _ _ _ Hrun). reflexivity.
      * apply gated_suppressed; [apply Qltb_true; exact Hroll | exact Hspec].
    + destruct (Hbuild i (advance g)) as (t & g1 & Ht & _).
      destruct (IH g1) as (out & g' & Hrun & Hspec).
      exists (t :: out), g'. split.
      * unfold bind at 1 2. rewrite random_run, Hroll.
        rewrite (bind_ok _ _ _ _ _ Ht). cbn [ret].
        rewrite (bind_ok _ _ _ _ _ Hrun). reflexivity.
      * eapply gated_emitted; [apply Qltb_false; exact Hroll | exact Ht | exact Hspec].
Qed.

Lemma generator_of_gated (p : FraudProfile) (current_time : Z) (count : Z) :
  gated_type (fraud_type p) = true ->
  md_transaction_count (metadata p) = Some count ->
  generator_of (fraud_type p) p current_time
  = bind (ret count)
         (fun n => for_each (fun i => gated (success_rate p) (candidate_builder p i))
                            (range n)).
Proof.
  intros Hgated Hcount. unfold candidate_builder.
  destruct (fraud_type p); try discriminate Hgated; cbn [generator_of];
    [unfold _generate_card_testing_transactions
    |unfold _generate_velocity_transactions
    |unfold _generate_large_amount_transactions];
    rewrite Hcount; reflexivity.
Qed.

Lemma active_dispatch (p : FraudProfile) (current_time : Z) :
  active p current_time ->
  generate_fraud_transactions p current_time
  = bind (generator_of (fraud_type p) p current_time)
         (fun transactions => ret (map (mark_fraudulent p) transactions)).
Proof.
  intros [Hs He]. unfold generate_fraud_transactions.
  replace (current_time <? start_time p) with false
    by (symmetry; apply Z.ltb_ge; lia).
  replace (end_time p <? current_time) with false
    by (symmetry; apply Z.ltb_ge; lia).
  reflexivity.
Qed.

Lemma inactive_dispatch (p : FraudProfile) (current_time : Z) (g : rng) :
  ~ active p current_time ->
  generate_fraud_transactions p current_time g = (Ok [], g).
Proof.
  intros Hout. unfold generate_fraud_transactions.
  destruct ((current_time <? start_time p) || (end_time p <? current_time)) eqn:E;
    [reflexivity|].
  apply orb_false_iff in E as [E1 E2].
  apply Z.ltb_ge in E1. apply Z.ltb_ge in E2.
  exfalso. apply Hout. split; assumption.
Qed.

End FraudGatingProofs.

Module FraudGatingTheorems.
Import Py PyNum PyTime Random GenLogic NumProofs RandomProofs GenLogicProofs
       Transactions Fraud FraudGenerator FraudSpec MoreFraudSamples FraudSamples
       FraudGatingProofs.

Lemma layering_hops_rate (p : FraudProfile) (rate : Q) (accounts : list string)
    (hops : list Z) :
  layering_hops (with_success_rate p rate) accounts hops
  = layering_hops p accounts hops.
Proof.
  induction hops as [|hop rest IH]; [reflexivity|].
  cbn [layering_hops]. rewrite IH. reflexivity.
Qed.

Lemma structuring_loop_rate (p : FraudProfile) (rate : Q) (fuel : nat) :
  forall (target individual_max remaining : Q) (sequence : Z) (g : rng),
    structuring_loop fuel (with_success_rate p rate) target individual_max
      remaining sequence g
    = structuring_loop fuel p target individual_max remaining sequence g.
Proof.
  induction fuel as [|fuel IH];
    intros target individual_max remaining sequence g; [reflexivity|].
  cbn [structuring_loop].
  destruct (Qltb 0 remaining); [|reflexivity].
  cbn [metadata with_success_rate]. unfold bind.
  destruct (key "transaction_count" (md_transaction_count (metadata p)) g)
    as [[count|e] g1]; [|reflexivity].
  destruct (sequence <? count); [|reflexivity].
  destruct (uniform (individual_max * (8 # 10)) individual_max g1)
    as [[draw|e] g2]; [|reflexivity].
  change (structuring_transaction (with_success_rate p rate))
    with (structuring_transaction p).
  destruct (structuring_transaction p target individual_max
              (fmin remaining draw) (sequence + 1) g2) as [[t|e] g3];
    [|reflexivity].
  rewrite IH. reflexivity.
Qed.

(** The generators of the other pattern types never read the success
    rate. *)
Lemma ungated_generator_ignores_rate (p : FraudProfile) (rate : Q)
    (current_time : Z) (g : rng) :
  gated_type (fraud_type p) = false ->
  generate_fraud_transactions (with_success_rate p rate) current_time g
  = generate_fraud_transactions p current_time g.
Proof.
  intros Hungated. unfold generate_fraud_transactions.
  change (start_time (with_success_rate p rate)) with (start_time p).
  change (end_time (with_success_rate p rate)) with (end_time p).
  destruct ((current_time <? start_time p) || (end_time p <? current_time));
    [reflexivity|].
  change (fraud_type (with_success_rate p rate)) with (fraud_type p).
  change (mark_fraudulent (with_success_rate p rate)) with (mark_fraudulent p).
  assert (Hgen : generator_of (fraud_type p) (with_success_rate p rate)
                   current_time g
                 = generator_of (fraud_type p) p current_time g).
  { destruct (fraud_type p); try discriminate Hungated; cbn [generator_of];
      try reflexivity.
    - unfold _generate_layering_transactions.
      change (account_ids (with_success_rate p rate)) with (account_ids p).
      change (metadata (with_success_rate p rate)) with (metadata p).
      unfold bind. destruct (shuffle (account_ids p) g) as [[accounts|e] g1];
        [|reflexivity].
      destruct (key "hops" (md_hops (metadata p)) g1) as [[hops|e] g2];
        [|reflexivity].
      rewrite layering_hops_rate. reflexivity.
    - unfold _generate_structuring_transactions, structuring_run_of.
      change (metadata (with_success_rate p rate)) with (metadata p).
      change (structuring_fuel (with_success_rate p rate))
        with (structuring_fuel p).
      unfold bind.
      destruct (key "target_amount" (md_target_amount (metadata p)) g)
        as [[target|e] g1]; [|reflexivity].
      destruct (key "individual_max" (md_individual_max (metadata p)) g1)
        as [[individual_max|e] g2]; [|reflexivity].
      rewrite structuring_loop_rate. reflexivity. }
  unfold bind. rewrite Hgen. reflexivity.
Qed.

(** C6, at a failing input.  The field [success_rate] is documented as
    "How many transactions succeed", every constructor sets it, and the
    generators of card testing, velocity attacks and large amounts suppress
    a candidate whose unit draw exceeds it.  The generator of unusual
    locations misses the gate: a profile whose success rate is zero, run
    from a generator whose every draw (one half) exceeds that rate, still
    emits both of its candidate transactions, where the claim has each of
    them suppressed. *)
Lemma unusual_location_ignores_success_rate :
  active unusual_location_profile 0 /\
  (forall n : nat,
     (success_rate unusual_location_profile
      < peek {| draws := draws (constant_rng (1 # 2)); cursor := n |})%Q) /\
  exists (out : list PendingTransaction) (g' : rng),
    generate_fraud_transactions unusual_location_profile 0
      (constant_rng (1 # 2)) = (Ok out, g') /\
    length out = 2%nat.
Proof.
  split; [vm_compute; split; discriminate|].
  split; [intros n; vm_compute; reflexivity|].
  eexists _, _. split; [vm_compute; reflexivity | reflexivity].
Qed.

(** Where the gate is and where it is missing.  For a call within the
    active interval of a profile: when the profile is of type card testing,
    velocity attack or large amount (and carries the accounts and metadata
    its constructor gives it), the call returns the marked transactions of
    a gated run over its [transaction_count] candidates, each candidate
    being suppressed exactly when its unit draw exceeds the profile's
    success rate; the generators of the other types never read
    the field, so their result is the same for every success rate. *)
Theorem success_rate_gates_three_patterns
    (p : FraudProfile) (current_time : Z) (g : rng) :
  active p current_time ->
  (gated_type (fraud_type p) = true -> buildable p ->
   exists (count : Z) (out : list PendingTransaction) (g' : rng),
     md_transaction_count (metadata p) = Some count /\
     generate_fraud_transactions p current_time g
     = (Ok (map (mark_fraudulent p) out), g') /\
     gated_run (success_rate p) (candidate_builder p) (range count) g out g') /\
  (gated_type (fraud_type p) = false ->
   forall rate : Q,
     generate_fraud_transactions (with_success_rate p rate) current_time g
     = generate_fraud_transactions p current_time g).
Proof.
  intros Hactive. split.
  - intros Hgated Hok.
    destruct Hok as (Haccounts & Hduration & [count Hcount] & Hrest).
    assert (Hok : buildable p).
    { split; [exact Haccounts|]. split; [exact Hduration|].
      split; [exists count; exact Hcount | exact Hrest]. }
    destruct (for_each_gated (success_rate p) (candidate_builder p) (range count)
                (fun i => candidate_builder_returns p i Hgated Hok) g)
      as (out & g' & Hrun & Hspec).
    exists count, out, g'. split; [exact Hcount|]. split; [|exact Hspec].
    rewrite (active_dispatch p current_time Hactive).
    rewrite (generator_of_gated p current_time count Hgated Hcount).
    unfold bind at 1. unfold bind at 1. cbn [ret]. rewrite Hrun. reflexivity.
  - intros Hungated rate. apply ungated_generator_ignores_rate. exact Hungated.
Qed.

Lemma success_rate_gates_three_patterns_witness :
  exists (count : Z) (out : list PendingTransaction) (g' : rng),
    md_transaction_count (metadata card_testing_profile) = Some count /\
    generate_fraud_transactions card_testing_profile 0 (constant_rng (1 # 2))
    = (Ok (map (mark_fraudulent card_testing_profile) out), g') /\
    gated_run (success_rate card_testing_profile)
      (candidate_builder card_testing_profile) (range count)
      (constant_rng (1 # 2)) out g'.
Proof.
  assert (Hactive : active card_testing_profile 0)
    by (vm_compute; split; discriminate).
  apply (proj1 (success_rate_gates_three_patterns card_testing_profile 0
                  (constant_rng (1 # 2)) Hactive)).
  - reflexivity.
  - split; [discriminate|]. split; [vm_compute; discriminate|].
    split; [eexists; reflexivity|]. split; [eexists; reflexivity|].
    split; eexists; (split; [reflexivity | discriminate]).
Defined.

End FraudGatingTheorems.

Module StructuringProofs.
Import Py PyNum PyTime Random GenLogic NumProofs RandomProofs GenLogicProofs
       RoundingProofs Transactions Fraud FraudGenerator StructuringSpec.

Lemma structuring_transaction_returns (p : FraudProfile)
    (target individual_max amount0 : Q) (sequence : Z) :
  account_ids p <> [] -> 0 <= duration_minutes p ->
  yields (structuring_transaction p target individual_max amount0 sequence)
         (fun t => amount t = round2 amount0).
Proof.
  intros Haccounts Hduration. unfold structuring_transaction.
  assert (Hhours : 0 <= duration_minutes p / 60) by (apply Z.div_pos; lia).
  eapply yields_bind; [apply yields_randint; exact Hhours | intros h _].
  eapply yields_bind; [apply yields_choice; exact Haccounts | intros a _].
  eapply yields_bind; [apply yields_choice; discriminate | intros ch _].
  apply yields_ret. reflexivity.
Qed.

Lemma how_many_cons (t : PendingTransaction) (ts : list PendingTransaction) :
  (how_many (t :: ts) == how_many ts + 1)%Q.
Proof.
  unfold how_many. cbn [length]. rewrite Nat2Z.inj_succ.
  unfold Z.succ. rewrite inject_Z_plus. reflexivity.
Qed.

Section Loop.

Variable p : FraudProfile.
Variable target : Q.
Variable count : Z.
Hypothesis has_count : md_transaction_count (metadata p) = Some count.
Hypothesis has_accounts : account_ids p <> [].
Hypothesis duration_ok : 0 <= duration_minutes p.

Lemma structuring_loop_outcome (fuel : nat) :
  forall (remaining : Q) (sequence : Z) (g : rng),
    sequence <= count ->
    (Z.to_nat (count - sequence) < fuel)%nat ->
    exists (run : structuring_run) (g' : rng),
      structuring_loop fuel p target 9999 remaining sequence g = (Ok run, g') /\
      loop_outcome count remaining sequence run.
Proof.
  induction fuel as [|fuel IH]; intros remaining sequence g Hseq Hfuel; [lia|].
  cbn [structuring_loop].
  destruct (Qltb 0 remaining) eqn:Hpos.
  2:{ apply Qltb_false in Hpos. eexists _, g. split; [reflexivity|].
      unfold loop_outcome. cbn [produced remaining_amount final_sequence length].
      change (how_many []) with 0%Q. change (total_amount []) with 0%Q.
      split; [constructor|]. split; [lia|]. split; [lia|].
      split; [lra|]. split; [left; split; lra|].
      split; [intros H; exact H|]. split; [|constructor].
      unfold adds_up_to. change (how_many []) with 0%Q.
      change (total_amount []) with 0%Q. split; lra. }
  apply Qltb_true in Hpos.
  rewrite has_count. cbn [key].
  rewrite (bind_ok _ _ g g count eq_refl).
  destruct (sequence <? count) eqn:Hlt.
  2:{ apply Z.ltb_ge in Hlt. eexists _, g. split; [reflexivity|].
      unfold loop_outcome. cbn [produced remaining_amount final_sequence length].
      change (how_many []) with 0%Q. change (total_amount []) with 0%Q.
      split; [constructor|]. split; [lia|]. split; [lia|].
      split; [lra|]. split; [right; split; [exact Hpos|]; split; [lia | lra]|].
      split; [intros H; exact H|]. split; [|constructor].
      unfold adds_up_to. change (how_many []) with 0%Q.
      change (total_amount []) with 0%Q. split; lra. }
  apply Z.ltb_lt in Hlt.
  rewrite (bind_ok _ _ _ _ _ (uniform_run _ _ g)).
  set (draw := (9999 * (8 # 10) + (9999 - 9999 * (8 # 10)) * peek g)%Q).
  assert (Hdraw : (9999 * (8 # 10) <= draw)%Q /\ (draw <= 9999)%Q).
  { apply uniform_bounds. lra. }
  destruct Hdraw as [Hdlo Hdhi].
  set (amount0 := fmin remaining draw).
  assert (Hamount : (amount0 <= draw)%Q /\ (amount0 <= remaining)%Q /\
                    (0 < amount0)%Q /\
                    (amount0 == draw \/ amount0 == remaining)%Q).
  { unfold amount0, fmin. destruct (Qltb draw remaining) eqn:E.
    - apply Qltb_true in E.
      repeat split; first [lra | left; reflexivity].
    - apply Qltb_false in E.
      repeat split; first [lra | right; reflexivity]. }
  destruct Hamount as (Hale & Harem & Hapos & Hacase).
  destruct (structuring_transaction_returns p target 9999 amount0
              (sequence + 1) has_accounts duration_ok (advance g))
    as (t & g1 & Ht & Htamount).
  rewrite (bind_ok _ _ _ _ _ Ht).
  destruct (IH (remaining - amount0)%Q (sequence + 1) g1 ltac:(lia) ltac:(lia))
    as (run & g' & Hrun & Hforall & Hfinal & Hcap & Hrem & Hcases & Hkept
        & Hadds & Hcents).
  destruct Hadds as [Hlow Hhigh].
  rewrite (bind_ok _ _ _ _ _ Hrun).
  eexists _, g'. split; [reflexivity|].
  unfold loop_outcome. cbn [produced remaining_amount final_sequence].
  assert (Htle : (amount t <= 9999)%Q).
  { rewrite Htamount.
    apply Qle_trans with (inject_Z 999900 / 100)%Q; [|vm_compute; discriminate].
    apply round2_le. apply Qle_trans with draw; [exact Hale|].
    apply Qle_trans with 9999%Q; [exact Hdhi | vm_compute; discriminate]. }
  pose proof (round2_close amount0) as Hclose.
  pose proof (round2_close_above amount0) as Hclose_above.
  rewrite <- Htamount in Hclose, Hclose_above.
  split; [constructor; assumption|].
  split; [cbn [length]; lia|]. split; [exact Hcap|]. split; [lra|].
  unfold adds_up_to.
  cbn [total_amount fold_right]. fold (total_amount (produced run)).
  rewrite how_many_cons.
  split; [|split; [intros _; apply Hkept; lra|];
            split; [split; lra|];
            constructor; [|exact Hcents];
            exists (round_half_even (amount0 * 100));
            rewrite Htamount; apply round2_value].
  destruct Hcases as [[Hend Hsum] | (Hend & Hcount & Hsum)].
  - left. split; [exact Hend | lra].
  - right. split; [exact Hend|]. split; [exact Hcount|].
    assert (Hisdraw : (amount0 == draw)%Q).
    { destruct Hacase as [H | H]; [exact H | exfalso; lra]. }
    assert (Hge : (inject_Z 799920 / 100 <= amount t)%Q).
    { rewrite Htamount. apply round2_ge. rewrite Hisdraw.
      apply Qle_trans with (9999 * (8 # 10))%Q;
        [vm_compute; discriminate | exact Hdlo]. }
    assert (Hlo : (79992 # 10 <= amount t)%Q).
    { apply Qle_trans with (inject_Z 799920 / 100)%Q;
        [vm_compute; discriminate | exact Hge]. }
    lra.
Qed.

End Loop.

End StructuringProofs.

Module StructuringTheorems.
Import Py PyNum PyTime Random GenLogic NumProofs RandomProofs GenLogicProofs
       RoundingProofs Transactions Fraud FraudGenerator StructuringSpec
       StructuringProofs FraudSamples MoreFraudSamples.

(** The run of the structuring generator on a structuring profile. *)
Lemma structuring_run_outcome (p : FraudProfile) (target : Q) (g : rng) :
  structuring_profile p target ->
  exists (run : structuring_run) (g' : rng),
    structuring_run_of p g = (Ok run, g') /\
    ((target <= 0)%Q /\ produced run = [] \/
     (0 < target)%Q /\ loop_outcome (ceil (target / 9999)) target 0 run).
Proof.
  intros (Htarget & Hmax & Hcount & Haccounts & Hduration).
  unfold structuring_run_of, structuring_fuel.
  rewrite Htarget, Hmax, Hcount. cbn [key default].
  rewrite (bind_ok _ _ g g target eq_refl).
  rewrite (bind_ok _ _ g g 9999%Q eq_refl).
  destruct (Qltb 0 target) eqn:Hpos.
  - apply Qltb_true in Hpos.
    assert (Hc : 0 <= ceil (target / 9999)).
    { unfold ceil. pose proof (Qle_ceiling (target / 9999)) as H.
      assert (H0 : (0 <= inject_Z (Qceiling (target / 9999)))%Q).
      { apply Qle_trans with (target / 9999)%Q; [|exact H].
        unfold Qdiv. change (/ 9999)%Q with (1 # 9999)%Q. lra. }
      change 0%Q with (inject_Z 0) in H0. rewrite <- Zle_Qle in H0. exact H0. }
    destruct (structuring_loop_outcome p target (ceil (target / 9999)) Hcount
                Haccounts Hduration (S (Z.to_nat (ceil (target / 9999))))
                target 0 g Hc ltac:(lia))
      as (run & g' & Hrun & Hout).
    exists run, g'. split; [exact Hrun|]. right. split; assumption.
  - apply Qltb_false in Hpos.
    eexists _, g. split.
    + cbn [structuring_loop].
      replace (Qltb 0 target) with false
        by (symmetry; apply Qltb_false; exact Hpos).
      reflexivity.
    + left. split; [exact Hpos | reflexivity].
Qed.

(** C5 as stated fails: for a target of 100,000 and the cap of 9999 the
    transaction count is [ceil(100000 / 9999) = 11]; when every draw is the
    lowest one (0.8 * 9999), the eleven deposits add up to 87,991.20, less
    than the target minus one transaction's worth (90,001). *)
Lemma structuring_sum_below_target :
  structuring_profile large_structuring_profile 100000 /\
  exists (out : list PendingTransaction) (g' : rng),
    _generate_structuring_transactions large_structuring_profile 0
      (constant_rng 0) = (Ok out, g') /\
    length out = 11%nat /\
    (total_amount out == 879912 # 10)%Q /\
    (total_amount out < 100000 - 9999)%Q.
Proof.
  split.
  - repeat split; discriminate.
  - eexists _, _. split; [vm_compute; reflexivity|].
    split; [reflexivity|]. split; vm_compute; reflexivity.
Qed.

(** C5, amended.  For a structuring profile with the cap of 9999 the
    generator returns, and every transaction has an amount of at most 9999,
    in whole cents.
    A target that is not positive yields no transaction.  For a positive
    target each deposit is the lesser of what remains and the draw, so
    what remains never falls below zero, and the amounts add up to what
    was taken off the target, to within half a cent per transaction (they
    are rounded to cents).  The loop is left either with the target
    exhausted, and then the amounts add up to the target itself, to within
    half a cent per transaction; or at the transaction-count cap
    [ceil(target / 9999)] with part of the target still to place, and then
    they add up to at least 0.8 * 9999 per transaction.  Hence, for a
    target of at most 50,000 (the range the generator draws targets from),
    the sum of the amounts is at least the target minus 9999. *)
Theorem structuring_stays_under_threshold
    (p : FraudProfile) (target : Q) (current_time : Z) (g : rng) :
  structuring_profile p target ->
  exists (run : structuring_run) (g' : rng),
    structuring_run_of p g = (Ok run, g') /\
    _generate_structuring_transactions p current_time g = (Ok (produced run), g') /\
    Forall (fun t => (amount t <= 9999)%Q) (produced run) /\
    Forall (fun t => in_cents (amount t)) (produced run) /\
    ((target <= 0)%Q -> produced run = []) /\
    ((0 < target)%Q ->
     (0 <= remaining_amount run)%Q /\
     adds_up_to (produced run) (target - remaining_amount run) /\
     ((remaining_amount run == 0)%Q /\ adds_up_to (produced run) target \/
      (0 < remaining_amount run)%Q /\
      Z.of_nat (length (produced run)) = ceil (target / 9999) /\
      ((8 # 10) * 9999 * how_many (produced run)
       <= total_amount (produced run))%Q)) /\
    ((target <= 50000)%Q -> (target - 9999 <= total_amount (produced run))%Q).
Proof.
  intros Hp.
  destruct (structuring_run_outcome p target g Hp) as (run & g' & Hrun & Hout).
  exists run, g'. split; [exact Hrun|].
  split; [unfold _generate_structuring_transactions;
          rewrite (bind_ok _ _ _ _ _ Hrun); reflexivity|].
  destruct Hout as [[Hneg Hnil] | [Hpos Hout]].
  - rewrite Hnil. change (total_amount []) with 0%Q.
    split; [constructor|]. split; [constructor|]. split; [reflexivity|].
    split; [intros Hpos; exfalso; lra | intros _; lra].
  - destruct Hout as (Hforall & Hfinal & Hcap & Hrem & Hcases & Hkept & Hadds
                      & Hcents).
    assert (Hnonneg : (0 <= remaining_amount run)%Q) by (apply Hkept; lra).
    pose proof Hadds as [Hlow Hhigh].
    split; [exact Hforall|]. split; [exact Hcents|].
    split; [intros Hneg; exfalso; lra|].
    pose proof (Qle_ceiling (target / 9999)) as Hceil_hi.
    pose proof (Qceiling_lt (target / 9999)) as Hceil_lo.
    fold (ceil (target / 9999)) in Hceil_hi, Hceil_lo.
    set (count := ceil (target / 9999)) in *.
    unfold Z.sub in Hceil_lo. rewrite inject_Z_plus in Hceil_lo.
    change (inject_Z (- (1))) with (- (1))%Q in Hceil_lo.
    unfold Qdiv in Hceil_hi, Hceil_lo.
    change (/ 9999)%Q with (1 # 9999)%Q in Hceil_hi, Hceil_lo.
    assert (Hn : (how_many (produced run) <= inject_Z count)%Q).
    { unfold how_many. rewrite <- Zle_Qle. lia. }
    split.
    + intros _. split; [exact Hnonneg|]. split; [exact Hadds|].
      destruct Hcases as [[Hend Hsum] | (Hend & Hcount & Hsum)].
      * left. split; [apply Qle_antisym; assumption|].
        unfold adds_up_to. split; lra.
      * right. split; [exact Hend|]. split; [lia|]. lra.
    + intros Hsmall.
      assert (Hsix : count <= 6).
      { assert (H : (inject_Z count < inject_Z 7)%Q).
        { change (inject_Z 7) with 7%Q. lra. }
        rewrite <- Zlt_Qlt in H. lia. }
      destruct Hcases as [[Hend Hsum] | (Hend & Hcount & Hsum)].
      * assert (H6 : (inject_Z count <= 6)%Q).
        { change 6%Q with (inject_Z 6). rewrite <- Zle_Qle. exact Hsix. }
        lra.
      * assert (Hall : (how_many (produced run) == inject_Z count)%Q).
        { unfold how_many. apply inject_Z_injective. lia. }
        rewrite Hall in Hsum.
        destruct (Z_le_gt_dec count 5) as [H5 | H5].
        -- assert (H5q : (inject_Z count <= 5)%Q).
           { change 5%Q with (inject_Z 5). rewrite <- Zle_Qle. exact H5. }
           lra.
        -- assert (H6q : (6 <= inject_Z count)%Q).
           { change 6%Q with (inject_Z 6). rewrite <- Zle_Qle. lia. }
           lra.
Qed.

(** A target of 25,000 with every draw in the middle of its range: the
    deposits of 8999.10, 8999.10 and 7001.80 exhaust the target. *)
Lemma structuring_stays_under_threshold_witness :
  exists (run : structuring_run) (g' : rng),
    structuring_run_of small_structuring_profile (constant_rng (1 # 2))
    = (Ok run, g') /\
    Forall (fun t => (amount t <= 9999)%Q) (produced run) /\
    (0 <= remaining_amount run)%Q /\
    adds_up_to (produced run) (25000 - remaining_amount run) /\
    (25000 - 9999 <= total_amount (produced run))%Q.
Proof.
  assert (Hp : structuring_profile small_structuring_profile 25000)
    by (repeat split; discriminate).
  destruct (structuring_stays_under_threshold small_structuring_profile 25000 0
              (constant_rng (1 # 2)) Hp)
    as (run & g' & Hrun & _ & Hforall & _ & _ & Hpositive & Hsum).
  destruct (Hpositive ltac:(reflexivity)) as (Hnonneg & Hadds & _).
  exists run, g'. split; [exact Hrun|]. split; [exact Hforall|].
  split; [exact Hnonneg|]. split; [exact Hadds|].
  apply Hsum. vm_compute. discriminate.
Defined.

End StructuringTheorems.

Module StructuringAttackProofs.
Import Py PyNum PyTime Random GenLogic NumProofs RandomProofs GenLogicProofs
       SampleSpec SampleTheorems Customers Transactions Fraud FraudGenerator
       FraudAttack FraudAttackProofs StructuringSpec.

(** The profiles the setup schedules for a structuring pattern are
    structuring profiles in the sense above, for a target between 10,000 and
    50,000, as soon as the target customer has an account. *)
Lemma structuring_attack_profile
    (account_mapping : gmap string (list string)) (c : CustomerProfile)
    (accounts : list string) (fid : string) (start_time : Z) (intensity : Q) :
  account_mapping !! customer_id c = Some accounts ->
  accounts <> [] ->
  yields (_generate_structuring_attack fid [c] account_mapping start_time
            intensity no_kwargs)
         (fun p => exists target : Q,
            (10000 <= target)%Q /\ (target <= 50000)%Q /\
            structuring_profile p target).
Proof.
  intros Hmap Hne.
  unfold _generate_structuring_attack. cbn [no_kwargs kw_threshold kw_split_into].
  eapply yields_bind; [apply yields_uniform; lra | intros target [Hlo Hhi]].
  cbn [default].
  eapply yields_bind with (P := fun x => x = 9999%Q);
    [apply yields_ret; reflexivity | intros individual_max ->].
  eapply yields_bind with (P := fun n => n = ceil (target / 9999)).
  { change (Qeq_bool 9999 0) with false. apply yields_ret. reflexivity. }
  intros transaction_count ->.
  eapply yields_bind; [apply yields_random | intros single _].
  eapply yields_bind with (P := fun l => l = [c]).
  { destruct (Qltb single (7 # 10)).
    - eapply yields_bind; [apply yields_choice_singleton | intros ? ->].
      apply yields_ret. reflexivity.
    - eapply yields_bind; [apply yields_randint; lia | intros drawn Hdrawn].
      cbv beta in Hdrawn. apply sample_of_one. lia. }
  intros involved ->.
  eapply yields_bind with (P := fun l => l = accounts ++ []).
  { cbn [all_accounts_of]. unfold accounts_of. rewrite Hmap.
    apply yields_bind_ret_eq. apply yields_bind_ret_eq.
    apply yields_ret. reflexivity. }
  intros all_accounts ->.
  eapply yields_bind; [apply yields_randint; lia | intros duration Hduration].
  cbv beta in Hduration. apply yields_ret. exists target.
  split; [exact Hlo|]. split; [exact Hhi|].
  unfold structuring_profile. cbn.
  repeat split; try reflexivity; [|lia].
  rewrite app_nil_r. exact Hne.
Qed.

End StructuringAttackProofs.

Module StructuringFuelProofs.
Import Py PyNum PyTime Random GenLogic NumProofs RandomProofs GenLogicProofs
       Transactions Fraud FraudGenerator.

(** One unfolding of the loop. *)
Lemma structuring_loop_step (p : FraudProfile) (target individual_max : Q)
    (fuel : nat) (remaining : Q) (sequence : Z) :
  structuring_loop (S fuel) p target individual_max remaining sequence
  = if Qltb 0 remaining then
      bind (key "transaction_count" (md_transaction_count (metadata p)))
        (fun count =>
           if sequence <? count then
             bind (uniform (individual_max * (8 # 10)) individual_max)
               (fun draw =>
                  bind (structuring_transaction p target individual_max
                          (fmin remaining draw) (sequence + 1))
                    (fun t =>
                       bind (structuring_loop fuel p target individual_max
                               (remaining - fmin remaining draw) (sequence + 1))
                         (fun run =>
                            ret {| produced := t :: produced run;
                                   remaining_amount := remaining_amount run;
                                   final_sequence := final_sequence run |})))
           else ret {| produced := []; remaining_amount := remaining;
                       final_sequence := sequence |})
    else ret {| produced := []; remaining_amount := remaining;
                final_sequence := sequence |}.
Proof. reflexivity. Qed.

(** The fuel given to the loop is never used up: beyond the number of
    iterations the transaction count still allows, more fuel changes
    nothing. *)
Lemma structuring_loop_fuel (p : FraudProfile) (target individual_max : Q)
    (fuel : nat) :
  forall (remaining : Q) (sequence : Z) (g : rng),
    match md_transaction_count (metadata p) with
    | Some count => (Z.to_nat (count - sequence) < fuel)%nat
    | None => (0 < fuel)%nat
    end ->
    structuring_loop (S fuel) p target individual_max remaining sequence g
    = structuring_loop fuel p target individual_max remaining sequence g.
Proof.
  induction fuel as [|fuel IH]; intros remaining sequence g Hfuel.
  - destruct (md_transaction_count (metadata p)); lia.
  - rewrite (structuring_loop_step p target individual_max (S fuel)).
    rewrite (structuring_loop_step p target individual_max fuel).
    destruct (Qltb 0 remaining); [|reflexivity].
    destruct (md_transaction_count (metadata p)) as [count|] eqn:Hcount;
      [|reflexivity].
    cbn [key]. rewrite !(bind_ok _ _ g g count eq_refl).
    destruct (sequence <? count) eqn:Hlt; [|reflexivity].
    apply Z.ltb_lt in Hlt.
    unfold bind.
    destruct (uniform (individual_max * (8 # 10)) individual_max g)
      as [[draw|e] g1]; [|reflexivity].
    destruct (structuring_transaction p target individual_max
                (fmin remaining draw) (sequence + 1) g1) as [[t|e] g2];
      [|reflexivity].
    rewrite IH; [reflexivity | lia].
Qed.

End StructuringFuelProofs.

Module LayeringProofs.
Import Py PyNum PyTime Random GenLogic NumProofs RandomProofs SampleSpec
       SampleTheorems GenLogicProofs Customers Transactions Fraud FraudAttack
       Setup.

(** The layering constructor cannot work with fewer than three customers
    (or fewer than three hops): the default of its [hops] argument,
    [random.randint(3, num_customers)], is drawn even when [hops] is given,
    and its range is then empty. *)
Lemma layering_attack_needs_three (fid : string)
    (customers : list CustomerProfile)
    (account_mapping : gmap string (list string)) (start_time : Z)
    (intensity : Q) (kw : kwargs) (g : rng) :
  Z.min (default 5 (kw_hops kw)) (Z.of_nat (length customers)) < 3 ->
  exists (e : exn) (g' : rng),
    _generate_layering_attack fid customers account_mapping start_time
      intensity kw g = (Raise e, g').
Proof.
  intros Hfew. unfold _generate_layering_attack.
  set (n := Z.min (default 5 (kw_hops kw)) (Z.of_nat (length customers))) in *.
  destruct (sample customers n g) as [[involved|e] g1] eqn:Hsample.
  - rewrite (bind_ok _ _ _ _ _ Hsample).
    destruct (all_accounts_of account_mapping involved g1) as [[accounts|e] g2]
      eqn:Haccounts.
    + rewrite (bind_ok _ _ _ _ _ Haccounts).
      destruct (randint_empty 3 n g2 Hfew) as (msg & Hraise).
      rewrite (bind_raise _ _ _ _ _ Hraise). eauto.
    + rewrite (bind_raise _ _ _ _ _ Haccounts). eauto.
  - rewrite (bind_raise _ _ _ _ _ Hsample). eauto.
Qed.

Lemma layering_of_one_target (c : CustomerProfile)
    (account_mapping : gmap string (list string)) (start_time : Z)
    (intensity : Q) (g : rng) :
  exists (e : exn) (g' : rng),
    generate_fraud_attack LAYERING [c] account_mapping start_time intensity
      no_kwargs g = (Raise e, g').
Proof.
  unfold generate_fraud_attack.
  destruct (randint_run 1000 9999 g ltac:(lia)) as (suffix & Hsuffix & _).
  rewrite (bind_ok _ _ _ _ _ Hsuffix).
  apply layering_attack_needs_three. simpl. lia.
Qed.

Lemma schedule_layering_targets (cfg : FraudConfig) (duration_hours sim_start : Z)
    (account_mapping : gmap string (list string)) (intensity : Q)
    (targets : list CustomerProfile) (profiles : list FraudProfile) (g : rng) :
  targets <> [] ->
  exists (e : exn) (g' : rng),
    schedule_targets cfg duration_hours sim_start account_mapping LAYERING
      intensity targets profiles g = (Raise e, g').
Proof.
  intros Hne. destruct targets as [|c rest]; [congruence|].
  cbn [schedule_targets].
  destruct (draw_attack_time cfg duration_hours sim_start g)
    as [[attack_time|e] g1] eqn:Htime.
  - rewrite (bind_ok _ _ _ _ _ Htime).
    destruct (layering_of_one_target c account_mapping attack_time intensity g1)
      as (e & g2 & Hraise).
    rewrite (bind_raise _ _ _ _ _ Hraise). eauto.
  - rewrite (bind_raise _ _ _ _ _ Htime). eauto.
Qed.

Lemma layering_value (name : string) :
  name = "layering"%string -> fraud_type_of_value name = Ok LAYERING.
Proof. intros ->. reflexivity. Qed.

Lemma setup_pattern_layering (cfg : FraudConfig) (duration_hours sim_start : Z)
    (customers : list CustomerProfile)
    (account_mapping : gmap string (list string))
    (pattern_config : FraudPatternConfig) (profiles : list FraudProfile)
    (g : rng) :
  pattern_type pattern_config = "layering"%string ->
  exists (e : exn) (g' : rng),
    setup_pattern cfg duration_hours sim_start customers account_mapping
      pattern_config profiles g = (Raise e, g').
Proof.
  intros Htype. unfold setup_pattern. rewrite (layering_value _ Htype).
  rewrite (bind_ok _ _ g g _ (eq_refl : ret LAYERING g = (Ok LAYERING, g))).
  set (k := num_targets (length customers) (weight pattern_config)).
  assert (Hk : 1 <= k) by (unfold k, num_targets; lia).
  destruct (Z_le_gt_dec k (Z.of_nat (length customers))) as [Hfits | Hlarge].
  - destruct (sample_without_replacement customers k g ltac:(lia))
      as (targets & g1 & Hsample & Hlen & _).
    rewrite (bind_ok _ _ _ _ _ Hsample).
    destruct (schedule_layering_targets cfg duration_hours sim_start
                account_mapping (pattern_intensity pattern_config) targets
                profiles g1) as (e & g2 & Hraise).
    { destruct targets; [simpl in Hlen; lia | discriminate]. }
    rewrite (bind_raise _ _ _ _ _ Hraise). eauto.
  - destruct (sample_too_large customers k g ltac:(lia)) as (msg & Hraise).
    rewrite (bind_raise _ _ _ _ _ Hraise). eauto.
Qed.

Lemma setup_patterns_layering (cfg : FraudConfig) (duration_hours sim_start : Z)
    (customers : list CustomerProfile)
    (account_mapping : gmap string (list string))
    (todo : list FraudPatternConfig) :
  (exists pc, pc ∈ todo /\ pattern_type pc = "layering"%string) ->
  forall (profiles : list FraudProfile) (g : rng),
  exists (e : exn) (g' : rng),
    setup_patterns cfg duration_hours sim_start customers account_mapping
      todo profiles g = (Raise e, g').
Proof.
  induction todo as [|pc0 rest IH]; intros (pc & Hin & Htype) profiles g.
  - inversion Hin.
  - cbn [setup_patterns].
    destruct (setup_pattern cfg duration_hours sim_start customers
                account_mapping pc0 profiles g) as [[step|e] g1] eqn:Hstep.
    + rewrite (bind_ok _ _ _ _ _ Hstep).
      apply elem_of_cons in Hin as [-> | Hin].
      * destruct (setup_pattern_layering cfg duration_hours sim_start customers
                    account_mapping pc0 profiles g Htype) as (e & g2 & Hraise).
        congruence.
      * apply IH. exists pc. split; assumption.
    + rewrite (bind_raise _ _ _ _ _ Hstep). eauto.
Qed.

End LayeringProofs.

Module LayeringTheorems.
Import Py PyNum PyTime Random Customers Transactions Fraud FraudAttack Setup
       Scenarios Samples FraudSamples LayeringProofs.

(** X1.  A fraud configuration that lists a pattern of type "layering"
    cannot be set up: whatever the population, the account mapping, the
    weights, the attack window and the random draws, [_setup_fraud_patterns]
    raises.  (The setup calls [generate_fraud_attack] with a single target
    customer, and the layering constructor then draws
    [random.randint(3, 1)].) *)
Theorem layering_pattern_blocks_setup
    (cfg : FraudConfig) (duration_hours sim_start : Z)
    (customers : list CustomerProfile)
    (account_mapping : gmap string (list string))
    (profiles : list FraudProfile) (g : rng) :
  (exists pc, pc ∈ patterns cfg /\ pattern_type pc = "layering"%string) ->
  exists (e : exn) (g' : rng),
    _setup_fraud_patterns cfg duration_hours sim_start customers
      account_mapping profiles g = (Raise e, g').
Proof.
  intros Hlayering. unfold _setup_fraud_patterns.
  apply setup_patterns_layering. exact Hlayering.
Qed.

Lemma layering_pattern_blocks_setup_witness :
  exists (e : exn) (g' : rng),
    _setup_fraud_patterns
      {| patterns := [pattern "card_testing" (1 # 2); pattern "layering" (1 # 2)];
         attack_window := None |}
      24 0 two_customers two_customer_accounts [] (constant_rng (1 # 2))
    = (Raise e, g').
Proof.
  apply (layering_pattern_blocks_setup
           {| patterns := [pattern "card_testing" (1 # 2);
                           pattern "layering" (1 # 2)];
              attack_window := None |}
           24 0 two_customers two_customer_accounts [] (constant_rng (1 # 2))).
  exists (pattern "layering" (1 # 2)). split; [|reflexivity].
  right. left.
Defined.

(** X2.  Two of the six built-in scenarios, "mule_network" and
    "regression_test", configure a layering pattern; for both, the
    configuration that [get_builtin_scenario] returns on the table as the
    module defines it is one whose fraud setup raises in the engine,
    whatever the customers, their accounts and the random draws. *)
Theorem builtin_layering_scenarios_fail
    (sim_start : Z) (customers : list CustomerProfile)
    (account_mapping : gmap string (list string))
    (profiles : list FraudProfile) (g : rng) :
  Forall (fun name : string =>
            exists (s : scenario) (table : scenario_table),
              get_builtin_scenario name BUILTIN_SCENARIOS = (Ok s, table) /\
              exists (e : exn) (g' : rng),
                _setup_fraud_patterns (fraud s) (Scenarios.duration_hours s)
                  sim_start customers account_mapping profiles g
                = (Raise e, g'))
         ["mule_network"; "regression_test"]%string.
Proof.
  repeat constructor; (eexists _, _; split; [reflexivity|]);
    apply setup_patterns_layering; cbn [fraud patterns].
  - exists (pattern "layering" (6 # 10)). split; [left | reflexivity].
  - exists (pattern "layering" (10 # 100)). split; [|reflexivity].
    do 5 right. left.
Qed.

End LayeringTheorems.

Module MuleNetworkProofs.
Import Py PyNum PyTime Random GenLogic NumProofs RandomProofs SampleSpec
       SampleTheorems GenLogicProofs Customers Transactions Fraud FraudAttack
       FraudNetworks LayeringProofs.

Lemma elem_of_range (i n : Z) : 0 <= i < n -> i ∈ range n.
Proof.
  intros Hi. unfold range. apply list_elem_of_fmap.
  exists (Z.to_nat i). split; [lia|]. apply elem_of_seq. lia.
Qed.

(** The last group of mules, [mule_customers[i:i+3]] for the last index,
    holds two customers only. *)
Lemma last_slice_is_short {A} (l : list A) :
  (2 <= length l)%nat ->
  length (slice3 l (Z.of_nat (length l) - 2)) = 2%nat.
Proof.
  intros Hl. unfold slice3. rewrite length_take, length_drop. lia.
Qed.

Lemma mule_layers_raise (network_id : string)
    (mule_customers : list CustomerProfile)
    (account_mapping : gmap string (list string)) (start_time : Z)
    (indices : list Z) :
  (2 <= length mule_customers)%nat ->
  (Z.of_nat (length mule_customers) - 2) ∈ indices ->
  forall g : rng,
  exists (e : exn) (g' : rng),
    mule_layers network_id mule_customers account_mapping start_time indices g
    = (Raise e, g').
Proof.
  intros Hlen. induction indices as [|i rest IH]; intros Hin g.
  - inversion Hin.
  - cbn [mule_layers].
    destruct (randint_run 3 5 g ltac:(lia)) as (hops & Hhops & Hrange).
    rewrite (bind_ok _ _ _ _ _ Hhops).
    match goal with
    | |- context [bind ?m _ (advance g)] =>
        destruct (m (advance g)) as [[profile|e] g1] eqn:Hlayer
    end.
    + rewrite (bind_ok _ _ _ _ _ Hlayer).
      apply elem_of_cons in Hin as [Hi | Hin].
      * subst i.
        destruct (layering_attack_needs_three
                    (network_id +:+ "_LAYER_"
                     +:+ pretty (Z.of_nat (length mule_customers) - 2))
                    (slice3 mule_customers (Z.of_nat (length mule_customers) - 2))
                    account_mapping
                    (start_time + hours (Z.of_nat (length mule_customers) - 2))
                    (3 # 2)
                    {| kw_hops := Some hops; kw_amounts := None;
                       kw_threshold := None; kw_split_into := None |}
                    (advance g))
          as (e & g2 & Hraise).
        { cbn [kw_hops default]. rewrite (last_slice_is_short _ Hlen). lia. }
        congruence.
      * destruct (IH Hin g1) as (e & g2 & Hrest).
        rewrite (bind_raise _ _ _ _ _ Hrest). eauto.
    + rewrite (bind_raise _ _ _ _ _ Hlayer). eauto.
Qed.

Lemma mule_network_raises (network_id : string)
    (customers : list CustomerProfile)
    (account_mapping : gmap string (list string)) (start_time : Z) (g : rng) :
  exists (e : exn) (g' : rng),
    _create_mule_network network_id customers account_mapping start_time g
    = (Raise e, g').
Proof.
  unfold _create_mule_network.
  set (top := Z.min 15 (Z.of_nat (length customers))).
  destruct (Z_lt_le_dec top 5) as [Hfew | Henough].
  - destruct (randint_empty 5 top g Hfew) as (msg & Hraise).
    rewrite (bind_raise _ _ _ _ _ Hraise). eauto.
  - destruct (randint_run 5 top g Henough) as (mule_count & Hcount & Hrange).
    rewrite (bind_ok _ _ _ _ _ Hcount).
    destruct (sample_without_replacement customers mule_count (advance g)
                ltac:(unfold top in *; lia))
      as (mule_customers & g1 & Hsample & Hlen & _).
    rewrite (bind_ok _ _ _ _ _ Hsample).
    destruct (mule_layers_raise network_id mule_customers account_mapping
                start_time (range (mule_count - 1)) ltac:(lia)
                ltac:(apply elem_of_range; lia) g1)
      as (e & g2 & Hraise).
    rewrite (bind_raise _ _ _ _ _ Hraise). eauto.
Qed.

End MuleNetworkProofs.

Module MuleNetworkTheorems.
Import Py PyNum PyTime Random RandomProofs GenLogicProofs Customers
       Transactions Fraud FraudAttack FraudNetworks MuleNetworkProofs.

(** X3.  [create_fraud_network("mule_network", ...)] never returns a
    network: for every list of customers, account mapping, start time and
    sequence of random draws it raises.  With fewer than five customers the
    draw of the number of mules has an empty range; otherwise the last group
    of mules, [mule_customers[i:i+3]] for [i = mule_count - 2], has two
    members and the layering constructor draws [random.randint(3, 2)]. *)
Theorem mule_network_cannot_be_created
    (customers : list CustomerProfile)
    (account_mapping : gmap string (list string)) (start_time : Z) (g : rng) :
  exists (e : exn) (g' : rng),
    create_fraud_network "mule_network" customers account_mapping start_time g
    = (Raise e, g').
Proof.
  unfold create_fraud_network.
  destruct (randint_run 100 999 g ltac:(lia)) as (suffix & Hsuffix & _).
  rewrite (bind_ok _ _ _ _ _ Hsuffix).
  change (String.eqb "mule_network" "mule_network") with true. cbv iota.
  apply mule_network_raises.
Qed.

End MuleNetworkTheorems.

Module FraudNetworkProofs.
Import Py PyNum PyTime Random GenLogic NumProofs RandomProofs SampleSpec
       SampleTheorems GenLogicProofs Customers Transactions Fraud FraudAttack
       FraudAttackProofs FraudNetworks FraudNetworkSpec.

Lemma numbered_length {A B} (P : Z -> A -> B -> Prop) (xs : list A) :
  forall (i : Z) (ys : list B), numbered P i xs ys -> length ys = length xs.
Proof.
  induction xs as [|x xs IH]; intros i [|y ys] H; simpl in *;
    try contradiction; [reflexivity|].
  f_equal. destruct H as [_ H]. exact (IH _ _ H).
Qed.

Lemma synthetic_profiles_made (network_id : string)
    (account_mapping : gmap string (list string)) (start : Z)
    (customers : list CustomerProfile) :
  (forall c, c ∈ customers -> is_Some (account_mapping !! customer_id c)) ->
  forall i : Z,
    yields (synthetic_profiles network_id account_mapping start i customers)
           (numbered (ring_member network_id account_mapping start) i customers).
Proof.
  induction customers as [|c rest IH]; intros Hall i; cbn [synthetic_profiles].
  - apply yields_ret. exact I.
  - assert (Hc : is_Some (account_mapping !! customer_id c)) by (apply Hall; left).
    yields_step. yields_step. yields_step.
    eapply yields_bind.
    { apply IH. intros c' Hc'. apply Hall. right. exact Hc'. }
    intros others Hothers. apply yields_ret. split; [|exact Hothers].
    unfold ring_member. cbn. repeat split; try assumption; try lia.
Qed.

Lemma coordinated_profiles_made (network_id : string)
    (account_mapping : gmap string (list string)) (start : Z)
    (customers : list CustomerProfile) :
  (forall c, c ∈ customers -> is_Some (account_mapping !! customer_id c)) ->
  forall i : Z,
    yields (coordinated_profiles network_id account_mapping start i customers)
           (numbered (coordinated_member network_id) i customers).
Proof.
  induction customers as [|c rest IH]; intros Hall i; cbn [coordinated_profiles].
  - apply yields_ret. exact I.
  - assert (Hc : is_Some (account_mapping !! customer_id c)) by (apply Hall; left).
    eapply yields_bind; [apply yields_choice; discriminate|].
    intros t Ht.
    assert (Hcases : t = VELOCITY_ATTACK \/ t = LARGE_AMOUNT \/ t = ACCOUNT_TAKEOVER).
    { repeat (apply elem_of_cons in Ht as [Ht | Ht]; [auto|]). inversion Ht. }
    eapply yields_bind.
    { apply (attack_made account_mapping c Hc).
      destruct Hcases as [-> | [-> | ->]]; discriminate. }
    intros p [Htype Hcust].
    eapply yields_bind.
    { apply IH. intros c' Hc'. apply Hall. right. exact Hc'. }
    intros others Hothers. apply yields_ret. split; [|exact Hothers].
    unfold coordinated_member. cbn. rewrite Htype. repeat split; assumption.
Qed.

(** Sampling [min(k, len(customers))] customers always succeeds. *)
Lemma yields_sample_at_most {A} (population : list A) (k : Z) :
  0 <= k ->
  yields (sample population (Z.min k (Z.of_nat (length population))))
         (fun res => Z.of_nat (length res) = Z.min k (Z.of_nat (length population)) /\
                     at_distinct_positions population res).
Proof.
  intros Hk. eapply yields_weaken; [apply yields_sample; lia|].
  intros res [Hlen Hpos]. split; [lia | exact Hpos].
Qed.

End FraudNetworkProofs.

Module FraudNetworkTheorems.
Import Py PyNum PyTime Random GenLogic NumProofs RandomProofs SampleSpec
       SampleTheorems GenLogicProofs Customers Transactions Fraud FraudAttack
       FraudAttackProofs FraudNetworks FraudNetworkSpec FraudNetworkProofs
       Samples FraudSamples.

(** X4.  When every customer has an entry in the account mapping,
    [_create_synthetic_identity_ring] returns a network of
    [min(8, len(customers))] profiles, one per customer sampled without
    replacement: the [i]-th profile is of type SYNTHETIC_IDENTITY, is named
    [<network_id>_SYNTH_<i>], targets the [i]-th sampled customer and that
    customer's accounts, starts [i] days after the network's start time and
    lasts between 480 and 1440 minutes. *)
Theorem synthetic_identity_ring_members
    (network_id : string) (customers : list CustomerProfile)
    (account_mapping : gmap string (list string)) (start : Z) (g : rng) :
  (forall c, c ∈ customers -> is_Some (account_mapping !! customer_id c)) ->
  exists (net : FraudNetwork) (members : list CustomerProfile) (g' : rng),
    _create_synthetic_identity_ring network_id customers account_mapping start g
    = (Ok net, g') /\
    FraudNetworks.network_id net = network_id /\
    Z.of_nat (length (fraud_profiles net))
    = Z.min 8 (Z.of_nat (length customers)) /\
    at_distinct_positions customers members /\
    numbered (ring_member network_id account_mapping start) 0 members
             (fraud_profiles net).
Proof.
  intros Hall. unfold _create_synthetic_identity_ring.
  destruct (yields_sample_at_most customers 8 ltac:(lia) g)
    as (members & g1 & Hsample & Hlen & Hpos).
  rewrite (bind_ok _ _ _ _ _ Hsample).
  destruct (synthetic_profiles_made network_id account_mapping start members
              ltac:(intros c Hc; apply Hall;
                    exact (at_distinct_positions_elem _ _ _ Hpos Hc)) 0 g1)
    as (profiles & g2 & Hrun & Hmade).
  rewrite (bind_ok _ _ _ _ _ Hrun).
  eexists _, members, g2. split; [reflexivity|]. cbn.
  split; [reflexivity|]. split; [|split; assumption].
  rewrite (numbered_length _ _ _ _ Hmade). exact Hlen.
Qed.

Lemma synthetic_identity_ring_members_witness :
  exists (net : FraudNetwork) (members : list CustomerProfile) (g' : rng),
    _create_synthetic_identity_ring "NET_0_123" two_customers
      two_customer_accounts 0 (constant_rng (1 # 2))
    = (Ok net, g') /\
    FraudNetworks.network_id net = "NET_0_123"%string /\
    Z.of_nat (length (fraud_profiles net)) = 2 /\
    at_distinct_positions two_customers members /\
    numbered (ring_member "NET_0_123" two_customer_accounts 0) 0 members
             (fraud_profiles net).
Proof.
  apply (synthetic_identity_ring_members "NET_0_123" two_customers
           two_customer_accounts 0 (constant_rng (1 # 2))).
  intros c Hc. unfold two_customers in Hc.
  apply elem_of_cons in Hc as [-> | Hc];
    [|apply list_elem_of_singleton in Hc; subst c];
    vm_compute; eexists; reflexivity.
Defined.

(** X5.  When every customer has an entry in the account mapping,
    [_create_generic_network] returns a network of [min(6, len(customers))]
    profiles, one per customer sampled without replacement: the [i]-th
    profile is a velocity attack, a large-amount fraud or an account
    takeover on the [i]-th sampled customer, renamed [<network_id>_COORD_<i>]. *)
Theorem generic_network_members
    (network_id : string) (customers : list CustomerProfile)
    (account_mapping : gmap string (list string)) (start : Z) (g : rng) :
  (forall c, c ∈ customers -> is_Some (account_mapping !! customer_id c)) ->
  exists (net : FraudNetwork) (members : list CustomerProfile) (g' : rng),
    _create_generic_network network_id customers account_mapping start g
    = (Ok net, g') /\
    Z.of_nat (length (fraud_profiles net))
    = Z.min 6 (Z.of_nat (length customers)) /\
    at_distinct_positions customers members /\
    numbered (coordinated_member network_id) 0 members (fraud_profiles net).
Proof.
  intros Hall. unfold _create_generic_network.
  destruct (yields_sample_at_most customers 6 ltac:(lia) g)
    as (members & g1 & Hsample & Hlen & Hpos).
  rewrite (bind_ok _ _ _ _ _ Hsample).
  destruct (coordinated_profiles_made network_id account_mapping start members
              ltac:(intros c Hc; apply Hall;
                    exact (at_distinct_positions_elem _ _ _ Hpos Hc)) 0 g1)
    as (profiles & g2 & Hrun & Hmade).
  rewrite (bind_ok _ _ _ _ _ Hrun).
  eexists _, members, g2. split; [reflexivity|]. cbn.
  split; [|split; assumption].
  rewrite (numbered_length _ _ _ _ Hmade). exact Hlen.
Qed.

Lemma generic_network_members_witness :
  exists (net : FraudNetwork) (members : list CustomerProfile) (g' : rng),
    _create_generic_network "NET_0_456" two_customers two_customer_accounts 0
      (constant_rng (1 # 2))
    = (Ok net, g') /\
    Z.of_nat (length (fraud_profiles net)) = 2 /\
    at_distinct_positions two_customers members /\
    numbered (coordinated_member "NET_0_456") 0 members (fraud_profiles net).
Proof.
  apply (generic_network_members "NET_0_456" two_customers
           two_customer_accounts 0 (constant_rng (1 # 2))).
  intros c Hc. unfold two_customers in Hc.
  apply elem_of_cons in Hc as [-> | Hc];
    [|apply list_elem_of_singleton in Hc; subst c];
    vm_compute; eexists; reflexivity.
Defined.

End FraudNetworkTheorems.

Module AccountTakeoverProofs.
Import Py PyNum PyTime Random GenLogic NumProofs RandomProofs GenLogicProofs
       Transactions Fraud FraudGenerator FraudSpec.

(** A phase whose [transaction_count] is a pair of bounds, as both
    transaction phases of the template have it, makes [range(...)] raise. *)
Lemma phase_count_of_pair (ph : phase) (lo hi a b : Z) (g : rng) :
  lo <= hi ->
  phase_transaction_count ph = Some (RangeValue a b) ->
  exists msg, phase_count ph lo hi g = (Raise (TypeError msg), advance g).
Proof.
  intros Hlohi Hcount. unfold phase_count.
  destruct (randint_run lo hi g Hlohi) as (fallback & Hrun & _).
  rewrite (bind_ok _ _ _ _ _ Hrun). rewrite Hcount. cbn.
  eexists. reflexivity.
Qed.

(** The outcome of the generator once the current phase is known. *)
Lemma takeover_phase_outcome (p : FraudProfile) (current_time : Z)
    (current_phase : option phase) (g : rng) :
  (current_phase = None \/ exists ph, current_phase = Some ph /\ ph ∈ account_takeover_phases) ->
  exists g',
    (match current_phase with
     | None => ret []
     | Some ph =>
         if String.eqb (phase_type ph) "small_test" then
           bind (phase_count ph 2 5) (fun count =>
             for_each (fun i => always (takeover_test_transaction p ph current_time i))
                      (range count))
         else if String.eqb (phase_type ph) "drain_account" then
           bind (phase_count ph 3 10) (fun count =>
             for_each (fun i => always (takeover_drain_transaction p ph current_time i))
                      (range count))
         else ret []
     end) g = (Ok [], g')
    \/ exists msg,
    (match current_phase with
     | None => ret []
     | Some ph =>
         if String.eqb (phase_type ph) "small_test" then
           bind (phase_count ph 2 5) (fun count =>
             for_each (fun i => always (takeover_test_transaction p ph current_time i))
                      (range count))
         else if String.eqb (phase_type ph) "drain_account" then
           bind (phase_count ph 3 10) (fun count =>
             for_each (fun i => always (takeover_drain_transaction p ph current_time i))
                      (range count))
         else ret []
     end) g = (Raise (TypeError msg), g').
Proof.
  intros [-> | (ph & -> & Hin)].
  - exists g. left. reflexivity.
  - unfold account_takeover_phases in Hin.
    repeat (apply elem_of_cons in Hin as [-> | Hin]); [| | | inversion Hin].
    + exists g. left. reflexivity.
    + cbn [phase_type]. change (String.eqb "small_test" "small_test") with true.
      cbv iota.
      destruct (phase_count_of_pair
                  {| phase_type := "small_test"; phase_duration_minutes := None;
                     phase_transaction_count := Some (RangeValue 2 5);
                     phase_amount_range := Some (10, 100)%Q |} 2 5 2 5 g
                  ltac:(lia) eq_refl) as (msg & Hraise).
      exists (advance g). right. exists msg.
      apply bind_raise. exact Hraise.
    + cbn [phase_type].
      change (String.eqb "drain_account" "small_test") with false.
      change (String.eqb "drain_account" "drain_account") with true.
      cbv iota.
      destruct (phase_count_of_pair
                  {| phase_type := "drain_account"; phase_duration_minutes := None;
                     phase_transaction_count := Some (RangeValue 3 10);
                     phase_amount_range := Some (1000, 10000)%Q |} 3 10 3 10 g
                  ltac:(lia) eq_refl) as (msg & Hraise).
      exists (advance g). right. exists msg.
      apply bind_raise. exact Hraise.
Qed.

(** Selecting the phase always returns, with a phase of the list or none. *)
Lemma select_phase_returns (phases : list phase) (elapsed_minutes : Q) :
  Forall (fun ph => match default (RangeValue 30 180) (phase_duration_minutes ph) with
                    | RangeValue lo hi => lo <= hi
                    | IntValue _ => True
                    end) phases ->
  forall (cumulative : Z) (g : rng),
  exists (current_phase : option phase) (g' : rng),
    select_phase phases elapsed_minutes cumulative g = (Ok current_phase, g') /\
    (current_phase = None \/ exists ph, current_phase = Some ph /\ ph ∈ phases).
Proof.
  induction 1 as [|ph rest Hph Hrest IH]; intros cumulative g.
  - exists None, g. split; [reflexivity | left; reflexivity].
  - cbn [select_phase].
    assert (Hdur : exists (duration : Z) (g1 : rng),
      match default (RangeValue 30 180) (phase_duration_minutes ph) with
      | RangeValue lo hi => randint lo hi
      | IntValue d => ret d
      end g = (Ok duration, g1)).
    { destruct (default (RangeValue 30 180) (phase_duration_minutes ph))
        as [d | lo hi].
      - exists d, g. reflexivity.
      - destruct (randint_run lo hi g Hph) as (v & Hrun & _).
        exists v, (advance g). exact Hrun. }
    destruct Hdur as (duration & g1 & Hdur).
    rewrite (bind_ok _ _ _ _ _ Hdur).
    destruct (Qleb elapsed_minutes (inject_Z (cumulative + duration))).
    + exists (Some ph), g1. split; [reflexivity|].
      right. exists ph. split; [reflexivity | left].
    + destruct (IH (cumulative + duration) g1) as (cp & g2 & Hrun & Hcp).
      exists cp, g2. split; [exact Hrun|].
      destruct Hcp as [-> | (ph' & -> & Hin)]; [left; reflexivity|].
      right. exists ph'. split; [reflexivity | right; exact Hin].
Qed.

Lemma takeover_generator_outcome (p : FraudProfile) (current_time : Z) (g : rng) :
  md_phases (metadata p) = Some account_takeover_phases ->
  exists g',
    _generate_account_takeover_transactions p current_time g = (Ok [], g') \/
    exists msg,
      _generate_account_takeover_transactions p current_time g
      = (Raise (TypeError msg), g').
Proof.
  intros Hphases. unfold _generate_account_takeover_transactions.
  cbv zeta. rewrite Hphases.
  rewrite (bind_ok _ _ g g _ (eq_refl : key "phases" (Some account_takeover_phases) g
                                       = (Ok account_takeover_phases, g))).
  destruct (select_phase_returns account_takeover_phases
              (total_seconds (current_time - start_time p)%Z / 60)%Q
              ltac:(repeat constructor; cbn; lia) 0 g)
    as (current_phase & g1 & Hselect & Hcp).
  rewrite (bind_ok _ _ _ _ _ Hselect).
  exact (takeover_phase_outcome p current_time current_phase g1 Hcp).
Qed.

End AccountTakeoverProofs.

Module AccountTakeoverTheorems.
Import Py PyNum PyTime Random GenLogic NumProofs RandomProofs GenLogicProofs
       Transactions Fraud FraudGenerator FraudSpec FraudSamples
       TakeoverSamples AccountTakeoverProofs.

(** X6.  An account-takeover profile carrying the phases of the template,
    as [_generate_account_takeover] builds it, never yields a transaction:
    [generate_fraud_transactions] returns the empty list (outside the
    profile's interval, during reconnaissance, or past the last phase) or
    raises [TypeError], because both transaction phases give
    [transaction_count] as a pair of bounds and the generator passes it to
    [range]. *)
Theorem account_takeover_never_emits
    (p : FraudProfile) (current_time : Z) (g : rng) :
  fraud_type p = ACCOUNT_TAKEOVER ->
  md_phases (metadata p) = Some account_takeover_phases ->
  exists g',
    generate_fraud_transactions p current_time g = (Ok [], g') \/
    exists msg,
      generate_fraud_transactions p current_time g = (Raise (TypeError msg), g').
Proof.
  intros Htype Hphases. unfold generate_fraud_transactions.
  destruct ((current_time <? start_time p) || (end_time p <? current_time)).
  - exists g. left. reflexivity.
  - rewrite Htype. cbn [generator_of].
    destruct (takeover_generator_outcome p current_time g Hphases)
      as (g' & [Hempty | (msg & Hraise)]); exists g'.
    + left. rewrite (bind_ok _ _ _ _ _ Hempty). reflexivity.
    + right. exists msg. apply bind_raise. exact Hraise.
Qed.

Lemma account_takeover_never_emits_witness :
  exists g',
    generate_fraud_transactions account_takeover_profile (minutes 60)
      (constant_rng 0) = (Ok [], g') \/
    exists msg,
      generate_fraud_transactions account_takeover_profile (minutes 60)
        (constant_rng 0) = (Raise (TypeError msg), g').
Proof.
  exact (account_takeover_never_emits account_takeover_profile (minutes 60)
           (constant_rng 0) eq_refl eq_refl).
Defined.

(** One hour into the sample profile, with the shortest reconnaissance, the
    generator is in the test phase and raises. *)
Example account_takeover_test_phase_raises :
  exists g',
    generate_fraud_transactions account_takeover_profile (minutes 60)
      (constant_rng 0)
    = (Raise (TypeError "'tuple' object cannot be interpreted as an integer"), g').
Proof. eexists. vm_compute. reflexivity. Qed.

End AccountTakeoverTheorems.

Module BastionConnectorProofs.
Import Py PyNum PyTime Random NumProofs RandomProofs GenLogicProofs
       BastionMock BastionMockProofs BastionConnector.

Lemma fmax_ge_r (a b : Q) : (b <= fmax a b)%Q.
Proof.
  unfold fmax. destruct (Qltb a b) eqn:E.
  - apply Qle_refl.
  - apply Qltb_false in E. exact E.
Qed.

(** The run of the mock scorer, with the response it builds. *)
Lemma mock_score_run (data : score_request) (current_hour now : Z)
    (st : scorer_stats) (g : rng) :
  let r := clamped_risk data current_hour g in
  exists (resp : score_response) (g' : rng),
    _mock_score_transaction data current_hour now st g
    = (Ok (resp, track st (decide_action r) r), g') /\
    r_transaction_id resp = BastionMock.transaction_id data /\
    r_action resp = decide_action r /\
    r_risk_score resp = round3 r /\
    r_rule_hits resp = (rule_risk data current_hour).2.
Proof.
  intros r. unfold r, _mock_score_transaction, clamped_risk.
  destruct (rule_risk data current_hour) as [risk rules].
  destruct (noise_range (default ∅ (metadata data))) as [lo hi].
  unfold bind, uniform, bind, random, ret. simpl.
  eexists _, _. split; [reflexivity|]. simpl. repeat split.
Qed.

Lemma track_counts (st : scorer_stats) (action : string) (r : Q) :
  transactions_scored (track st action r) = transactions_scored st + 1 /\
  decisions (track st action r) !! lower action
  = Some (default 0 (decisions st !! lower action) + 1) /\
  forall other : string, other <> lower action ->
    decisions (track st action r) !! other = decisions st !! other.
Proof.
  unfold track. cbn. split; [reflexivity|]. split.
  - apply lookup_insert_eq.
  - intros other Hne. apply lookup_insert_ne. congruence.
Qed.

Lemma accept_request_run (endpoint : string) (st : mock_state) (g : rng) :
  accept_request endpoint st g
  = (Ok {| scoring := scoring st;
           requests_sent := requests_sent st + 1;
           requests_successful := requests_successful st + 1;
           requests_failed := requests_failed st |}, advance g).
Proof.
  unfold accept_request. destruct (String.eqb endpoint "/score"); reflexivity.
Qed.

(** The run of the mock's [_make_request("POST", "/score", data)]. *)
Lemma post_score_run (data : score_request) (current_hour now : Z)
    (st : mock_state) (g : rng) :
  let r := clamped_risk data current_hour (advance g) in
  exists (resp : score_response) (g' : rng),
    post_score data current_hour now st g
    = (Ok (resp,
           {| scoring := track (scoring st) (decide_action r) r;
              requests_sent := requests_sent st + 1;
              requests_successful := requests_successful st + 1;
              requests_failed := requests_failed st |}), g') /\
    r_transaction_id resp = BastionMock.transaction_id data /\
    r_action resp = decide_action r /\
    r_risk_score resp = round3 r /\
    r_rule_hits resp = (rule_risk data current_hour).2.
Proof.
  intros r. unfold post_score.
  rewrite (bind_ok _ _ _ _ _ (accept_request_run "/score" st g)).
  destruct (mock_score_run data current_hour now (scoring st) (advance g))
    as (resp & g' & Hrun & Hspec).
  cbn [scoring]. rewrite (bind_ok _ _ _ _ _ Hrun).
  exists resp, g'. split; [reflexivity | exact Hspec].
Qed.

End BastionConnectorProofs.

Module BastionConnectorTheorems.
Import Py PyNum PyTime Random NumProofs RandomProofs GenLogicProofs
       BastionMock BastionMockProofs BastionConnector BastionConnectorProofs.

(** X7.  Scored through the mock connector, every transaction is counted
    twice: the mock scorer advances [transactions_scored] and the counter of
    the decision it takes, and the public [score_transaction] it is called
    from advances both once more.  The call always returns, and counts as
    one request sent and one successful request. *)
Theorem score_transaction_counts_twice
    (transaction_id cif_id : string) (amount : Q)
    (currency merchant_id merchant_category channel country : string)
    (metadata : option (gmap string pyvalue))
    (current_hour now : Z) (st : mock_state) (g : rng) :
  exists (resp : score_response) (st' : mock_state) (g' : rng),
    score_transaction transaction_id cif_id amount currency merchant_id
      merchant_category channel country metadata current_hour now st g
    = (Ok (resp, st'), g') /\
    r_transaction_id resp = transaction_id /\
    transactions_scored (scoring st') = transactions_scored (scoring st) + 2 /\
    decisions (scoring st') !! lower (r_action resp)
    = Some (default 0 (decisions (scoring st) !! lower (r_action resp)) + 2) /\
    (forall other : string, other <> lower (r_action resp) ->
       decisions (scoring st') !! other = decisions (scoring st) !! other) /\
    requests_sent st' = requests_sent st + 1 /\
    requests_successful st' = requests_successful st + 1 /\
    requests_failed st' = requests_failed st.
Proof.
  unfold score_transaction.
  set (data := {| BastionMock.transaction_id := transaction_id;
                  BastionMock.amount := amount;
                  BastionMock.merchant_category := Some merchant_category;
                  BastionMock.channel := Some channel;
                  BastionMock.country := Some country;
                  BastionMock.metadata := Some (default ∅ metadata) |}).
  destruct (post_score_run data current_hour now st g)
    as (resp & g' & Hrun & Hid & Haction & _).
  set (r := clamped_risk data current_hour (advance g)) in *.
  rewrite (bind_ok _ _ _ _ _ Hrun). cbn [ret].
  destruct (track_counts (scoring st) (decide_action r) r)
    as (Hscored & Hdecision & Hothers).
  eexists resp, _, g'. split; [reflexivity|].
  split; [exact Hid|].
  cbn [scoring with_scoring fold_risk_score count_decision scored_more
       transactions_scored decisions requests_sent requests_successful
       requests_failed].
  rewrite Haction, Hdecision.
  split; [lia|]. split.
  - rewrite lookup_insert_eq. f_equal. lia.
  - split; [|repeat split].
    intros other Hne. rewrite lookup_insert_ne by congruence.
    apply Hothers. exact Hne.
Qed.

End BastionConnectorTheorems.

Module MockScorerProofs.
Import Py PyNum PyTime Random NumProofs RandomProofs GenLogicProofs
       BastionMock BastionMockProofs BastionConnector BastionConnectorProofs.

(** After the fraud-metadata step the score of a transaction marked as fraud
    is at least 0.8, whatever the earlier rules added. *)
Lemma marked_floor (risk_score bonus : Q) :
  (0 <= bonus)%Q ->
  (8 # 10 <= fmin (fmax risk_score (8 # 10) + bonus) 1)%Q.
Proof.
  intros Hbonus. apply fmin_glb; [|unfold Qle; simpl; lia].
  pose proof (fmax_ge_r risk_score (8 # 10)). lra.
Qed.

Lemma rule_risk_marked (data : score_request) (current_hour : Z) :
  marked_fraud (default ∅ (metadata data)) = true ->
  (8 # 10 <= (rule_risk data current_hour).1)%Q.
Proof.
  intros Hmarked. unfold rule_risk. cbv zeta. rewrite Hmarked.
  repeat match goal with
         | |- context [match ?e with pair _ _ => _ end] => destruct e as [? ?]
         end.
  repeat match goal with
         | |- context [if ?b then _ else _] => destruct b
         end;
    cbn [fst];
    first [ apply marked_floor; unfold Qle; simpl; lia | apply fmax_ge_r ].
Qed.

(** The rules that do not depend on the fraud metadata leave the score of an
    unremarkable payment at the base risk and trigger nothing. *)
Lemma rule_risk_unremarkable (data : score_request) (current_hour : Z) :
  marked_fraud (default ∅ (metadata data)) = false ->
  Qltb 10000 (amount data) = false ->
  Qltb (amount data) 1 = false ->
  str_in (default "US"%string (country data)) high_risk_countries = false ->
  6 <= current_hour <= 23 ->
  String.eqb (default "card"%string (channel data)) "wire" = false ->
  rule_risk data current_hour = ((1 # 10)%Q, []).
Proof.
  intros Hmarked Hlarge Hmicro Hcountry Hhour Hwire. unfold rule_risk. cbv zeta.
  rewrite Hlarge, Hmicro, Hcountry, Hwire, Hmarked.
  replace (current_hour <? 6) with false by (symmetry; apply Z.ltb_ge; lia).
  replace (23 <? current_hour) with false by (symmetry; apply Z.ltb_ge; lia).
  rewrite andb_false_r. reflexivity.
Qed.

Lemma clamp_unit_ge (x c : Q) : (c <= 1)%Q -> (c <= x)%Q -> (c <= clamp_unit x)%Q.
Proof.
  intros Hc Hx. unfold clamp_unit.
  apply Qle_trans with (fmin 1 x); [apply fmin_glb; assumption | apply fmax_ge_r].
Qed.

Lemma clamp_unit_lt (x c : Q) : (0 < c)%Q -> (x < c)%Q -> (clamp_unit x < c)%Q.
Proof.
  intros Hc Hx. unfold clamp_unit, fmax.
  destruct (Qltb 0 (fmin 1 x)); [|exact Hc].
  apply Qle_lt_trans with x; [apply fmin_le_r | exact Hx].
Qed.

End MockScorerProofs.

Module MockScorerTheorems.
Import Py PyNum PyTime Random NumProofs RandomProofs GenLogicProofs
       BastionMock BastionMockProofs BastionConnector BastionConnectorProofs
       MockScorerProofs Pipeline.

(** X8.  The mock scorer never approves a transaction whose metadata marks
    it as fraud: its clamped risk score is at least 0.7 (at least 0.8 from
    the rules, at most 0.1 taken off by the noise), so the action is REVIEW
    or DECLINE and the engine's pipeline reads it as predicted fraud.  In a
    dry run a marked transaction is therefore never a false negative. *)
Theorem marked_fraud_never_approved
    (data : score_request) (current_hour now : Z) (st : scorer_stats) (g : rng) :
  marked_fraud (default ∅ (metadata data)) = true ->
  exists (resp : score_response) (st' : scorer_stats) (g' : rng),
    _mock_score_transaction data current_hour now st g = (Ok (resp, st'), g') /\
    (7 # 10 <= clamped_risk data current_hour g)%Q /\
    (r_action resp = "REVIEW"%string \/ r_action resp = "DECLINE"%string) /\
    predicted_fraud_of (decision_of (Some (r_action resp))) = true.
Proof.
  intros Hmarked.
  destruct (mock_score_run data current_hour now st g)
    as (resp & g' & Hrun & _ & Haction & _).
  assert (Hrisk : (7 # 10 <= clamped_risk data current_hour g)%Q).
  { unfold clamped_risk, noise_range. rewrite Hmarked.
    pose proof (rule_risk_marked data current_hour Hmarked) as Hrules.
    destruct (peek_bounds g) as [Hlo _].
    apply clamp_unit_ge; [unfold Qle; simpl; lia|].
    assert (0 <= ((2 # 10) - - (1 # 10)) * peek g)%Q
      by (apply Qmult_le_0_compat; [unfold Qle; simpl; lia | exact Hlo]).
    lra. }
  assert (Hcases : r_action resp = "REVIEW"%string \/ r_action resp = "DECLINE"%string).
  { rewrite Haction. unfold decide_action.
    destruct (Qleb (8 # 10) (clamped_risk data current_hour g)); [right; reflexivity|].
    destruct (Qleb (5 # 10) (clamped_risk data current_hour g)) eqn:E;
      [left; reflexivity|].
    apply Qleb_false in E. lra. }
  eexists resp, _, g'. split; [exact Hrun|]. split; [exact Hrisk|].
  split; [exact Hcases|].
  destruct Hcases as [-> | ->]; reflexivity.
Qed.

Lemma marked_fraud_never_approved_witness :
  let data := {| BastionMock.transaction_id := "TXN_1"; amount := 25;
                 merchant_category := None; channel := None; country := None;
                 metadata := Some {[ "is_fraud"%string := VBool true ]} |} in
  let st := {| transactions_scored := 0; decisions := ∅; avg_risk_score := 0 |} in
  exists (resp : score_response) (st' : scorer_stats) (g' : rng),
    _mock_score_transaction data 12 0 st {| draws := fun _ => 0%Q; cursor := 0 |}
    = (Ok (resp, st'), g') /\
    (7 # 10 <= clamped_risk data 12 {| draws := fun _ => 0%Q; cursor := 0 |})%Q /\
    (r_action resp = "REVIEW"%string \/ r_action resp = "DECLINE"%string) /\
    predicted_fraud_of (decision_of (Some (r_action resp))) = true.
Proof.
  intros data st.
  exact (marked_fraud_never_approved data 12 0 st
           {| draws := fun _ => 0%Q; cursor := 0 |} eq_refl).
Defined.

(** X9.  The mock scorer always approves an unremarkable legitimate
    payment: not marked as fraud, an amount between 1 and 10,000, a country
    outside the high-risk list, an hour from 6 to 23 and a channel other
    than wire.  No rule is hit, the risk score stays below 0.3 and the
    engine's pipeline does not read the decision as predicted fraud. *)
Theorem unremarkable_payment_approved
    (data : score_request) (current_hour now : Z) (st : scorer_stats) (g : rng) :
  marked_fraud (default ∅ (metadata data)) = false ->
  (1 <= amount data)%Q -> (amount data <= 10000)%Q ->
  str_in (default "US"%string (country data)) high_risk_countries = false ->
  6 <= current_hour <= 23 ->
  default "card"%string (channel data) <> "wire"%string ->
  exists (resp : score_response) (st' : scorer_stats) (g' : rng),
    _mock_score_transaction data current_hour now st g = (Ok (resp, st'), g') /\
    (clamped_risk data current_hour g < 3 # 10)%Q /\
    r_action resp = "APPROVE"%string /\
    r_rule_hits resp = [] /\
    predicted_fraud_of (decision_of (Some (r_action resp))) = false.
Proof.
  intros Hmarked Hlo Hhi Hcountry Hhour Hwire.
  destruct (mock_score_run data current_hour now st g)
    as (resp & g' & Hrun & _ & Haction & _ & Hrules).
  pose proof (rule_risk_unremarkable data current_hour Hmarked
                ltac:(apply Qltb_false; exact Hhi)
                ltac:(apply Qltb_false; exact Hlo)
                Hcountry Hhour
                ltac:(apply String.eqb_neq; exact Hwire)) as Hbase.
  assert (Hrisk : (clamped_risk data current_hour g < 3 # 10)%Q).
  { unfold clamped_risk, noise_range. rewrite Hmarked, Hbase. cbn [fst].
    destruct (peek_bounds g) as [_ Hu].
    apply clamp_unit_lt; [reflexivity|]. lra. }
  assert (Happrove : r_action resp = "APPROVE"%string).
  { rewrite Haction. apply decide_action_spec. lra. }
  eexists resp, _, g'. split; [exact Hrun|]. split; [exact Hrisk|].
  split; [exact Happrove|]. split; [rewrite Hrules, Hbase; reflexivity|].
  rewrite Happrove. reflexivity.
Qed.

Lemma unremarkable_payment_approved_witness :
  let data := {| BastionMock.transaction_id := "TXN_2"; amount := 120;
                 merchant_category := Some "grocery"%string;
                 channel := Some "card"%string; country := Some "US"%string;
                 metadata := None |} in
  let st := {| transactions_scored := 0; decisions := ∅; avg_risk_score := 0 |} in
  exists (resp : score_response) (st' : scorer_stats) (g' : rng),
    _mock_score_transaction data 14 0 st {| draws := fun _ => (9 # 10)%Q; cursor := 0 |}
    = (Ok (resp, st'), g') /\
    (clamped_risk data 14 {| draws := fun _ => (9 # 10)%Q; cursor := 0 |} < 3 # 10)%Q /\
    r_action resp = "APPROVE"%string /\
    r_rule_hits resp = [] /\
    predicted_fraud_of (decision_of (Some (r_action resp))) = false.
Proof.
  intros data st.
  apply (unremarkable_payment_approved data 14 0 st
           {| draws := fun _ => (9 # 10)%Q; cursor := 0 |}).
  - reflexivity.
  - unfold Qle; simpl; lia.
  - unfold Qle; simpl; lia.
  - reflexivity.
  - lia.
  - discriminate.
Defined.

End MockScorerTheorems.

Module ScoreBatchProofs.
Import Py PyNum PyTime Random NumProofs RandomProofs GenLogicProofs
       BastionMock BastionMockProofs BastionConnector BastionConnectorProofs.

Lemma mock_score_batch_run (transactions : list (score_request * Z * datetime)) :
  forall (s : scorer_stats) (g : rng),
  exists (results : list score_response) (s' : scorer_stats) (g' : rng),
    _mock_score_batch transactions s g = (Ok (results, s'), g') /\
    map r_transaction_id results
    = map (fun t => BastionMock.transaction_id t.1.1) transactions /\
    transactions_scored s'
    = transactions_scored s + Z.of_nat (length transactions).
Proof.
  induction transactions as [|[[txn current_hour] now] rest IH]; intros s g.
  - exists [], s, g. cbn. repeat split. lia.
  - cbn [_mock_score_batch].
    destruct (mock_score_run txn current_hour now s g)
      as (resp & g1 & Hrun & Hid & _).
    rewrite (bind_ok _ _ _ _ _ Hrun). cbn [fst snd].
    destruct (IH (track s (decide_action (clamped_risk txn current_hour g))
                    (clamped_risk txn current_hour g)) g1)
      as (results & s' & g' & Hrest & Hids & Hcount).
    rewrite (bind_ok _ _ _ _ _ Hrest). cbn [ret fst snd].
    exists (resp :: results), s', g'. split; [reflexivity|]. split.
    + cbn. rewrite Hid, Hids. reflexivity.
    + rewrite Hcount. unfold track. cbn [transactions_scored length]. lia.
Qed.

Lemma note_results_keep_count (results : list score_response) :
  forall s : scorer_stats,
    transactions_scored (fold_left note_result results s) = transactions_scored s.
Proof.
  induction results as [|r results IH]; intros s; cbn [fold_left];
    [reflexivity|].
  rewrite IH. reflexivity.
Qed.

End ScoreBatchProofs.

Module ScoreBatchTheorems.
Import Py PyNum PyTime Random NumProofs RandomProofs GenLogicProofs
       BastionMock BastionMockProofs BastionConnector BastionConnectorProofs
       ScoreBatchProofs.

(** X10.  [score_batch] against the mock connector always returns one
    result per submitted transaction, in the order of submission and with
    the transaction's id; it is one request, and it advances
    [transactions_scored] by twice the size of the batch (once per
    transaction in the mock scorer, once more for the batch in the public
    method). *)
Theorem score_batch_results
    (transactions : list (score_request * Z * datetime)) (st : mock_state) (g : rng) :
  exists (results : list score_response) (st' : mock_state) (g' : rng),
    score_batch transactions st g = (Ok (results, st'), g') /\
    map r_transaction_id results
    = map (fun t => BastionMock.transaction_id t.1.1) transactions /\
    transactions_scored (scoring st')
    = transactions_scored (scoring st) + 2 * Z.of_nat (length transactions) /\
    requests_sent st' = requests_sent st + 1 /\
    requests_successful st' = requests_successful st + 1.
Proof.
  unfold score_batch.
  rewrite (bind_ok _ _ _ _ _ (accept_request_run "/score/batch" st g)).
  cbn [scoring].
  destruct (mock_score_batch_run transactions (scoring st) (advance g))
    as (results & s' & g' & Hrun & Hids & Hcount).
  rewrite (bind_ok _ _ _ _ _ Hrun). cbn [ret].
  eexists results, _, g'. split; [reflexivity|]. split; [exact Hids|].
  cbn [scoring with_scoring requests_sent requests_successful].
  rewrite note_results_keep_count. cbn [scored_more transactions_scored].
  split; [lia|]. split; reflexivity.
Qed.

End ScoreBatchTheorems.

Module HttpAccountingProofs.
Import Py Http HttpSpec HttpProofs.

Lemma pow2_step (k : nat) (m : Z) :
  Z.of_nat k < m ->
  2 ^ Z.of_nat k + Z.max 0 (2 ^ m - 2 ^ Z.of_nat (S k))
  <= Z.max 0 (2 ^ m - 2 ^ Z.of_nat k).
Proof.
  intros Hlt.
  assert (Hk : 2 ^ Z.of_nat (S k) = 2 * 2 ^ Z.of_nat k)
    by (rewrite Nat2Z.inj_succ, Z.pow_succ_r by lia; reflexivity).
  assert (Hm : 2 ^ Z.of_nat (S k) <= 2 ^ m)
    by (apply Z.pow_le_mono_r; lia).
  lia.
Qed.

Lemma pow2_skip (k : nat) (m : Z) :
  Z.max 0 (2 ^ m - 2 ^ Z.of_nat (S k)) <= Z.max 0 (2 ^ m - 2 ^ Z.of_nat k).
Proof.
  assert (2 ^ Z.of_nat k <= 2 ^ Z.of_nat (S k))
    by (apply Z.pow_le_mono_r; lia).
  lia.
Qed.

(** An attempt that goes on to the next one, with or without a sleep. *)
Lemma effect_after_retry (k n : nat) (c c1 : connector)
    (out : result body * connector) (pause : list Z) :
  requests_sent c1 = requests_sent c ->
  requests_successful c1 = requests_successful c ->
  requests_failed c1 = requests_failed c ->
  max_retries c1 = max_retries c ->
  calls c1 = S (calls c) ->
  slept c1 = slept c ++ pause ->
  Forall (fun s => 1 <= s) pause ->
  total_seconds_slept pause
  + Z.max 0 (2 ^ max_retries c - 2 ^ Z.of_nat (S k))
  <= Z.max 0 (2 ^ max_retries c - 2 ^ Z.of_nat k) ->
  loop_effect (S k) n c1 out ->
  loop_effect k (S n) c out.
Proof.
  intros Hsent Hok Hfailed Hmax Hcalls Hslept Hpause Hbound [E1 E2 E3 E4 E5].
  split.
  - congruence.
  - lia.
  - lia.
  - destruct E4 as (extra & Hextra & Hpos & Htotal).
    exists (pause ++ extra). split; [|split].
    + rewrite Hextra, Hslept, app_assoc. reflexivity.
    + apply Forall_app. split; assumption.
    + unfold total_seconds_slept in *. rewrite foldr_app.
      rewrite Hmax in Htotal.
      assert (Hsum : forall (l : list Z) (z : Z),
                 foldr Z.add z l = foldr Z.add 0 l + z).
      { induction l as [|x l IH]; intros z; simpl; [lia|].
        rewrite (IH z). lia. }
      rewrite Hsum. lia.
  - unfold counted_as in *. rewrite Hok, Hfailed in E5. exact E5.
Qed.

Lemma attempt_loop_effect (t : transport) (endpoint : string) (n : nat) :
  forall (k : nat) (c : connector),
    Z.of_nat (k + n) = max_retries c + 1 ->
    loop_effect k n c (attempt_loop t endpoint (seq k n) c).
Proof.
  induction n as [|n IH]; intros k c Hlast.
  - cbn [seq attempt_loop]. split; cbn [fst snd].
    + reflexivity.
    + lia.
    + lia.
    + exists []. rewrite app_nil_r. split; [reflexivity|].
      split; [constructor | unfold total_seconds_slept; simpl; lia].
    + split; [reflexivity | lia].
  - cbn [seq attempt_loop].
    assert (Hnext : forall c1, max_retries c1 = max_retries c ->
                      Z.of_nat (S k + n) = max_retries c1 + 1)
      by (intros c1 ->; lia).
    assert (Hquiet : forall out,
               loop_effect (S k) n (called c) out -> loop_effect k (S n) c out).
    { intros out. apply (effect_after_retry k n c (called c) out []);
        try reflexivity; [rewrite app_nil_r; reflexivity | constructor |].
      unfold total_seconds_slept. simpl. apply pow2_skip. }
    assert (Hsleep : Z.of_nat k <> max_retries c -> forall out,
               loop_effect (S k) n (sleep (called c) (2 ^ Z.of_nat k)) out ->
               loop_effect k (S n) c out).
    { intros Hne out.
      apply (effect_after_retry k n c _ out [2 ^ Z.of_nat k]);
        try reflexivity.
      - repeat constructor.
        assert (0 < 2 ^ Z.of_nat k) by (apply Z.pow_pos_nonneg; lia). lia.
      - unfold total_seconds_slept. simpl. rewrite Z.add_0_r.
        apply pow2_step. lia. }
    assert (Hstop : forall (r : result body) (c' : connector),
               requests_sent c' = requests_sent c ->
               calls c' = S (calls c) ->
               slept c' = slept c ->
               counted_as r c c' ->
               loop_effect k (S n) c (r, c')).
    { intros r c' Hsent Hcalls Hslept Hcounts. split; cbn [fst snd].
      - exact Hsent.
      - lia.
      - lia.
      - exists []. rewrite app_nil_r. split; [exact Hslept|].
        split; [constructor | unfold total_seconds_slept; simpl; lia].
      - exact Hcounts. }
    destruct (t (calls c)) as [status_code content| |].
    + destruct ((status_code =? 200) || (status_code =? 201)).
      { destruct content as [detail|text]; apply Hstop; cbn; try reflexivity;
          [split; [eexists; reflexivity | split; reflexivity]
          | split; reflexivity]. }
      destruct (400 <=? status_code).
      * destruct (Z.of_nat k =? max_retries c) eqn:Elast.
        { apply Hstop; cbn; try reflexivity. split; [reflexivity | lia]. }
        destruct (500 <=? status_code).
        -- apply Hsleep; [apply Z.eqb_neq; exact Elast|].
           apply IH, Hnext. reflexivity.
        -- apply Hstop; cbn; try reflexivity. split; [reflexivity | lia].
      * apply Hquiet, IH, Hnext. reflexivity.
    + destruct (Z.of_nat k =? max_retries c) eqn:Elast.
      { apply Hstop; cbn; try reflexivity. split; [reflexivity | lia]. }
      apply Hsleep; [apply Z.eqb_neq; exact Elast|].
      apply IH, Hnext. reflexivity.
    + destruct (Z.of_nat k =? max_retries c) eqn:Elast.
      { apply Hstop; cbn; try reflexivity. split; [reflexivity | lia]. }
      apply Hsleep; [apply Z.eqb_neq; exact Elast|].
      apply IH, Hnext. reflexivity.
Qed.

(** Answers that are neither a success nor an error: the attempt goes on to
    the next one at once. *)
Lemma unclassified_loop (t : transport) (endpoint : string) (attempts : list nat) :
  (forall n : nat, exists (status_code : Z) (content : body),
     t n = Response status_code content /\
     status_code < 400 /\ status_code <> 200 /\ status_code <> 201) ->
  forall c : connector,
    attempt_loop t endpoint attempts c
    = (Raise (ConnectionError (who c) "Max retries exceeded"),
       {| who := who c; base_url := base_url c; max_retries := max_retries c;
          requests_sent := requests_sent c;
          requests_successful := requests_successful c;
          requests_failed := requests_failed c;
          errors := errors c;
          calls := (calls c + length attempts)%nat; slept := slept c |}).
Proof.
  intros Hall. induction attempts as [|attempt rest IH]; intros c.
  - cbn [attempt_loop length]. rewrite Nat.add_0_r. destruct c; reflexivity.
  - cbn [attempt_loop length].
    destruct (Hall (calls c)) as (status_code & content & -> & Hlow & H200 & H201).
    replace ((status_code =? 200) || (status_code =? 201)) with false
      by (symmetry; apply orb_false_iff; split; apply Z.eqb_neq; assumption).
    replace (400 <=? status_code) with false by (symmetry; apply Z.leb_gt; lia).
    rewrite IH. cbn [called who base_url max_retries requests_sent
                     requests_successful requests_failed errors calls slept].
    replace (S (calls c) + length rest)%nat
      with (calls c + S (length rest))%nat by lia.
    reflexivity.
Qed.

End HttpAccountingProofs.

Module HttpAccountingTheorems.
Import Py Http HttpSpec HttpProofs HttpAccountingProofs.

(** X11.  Whatever the status codes, time-outs and connection failures,
    and whether the bodies are JSON objects or not JSON at all, one call
    of [_make_request] with [max_retries >= 0] counts as one request sent,
    hands between one and [max_retries + 1] requests to the HTTP client and
    sleeps at most [2 ** max_retries - 1] seconds in all.  It ends in one
    of three ways: by returning the decoded body of a 200 or 201, counted
    as one successful request; by raising the decoding error of
    [response.json()] when the body of a 200 or 201 is not JSON, after the
    request has been counted as successful all the same; or by raising an
    API or connection error, counted as at most one failed request and
    never as a successful one. *)
Theorem request_accounting
    (t : transport) (endpoint : string) (c : connector) :
  0 <= max_retries c ->
  let out := make_request t endpoint c in
  requests_sent out.2 = requests_sent c + 1 /\
  (calls c < calls out.2 <= calls c + Z.to_nat (max_retries c + 1))%nat /\
  (exists extra : list Z,
     slept out.2 = slept c ++ extra /\
     Forall (fun s => 1 <= s) extra /\
     total_seconds_slept extra <= 2 ^ max_retries c - 1) /\
  match out.1 with
  | Ok content =>
      (exists detail : option string, content = JsonObject detail) /\
      requests_successful out.2 = requests_successful c + 1 /\
      requests_failed out.2 = requests_failed c
  | Raise (JSONDecodeError _) =>
      requests_successful out.2 = requests_successful c + 1 /\
      requests_failed out.2 = requests_failed c
  | Raise (APIError _ _ _) | Raise (ConnectionError _ _) =>
      requests_successful out.2 = requests_successful c /\
      requests_failed c <= requests_failed out.2 <= requests_failed c + 1
  | Raise _ => False
  end.
Proof.
  intros Hmax out. subst out. unfold make_request.
  destruct (attempt_loop_effect t endpoint (Z.to_nat (max_retries c + 1)) 0 (sent c)
              ltac:(cbn [max_retries sent]; lia)) as [E1 E2 E3 E4 E5].
  cbn [sent requests_sent calls slept max_retries requests_successful
       requests_failed] in E1, E2, E3, E4, E5.
  split; [exact E1|]. split; [split; [apply E3; lia | apply E2]|].
  split; [|exact E5].
  destruct E4 as (extra & Hextra & Hpos & Htotal).
  exists extra. split; [exact Hextra|]. split; [exact Hpos|].
  change (2 ^ Z.of_nat 0) with 1 in Htotal.
  assert (0 < 2 ^ max_retries c) by (apply Z.pow_pos_nonneg; lia).
  lia.
Qed.

Lemma request_accounting_witness :
  let c := {| who := Nexum; base_url := "http://localhost:8090";
              max_retries := 3; requests_sent := 0;
              requests_successful := 0; requests_failed := 0;
              errors := []; calls := 0; slept := [] |} in
  let flaky : transport :=
    fun n => match n with
             | O => ConnectError
             | S O => Response 502 (NotJson "Bad Gateway")
             | _ => Response 200 (JsonObject None)
             end in
  let out := make_request flaky "/accounts" c in
  requests_sent out.2 = 1 /\
  (0 < calls out.2 <= 4)%nat /\
  (exists extra : list Z,
     slept out.2 = extra /\
     Forall (fun s => 1 <= s) extra /\
     total_seconds_slept extra <= 7) /\
  match out.1 with
  | Ok content =>
      (exists detail : option string, content = JsonObject detail) /\
      requests_successful out.2 = 1 /\ requests_failed out.2 = 0
  | Raise (JSONDecodeError _) =>
      requests_successful out.2 = 1 /\ requests_failed out.2 = 0
  | Raise (APIError _ _ _) | Raise (ConnectionError _ _) =>
      requests_successful out.2 = 0 /\ 0 <= requests_failed out.2 <= 1
  | Raise _ => False
  end.
Proof.
  intros c flaky.
  exact (request_accounting flaky "/accounts" c ltac:(cbn; lia)).
Defined.

(** X12.  An answer that is neither 200 or 201 nor an error status (a 204 or
    a redirect, say) is taken for neither a success nor a failure: when
    every answer is of this kind, [_make_request] asks [max_retries + 1]
    times without sleeping in between and then raises the connection error
    "Max retries exceeded", leaving the success and failure counters and the
    error log as they were. *)
Theorem unclassified_status_exhausts_retries
    (t : transport) (endpoint : string) (c : connector) :
  (forall n : nat, exists (status_code : Z) (content : body),
     t n = Response status_code content /\
     status_code < 400 /\ status_code <> 200 /\ status_code <> 201) ->
  let out := make_request t endpoint c in
  out.1 = Raise (ConnectionError (who c) "Max retries exceeded") /\
  calls out.2 = (calls c + Z.to_nat (max_retries c + 1))%nat /\
  slept out.2 = slept c /\
  requests_sent out.2 = requests_sent c + 1 /\
  requests_successful out.2 = requests_successful c /\
  requests_failed out.2 = requests_failed c /\
  errors out.2 = errors c.
Proof.
  intros Hall out. subst out. unfold make_request.
  rewrite (unclassified_loop t endpoint _ Hall). cbn.
  rewrite length_seq. repeat split; reflexivity.
Qed.

Lemma unclassified_status_exhausts_retries_witness :
  let c := {| who := Nexum; base_url := "http://localhost:8090";
              max_retries := 3; requests_sent := 0;
              requests_successful := 0; requests_failed := 0;
              errors := []; calls := 0; slept := [] |} in
  let out := make_request (fun _ => Response 204 (NotJson "")) "/accounts" c in
  out.1 = Raise (ConnectionError Nexum "Max retries exceeded") /\
  calls out.2 = 4%nat /\
  slept out.2 = [] /\
  requests_sent out.2 = 1 /\
  requests_successful out.2 = 0 /\
  requests_failed out.2 = 0 /\
  errors out.2 = [].
Proof.
  intros c.
  apply (unclassified_status_exhausts_retries
           (fun _ => Response 204 (NotJson "")) "/accounts" c).
  intros n. exists 204, (NotJson ""). repeat split; lia || discriminate.
Defined.

End HttpAccountingTheorems.

Module PyStrProofs.
Import PyStr PyStrSpec.

Lemma split_on_cons (sep ch : ascii) (rest t : string) :
  ends_in (split_on sep rest) t -> ends_in (split_on sep (String ch rest)) t.
Proof.
  intros (first & middle & Hsplit). cbn [split_on]. rewrite Hsplit.
  destruct (Ascii.eqb ch sep).
  - exists EmptyString, (first :: middle). reflexivity.
  - exists (String ch first), middle. reflexivity.
Qed.

Lemma split_on_suffix (sep : ascii) (s t : string) :
  split_on sep t = [t] ->
  ends_in (split_on sep (s +:+ String sep t)) t.
Proof.
  intros Hplain. induction s as [|ch s IH].
  - change ("" +:+ String sep t)%string with (String sep t).
    cbn [split_on]. rewrite Ascii.eqb_refl, Hplain.
    exists EmptyString, []. reflexivity.
  - change (String ch s +:+ String sep t)%string
      with (String ch (s +:+ String sep t)).
    apply split_on_cons, IH.
Qed.

Lemma from_end_last (segments : list string) (t : string) :
  ends_in segments t -> from_end segments 1 = Some t.
Proof.
  intros (first & middle & ->). unfold from_end.
  change (first :: middle ++ [t]) with ([first] ++ (middle ++ [t])).
  rewrite !rev_app_distr. reflexivity.
Qed.

End PyStrProofs.

Module NexumConnectorProofs.
Import Py PyNum PyTime PyFormat PyStr Random NumProofs RandomProofs
       RoundingProofs NexumMock NexumConnector NexumSessions PyStrProofs.

Lemma round2_nonneg (x : Q) : (0 <= x)%Q -> (0 <= round2 x)%Q.
Proof.
  intros Hx.
  assert (Hz : (inject_Z 0 / 100 == 0)%Q) by reflexivity.
  pose proof (round2_ge x 0) as H. rewrite Hz in H. apply H. exact Hx.
Qed.

Lemma round2_whole_cents (x : Q) : whole_cents x -> (round2 x == x)%Q.
Proof.
  intros (n & Hn). apply Qle_antisym.
  - rewrite Hn at 2. apply round2_le. rewrite Hn. apply Qle_refl.
  - rewrite Hn at 1. apply round2_ge. rewrite Hn. apply Qle_refl.
Qed.

Lemma with_balance_standing (a : account) (x : Q) :
  (0 <= x)%Q -> in_good_standing (with_balance a x).
Proof.
  intros Hx. split; [|reflexivity]. apply round2_nonneg. exact Hx.
Qed.

(** The three movements keep every account in good standing. *)
Lemma deposit_keeps_standing (d : movement) (m : mock) :
  (0 <= m_amount d)%Q ->
  map_Forall (fun _ a => in_good_standing a) (accounts m) ->
  map_Forall (fun _ a => in_good_standing a) (accounts (_mock_deposit d m).2).
Proof.
  intros Hamount Hall. unfold _mock_deposit. cbn [snd accounts].
  destruct (accounts m !! m_account_id d) as [a|] eqn:Ea; [|exact Hall].
  apply map_Forall_insert_2; [|exact Hall].
  apply with_balance_standing. destruct (Hall _ _ Ea) as [Hb _]. lra.
Qed.

Lemma withdraw_keeps_standing (d : movement) (m : mock) :
  map_Forall (fun _ a => in_good_standing a) (accounts m) ->
  map_Forall (fun _ a => in_good_standing a) (accounts (_mock_withdraw d m).2).
Proof.
  intros Hall. unfold _mock_withdraw.
  destruct (accounts m !! m_account_id d) as [a|] eqn:Ea; [|exact Hall].
  destruct (Qleb (m_amount d) (book_balance a)) eqn:Efunds; [|exact Hall].
  cbn [snd accounts]. apply map_Forall_insert_2; [|exact Hall].
  apply with_balance_standing. apply Qleb_true in Efunds. lra.
Qed.

Lemma transfer_keeps_standing (d : transfer_request) (m : mock) :
  (0 <= t_amount d)%Q ->
  map_Forall (fun _ a => in_good_standing a) (accounts m) ->
  map_Forall (fun _ a => in_good_standing a) (accounts (_mock_transfer d m).2).
Proof.
  intros Hamount Hall. unfold _mock_transfer.
  match goal with |- context [if ?b then _ else _] => destruct b end;
    [|exact Hall].
  destruct (t_from_account_id d ≫= _) as [[from_id from_account]|] eqn:Efrom;
    [|exact Hall].
  destruct (Qleb (t_amount d) (book_balance from_account)) eqn:Efunds;
    [|exact Hall].
  apply Qleb_true in Efunds. cbn [snd accounts].
  assert (Hdebited :
            map_Forall (fun _ a => in_good_standing a)
              (<[from_id := with_balance from_account
                              (book_balance from_account - t_amount d)]>
                 (accounts m))).
  { apply map_Forall_insert_2; [|exact Hall].
    apply with_balance_standing. lra. }
  destruct (t_to_account_id d) as [to_id|]; [|exact Hdebited].
  destruct (negb (String.eqb to_id "")); [|exact Hdebited].
  match goal with
  | |- context [match ?l with Some _ => _ | None => _ end] =>
      destruct l as [to_account|] eqn:Eto
  end; [|exact Hdebited].
  apply map_Forall_insert_2; [|exact Hdebited].
  apply with_balance_standing. destruct (Hdebited _ _ Eto) as [Hb _]. lra.
Qed.

Lemma create_account_keeps_standing (d : account_request) (now : Z) (m : mock)
    (g : rng) :
  exists (account_id account_number : string) (m' : mock),
    _mock_create_account d now m g = (Ok (account_id, account_number, m'), advance g) /\
    (map_Forall (fun _ a => in_good_standing a) (accounts m) ->
     map_Forall (fun _ a => in_good_standing a) (accounts m')).
Proof.
  unfold _mock_create_account.
  destruct (randint_run 100000000 999999999 g ltac:(lia)) as (number & Hrun & _).
  unfold bind. rewrite Hrun. cbn [ret].
  eexists _, _, _. split; [reflexivity|]. cbn [accounts].
  intros Hall. apply map_Forall_insert_2; [|exact Hall].
  split; [apply Qle_refl | reflexivity].
Qed.

(** The effect of a request, route by route. *)
Lemma effect_of_counted (data : payload) (c : mock_connector) :
  request_effect data c (counted c).
Proof.
  split; try reflexivity; [left; reflexivity | intros _ H; exact H].
Qed.

Lemma effect_of_bank_change (data : payload) (c : mock_connector) (m : mock) :
  (all_in_good_standing c ->
   map_Forall (fun _ a => in_good_standing a) (accounts m)) ->
  request_effect data c (with_bank (counted c) m).
Proof.
  intros Hkeeps.
  split; try reflexivity; [left; reflexivity | intros _ H; apply Hkeeps, H].
Qed.

Lemma make_request_effect (method endpoint : string) (data : payload)
    (now : Z) (c : mock_connector) (g : rng) :
  request_effect data c (_make_request method endpoint data now c g).1.2.
Proof.
  unfold _make_request. rewrite uniform_run. generalize (advance g) as g1.
  intros g1.
  repeat match goal with
         | |- context [if ?b then _ else _] => destruct b
         end;
    try (cbn [fst snd]; apply effect_of_counted).
  - (* create customer *)
    unfold _mock_create_customer.
    destruct data as [|d| | |]; cbn [fst snd];
      try (apply (effect_of_bank_change _ c); intros H; exact H).
    split; try reflexivity.
    + right. eexists. reflexivity.
    + intros _ H. exact H.
  - (* customer by id *)
    destruct (segment_from_end endpoint 1); cbn [fst snd];
      apply effect_of_counted.
  - (* create account *)
    unfold create_account_request.
    destruct data as [| |d| |];
      try (destruct (randint 100000000 999999999 g1) as [? ?]; cbn [fst snd];
           apply (effect_of_bank_change _ c); intros H; exact H).
    destruct (create_account_keeps_standing d now (bank (counted c)) g1)
      as (account_id & account_number & m' & -> & Hkeeps).
    cbn [fst snd]. apply (effect_of_bank_change _ c). exact Hkeeps.
  - (* account by id *)
    destruct (segment_from_end endpoint 1) as [account_id|];
      [destruct (_mock_get_account account_id (bank (counted c)))|];
      cbn [fst snd]; apply effect_of_counted.
  - (* accounts of a customer *)
    destruct (segment_from_end endpoint 2); cbn [fst snd];
      apply effect_of_counted.
  - (* deposit *)
    unfold movement_request.
    destruct data as [| | |d|]; cbn [fst snd];
      try (apply (effect_of_bank_change _ c); intros H; exact H).
    destruct (_mock_deposit d (bank (counted c))) as [outcome m'] eqn:Erun.
    cbn [fst snd].
    split; try reflexivity; [left; reflexivity|].
    intros Hamount Hall. unfold all_in_good_standing. cbn [bank with_bank].
    change m' with (outcome, m').2. rewrite <- Erun.
    apply deposit_keeps_standing; assumption.
  - (* withdraw *)
    unfold movement_request.
    destruct data as [| | |d|]; cbn [fst snd];
      try (apply (effect_of_bank_change _ c); intros H; exact H).
    destruct (_mock_withdraw d (bank (counted c))) as [outcome m'] eqn:Erun.
    cbn [fst snd].
    split; try reflexivity; [left; reflexivity|].
    intros _ Hall. unfold all_in_good_standing. cbn [bank with_bank].
    change m' with (outcome, m').2. rewrite <- Erun.
    apply withdraw_keeps_standing; assumption.
  - (* transfer *)
    unfold transfer_request_of.
    destruct data as [| | | |d]; cbn [fst snd];
      try (apply (effect_of_bank_change _ c); intros H; exact H).
    destruct (_mock_transfer d (bank (counted c))) as [outcome m'] eqn:Erun.
    cbn [fst snd].
    split; try reflexivity; [left; reflexivity|].
    intros Hamount Hall. unfold all_in_good_standing. cbn [bank with_bank].
    change m' with (outcome, m').2. rewrite <- Erun.
    apply transfer_keeps_standing; assumption.
Qed.

End NexumConnectorProofs.

Module NexumSessionProofs.
Import Py PyNum PyTime PyFormat PyStr Random NumProofs RandomProofs
       RoundingProofs NexumMock NexumConnector NexumSessions NexumStats
       PyStrProofs NexumConnectorProofs.

(** Every public method is one request. *)
Lemma run_call_effect (k : call) (now : Z) (c : mock_connector) (g : rng) :
  exists data : payload,
    (moves_no_negative_amount k -> no_negative_amount data) /\
    request_effect data c (run_call k now c g).1.2.
Proof.
  destruct k; cbn [run_call];
    unfold create_customer, get_customer, create_account, get_account,
      get_customer_accounts, deposit, withdraw, transfer;
    try (eexists; split; [|apply make_request_effect];
         first [intros _; exact I | intros H; exact H]).
  - exists NoData. split; [intros _; exact I|].
    unfold health_check.
    pose proof (make_request_effect "GET" "/health" NoData now c g) as H.
    destruct (_make_request "GET" "/health" NoData now c g) as [[[r|e] c'] g'];
      exact H.
  - exists NoData. split; [intros _; exact I|].
    unfold get_account_balance, get_account.
    pose proof (make_request_effect "GET" ("/accounts/" +:+ account_id) NoData
                  now c g) as H.
    destruct (_make_request "GET" ("/accounts/" +:+ account_id) NoData now c g)
      as [[[r|e] c'] g']; [destruct r|]; exact H.
Qed.

Lemma run_calls_cons (k : call) (now : Z) (rest : list (call * Z))
    (c : mock_connector) (g : rng) :
  run_calls ((k, now) :: rest) c g
  = run_calls rest (run_call k now c g).1.2 (run_call k now c g).2.
Proof.
  cbn [run_calls]. destruct (run_call k now c g) as [[r c'] g']. reflexivity.
Qed.

Lemma session_counts (ks : list (call * Z)) :
  forall (c : mock_connector) (g : rng),
    let c' := (run_calls ks c g).1 in
    requests_sent c' = requests_sent c + Z.of_nat (length ks) /\
    requests_successful c' = requests_successful c + Z.of_nat (length ks) /\
    requests_failed c' = requests_failed c.
Proof.
  induction ks as [|[k now] rest IH]; intros c g.
  - cbn. repeat split; lia.
  - rewrite run_calls_cons. cbn zeta.
    destruct (run_call_effect k now c g) as (data & _ & [E1 E2 E3 _ _]).
    destruct (IH (run_call k now c g).1.2 (run_call k now c g).2)
      as (H1 & H2 & H3).
    rewrite H1, H2, H3, E1, E2, E3. cbn [length]. repeat split; lia.
Qed.

(** The counters over a sequence of requests and resets. *)
Lemma actions_counts (todo : list action) :
  forall (c : mock_connector) (g : rng) (before : nat),
    requests_sent c = Z.of_nat before ->
    requests_successful c = Z.of_nat before ->
    requests_failed c = 0 ->
    let c' := (run_actions todo c g).1 in
    requests_sent c' = Z.of_nat (requests_since_reset todo before) /\
    requests_successful c' = Z.of_nat (requests_since_reset todo before) /\
    requests_failed c' = 0.
Proof.
  induction todo as [|[k now|] rest IH]; intros c g before Hsent Hok Hfailed.
  - cbn. repeat split; assumption.
  - cbn [run_actions requests_since_reset].
    destruct (run_call_effect k now c g) as (data & _ & [E1 E2 E3 _ _]).
    destruct (run_call k now c g) as [[r c1] g1]. cbn [fst snd] in E1, E2, E3.
    apply IH; rewrite ?E1, ?E2, ?E3, ?Hsent, ?Hok, ?Hfailed; lia.
  - cbn [run_actions requests_since_reset]. apply IH; reflexivity.
Qed.

(** No customer is ever filed under the name of a route. *)
Lemma session_customer_ids (ks : list (call * Z)) :
  forall (c : mock_connector) (g : rng),
    customers c !! "accounts"%string = None ->
    customers (run_calls ks c g).1 !! "accounts"%string = None.
Proof.
  induction ks as [|[k now] rest IH]; intros c g Hnone; [exact Hnone|].
  rewrite run_calls_cons. apply IH.
  destruct (run_call_effect k now c g) as (data & _ & [_ _ _ [-> | [record ->]] _]).
  - exact Hnone.
  - rewrite lookup_insert_ne; [exact Hnone|]. discriminate.
Qed.

Lemma session_standing (ks : list (call * Z)) :
  forall (c : mock_connector) (g : rng),
    Forall (fun k => moves_no_negative_amount k.1) ks ->
    all_in_good_standing c ->
    all_in_good_standing (run_calls ks c g).1.
Proof.
  induction ks as [|[k now] rest IH]; intros c g Hks Hall; [exact Hall|].
  rewrite run_calls_cons. apply Forall_cons in Hks as [Hk Hrest].
  apply IH; [exact Hrest|].
  destruct (run_call_effect k now c g) as (data & Hdata & [_ _ _ _ Hkeeps]).
  apply Hkeeps; [apply Hdata; exact Hk | exact Hall].
Qed.

(** The route that the request for a customer's accounts takes. *)
Lemma customer_accounts_route (customer_id : string) (now : Z)
    (c : mock_connector) (g : rng) :
  get_customer_accounts customer_id now c g
  = (_mock_get_customer "accounts" (counted c), counted c, advance g).
Proof.
  unfold get_customer_accounts, _make_request. rewrite uniform_run.
  set (endpoint := ("/customers/" +:+ customer_id +:+ "/accounts")%string).
  assert (Hlast : segment_from_end endpoint 1 = Ok "accounts"%string).
  { unfold segment_from_end. rewrite (from_end_last _ "accounts"); [reflexivity|].
    unfold endpoint.
    change ("/customers/" +:+ customer_id +:+ "/accounts")%string
      with (String "/" (String "c" (String "u" (String "s" (String "t"
            (String "o" (String "m" (String "e" (String "r" (String "s"
            (String "/" (customer_id +:+ String "/" "accounts")))))))))))).
    do 11 apply split_on_cons. apply split_on_suffix. reflexivity. }
  assert (H1 : String.eqb endpoint "/health" = false) by reflexivity.
  assert (H2 : String.eqb endpoint "/customers" = false) by reflexivity.
  assert (H3 : startswith endpoint "/customers/" = true) by reflexivity.
  rewrite H1, H2, H3, Hlast. reflexivity.
Qed.

(** The route of a transfer. *)
Lemma transfer_route (d : transfer_request) (now : Z)
    (c : mock_connector) (g : rng) :
  _make_request "POST" "/transactions/transfer" (TransferData d) now c g
  = (Ok (Moved (_mock_transfer d (bank c)).1),
     with_bank (counted c) (_mock_transfer d (bank c)).2, advance g).
Proof.
  unfold _make_request. rewrite uniform_run.
  change (String.eqb "/transactions/transfer" "/health") with false.
  change (startswith "/transactions/transfer" "/customers/") with false.
  change (String.eqb "/transactions/transfer" "/transactions/transfer") with true.
  cbn [andb]. unfold transfer_request_of. cbn [bank counted].
  destruct (_mock_transfer d (bank c)) as [outcome m']. reflexivity.
Qed.

End NexumSessionProofs.

Module NexumSessionTheorems.
Import Py PyNum PyTime PyFormat PyStr Random NumProofs RandomProofs
       RoundingProofs NexumMock NexumConnector NexumSessions NexumStats
       NexumSamples PyStrProofs NexumConnectorProofs NexumSessionProofs.

(** X13.  The mock never lists the accounts of a customer: after any
    session of public calls on a new mock connector, [get_customer_accounts]
    raises the API error 404 "Customer not found" for every customer id,
    also for a customer that was created and owns accounts.  Its request,
    [GET /customers/<id>/accounts], is taken by the earlier route for
    [GET /customers/...], which looks up a customer called "accounts".  The
    stores are left as they were, and the request is counted as
    successful. *)
Theorem customer_accounts_route_is_shadowed
    (ks : list (call * datetime)) (g0 : rng)
    (customer_id : string) (now : datetime) :
  let c := (run_calls ks new_connector g0).1 in
  let g := (run_calls ks new_connector g0).2 in
  exists (c' : mock_connector) (g' : rng),
    get_customer_accounts customer_id now c g
    = (Raise (APIError Nexum 404 "Customer not found"), c', g') /\
    bank c' = bank c /\
    customers c' = customers c /\
    requests_successful c' = requests_successful c + 1 /\
    requests_failed c' = requests_failed c.
Proof.
  intros c g. rewrite customer_accounts_route.
  unfold _mock_get_customer. cbn [customers counted].
  unfold c. rewrite (session_customer_ids ks new_connector g0 eq_refl).
  eexists _, _. split; [reflexivity|]. repeat split.
Qed.

(** X14.  The mock connector counts every request as successful, whether
    the call returns or raises.  After any sequence, on a new connector, of
    calls of the request methods [health_check], [create_customer],
    [get_customer], [create_account], [get_account],
    [get_customer_accounts], [get_account_balance], [deposit], [withdraw]
    and [transfer], and of [reset_stats], [get_stats] reports as many
    requests, and as many successful ones, as calls were made since the
    last [reset_stats] (since the start when there was none), no failed
    request, and a success rate of 1 (of 0 when no request was made
    since). *)
Theorem mock_counts_every_request_successful
    (todo : list action) (g0 : rng) :
  let stats := get_stats (run_actions todo new_connector g0).1 in
  let made := Z.of_nat (requests_since_reset todo 0) in
  total_requests stats = made /\
  successful_requests stats = made /\
  failed_requests stats = 0 /\
  (success_rate stats == if 0 <? made then 1 else 0)%Q.
Proof.
  intros stats made. subst stats made. unfold get_stats.
  destruct (actions_counts todo new_connector g0 0 eq_refl eq_refl eq_refl)
    as (H1 & H2 & H3).
  cbn [total_requests successful_requests failed_requests success_rate].
  rewrite H1, H2, H3. repeat split.
  destruct (0 <? Z.of_nat (requests_since_reset todo 0)) eqn:Hpos;
    [|reflexivity].
  apply Z.ltb_lt in Hpos.
  apply Qmult_inv_r. intros H.
  assert (Hq : (0 < inject_Z (Z.of_nat (requests_since_reset todo 0)))%Q).
  { change 0%Q with (inject_Z 0). rewrite <- Zlt_Qlt. exact Hpos. }
  rewrite H in Hq. apply (Qlt_irrefl _ Hq).
Qed.

(** X15.  A transfer between two different accounts of the mock, for an
    amount the source covers, is processed and moves the amount: with the
    balances and the amount in whole cents, the source ends with its balance
    less the amount and the destination with its balance plus the amount, so
    the total of the two is kept, and every other account stays as it was.
    Nothing asks the amount to be positive: a negative one moves money the
    other way, with no check on the balance of the destination. *)
Theorem transfer_moves_the_amount
    (c : mock_connector) (g : rng) (from_id to_id : string)
    (from_account to_account : account) (amount : Q)
    (description channel : string) (reference : option string)
    (now : datetime) :
  accounts (bank c) !! from_id = Some from_account ->
  accounts (bank c) !! to_id = Some to_account ->
  from_id <> to_id ->
  to_id <> ""%string ->
  (amount <= book_balance from_account)%Q ->
  whole_cents amount ->
  whole_cents (book_balance from_account) ->
  whole_cents (book_balance to_account) ->
  exists (outcome : movement_response) (c' : mock_connector) (g' : rng)
         (from' to' : account),
    transfer (Some from_id) (Some to_id) amount description channel reference
      now c g = (Ok (Moved outcome), c', g') /\
    r_state outcome = "processed"%string /\
    accounts (bank c') !! from_id = Some from' /\
    accounts (bank c') !! to_id = Some to' /\
    (book_balance from' == book_balance from_account - amount)%Q /\
    (book_balance to' == book_balance to_account + amount)%Q /\
    (book_balance from' + book_balance to'
     == book_balance from_account + book_balance to_account)%Q /\
    (forall other : string, other <> from_id -> other <> to_id ->
       accounts (bank c') !! other = accounts (bank c) !! other).
Proof.
  intros Hfrom Hto Hdistinct Hnamed Hfunds Hamount Hfrom_cents Hto_cents.
  unfold transfer. rewrite transfer_route.
  unfold _mock_transfer.
  cbn [t_from_account_id t_to_account_id t_amount].
  cbn [mbind option_bind]. rewrite !Hfrom, !Hto.
  cbn [fmap option_fmap option_map].
  rewrite !bool_decide_eq_true_2 by (eexists; reflexivity). cbn [andb orb].
  replace (Qleb amount (book_balance from_account)) with true
    by (symmetry; apply Qleb_true; exact Hfunds).
  replace (negb (String.eqb to_id "")) with true
    by (symmetry; apply negb_true_iff, String.eqb_neq; exact Hnamed).
  rewrite lookup_insert_ne by exact Hdistinct. rewrite Hto.
  cbn [fst snd bank with_bank accounts r_state].
  assert (Hdebit : (round2 (book_balance from_account - amount)
                    == book_balance from_account - amount)%Q).
  { apply round2_whole_cents.
    destruct Hamount as (a & Ha), Hfrom_cents as (b & Hb).
    exists (b - a). rewrite Ha, Hb. unfold Z.sub.
    rewrite inject_Z_plus, inject_Z_opp. field. }
  assert (Hcredit : (round2 (book_balance to_account + amount)
                     == book_balance to_account + amount)%Q).
  { apply round2_whole_cents.
    destruct Hamount as (a & Ha), Hto_cents as (b & Hb).
    exists (b + a). rewrite Ha, Hb, inject_Z_plus. field. }
  eexists _, _, _, _, _. split; [reflexivity|]. split; [reflexivity|].
  cbn [bank with_bank accounts].
  split; [rewrite lookup_insert_ne by congruence; apply lookup_insert_eq|].
  split; [apply lookup_insert_eq|].
  cbn [book_balance with_balance].
  split; [exact Hdebit|]. split; [exact Hcredit|].
  split; [rewrite Hdebit, Hcredit; ring|].
  intros other Hnf Hnt. rewrite !lookup_insert_ne by congruence. reflexivity.
Qed.

Lemma transfer_moves_the_amount_witness :
  exists (outcome : movement_response) (c' : mock_connector) (g' : rng)
         (from' to' : account),
    transfer (Some "ACC_000001"%string) (Some "ACC_000002"%string) 25
      "Transfer" "online" None 0 two_accounts
      {| draws := fun _ => 0%Q; cursor := 0 |}
    = (Ok (Moved outcome), c', g') /\
    r_state outcome = "processed"%string /\
    accounts (bank c') !! "ACC_000001"%string = Some from' /\
    accounts (bank c') !! "ACC_000002"%string = Some to' /\
    (book_balance from' == 100 - 25)%Q /\
    (book_balance to' == (550 # 100) + 25)%Q /\
    (book_balance from' + book_balance to' == 100 + (550 # 100))%Q /\
    (forall other : string,
       other <> "ACC_000001"%string -> other <> "ACC_000002"%string ->
       accounts (bank c') !! other = accounts (bank two_accounts) !! other).
Proof.
  apply (transfer_moves_the_amount two_accounts
           {| draws := fun _ => 0%Q; cursor := 0 |}
           "ACC_000001" "ACC_000002"
           (sample_account "ACC_000001" 100)
           (sample_account "ACC_000002" (550 # 100)) 25
           "Transfer" "online" None 0).
  - vm_compute. reflexivity.
  - vm_compute. reflexivity.
  - discriminate.
  - discriminate.
  - cbn. unfold Qle. simpl. lia.
  - exists 2500. reflexivity.
  - exists 10000. reflexivity.
  - exists 550. reflexivity.
Defined.

End NexumSessionTheorems.

Module NexumBalanceTheorems.
Import Py PyNum PyTime PyFormat PyStr Random NumProofs RandomProofs
       RoundingProofs NexumMock NexumConnector NexumSessions NexumSamples
       NexumConnectorProofs NexumSessionProofs.

(** X16.  The mock bank never shows a negative balance: after any session
    of public calls on a new mock connector in which every amount deposited,
    withdrawn or transferred is at least 0, every account has a book balance
    of at least 0 and an available balance equal to it.  (Withdrawals and
    transfers that the source does not cover are declined.) *)
Theorem balances_never_negative
    (ks : list (call * datetime)) (g0 : rng)
    (account_id : string) (a : account) :
  Forall (fun k => moves_no_negative_amount k.1) ks ->
  accounts (bank (run_calls ks new_connector g0).1) !! account_id = Some a ->
  (0 <= book_balance a)%Q /\ available_balance a = book_balance a.
Proof.
  intros Hks Ha.
  apply (session_standing ks new_connector g0 Hks) in Ha; [exact Ha|].
  intros i x Hx. cbn in Hx. rewrite lookup_empty in Hx. discriminate.
Qed.

Lemma balances_never_negative_witness :
  exists a : account,
    accounts (bank (run_calls sample_session new_connector
                      {| draws := fun _ => (1 # 2)%Q; cursor := 0 |}).1)
    !! "ACC_000001"%string = Some a /\
    (book_balance a == 4975 # 100)%Q /\
    (0 <= book_balance a)%Q /\ available_balance a = book_balance a.
Proof.
  eexists. split; [vm_compute; reflexivity|]. split; [reflexivity|].
  apply (balances_never_negative sample_session
           {| draws := fun _ => (1 # 2)%Q; cursor := 0 |} "ACC_000001").
  - repeat constructor; cbn; unfold Qle; simpl; lia.
  - vm_compute. reflexivity.
Defined.

End NexumBalanceTheorems.

Module ClockPauseTheorems.
Import PyNum PyTime Clock.

(** X17.  A speed change made while the clock is paused loses simulated
    time.  On a running clock paused at [at_pause], with [set_speed] called
    during the pause (its new anchor read at [now2]) and [resume] at
    [at_resume], a reading [d] after the resumption is the clock's old start
    anchor [sim_start_time] plus [d - (now2 - at_pause)] times the new
    multiplier: the simulated time that had elapsed before the pause is
    gone, and the clock resumes behind its start anchor by the part of the
    pause that came before the speed change.  (Without the speed change the
    clock resumes from the simulated time of the pause.) *)
Theorem speed_change_while_paused_rewinds
    (c : SimulationClock) (m : Q) (at_pause now1 now2 at_resume : datetime) :
  paused c = false ->
  let frozen := pause c at_pause in
  let changed := set_speed frozen m now1 now2 in
  let running := resume changed at_resume in
  paused running = false /\
  forall d : timedelta,
    get_current_sim_time running (at_resume + d)
    = sim_start_time c + timedelta_mul_float (d - (now2 - at_pause)) m.
Proof.
  intros Hp frozen changed running.
  unfold running, changed, frozen, pause, set_speed, resume.
  rewrite Hp. cbn. split; [reflexivity|].
  intros d. unfold get_current_sim_time. cbn. f_equal. f_equal. lia.
Qed.

Lemma speed_change_while_paused_rewinds_witness :
  let c := set_speed (init 1 0 0) 1 (seconds 0) (seconds 0) in
  let frozen := pause c (seconds 10) in
  let changed := set_speed frozen 2 (seconds 12) (seconds 12) in
  let running := resume changed (seconds 15) in
  paused running = false /\
  forall d : timedelta,
    get_current_sim_time running (seconds 15 + d)
    = 0 + timedelta_mul_float (d - (seconds 12 - seconds 10)) 2.
Proof.
  exact (speed_change_while_paused_rewinds
           (set_speed (init 1 0 0) 1 (seconds 0) (seconds 0)) 2
           (seconds 10) (seconds 12) (seconds 12) (seconds 15) eq_refl).
Defined.

End ClockPauseTheorems.

Module LayeringChainProofs.
Import Py PyNum PyTime Random GenLogic NumProofs RandomProofs GenLogicProofs
       Transactions Fraud FraudGenerator LayeringSpec.

(** [random.shuffle] returns a rearrangement of its argument. *)
Lemma shuffle_down_permutes {A} (i : nat) :
  forall x : list A,
    (i < length x)%nat \/ i = O ->
    yields (shuffle_down i x) (fun y => y ≡ₚ x).
Proof.
  induction i as [|i IH]; intros x Hi g.
  - exists x, g. split; reflexivity.
  - destruct Hi as [Hi | Hi]; [|discriminate].
    cbn [shuffle_down]. unfold bind. rewrite randbelow_run.
    pose proof (randbelow_bounds (Z.of_nat (S i + 1)) g ltac:(lia)) as Hj.
    set (j := Z.to_nat (Qfloor (peek g * inject_Z (Z.of_nat (S i + 1))))) in *.
    destruct (lookup_lt_is_Some_2 x (S i) Hi) as [xi Hxi].
    destruct (lookup_lt_is_Some_2 x j ltac:(lia)) as [xj Hxj].
    rewrite Hxi, Hxj.
    destruct (IH (<[j := xi]> (<[S i := xj]> x))
                ltac:(left; rewrite !length_insert; lia) (advance g))
      as (y & g' & Hrun & Hperm).
    exists y, g'. split; [exact Hrun|].
    rewrite Hperm. apply Permutation_insert_swap; assumption.
Qed.

Lemma shuffle_permutes {A} (x : list A) :
  yields (shuffle x) (fun y => y ≡ₚ x).
Proof.
  unfold shuffle. apply shuffle_down_permutes.
  destruct x as [|a x]; [right; reflexivity | left; cbn [length]; lia].
Qed.

Section Hops.
Variable p : FraudProfile.
Variable hops : Z.
Variable amounts : list Q.
Hypothesis Hhops : md_hops (metadata p) = Some hops.
Hypothesis Hamounts : md_amounts (metadata p) = Some amounts.

(** The transfer of one hop. *)
Lemma layering_transaction_made (route : list string)
    (from_account to_account : string) (hop : nat) :
  yields (layering_transaction p route from_account to_account (Z.of_nat hop))
    (fun t =>
       from_account_id t = Some from_account /\
       to_account_id t = Some to_account /\
       transaction_type t = TRANSFER /\
       start_time p + minutes (Z.of_nat hop * 10) <= timestamp t
       <= start_time p + minutes (Z.of_nat hop * 60)).
Proof.
  intros g. unfold layering_transaction.
  rewrite Hamounts, Hhops. cbn [key].
  rewrite (bind_ok _ _ _ _ _ (eq_refl : ret amounts g = (Ok amounts, g))).
  assert (Hamount : exists (amount : Q) (g1 : rng),
             match amounts !! Z.to_nat (Z.of_nat hop) with
             | Some a => ret a
             | None => uniform 1000 25000
             end g = (Ok amount, g1)).
  { destruct (amounts !! Z.to_nat (Z.of_nat hop)) as [a|].
    - exists a, g. reflexivity.
    - eexists _, _. apply uniform_run. }
  destruct Hamount as (amount & g1 & Hamount).
  rewrite (bind_ok _ _ _ _ _ Hamount).
  rewrite (bind_ok _ _ _ _ _ (uniform_run _ _ g1)).
  destruct (randint_run 10 60 (advance g1) ltac:(lia)) as (gap & Hgap & Hrange).
  rewrite (bind_ok _ _ _ _ _ Hgap).
  destruct (choice_run [ONLINE; WIRE] (advance (advance g1)) ltac:(discriminate))
    as (channel & Hchannel & _).
  rewrite (bind_ok _ _ _ _ _ Hchannel).
  rewrite (bind_ok _ _ _ _ _
             (eq_refl : ret hops (advance (advance (advance g1)))
                        = (Ok hops, advance (advance (advance g1))))).
  eexists _, _. split; [reflexivity|]. cbn.
  split; [reflexivity|]. split; [reflexivity|]. split; [reflexivity|].
  unfold minutes, microseconds_per_second. nia.
Qed.

(** The loop over the hops [k, k+1, ...]. *)
Lemma layering_hops_made (route : list string) (n : nat) :
  forall k : nat,
    yields (layering_hops p route (map Z.of_nat (seq k n)))
      (fun transfers =>
         length transfers = Nat.min n (length route - 1 - k) /\
         follows_route p route k transfers).
Proof.
  induction n as [|n IH]; intros k g.
  - exists [], g. split; [reflexivity|]. split; [reflexivity | exact I].
  - cbn [seq map layering_hops].
    destruct (Z.of_nat (length route) - 1 <=? Z.of_nat k) eqn:Ebreak.
    + apply Z.leb_le in Ebreak. exists [], g. split; [reflexivity|].
      split; [cbn [length]; lia | exact I].
    + apply Z.leb_gt in Ebreak.
      replace (Z.to_nat (Z.of_nat k + 1)) with (S k) by lia.
      rewrite Nat2Z.id.
      destruct (lookup_lt_is_Some_2 route k ltac:(lia)) as [from_account Hfrom].
      destruct (lookup_lt_is_Some_2 route (S k) ltac:(lia)) as [to_account Hto].
      rewrite Hfrom, Hto.
      destruct (layering_transaction_made route from_account to_account k g)
        as (t & g1 & Hrun & Hf & Ht & Htype & Htime).
      rewrite (bind_ok _ _ _ _ _ Hrun).
      destruct (IH (S k) g1) as (rest & g2 & Hrest & Hlen & Hroute).
      rewrite (bind_ok _ _ _ _ _ Hrest).
      exists (t :: rest), g2. split; [reflexivity|].
      split; [cbn [length]; lia|].
      cbn [follows_route]. split; [|split; [exact Htype | split; assumption]].
      exists from_account, to_account. repeat split; assumption.
Qed.

End Hops.

(** Marking the transfers as fraudulent leaves their route as it is. *)
Lemma marked_follow_route (p : FraudProfile) (route : list string)
    (transfers : list PendingTransaction) :
  forall hop : nat,
    follows_route p route hop transfers ->
    follows_route p route hop (map (mark_fraudulent p) transfers).
Proof.
  induction transfers as [|t rest IH]; intros hop H; [exact I|].
  cbn [map follows_route] in *.
  destruct H as (Haccounts & Htype & Htime & Hrest).
  split; [exact Haccounts|]. split; [exact Htype|]. split; [exact Htime|].
  apply IH, Hrest.
Qed.

Lemma marked_as_fraud (p : FraudProfile) (transfers : list PendingTransaction) :
  Forall (fun t => Transactions.metadata t !! "is_fraud"%string = Some (VBool true))
         (map (mark_fraudulent p) transfers).
Proof.
  apply Forall_forall. intros t Ht.
  apply list_elem_of_fmap in Ht as (t0 & -> & _).
  unfold mark_fraudulent. cbn [Transactions.metadata with_metadata].
  rewrite !lookup_insert_ne by discriminate. apply lookup_insert_eq.
Qed.

End LayeringChainProofs.

Module LayeringChainTheorems.
Import Py PyNum PyTime Random GenLogic NumProofs RandomProofs GenLogicProofs
       Transactions Fraud FraudGenerator LayeringSpec LayeringSamples
       LayeringChainProofs.

(** X18.  Within its interval a layering profile yields one chain of
    transfers through a random ordering of its accounts: with [hops] hops
    configured, [generate_fraud_transactions] returns
    [min(hops, number of accounts - 1)] transfers, the [k]-th going from
    the [k]-th account of the ordering to the next one, so that every
    transfer starts where the one before it arrived.  The transfer of hop
    [k] is dated between [10 k] and [60 k] minutes after the start of the
    profile, and all of them are marked as fraud. *)
Theorem layering_transfers_form_a_chain
    (p : FraudProfile) (hops : Z) (amounts : list Q)
    (current_time : datetime) (g : rng) :
  fraud_type p = LAYERING ->
  md_hops (metadata p) = Some hops ->
  md_amounts (metadata p) = Some amounts ->
  start_time p <= current_time <= end_time p ->
  exists (transfers : list PendingTransaction) (route : list string) (g' : rng),
    generate_fraud_transactions p current_time g = (Ok transfers, g') /\
    route ≡ₚ account_ids p /\
    length transfers = Nat.min (Z.to_nat hops) (length (account_ids p) - 1) /\
    follows_route p route 0 transfers /\
    Forall (fun t => Transactions.metadata t !! "is_fraud"%string
                     = Some (VBool true)) transfers.
Proof.
  intros Htype Hhops Hamounts Hactive. unfold generate_fraud_transactions.
  replace ((current_time <? start_time p) || (end_time p <? current_time))
    with false
    by (symmetry; apply orb_false_iff; split; apply Z.ltb_ge; lia).
  rewrite Htype. cbn [generator_of].
  destruct (shuffle_permutes (account_ids p) g) as (route & g1 & Hshuffle & Hperm).
  destruct (layering_hops_made p hops amounts Hhops Hamounts route
              (Z.to_nat hops) 0 g1) as (transfers & g2 & Hrun & Hlen & Hroute).
  assert (Hgenerated :
            _generate_layering_transactions p current_time g = (Ok transfers, g2)).
  { unfold _generate_layering_transactions.
    rewrite (bind_ok _ _ _ _ _ Hshuffle). rewrite Hhops. cbn [key].
    rewrite (bind_ok _ _ _ _ _ (eq_refl : ret hops g1 = (Ok hops, g1))).
    exact Hrun. }
  rewrite (bind_ok _ _ _ _ _ Hgenerated).
  exists (map (mark_fraudulent p) transfers), route, g2.
  split; [reflexivity|]. split; [exact Hperm|].
  split; [rewrite length_map, Hlen, (Permutation_length Hperm); lia|].
  split; [apply marked_follow_route; exact Hroute | apply marked_as_fraud].
Qed.

Lemma layering_transfers_form_a_chain_witness :
  exists (transfers : list PendingTransaction) (route : list string) (g' : rng),
    generate_fraud_transactions layering_profile (minutes 30)
      {| draws := fun n => (Z.of_nat n # 7)%Q; cursor := 0 |}
    = (Ok transfers, g') /\
    route ≡ₚ account_ids layering_profile /\
    length transfers = 3%nat /\
    follows_route layering_profile route 0 transfers /\
    Forall (fun t => Transactions.metadata t !! "is_fraud"%string
                     = Some (VBool true)) transfers.
Proof.
  apply (layering_transfers_form_a_chain layering_profile 5 [1000; 5000; 10000]%Q
           (minutes 30) {| draws := fun n => (Z.of_nat n # 7)%Q; cursor := 0 |});
    [reflexivity | reflexivity | reflexivity | vm_compute; split; discriminate].
Defined.

End LayeringChainTheorems.

Module ReporterProofs.
Import Py PyNum PyTime NumProofs Metrics Reporter ReportSpec.

(** The bookkeeping of one decision. *)
Lemma record_counter_counts (c : MetricsCollector) (name : string) (now : Z) :
  enabled c = true ->
  enabled (record_counter c name 1 now) = true /\
  forall other : string,
    counter (record_counter c name 1 now) other
    = counter c other + (if String.eqb other name then 1 else 0).
Proof.
  intros He. unfold record_counter, counter. rewrite He.
  cbn [negb enabled counters]. split; [reflexivity|].
  intros other. destruct (String.eqb_spec other name) as [-> | Hne].
  - rewrite lookup_insert_eq. reflexivity.
  - rewrite lookup_insert_ne by congruence. lia.
Qed.

Lemma record_decisions_count (ds : list decision) :
  forall c : MetricsCollector,
    enabled c = true ->
    forall name : string,
      counter (record_decisions c ds) name
      = counter c name
        + how_many (fun p a => String.eqb name (bucket p a)) ds.
Proof.
  induction ds as [|[[p a] now] rest IH]; intros c He name.
  - unfold how_many. cbn. lia.
  - unfold record_decisions in *. cbn [fold_left fst snd].
    assert (Hstep : record_fraud_decision c p a now
                    = record_counter c (bucket p a) 1 now)
      by (unfold record_fraud_decision, bucket; destruct p, a; reflexivity).
    rewrite Hstep.
    destruct (record_counter_counts c (bucket p a) now He) as [He' Hcount].
    rewrite (IH _ He' name), Hcount.
    unfold how_many. cbn [List.filter fst snd].
    destruct (String.eqb name (bucket p a)); cbn [length]; lia.
Qed.

Lemma how_many_split (kind : bool -> bool -> bool) (ds : list decision) :
  how_many kind ds
  = how_many (fun p a => kind p a && String.eqb "true_positives" (bucket p a)) ds
    + how_many (fun p a => kind p a && String.eqb "false_positives" (bucket p a)) ds
    + how_many (fun p a => kind p a && String.eqb "false_negatives" (bucket p a)) ds
    + how_many (fun p a => kind p a && String.eqb "true_negatives" (bucket p a)) ds.
Proof.
  unfold how_many. induction ds as [|[[p a] now] rest IH]; [reflexivity|].
  cbn [List.filter fst snd].
  destruct p, a;
    repeat match goal with
           | |- context [String.eqb ?s (bucket ?p ?a)] =>
               let b := eval vm_compute in (String.eqb s (bucket p a)) in
               change (String.eqb s (bucket p a)) with b
           end;
    destruct (kind _ _); cbn [andb length]; lia.
Qed.

Lemma how_many_ext (kind kind' : bool -> bool -> bool) (ds : list decision) :
  (forall p a, kind p a = kind' p a) -> how_many kind ds = how_many kind' ds.
Proof.
  intros Hext. unfold how_many. f_equal. f_equal.
  induction ds as [|[[p a] now] rest IH]; [reflexivity|].
  cbn [List.filter fst snd]. rewrite Hext, IH. reflexivity.
Qed.

Lemma how_many_none (ds : list decision) :
  how_many (fun _ _ => false) ds = 0.
Proof.
  unfold how_many. induction ds as [|d rest IH]; [reflexivity | exact IH].
Qed.

Lemma how_many_all (ds : list decision) :
  how_many (fun _ _ => true) ds = Z.of_nat (length ds).
Proof.
  unfold how_many. f_equal.
  induction ds as [|d rest IH]; [reflexivity | cbn; rewrite IH; reflexivity].
Qed.

Lemma how_many_nonneg (kind : bool -> bool -> bool) (ds : list decision) :
  0 <= how_many kind ds.
Proof. unfold how_many. lia. Qed.

(** A part of a whole, as a rate. *)
Lemma rate_in_unit_interval (a b : Z) :
  0 <= a <= b -> in_unit_interval (rate_or_zero a b).
Proof.
  intros Hab. unfold rate_or_zero, in_unit_interval.
  destruct (0 <? b) eqn:Eb; [|split; lra].
  apply Z.ltb_lt in Eb.
  assert (Hb : (0 < inject_Z b)%Q)
    by (change 0%Q with (inject_Z 0); rewrite <- Zlt_Qlt; exact Eb).
  assert (Ha : (0 <= inject_Z a)%Q)
    by (change 0%Q with (inject_Z 0); rewrite <- Zle_Qle; lia).
  assert (Hle : (inject_Z a <= inject_Z b)%Q) by (rewrite <- Zle_Qle; lia).
  split.
  - apply Qle_shift_div_l; [exact Hb | lra].
  - apply Qle_shift_div_r; [exact Hb | lra].
Qed.

Lemma rates_complement (a b : Z) :
  0 < a + b ->
  (rate_or_zero a (a + b) + rate_or_zero b (b + a) == 1)%Q.
Proof.
  intros Hpos. unfold rate_or_zero.
  replace (0 <? a + b) with true by (symmetry; apply Z.ltb_lt; lia).
  replace (0 <? b + a) with true by (symmetry; apply Z.ltb_lt; lia).
  rewrite (Z.add_comm b a).
  assert (Hne : ~ (inject_Z (a + b) == 0)%Q).
  { intros H. unfold Qeq in H. cbn in H. lia. }
  rewrite inject_Z_plus in *. field. exact Hne.
Qed.

(** The recommendations. *)
Lemma append_if_known (test : bool) (message : string) (l : list string) :
  message ∈ known_advice ->
  Forall (fun r => r ∈ known_advice) l ->
  Forall (fun r => r ∈ known_advice) (append_if test message l).
Proof.
  intros Hm Hl. unfold append_if. destruct test; [|exact Hl].
  apply Forall_app. split; [exact Hl|]. constructor; [exact Hm | constructor].
Qed.

Lemma append_if_length (test : bool) (message : string) (l : list string) :
  (length (append_if test message l) <= S (length l))%nat.
Proof.
  unfold append_if. destruct test; [rewrite length_app; cbn; lia | lia].
Qed.

Lemma append_if_keeps (test : bool) (message r : string) (l : list string) :
  r ∈ l -> r ∈ append_if test message l.
Proof.
  intros Hr. unfold append_if. destruct test; [|exact Hr].
  apply elem_of_app. left. exact Hr.
Qed.

Lemma fallback_not_taken (l : list string) (x y : string) :
  match l ++ [x] with
  | [] => (l ++ [x]) ++ [y]
  | _ :: _ => l ++ [x]
  end = l ++ [x].
Proof. destruct l; reflexivity. Qed.

(** With a clock that does not run backwards the throughput is computed. *)
Lemma actual_tps_returns (s : RuntimeStats) (now1 now2 : Z) :
  now1 <= now2 -> exists tps : Q, actual_tps s now1 now2 = Ok tps.
Proof.
  intros Hclock. unfold actual_tps.
  destruct (Qltb 0 (duration_seconds s now1)) eqn:Epos; [|eexists; reflexivity].
  apply Qltb_true in Epos.
  assert (Hlater : (0 < duration_seconds s now2)%Q).
  { unfold duration_seconds, total_seconds, Qlt in *. cbn in *.
    destruct (rs_end_time s) as [finish|]; cbn in *; lia. }
  destruct (Qeq_bool (duration_seconds s now2) 0) eqn:Ezero.
  - apply Qeq_bool_iff in Ezero. rewrite Ezero in Hlater.
    exfalso. exact (Qlt_irrefl _ Hlater).
  - eexists. reflexivity.
Qed.

End ReporterProofs.

Module ReporterTheorems.
Import Py PyNum PyTime NumProofs Metrics Reporter ReportSpec ReporterProofs.

(** X19.  The fraud figures of the report are the rates of the decisions
    recorded.  After any run of [record_fraud_decision] on a new enabled
    collector, [_calculate_fraud_metrics] applied to the snapshot of the
    collector gives as accuracy the share of decisions whose prediction
    agrees with the truth, as precision the share of alerts that were fraud
    and as recall the share of frauds that were alerted (0 when there is
    nothing to divide by); the five figures lie between 0 and 1, and recall
    and false-negative rate add up to 1 as soon as one transaction was
    fraud. *)
Theorem report_rates_of_recorded_decisions (ds : list decision) :
  let m :=
    _calculate_fraud_metrics
      (get_current_metrics (record_decisions (new_collector true) ds)) in
  let agreeing := how_many (fun predicted actual => Bool.eqb predicted actual) ds in
  let alerts := how_many (fun predicted _ => predicted) ds in
  let frauds := how_many (fun _ actual => actual) ds in
  let caught := how_many (fun predicted actual => predicted && actual) ds in
  accuracy m = rate_or_zero agreeing (Z.of_nat (length ds)) /\
  precision m = rate_or_zero caught alerts /\
  recall m = rate_or_zero caught frauds /\
  in_unit_interval (accuracy m) /\
  in_unit_interval (precision m) /\
  in_unit_interval (recall m) /\
  in_unit_interval (false_positive_rate m) /\
  in_unit_interval (false_negative_rate m) /\
  (0 < frauds -> (recall m + false_negative_rate m == 1)%Q).
Proof.
  intros m agreeing alerts frauds caught.
  set (tp := how_many (fun p a => p && a) ds).
  set (fp := how_many (fun p a => p && negb a) ds).
  set (fn := how_many (fun p a => negb p && a) ds).
  set (tn := how_many (fun p a => negb p && negb a) ds).
  assert (Hkind : forall kind name,
             (forall p a, String.eqb name (bucket p a) = kind p a) ->
             default 0 (counters (record_decisions (new_collector true) ds) !! name)
             = how_many kind ds).
  { intros kind name Hext.
    pose proof (record_decisions_count ds (new_collector true) eq_refl name) as H.
    unfold counter in H. rewrite H. cbn [new_collector counters].
    rewrite lookup_empty. cbn [default].
    rewrite (how_many_ext _ kind ds Hext). lia. }
  assert (Htp : default 0 (counters (record_decisions (new_collector true) ds)
                             !! "true_positives"%string) = tp)
    by (apply Hkind; intros [] []; reflexivity).
  assert (Hfp : default 0 (counters (record_decisions (new_collector true) ds)
                             !! "false_positives"%string) = fp)
    by (apply Hkind; intros [] []; reflexivity).
  assert (Hfn : default 0 (counters (record_decisions (new_collector true) ds)
                             !! "false_negatives"%string) = fn)
    by (apply Hkind; intros [] []; reflexivity).
  assert (Htn : default 0 (counters (record_decisions (new_collector true) ds)
                             !! "true_negatives"%string) = tn)
    by (apply Hkind; intros [] []; reflexivity).
  assert (Hparts : forall kind k1 k2 k3 k4,
             (forall p a, kind p a && String.eqb "true_positives" (bucket p a) = k1 p a) ->
             (forall p a, kind p a && String.eqb "false_positives" (bucket p a) = k2 p a) ->
             (forall p a, kind p a && String.eqb "false_negatives" (bucket p a) = k3 p a) ->
             (forall p a, kind p a && String.eqb "true_negatives" (bucket p a) = k4 p a) ->
             how_many kind ds
             = how_many k1 ds + how_many k2 ds + how_many k3 ds + how_many k4 ds).
  { intros kind k1 k2 k3 k4 H1 H2 H3 H4. rewrite (how_many_split kind).
    rewrite (how_many_ext _ k1 ds H1), (how_many_ext _ k2 ds H2),
            (how_many_ext _ k3 ds H3), (how_many_ext _ k4 ds H4).
    reflexivity. }
  assert (Htotal : Z.of_nat (length ds) = tp + fp + fn + tn).
  { rewrite <- how_many_all.
    apply Hparts; intros [] []; reflexivity. }
  assert (Hagree : agreeing = tp + tn).
  { unfold agreeing.
    rewrite (Hparts _ (fun p a => p && a) (fun _ _ => false) (fun _ _ => false)
               (fun p a => negb p && negb a)) by (intros [] []; reflexivity).
    rewrite how_many_none. fold tp tn. lia. }
  assert (Halerts : alerts = tp + fp).
  { unfold alerts.
    rewrite (Hparts _ (fun p a => p && a) (fun p a => p && negb a)
               (fun _ _ => false) (fun _ _ => false))
      by (intros [] []; reflexivity).
    rewrite how_many_none. fold tp fp. lia. }
  assert (Hfrauds : frauds = tp + fn).
  { unfold frauds.
    rewrite (Hparts _ (fun p a => p && a) (fun _ _ => false)
               (fun p a => negb p && a) (fun _ _ => false))
      by (intros [] []; reflexivity).
    rewrite how_many_none. fold tp fn. lia. }
  pose proof (how_many_nonneg (fun p a => p && a) ds) as Ptp.
  pose proof (how_many_nonneg (fun p a => p && negb a) ds) as Pfp.
  pose proof (how_many_nonneg (fun p a => negb p && a) ds) as Pfn.
  pose proof (how_many_nonneg (fun p a => negb p && negb a) ds) as Ptn.
  fold tp in Ptp. fold fp in Pfp. fold fn in Pfn. fold tn in Ptn.
  change caught with tp. rewrite Hagree, Halerts, Hfrauds, Htotal.
  unfold m, _calculate_fraud_metrics, get_current_metrics.
  cbn [snap_counters].
  change (default ∅ (Some (counters (record_decisions (new_collector true) ds))))
    with (counters (record_decisions (new_collector true) ds)).
  cbv zeta. rewrite Htp, Hfp, Hfn, Htn.
  destruct (tp + fp + tn + fn =? 0) eqn:Ezero.
  - apply Z.eqb_eq in Ezero.
    assert (tp = 0 /\ fp = 0 /\ fn = 0 /\ tn = 0) as (-> & -> & -> & ->) by lia.
    cbn. repeat split; try lra. lia.
  - apply Z.eqb_neq in Ezero.
    cbn [accuracy precision recall false_positive_rate false_negative_rate].
    assert (Hacc : (inject_Z (tp + tn) / inject_Z (tp + fp + tn + fn))%Q
                   = rate_or_zero (tp + tn) (tp + fp + fn + tn)).
    { unfold rate_or_zero.
      replace (0 <? tp + fp + fn + tn) with true by (symmetry; apply Z.ltb_lt; lia).
      replace (tp + fp + fn + tn) with (tp + fp + tn + fn) by lia. reflexivity. }
    rewrite Hacc.
    split; [reflexivity|]. split; [reflexivity|]. split; [reflexivity|].
    split; [apply rate_in_unit_interval; lia|].
    split; [apply rate_in_unit_interval; lia|].
    split; [apply rate_in_unit_interval; lia|].
    split; [apply rate_in_unit_interval; lia|].
    split; [apply rate_in_unit_interval; lia|].
    intros Hsome. apply rates_complement. exact Hsome.
Qed.

(** X20.  With a clock that does not run backwards,
    [_generate_recommendations] always returns, with one to eight
    recommendations of which the last is one of the two remarks on the
    number of customers; the message "Simulation completed successfully
    with good performance metrics", kept for an empty list, is never
    given. *)
Theorem recommendations_never_all_good
    (runtime_stats : RuntimeStats) (nexum_stats : nexum_statistics)
    (bastion_stats : bastion_statistics) (figures : fraud_metrics)
    (now1 now2 : datetime) :
  now1 <= now2 ->
  exists recommendations : list string,
    _generate_recommendations runtime_stats nexum_stats bastion_stats figures
      now1 now2 = Ok recommendations /\
    last recommendations
    = Some (if 1000 <? customers_created runtime_stats
            then scales_well else test_larger) /\
    (all_good ∉ recommendations) /\
    (1 <= length recommendations <= 8)%nat.
Proof.
  intros Hclock. unfold _generate_recommendations.
  destruct (actual_tps_returns runtime_stats now1 now2 Hclock) as (tps & ->).
  cbv zeta.
  match goal with
  | |- context [if 1000 <? _ then ?l ++ _ else _] => set (advice := l)
  end.
  assert (Hknown : Forall (fun r => r ∈ known_advice) advice).
  { unfold advice.
    repeat (apply append_if_known;
            [unfold known_advice; repeat first [left | right] |]).
    constructor. }
  assert (Hlen : (length advice <= 7)%nat).
  { unfold advice.
    repeat (etransitivity; [apply append_if_length|]; apply le_n_S).
    cbn. lia. }
  set (final := if 1000 <? customers_created runtime_stats
                then scales_well else test_larger).
  assert (Hshape : (if 1000 <? customers_created runtime_stats
                    then advice ++ [scales_well] else advice ++ [test_larger])
                   = advice ++ [final])
    by (unfold final; destruct (1000 <? customers_created runtime_stats);
        reflexivity).
  rewrite Hshape, fallback_not_taken.
  exists (advice ++ [final]). split.
  - reflexivity.
  - split; [apply last_snoc|]. split.
    + intros Hin. apply elem_of_app in Hin as [Hin | Hin].
      * rewrite Forall_forall in Hknown. specialize (Hknown _ Hin).
        unfold known_advice in Hknown.
        repeat (apply elem_of_cons in Hknown as [Hknown | Hknown];
                [discriminate Hknown|]).
        inversion Hknown.
      * apply list_elem_of_singleton in Hin. unfold final in Hin.
        destruct (1000 <? customers_created runtime_stats); discriminate Hin.
    + rewrite length_app. cbn. lia.
Qed.

Lemma recommendations_never_all_good_witness :
  let runtime_stats :=
    {| rs_start_time := 0; rs_end_time := Some (seconds 3600);
       customers_created := 500; accounts_created := 1000;
       transactions_generated := 90000; transactions_processed := 90000;
       fraud_transactions := 90; nexum_api_calls := 90000;
       bastion_api_calls := 90000; errors := 0; average_latency_ms := 0 |} in
  exists recommendations : list string,
    _generate_recommendations runtime_stats
      {| stat_average_latency_ms := Some 35%Q |}
      {| stat_average_scoring_latency_ms := None |}
      {| accuracy := 1; precision := 1; recall := 1;
         false_positive_rate := 0; false_negative_rate := 0 |}
      (seconds 3601) (seconds 3602) = Ok recommendations /\
    last recommendations = Some test_larger /\
    (all_good ∉ recommendations) /\
    (1 <= length recommendations <= 8)%nat.
Proof.
  intros runtime_stats.
  apply (recommendations_never_all_good runtime_stats
           {| stat_average_latency_ms := Some 35%Q |}
           {| stat_average_scoring_latency_ms := None |}
           {| accuracy := 1; precision := 1; recall := 1;
              false_positive_rate := 0; false_negative_rate := 0 |}
           (seconds 3601) (seconds 3602)).
  vm_compute. discriminate.
Defined.

(** X21.  A run in which no fraud was caught is always told that precision
    is low: when the counter of true positives is 0 or absent, also when
    there was no fraud at all or nothing was processed, the precision
    computed is 0 and the recommendations drawn from the figures include
    "Low precision in fraud detection - review and optimize detection
    models". *)
Theorem nothing_caught_is_told_low_precision
    (runtime_stats : RuntimeStats) (nexum_stats : nexum_statistics)
    (bastion_stats : bastion_statistics) (counters : gmap string Z)
    (now1 now2 : datetime) :
  default 0 (counters !! "true_positives"%string) = 0 ->
  now1 <= now2 ->
  let figures := _calculate_fraud_metrics {| snap_counters := Some counters |} in
  (precision figures == 0)%Q /\
  exists recommendations : list string,
    _generate_recommendations runtime_stats nexum_stats bastion_stats figures
      now1 now2 = Ok recommendations /\
    low_precision ∈ recommendations.
Proof.
  intros Hnone Hclock figures.
  assert (Hprecision : (precision figures == 0)%Q).
  { unfold figures, _calculate_fraud_metrics.
    cbn [snap_counters]. change (default ∅ (Some counters)) with counters.
    cbv zeta. rewrite Hnone.
    destruct (_ =? 0); [reflexivity|]. cbn [precision]. unfold rate_or_zero.
    destruct (0 <? _); [|reflexivity].
    unfold Qeq, Qdiv, Qmult. cbn. lia. }
  split; [exact Hprecision|].
  unfold _generate_recommendations.
  destruct (actual_tps_returns runtime_stats now1 now2 Hclock) as (tps & ->).
  cbv zeta.
  replace (Qltb (precision figures) (8 # 10)) with true
    by (symmetry; apply Qltb_true; rewrite Hprecision; reflexivity).
  match goal with
  | |- context [if 1000 <? _ then ?l ++ _ else _] => set (advice := l)
  end.
  assert (Hin : low_precision ∈ advice).
  { unfold advice, append_if at 1. apply elem_of_app. right. left. }
  destruct (1000 <? customers_created runtime_stats);
    rewrite fallback_not_taken;
    (eexists; split; [reflexivity|]); apply elem_of_app; left; exact Hin.
Qed.

Lemma nothing_caught_is_told_low_precision_witness :
  let runtime_stats :=
    {| rs_start_time := 0; rs_end_time := None;
       customers_created := 50; accounts_created := 100;
       transactions_generated := 1000; transactions_processed := 1000;
       fraud_transactions := 0; nexum_api_calls := 1000;
       bastion_api_calls := 1000; errors := 0; average_latency_ms := 0 |} in
  let counters : gmap string Z := {[ "true_negatives"%string := 1000 ]} in
  let figures := _calculate_fraud_metrics {| snap_counters := Some counters |} in
  (precision figures == 0)%Q /\
  exists recommendations : list string,
    _generate_recommendations runtime_stats
      {| stat_average_latency_ms := None |}
      {| stat_average_scoring_latency_ms := None |}
      figures (seconds 60) (seconds 60) = Ok recommendations /\
    low_precision ∈ recommendations.
Proof.
  intros runtime_stats counters.
  apply (nothing_caught_is_told_low_precision runtime_stats
           {| stat_average_latency_ms := None |}
           {| stat_average_scoring_latency_ms := None |}
           counters (seconds 60) (seconds 60)).
  - vm_compute. reflexivity.
  - lia.
Defined.

End ReporterTheorems.

Module ScenarioProofs.
Import Py Setup Scenarios.

(** Storing the pattern objects of one scenario leaves the other entries as
    they are and marks the entry of that scenario. *)
Lemma lookup_after_store (name other : string) (table : scenario_table) :
  lookup_scenario other (store_pattern_objects name table)
  = if String.eqb other name
    then (fun entry => (entry.1, PatternObjects)) <$> lookup_scenario other table
    else lookup_scenario other table.
Proof.
  induction table as [|[key [s held]] rest IH]; cbn [store_pattern_objects].
  - cbn. destruct (String.eqb other name); reflexivity.
  - destruct (String.eqb_spec key name) as [-> | Hkey]; cbn [lookup_scenario].
    + destruct (String.eqb_spec name other) as [-> | Hother].
      * rewrite String.eqb_refl. reflexivity.
      * replace (String.eqb other name) with false
          by (symmetry; apply String.eqb_neq; congruence).
        reflexivity.
    + destruct (String.eqb_spec key other) as [-> | Hother].
      * replace (String.eqb other name) with false
          by (symmetry; apply String.eqb_neq; congruence).
        reflexivity.
      * exact IH.
Qed.

(** Once the pattern objects of a scenario are in the table they stay
    there, whichever scenarios are loaded afterwards. *)
Lemma objects_stay (name : string) (s : scenario) (later : string)
    (table : scenario_table) :
  lookup_scenario name table = Some (s, PatternObjects) ->
  lookup_scenario name (get_builtin_scenario later table).2
  = Some (s, PatternObjects).
Proof.
  intros Hheld. unfold get_builtin_scenario.
  destruct (lookup_scenario later table) as [[s' held']|] eqn:Elater;
    [|exact Hheld].
  unfold _parse_scenario_data.
  assert (Hstored : lookup_scenario name (store_pattern_objects later table)
                    = Some (s, PatternObjects)).
  { rewrite lookup_after_store, Hheld.
    destruct (String.eqb name later); reflexivity. }
  destruct held', (patterns (fraud s')); cbn [snd]; assumption.
Qed.

Lemma objects_stay_all (name : string) (s : scenario) (later : list string) :
  forall table : scenario_table,
    lookup_scenario name table = Some (s, PatternObjects) ->
    lookup_scenario name (load_scenarios later table) = Some (s, PatternObjects).
Proof.
  unfold load_scenarios.
  induction later as [|l rest IH]; intros table Hheld; [exact Hheld|].
  cbn [fold_left]. apply IH, objects_stay, Hheld.
Qed.

(** A second call for a scenario with patterns. *)
Lemma loaded_twice (name : string) (s : scenario) (later : list string)
    (table : scenario_table) :
  lookup_scenario name table = Some (s, Dictionaries) ->
  patterns (fraud s) <> [] ->
  get_builtin_scenario name table = (Ok s, store_pattern_objects name table) /\
  exists message : string,
    (get_builtin_scenario name
       (load_scenarios later (store_pattern_objects name table))).1
    = Raise (TypeError message).
Proof.
  intros Hwritten Hpatterns. split.
  - unfold get_builtin_scenario. rewrite Hwritten. reflexivity.
  - unfold get_builtin_scenario at 1.
    rewrite (objects_stay_all name s later).
    + unfold _parse_scenario_data.
      destruct (patterns (fraud s)); [congruence|]. eexists. reflexivity.
    + rewrite lookup_after_store, String.eqb_refl, Hwritten. reflexivity.
Qed.

End ScenarioProofs.

Module ScenarioTheorems.
Import Py Setup Scenarios ScenarioProofs.

(** X22.  Each built-in scenario can be loaded once.  On the table as the
    module defines it, [get_builtin_scenario] returns the configuration of
    any of the six scenarios; it also leaves the parsed pattern objects in
    the table, in the dictionary of fraud settings that the shallow copy
    shares with it.  Every later call for the same scenario, whichever
    scenarios are loaded in between, finds objects where it expects
    dictionaries and raises [TypeError]. *)
Theorem builtin_scenario_loads_once (between : list string) :
  Forall (fun name : string =>
            exists (s : scenario) (table : scenario_table),
              get_builtin_scenario name BUILTIN_SCENARIOS = (Ok s, table) /\
              exists message : string,
                (get_builtin_scenario name (load_scenarios between table)).1
                = Raise (TypeError message))
         ["normal_day"; "fraud_attack"; "peak_load"; "mule_network";
          "onboarding"; "regression_test"]%string.
Proof.
  repeat constructor;
    match goal with
    | |- exists s table, get_builtin_scenario ?name _ = _ /\ _ =>
        destruct (lookup_scenario name BUILTIN_SCENARIOS) as [[s held]|] eqn:E;
          [|discriminate E];
          injection E as <- <-;
          eexists _, _;
          apply (loaded_twice name _ between BUILTIN_SCENARIOS eq_refl);
          discriminate
    end.
Qed.

End ScenarioTheorems.

Module KafkaMockTheorems.
Import Py PyTime Transactions KafkaMock.

(** X23.  The mock broker cannot publish the transactions of the engine.
    The engine hands [transaction.__dict__] to [publish_transaction]; the
    mock stores the message and counts it as produced, and then measures it
    with [json.dumps], which raises [TypeError] at the transaction type, a
    member of a plain enumeration.  So for every transaction the call
    raises, with one more message in the store and in [messages_produced],
    while the bytes sent, the last activity and the consumer counters stay
    as they were: the consumer of the topic is never called. *)
Theorem mock_broker_rejects_engine_transactions
    (t : PendingTransaction) (now1 now2 : datetime) (c : connector)
    (stored : list message) :
  message_store c !! "transactions"%string = Some stored ->
  let out := publish_engine_transaction t now1 now2 c in
  out.1 = Raise (TypeError "Object of type TransactionType is not JSON serializable") /\
  message_store out.2 !! "transactions"%string
  = Some (stored ++ [ {| event_type := "transaction_created";
                         message_timestamp := now1;
                         data := transaction_dict t |} ]) /\
  messages_produced out.2 = messages_produced c + 1 /\
  bytes_sent_for out.2 = bytes_sent_for c /\
  last_activity out.2 = last_activity c /\
  messages_consumed out.2 = messages_consumed c /\
  consumer_errors out.2 = consumer_errors c.
Proof.
  intros Hstore out. subst out.
  unfold publish_engine_transaction, publish_transaction, publish.
  rewrite Hstore.
  change (first_unserializable (transaction_dict t)) with (Some "TransactionType"%string).
  cbn [fst snd message_store messages_produced bytes_sent_for last_activity
       messages_consumed consumer_errors].
  split; [reflexivity|]. split; [apply lookup_insert_eq|].
  repeat split.
Qed.

Lemma mock_broker_rejects_engine_transactions_witness :
  let t := {| transaction_type := GROCERY; amount := 4250 # 100;
              currency := "USD"; description := "Grocery purchase";
              channel := CARD; from_account_id := Some "ACC_000001"%string;
              to_account_id := None; merchant_id := Some "MERCH_1"%string;
              merchant_category := Some "grocery"%string;
              reference := None; timestamp := 0;
              Transactions.metadata := ∅ |} in
  let out := publish_engine_transaction t 5 6 new_connector in
  out.1 = Raise (TypeError "Object of type TransactionType is not JSON serializable") /\
  message_store out.2 !! "transactions"%string
  = Some ([] ++ [ {| event_type := "transaction_created";
                     message_timestamp := 5;
                     data := transaction_dict t |} ]) /\
  messages_produced out.2 = 0 + 1 /\
  bytes_sent_for out.2 = [] /\
  last_activity out.2 = None /\
  messages_consumed out.2 = 0 /\
  consumer_errors out.2 = 0.
Proof.
  intros t.
  apply (mock_broker_rejects_engine_transactions t 5 6 new_connector []).
  vm_compute. reflexivity.
Defined.

End KafkaMockTheorems.

Module CustomerGeneratorTheorems.
Import Py PyNum Random RandomProofs GenLogicProofs Customers CustomerGenerator.

(** X24.  [_generate_credit_score] always returns a score between 480 and
    850, whatever the life stage, the income level, the risk profile and the
    random draw: the lowest base (a high-risk student of low income, 530)
    less the largest noise is 480, so the floor of 300 that the function
    applies is never reached, while the cap of 850 is (a low-risk retiree of
    ultra-high income has a base of 840). *)
Theorem credit_score_range
    (life_stage : CustomerLifeStage) (income_level : IncomeLevel)
    (risk_profile : RiskProfile) (g : rng) :
  exists (score : Z) (g' : rng),
    _generate_credit_score life_stage income_level risk_profile g
    = (Ok score, g') /\
    480 <= score <= 850.
Proof.
  unfold _generate_credit_score.
  destruct (randint_run (-50) 50 g ltac:(lia)) as (noise & Hrun & Hnoise).
  rewrite (bind_ok _ _ _ _ _ Hrun). cbn [ret].
  eexists _, _. split; [reflexivity|].
  destruct life_stage, income_level, risk_profile; lia.
Qed.

(** The two ends are reached. *)
Example credit_score_extremes :
  (_generate_credit_score STUDENT LOW HIGH_RISK
     {| draws := fun _ => 0%Q; cursor := 0 |}).1 = Ok 480 /\
  (_generate_credit_score RETIREE ULTRA_HIGH LOW_RISK
     {| draws := fun _ => (99 # 100)%Q; cursor := 0 |}).1 = Ok 850.
Proof. split; vm_compute; reflexivity. Qed.

End CustomerGeneratorTheorems.

Module MetricsSeriesProofs.
Import Py PyNum PyTime MetricsSeries PerformanceReport MetricsSessions.

Lemma last_char_app (s t : string) :
  t <> EmptyString -> last_char (s +:+ t) = last_char t.
Proof.
  intros Ht. induction s as [|ch s IH]; [reflexivity|].
  change (String ch s +:+ t) with (String ch (s +:+ t)).
  cbn [last_char]. destruct (s +:+ t) eqn:E.
  - destruct s as [|ch' s].
    + change ("" +:+ t) with t in E. contradiction.
    + change (String ch' s +:+ t) with (String ch' (s +:+ t)) in E.
      discriminate E.
  - exact IH.
Qed.

(** The series of a counter is never one of the two rate series. *)
Lemma counter_series_differs (name s : string) :
  s ∈ rate_series -> name +:+ "_rate" <> s.
Proof.
  intros Hs Heq.
  assert (Hlast : last_char s = Some "e"%char).
  { rewrite <- Heq. rewrite last_char_app by discriminate. reflexivity. }
  unfold rate_series in Hs.
  apply elem_of_cons in Hs as [-> | Hs]; [discriminate Hlast|].
  apply elem_of_cons in Hs as [-> | Hs]; [discriminate Hlast|].
  inversion Hs.
Qed.

Lemma str_in_elem_of (s : string) (l : list string) :
  str_in s l = false -> s ∉ l.
Proof.
  unfold str_in. induction l as [|x l IH]; cbn [existsb].
  - intros _ H. inversion H.
  - intros H. apply orb_false_iff in H as [Hx Hl].
    intros Hin. apply elem_of_cons in Hin as [-> | Hin].
    + rewrite String.eqb_refl in Hx. discriminate.
    + exact (IH Hl Hin).
Qed.

Lemma track_quiet (c : collector) (series_name : string) (value : Q)
    (now : datetime) :
  series_name ∉ rate_series -> quiet c -> quiet (track c series_name value now).
Proof.
  intros Hname Hc s Hs. destruct (Hc s Hs) as [Hseries Hagg].
  unfold track, with_time_series. cbn [time_series aggregations enabled].
  split; [|exact Hagg].
  rewrite lookup_insert_ne; [exact Hseries|].
  intros ->. exact (Hname Hs).
Qed.

Lemma record_counter_quiet (c : collector) (name : string) (value : Z)
    (now : datetime) :
  quiet c -> quiet (record_counter c name value now).
Proof.
  intros Hc. unfold record_counter. destruct (negb (enabled c)); [exact Hc|].
  apply track_quiet; [|exact Hc].
  intros Hin. exact (counter_series_differs name _ Hin eq_refl).
Qed.

Lemma record_gauge_quiet (c : collector) (name : string) (value : Q)
    (now : datetime) :
  name ∉ rate_series -> quiet c -> quiet (record_gauge c name value now).
Proof.
  intros Hname Hc. unfold record_gauge. destruct (negb (enabled c)); [exact Hc|].
  apply track_quiet; [exact Hname|exact Hc].
Qed.

Lemma record_histogram_quiet (c : collector) (name : string) (value : Q)
    (now : datetime) :
  name ∉ rate_series -> quiet c -> quiet (record_histogram c name value now).
Proof.
  intros Hname Hc. unfold record_histogram.
  destruct (negb (enabled c)); [exact Hc|].
  apply track_quiet; [exact Hname|exact Hc].
Qed.

Lemma rate_aggregation_nil (r : clock_reads) :
  rate_aggregation [] r = Ok nothing_measured.
Proof. reflexivity. Qed.

Lemma aggregate_rate_enabled (s : string) (c : collector) (r : clock_reads) :
  enabled (snd (aggregate_rate s c r)) = enabled c.
Proof.
  unfold aggregate_rate. destruct (time_series c !! s); [|reflexivity].
  destruct (rate_aggregation l r); reflexivity.
Qed.

(** An aggregation of a quiet collector returns, and writes that nothing was
    measured when the series exists. *)
Lemma aggregate_rate_quiet (s : string) (c : collector) (r : clock_reads) :
  s ∈ rate_series -> quiet c ->
  fst (aggregate_rate s c r) = Ok tt /\ quiet (snd (aggregate_rate s c r)) /\
  aggregations (snd (aggregate_rate s c r)) !! s =
    (if enabled c then Some nothing_measured else None).
Proof.
  intros Hs Hc. unfold aggregate_rate.
  destruct (Hc s Hs) as [Hseries Hagg]. rewrite Hseries.
  destruct (enabled c) eqn:Hen.
  - rewrite rate_aggregation_nil. cbn [fst snd]. split; [reflexivity|].
    unfold with_aggregations. cbn [aggregations]. split.
    + intros s' Hs'. destruct (Hc s' Hs') as [Hseries' Hagg'].
      cbn [time_series aggregations enabled]. split; [exact Hseries'|].
      destruct (decide (s' = s)) as [-> | Hne].
      * right. rewrite lookup_insert_eq. rewrite Hen. split; reflexivity.
      * rewrite lookup_insert_ne by congruence. exact Hagg'.
    + apply lookup_insert_eq.
  - cbn [fst snd]. split; [reflexivity|]. split; [exact Hc|].
    destruct Hagg as [Hagg | [Habs _]]; [exact Hagg|discriminate Habs].
Qed.

Lemma calculate_aggregations_quiet (c : collector) (r1 r2 : clock_reads) :
  quiet c ->
  fst (_calculate_aggregations c r1 r2) = Ok tt /\
  quiet (snd (_calculate_aggregations c r1 r2)) /\
  forall s : string, s ∈ rate_series ->
    aggregations (snd (_calculate_aggregations c r1 r2)) !! s =
      (if enabled c then Some nothing_measured else None).
Proof.
  intros Hc. unfold _calculate_aggregations.
  assert (H1 : transactions_per_second ∈ rate_series) by (repeat constructor).
  assert (H2 : fraud_transactions_per_second ∈ rate_series)
    by (repeat constructor).
  destruct (aggregate_rate_quiet _ c r1 H1 Hc) as (Hok1 & Hq1 & Hentry1).
  pose proof (aggregate_rate_enabled transactions_per_second c r1) as Hen1.
  destruct (aggregate_rate transactions_per_second c r1) as [res c1].
  cbn [fst snd] in Hok1, Hq1, Hentry1, Hen1. subst res.
  destruct (aggregate_rate_quiet _ c1 r2 H2 Hq1) as (Hok2 & Hq2 & Hentry2).
  split; [exact Hok2|]. split; [exact Hq2|].
  intros s Hs. unfold rate_series in Hs.
  apply elem_of_cons in Hs as [-> | Hs].
  - (* the second aggregation writes another key *)
    unfold aggregate_rate.
    destruct (time_series c1 !! fraud_transactions_per_second) as [ts|];
      [|exact Hentry1].
    destruct (rate_aggregation ts r2); [|exact Hentry1].
    cbn [snd]. unfold with_aggregations. cbn [aggregations].
    rewrite lookup_insert_ne by discriminate. exact Hentry1.
  - apply elem_of_cons in Hs as [-> | Hs]; [|inversion Hs].
    rewrite Hentry2, Hen1. reflexivity.
Qed.

Lemma cleanup_quiet (c : collector) (now : datetime) :
  quiet c -> quiet (_cleanup_old_data c now).
Proof.
  intros Hc s Hs. destruct (Hc s Hs) as [Hseries Hagg].
  unfold _cleanup_old_data, with_time_series.
  cbn [time_series aggregations enabled]. split; [|exact Hagg].
  rewrite lookup_fmap, Hseries. destruct (enabled c); reflexivity.
Qed.

Lemma start_quiet (enabled : bool) (retention : Z) :
  quiet (start (new_collector enabled retention)).
Proof.
  intros s Hs. unfold start, new_collector. cbn [MetricsSeries.enabled].
  destruct enabled; cbn [negb].
  - unfold _initialize_metrics, with_gauges, with_counters, with_time_series.
    cbn [time_series aggregations MetricsSeries.enabled].
    split; [|left; apply lookup_empty].
    unfold rate_series in Hs.
    apply elem_of_cons in Hs as [-> | Hs]; [reflexivity|].
    apply elem_of_cons in Hs as [-> | Hs]; [reflexivity|inversion Hs].
  - cbn [time_series aggregations MetricsSeries.enabled].
    split; [apply lookup_empty|left; apply lookup_empty].
Qed.

Lemma record_quiet (c : collector) (k : recording) :
  spares_rate_series k = true -> quiet c -> quiet (record c k).
Proof.
  intros Hk Hc. destruct k; cbn [record spares_rate_series] in *.
  - apply record_counter_quiet, Hc.
  - apply record_gauge_quiet; [|exact Hc].
    apply str_in_elem_of, negb_true_iff, Hk.
  - apply record_histogram_quiet; [|exact Hc].
    apply str_in_elem_of, negb_true_iff, Hk.
  - apply record_histogram_quiet; [|exact Hc].
    apply str_in_elem_of, negb_true_iff, Hk.
  - unfold record_transaction. destruct is_fraud;
      repeat apply record_counter_quiet; exact Hc.
  - unfold record_nexum_request, record_timing.
    assert (Hq : quiet (record_histogram
                          (record_counter c "nexum_requests_total" 1 now1)
                          "nexum_api_latency_ms" latency_ms now2)).
    { apply record_histogram_quiet; [|apply record_counter_quiet, Hc].
      apply str_in_elem_of. reflexivity. }
    destruct (negb success); [apply record_counter_quiet|]; exact Hq.
  - unfold record_bastion_request, record_timing.
    assert (Hq : quiet (record_histogram
                          (record_counter c "bastion_requests_total" 1 now1)
                          "bastion_api_latency_ms" latency_ms now2)).
    { apply record_histogram_quiet; [|apply record_counter_quiet, Hc].
      apply str_in_elem_of. reflexivity. }
    assert (Hq' : quiet
              match risk_score with
              | Some score =>
                  record_gauge
                    (record_histogram
                       (record_counter c "bastion_requests_total" 1 now1)
                       "bastion_api_latency_ms" latency_ms now2)
                    "latest_risk_score" score now3
              | None =>
                  record_histogram
                    (record_counter c "bastion_requests_total" 1 now1)
                    "bastion_api_latency_ms" latency_ms now2
              end).
    { destruct risk_score; [|exact Hq].
      apply record_gauge_quiet; [|exact Hq].
      apply str_in_elem_of. reflexivity. }
    destruct (negb success); [apply record_counter_quiet|]; exact Hq'.
  - unfold record_fraud_decision.
    destruct (predicted_fraud && actual_fraud);
      [|destruct (predicted_fraud && negb actual_fraud);
        [|destruct (negb predicted_fraud && actual_fraud)]];
      apply record_counter_quiet, Hc.
  - apply calculate_aggregations_quiet, Hc.
  - apply cleanup_quiet, Hc.
Qed.

Lemma record_all_quiet (ks : list recording) (c : collector) :
  forallb spares_rate_series ks = true -> quiet c -> quiet (record_all c ks).
Proof.
  revert c. induction ks as [|k ks IH]; intros c Hks Hc; [exact Hc|].
  cbn [forallb] in Hks. apply andb_true_iff in Hks as [Hk Hks].
  unfold record_all. cbn [fold_left]. apply IH; [exact Hks|].
  apply record_quiet; assumption.
Qed.

Lemma record_counter_enabled (c : collector) (name : string) (value : Z)
    (now : datetime) :
  enabled (record_counter c name value now) = enabled c.
Proof. unfold record_counter. destruct (negb (enabled c)); reflexivity. Qed.

Lemma record_gauge_enabled (c : collector) (name : string) (value : Q)
    (now : datetime) :
  enabled (record_gauge c name value now) = enabled c.
Proof. unfold record_gauge. destruct (negb (enabled c)); reflexivity. Qed.

Lemma record_histogram_enabled (c : collector) (name : string) (value : Q)
    (now : datetime) :
  enabled (record_histogram c name value now) = enabled c.
Proof. unfold record_histogram. destruct (negb (enabled c)); reflexivity. Qed.

Lemma calculate_aggregations_enabled (c : collector) (r1 r2 : clock_reads) :
  enabled (snd (_calculate_aggregations c r1 r2)) = enabled c.
Proof.
  unfold _calculate_aggregations.
  pose proof (aggregate_rate_enabled transactions_per_second c r1) as H1.
  destruct (aggregate_rate transactions_per_second c r1) as [[[]|e] c1];
    cbn [snd] in *; [|exact H1].
  rewrite aggregate_rate_enabled. exact H1.
Qed.

(** No recording switches the collector on or off. *)
Lemma record_enabled (c : collector) (k : recording) :
  enabled (record c k) = enabled c.
Proof.
  destruct k; cbn [record];
    unfold record_transaction, record_nexum_request, record_bastion_request,
      record_fraud_decision, record_timing;
    repeat match goal with
    | |- context [if ?b then _ else _] => destruct b
    | |- context [match ?o with Some _ => _ | None => _ end] => destruct o
    end;
    rewrite ?record_counter_enabled, ?record_gauge_enabled,
      ?record_histogram_enabled, ?record_counter_enabled,
      ?calculate_aggregations_enabled;
    reflexivity.
Qed.

Lemma record_all_enabled (ks : list recording) (c : collector) :
  enabled (record_all c ks) = enabled c.
Proof.
  revert c. induction ks as [|k ks IH]; intros c; [reflexivity|].
  unfold record_all. cbn [fold_left]. fold (record_all (record c k) ks).
  rewrite IH. apply record_enabled.
Qed.

Lemma start_enabled (c : collector) : enabled (start c) = enabled c.
Proof. unfold start. destruct (negb (enabled c)); reflexivity. Qed.

End MetricsSeriesProofs.

Module MetricsSeriesTheorems.
Import Py PyNum PyTime MetricsSeries PerformanceReport MetricsSessions.
Import MetricsSeriesProofs.

(** X25.  The collector never measures the transaction rate.  [start]
    creates the series transactions_per_second and
    fraud_transactions_per_second without a point, and no recording adds
    one: a counter named n is tracked in the series n_rate, which is
    neither of the two, and the convenience methods record under names of
    their own.  So, unless a gauge, histogram or timing is recorded under
    the very name of a rate series, after any recordings, aggregation
    rounds and clean-ups: the dashboard's transaction-rate chart is empty
    and its transactions-per-second figure is 0; a round of aggregation
    returns and writes 0 for the current rate, both averages and the peak
    (nothing at all on a disabled collector); and the report's peak_tps
    is 0. *)
Theorem transaction_rate_is_never_measured (enabled : bool) (retention : Z)
    (ks : list recording) :
  forallb spares_rate_series ks = true ->
  let c := record_all (start (new_collector enabled retention)) ks in
  (forall now : datetime,
     charts_transaction_rate (get_dashboard_data c now) = [] /\
     performance_transactions_per_second (get_dashboard_data c now) = 0%Q) /\
  (forall r1 r2 : clock_reads,
     fst (_calculate_aggregations c r1 r2) = Ok tt /\
     forall s : string, s ∈ rate_series ->
       aggregations (snd (_calculate_aggregations c r1 r2)) !! s =
         (if enabled then Some nothing_measured else None)) /\
  peak_tps (_calculate_performance_metrics (get_current_metrics c)) = 0%Q.
Proof.
  intros Hks c.
  assert (Hq : quiet c) by (apply record_all_quiet; [exact Hks|apply start_quiet]).
  assert (Hen : MetricsSeries.enabled c = enabled).
  { unfold c. rewrite record_all_enabled, start_enabled. reflexivity. }
  assert (Htps : transactions_per_second ∈ rate_series) by (repeat constructor).
  destruct (Hq _ Htps) as [Hseries Hagg].
  assert (Hcurrent :
            default 0%Q (default ∅ (aggregations c !! transactions_per_second)
                           !! "current"%string) = 0%Q /\
            default 0%Q (default ∅ (aggregations c !! transactions_per_second)
                           !! "peak_1min"%string) = 0%Q).
  { destruct Hagg as [-> | [_ ->]]; split; reflexivity. }
  split; [|split].
  - intros now. unfold get_dashboard_data.
    cbn [charts_transaction_rate performance_transactions_per_second].
    split; [|exact (proj1 Hcurrent)].
    unfold get_time_series_data. rewrite Hseries.
    destruct (MetricsSeries.enabled c); reflexivity.
  - intros r1 r2.
    destruct (calculate_aggregations_quiet c r1 r2 Hq) as (Hok & _ & Hentries).
    split; [exact Hok|]. intros s Hs. rewrite (Hentries s Hs), Hen. reflexivity.
  - exact (proj2 Hcurrent).
Qed.

(** The calls that the simulator makes on its collector, each one once. *)
Lemma transaction_rate_is_never_measured_witness :
  forallb spares_rate_series every_call_once = true /\
  let c := record_all (start (new_collector true 60)) every_call_once in
  (forall now : datetime,
     charts_transaction_rate (get_dashboard_data c now) = [] /\
     performance_transactions_per_second (get_dashboard_data c now) = 0%Q) /\
  (forall r1 r2 : clock_reads,
     fst (_calculate_aggregations c r1 r2) = Ok tt /\
     forall s : string, s ∈ rate_series ->
       aggregations (snd (_calculate_aggregations c r1 r2)) !! s =
         Some nothing_measured) /\
  peak_tps (_calculate_performance_metrics (get_current_metrics c)) = 0%Q.
Proof.
  split; [reflexivity|].
  apply (transaction_rate_is_never_measured true 60 every_call_once).
  reflexivity.
Defined.

End MetricsSeriesTheorems.
